(** * MultiSpec project statistics engine: SProjectComputeStatistics.cpp

    A shallow embedding of the statistics routines of
    [src/shared/SProjectComputeStatistics.cpp] and the properties the
    specification states about them.

    Conventions of the embedding:
    - a C [double] is an IEEE-754 binary64 value of the Standard Library's
      [SpecFloat] (comparisons are the IEEE ones: [-0.0 == 0.0], and a NaN
      is different from everything, itself included);
    - fixed-width integers are [Z] with the wrap-around written where the
      source does arithmetic on them;
    - a buffer reached through a pointer is a [list], a pointer into it is an
      offset, [None] stands for the NULL pointer;
    - a function that would read or write outside a buffer has no defined
      behaviour in C: the embedding returns [None] there (the [option] monad
      of stdpp), so every result [Some _] is a run without such an access;
    - the global project record [gProjectInfoPtr] is passed explicitly. *)

From Stdlib Require Import ZArith Bool Lia.
From Stdlib Require Import Floats.SpecFloat.
From stdpp Require Import base option list.

Local Open Scope Z_scope.

(** ** Doubles *)

Definition double : Type := spec_float.

Definition prec : Z := 53.
Definition emax : Z := 1024.

Definition dadd : double -> double -> double := SFadd prec emax.
Definition dmul : double -> double -> double := SFmul prec emax.
(** C's [a == b], [a != b], [a < b] and [a > b] on doubles. *)
Definition deqb : double -> double -> bool := SFeqb.
Definition dneb (a b : double) : bool := negb (SFeqb a b).
Definition dltb : double -> double -> bool := SFltb.
Definition dgtb (a b : double) : bool := SFltb b a.

Definition dzero : double := S754_zero false.
Definition dnegzero : double := S754_zero true.
Definition dOne : double := SFone prec emax.
Definition dminus_one : double := SFopp dOne.
Definition dtwo : double := dadd dOne dOne.

(** ** Fixed-width integers *)

Definition to_UInt16 (z : Z) : Z := z mod 65536.
Definition to_UInt32 (z : Z) : Z := z mod 4294967296.

(** ** Constants

    Modelled from the spec: the header that defines these codes is not among
    the sources.  The specification enumerates the estimator selection as
    Original, LeaveOneOut, Enhanced, Mixed, and the statistics code as
    mean-only below mean-and-covariance; the source relies on that order
    ([covarianceStatsToUse > kEnhancedStats] rejects Mixed,
    [outputStatisticsCode > statisticsCode] rejects a covariance request on a
    mean-only project). *)

Definition kOriginalStats : Z := 1.
Definition kLeaveOneOutStats : Z := 2.
Definition kEnhancedStats : Z := 3.
Definition kMixedStats : Z := 4.

Definition kMeanStdDevOnly : Z := 1.
Definition kMeanCovariance : Z := 2.

Definition kTrainingType : Z := 1.
Definition kTestingType : Z := 2.

Definition kComputedOptimum : Z := 1.

Definition kTriangleOutputMatrix : bool := false.
Definition kSquareOutputMatrix : bool := true.
Definition kTriangleInputMatrix : bool := false.

(** ** Data model *)

(** One record per storage unit and channel. *)
Record ChannelStatistics : Type := mkChannelStatistics {
  mean : double;
  sum : double;
  standardDev : double;
  minimum : double;
  maximum : double
}.

(** A training or test region; the fields of one class are chained through
    [nextField], [-1] ends the chain. *)
Module Field.
Record t : Type := mk {
  fieldType : Z;
  pointType : Z;
  trainingStatsNumber : Z;
  numberPixelsUsedForStats : Z;
  statsUpToDate : bool;
  loadedIntoClassStats : bool;
  nextField : Z
}.
End Field.

Module Class.
Record t : Type := mk {
  numberOfTrainFields : Z;
  numberTrainPixels : Z;
  numberStatisticsPixels : Z;
  firstFieldNumber : Z;
  statsUpToDate : bool;
  covarianceStatsToUse : Z;
  mixingParameterCode : Z;
  looCovarianceValue : double;
  userMixingParameter : double;
  modifiedStatsFlag : bool;
  listMessageFlag : bool
}.

Definition set_statsUpToDate (b : bool) (c : t) : t :=
  mk (numberOfTrainFields c) (numberTrainPixels c) (numberStatisticsPixels c)
     (firstFieldNumber c) b (covarianceStatsToUse c) (mixingParameterCode c)
     (looCovarianceValue c) (userMixingParameter c) (modifiedStatsFlag c)
     (listMessageFlag c).

Definition set_covarianceStatsToUse (v : Z) (c : t) : t :=
  mk (numberOfTrainFields c) (numberTrainPixels c) (numberStatisticsPixels c)
     (firstFieldNumber c) (statsUpToDate c) v (mixingParameterCode c)
     (looCovarianceValue c) (userMixingParameter c) (modifiedStatsFlag c)
     (listMessageFlag c).
End Class.

Module Project.
Record t : Type := mk {
  numberStatisticsClasses : Z;
  numberStatisticsChannels : Z;
  numberCovarianceEntries : Z;
  currentClass : Z;
  storageClass : list Z;
  classNamesPtr : list Class.t;
  fieldIdentPtr : list Field.t;
  statisticsCode : Z;
  keepClassStatsOnlyFlag : bool;
  setZeroVarianceFlag : bool;
  zeroVarianceFactor : double;
  statsUpToDate : bool;
  covarianceStatsToUse : Z;
  enhancedStatsExistFlag : bool;
  numberCommonCovarianceClasses : Z;
  useCommonCovarianceInLOOCFlag : bool;
  localCommonCovarianceLoadedFlag : bool;
  commonCovarianceStatsHandle : option (list double);
  classChanStatsPtr : list ChannelStatistics;
  classSumSquaresStatsPtr : list double;
  fieldChanStatsPtr : list ChannelStatistics;
  fieldSumSquaresStatsPtr : list double;
  modifiedClassChanStatsPtr : list ChannelStatistics;
  modifiedClassCovStatsPtr : list double
}.

Definition set_classNamesPtr (v : list Class.t) (p : t) : t :=
  mk (numberStatisticsClasses p) (numberStatisticsChannels p)
     (numberCovarianceEntries p) (currentClass p) (storageClass p) v
     (fieldIdentPtr p) (statisticsCode p) (keepClassStatsOnlyFlag p)
     (setZeroVarianceFlag p) (zeroVarianceFactor p) (statsUpToDate p)
     (covarianceStatsToUse p) (enhancedStatsExistFlag p)
     (numberCommonCovarianceClasses p) (useCommonCovarianceInLOOCFlag p)
     (localCommonCovarianceLoadedFlag p) (commonCovarianceStatsHandle p)
     (classChanStatsPtr p) (classSumSquaresStatsPtr p) (fieldChanStatsPtr p)
     (fieldSumSquaresStatsPtr p) (modifiedClassChanStatsPtr p)
     (modifiedClassCovStatsPtr p).

Definition set_statsUpToDate (v : bool) (p : t) : t :=
  mk (numberStatisticsClasses p) (numberStatisticsChannels p)
     (numberCovarianceEntries p) (currentClass p) (storageClass p)
     (classNamesPtr p) (fieldIdentPtr p) (statisticsCode p)
     (keepClassStatsOnlyFlag p) (setZeroVarianceFlag p) (zeroVarianceFactor p)
     v (covarianceStatsToUse p) (enhancedStatsExistFlag p)
     (numberCommonCovarianceClasses p) (useCommonCovarianceInLOOCFlag p)
     (localCommonCovarianceLoadedFlag p) (commonCovarianceStatsHandle p)
     (classChanStatsPtr p) (classSumSquaresStatsPtr p) (fieldChanStatsPtr p)
     (fieldSumSquaresStatsPtr p) (modifiedClassChanStatsPtr p)
     (modifiedClassCovStatsPtr p).

Definition set_covarianceStatsToUse (v : Z) (p : t) : t :=
  mk (numberStatisticsClasses p) (numberStatisticsChannels p)
     (numberCovarianceEntries p) (currentClass p) (storageClass p)
     (classNamesPtr p) (fieldIdentPtr p) (statisticsCode p)
     (keepClassStatsOnlyFlag p) (setZeroVarianceFlag p) (zeroVarianceFactor p)
     (statsUpToDate p) v (enhancedStatsExistFlag p)
     (numberCommonCovarianceClasses p) (useCommonCovarianceInLOOCFlag p)
     (localCommonCovarianceLoadedFlag p) (commonCovarianceStatsHandle p)
     (classChanStatsPtr p) (classSumSquaresStatsPtr p) (fieldChanStatsPtr p)
     (fieldSumSquaresStatsPtr p) (modifiedClassChanStatsPtr p)
     (modifiedClassCovStatsPtr p).

Definition set_enhancedStatsExistFlag (v : bool) (p : t) : t :=
  mk (numberStatisticsClasses p) (numberStatisticsChannels p)
     (numberCovarianceEntries p) (currentClass p) (storageClass p)
     (classNamesPtr p) (fieldIdentPtr p) (statisticsCode p)
     (keepClassStatsOnlyFlag p) (setZeroVarianceFlag p) (zeroVarianceFactor p)
     (statsUpToDate p) (covarianceStatsToUse p) v
     (numberCommonCovarianceClasses p) (useCommonCovarianceInLOOCFlag p)
     (localCommonCovarianceLoadedFlag p) (commonCovarianceStatsHandle p)
     (classChanStatsPtr p) (classSumSquaresStatsPtr p) (fieldChanStatsPtr p)
     (fieldSumSquaresStatsPtr p) (modifiedClassChanStatsPtr p)
     (modifiedClassCovStatsPtr p).

Definition set_numberCommonCovarianceClasses (v : Z) (p : t) : t :=
  mk (numberStatisticsClasses p) (numberStatisticsChannels p)
     (numberCovarianceEntries p) (currentClass p) (storageClass p)
     (classNamesPtr p) (fieldIdentPtr p) (statisticsCode p)
     (keepClassStatsOnlyFlag p) (setZeroVarianceFlag p) (zeroVarianceFactor p)
     (statsUpToDate p) (covarianceStatsToUse p) (enhancedStatsExistFlag p)
     v (useCommonCovarianceInLOOCFlag p)
     (localCommonCovarianceLoadedFlag p) (commonCovarianceStatsHandle p)
     (classChanStatsPtr p) (classSumSquaresStatsPtr p) (fieldChanStatsPtr p)
     (fieldSumSquaresStatsPtr p) (modifiedClassChanStatsPtr p)
     (modifiedClassCovStatsPtr p).

Definition set_commonCovariance (flag : bool) (v : option (list double))
    (p : t) : t :=
  mk (numberStatisticsClasses p) (numberStatisticsChannels p)
     (numberCovarianceEntries p) (currentClass p) (storageClass p)
     (classNamesPtr p) (fieldIdentPtr p) (statisticsCode p)
     (keepClassStatsOnlyFlag p) (setZeroVarianceFlag p) (zeroVarianceFactor p)
     (statsUpToDate p) (covarianceStatsToUse p) (enhancedStatsExistFlag p)
     (numberCommonCovarianceClasses p) (useCommonCovarianceInLOOCFlag p)
     flag v
     (classChanStatsPtr p) (classSumSquaresStatsPtr p) (fieldChanStatsPtr p)
     (fieldSumSquaresStatsPtr p) (modifiedClassChanStatsPtr p)
     (modifiedClassCovStatsPtr p).

Definition set_classChanStatsPtr (v : list ChannelStatistics) (p : t) : t :=
  mk (numberStatisticsClasses p) (numberStatisticsChannels p)
     (numberCovarianceEntries p) (currentClass p) (storageClass p)
     (classNamesPtr p) (fieldIdentPtr p) (statisticsCode p)
     (keepClassStatsOnlyFlag p) (setZeroVarianceFlag p) (zeroVarianceFactor p)
     (statsUpToDate p) (covarianceStatsToUse p) (enhancedStatsExistFlag p)
     (numberCommonCovarianceClasses p) (useCommonCovarianceInLOOCFlag p)
     (localCommonCovarianceLoadedFlag p) (commonCovarianceStatsHandle p)
     v (classSumSquaresStatsPtr p) (fieldChanStatsPtr p)
     (fieldSumSquaresStatsPtr p) (modifiedClassChanStatsPtr p)
     (modifiedClassCovStatsPtr p).
End Project.

(** Array element access with a C integer index: no element for a negative
    index or one past the end. *)
Definition at_ {A : Type} (l : list A) (i : Z) : option A :=
  if i <? 0 then None else l !! Z.to_nat i.

Definition update_at {A : Type} (l : list A) (i : Z) (x : A) : option (list A) :=
  if (0 <=? i) && (i <? Z.of_nat (length l)) then Some (<[Z.to_nat i := x]> l)
  else None.

(** ** ResetZeroVariances *)

(** The [for (feature...)] loop; [ptr] is the offset of [covariancePtr] in
    the buffer, [indexSkip] is a UInt32. *)
Fixpoint ResetZeroVariances_loop (count : nat) (zeroVarianceFactor : double)
    (squareMatrixFlag : bool) (outputStatisticsCode : Z)
    (cov : list double) (ptr : nat) (indexSkip : Z) (varianceResetFlag : bool)
    : option (list double * bool) :=
  match count with
  | O => Some (cov, varianceResetFlag)
  | S count' =>
      x ← cov !! ptr;
      let cov1 := if deqb x dzero then <[ptr := zeroVarianceFactor]> cov else cov in
      let flag1 := if deqb x dzero then true else varianceResetFlag in
      if outputStatisticsCode =? kMeanStdDevOnly then
        ResetZeroVariances_loop count' zeroVarianceFactor squareMatrixFlag
          outputStatisticsCode cov1 (ptr + 1) indexSkip flag1
      else if squareMatrixFlag then
        ResetZeroVariances_loop count' zeroVarianceFactor squareMatrixFlag
          outputStatisticsCode cov1 (ptr + Z.to_nat indexSkip) indexSkip flag1
      else
        ResetZeroVariances_loop count' zeroVarianceFactor squareMatrixFlag
          outputStatisticsCode cov1 (ptr + Z.to_nat indexSkip)
          (to_UInt32 (indexSkip + 1)) flag1
  end.

Definition ResetZeroVariances (p : Project.t)
    (covariancePtr : option (list double)) (squareMatrixFlag : bool)
    (outputStatisticsCode : Z) (numberFeatures : Z)
    : option (option (list double) * bool) :=
  match covariancePtr with
  | None => Some (None, false)
  | Some cov =>
      if numberFeatures =? 0 then Some (Some cov, false)
      else
        let indexSkip :=
          if squareMatrixFlag then to_UInt32 (numberFeatures + 1) else 2 in
        r ← ResetZeroVariances_loop (Z.to_nat numberFeatures)
               (Project.zeroVarianceFactor p) squareMatrixFlag
               outputStatisticsCode cov 0%nat indexSkip false;
        Some (Some r.1, r.2)
  end.

(** ** Packed matrix layout *)

(** Offset of entry (i, j), j <= i, of an n x n matrix: row-major [i*n + j]
    in the square layout, [i*(i+1)/2 + j] in the triangular one. *)
Definition matrixIndex (squareMatrixFlag : bool) (n i j : nat) : nat :=
  if squareMatrixFlag then (i * n + j)%nat else (i * (i + 1) / 2 + j)%nat.

(** Number of entries of the packed matrix. *)
Definition matrixSize (squareMatrixFlag : bool) (n : nat) : nat :=
  if squareMatrixFlag then (n * n)%nat else (n * (n + 1) / 2)%nat.

(** Offset of the k-th variance: the diagonal of a packed matrix, or the
    k-th entry of a variance vector when only means and standard deviations
    are kept. *)
Definition varianceIndex (squareMatrixFlag : bool) (outputStatisticsCode : Z)
    (n k : nat) : nat :=
  if outputStatisticsCode =? kMeanStdDevOnly then k
  else matrixIndex squareMatrixFlag n k k.

(** What the zero-variance pass does to one variance. *)
Definition substituteZero (zeroVarianceFactor x : double) : double :=
  if deqb x dzero then zeroVarianceFactor else x.

Definition isVarianceIndex (squareMatrixFlag : bool) (outputStatisticsCode : Z)
    (n : nat) (from count : nat) (j : nat) : bool :=
  existsb (fun k => Nat.eqb j (varianceIndex squareMatrixFlag outputStatisticsCode n k))
          (seq from count).

Definition hasZeroVariance (squareMatrixFlag : bool) (outputStatisticsCode : Z)
    (n : nat) (cov : list double) (from count : nat) : bool :=
  existsb (fun k =>
             match cov !! varianceIndex squareMatrixFlag outputStatisticsCode n k with
             | Some x => deqb x dzero
             | None => false
             end)
          (seq from count).

(** ** CopyLowerToUpperSquareMatrix *)

(** Modelled from the spec: [CopyLowerToUpperSquareMatrix] is defined in a
    source file that is not part of this development.  The specification
    gives it as: for each (i, j) with i < j, matrix[i][j] = matrix[j][i], a
    pure copy.  The lower-left entries it reads are not among those it
    writes, so the order of the copies does not matter and the result is
    given entry by entry.  A buffer shorter than n*n would be overrun. *)
Definition CopyLowerToUpperSquareMatrix (n : nat) (m : list double)
    : option (list double) :=
  if (length m <? n * n)%nat then None
  else Some (imap (fun k x =>
                     if (k <? n * n)%nat && (k / n <? k mod n)%nat
                     then default x (m !! (k mod n * n + k / n)%nat)
                     else x) m).

(** ** ResetForAllVariancesEqual *)

(** The inner comparison loop over [count] entries starting at offset [ptr];
    a [break] leaves the pointer where the difference was seen. *)
Fixpoint ResetForAllVariancesEqual_compareRow (count : nat)
    (compareVariance : double) (cov : list double) (ptr : nat)
    (variancesEqualFlag : bool) : option (nat * bool) :=
  match count with
  | O => Some (ptr, variancesEqualFlag)
  | S count' =>
      x ← cov !! ptr;
      if dneb compareVariance x then Some (ptr, false)
      else ResetForAllVariancesEqual_compareRow count' compareVariance cov
             (S ptr) variancesEqualFlag
  end.

(** The outer comparison loop, rows [feature1], [feature1 + 1], ...; the
    loop goes on after a [break] of the inner one. *)
Fixpoint ResetForAllVariancesEqual_compare (rows : nat) (feature1 : nat)
    (compareVariance : double) (cov : list double) (squareMatrixFlag : bool)
    (ptr : nat) (upperRightIndexSkip : Z) (variancesEqualFlag : bool)
    : option bool :=
  match rows with
  | O => Some variancesEqualFlag
  | S rows' =>
      r ← ResetForAllVariancesEqual_compareRow (S feature1) compareVariance
             cov ptr variancesEqualFlag;
      if squareMatrixFlag then
        ResetForAllVariancesEqual_compare rows' (S feature1) compareVariance
          cov squareMatrixFlag (r.1 + Z.to_nat upperRightIndexSkip)
          (to_UInt32 (upperRightIndexSkip - 1)) r.2
      else
        ResetForAllVariancesEqual_compare rows' (S feature1) compareVariance
          cov squareMatrixFlag r.1 upperRightIndexSkip r.2
  end.

(** [*covariancePtr = 0.; covariancePtr++] repeated [count] times. *)
Fixpoint ResetForAllVariancesEqual_zeroRow (count : nat) (cov : list double)
    (ptr : nat) : option (list double * nat) :=
  match count with
  | O => Some (cov, ptr)
  | S count' =>
      if (ptr <? length cov)%nat then
        ResetForAllVariancesEqual_zeroRow count' (<[ptr := dzero]> cov) (S ptr)
      else None
  end.

Fixpoint ResetForAllVariancesEqual_zero (rows : nat) (feature1 : nat)
    (cov : list double) (squareMatrixFlag : bool) (ptr : nat)
    (upperRightIndexSkip : Z) : option (list double) :=
  match rows with
  | O => Some cov
  | S rows' =>
      r ← ResetForAllVariancesEqual_zeroRow feature1 cov ptr;
      if squareMatrixFlag then
        ResetForAllVariancesEqual_zero rows' (S feature1) r.1 squareMatrixFlag
          (S r.2 + Z.to_nat upperRightIndexSkip)
          (to_UInt32 (upperRightIndexSkip - 1))
      else
        ResetForAllVariancesEqual_zero rows' (S feature1) r.1 squareMatrixFlag
          (S r.2) upperRightIndexSkip
  end.

Definition ResetForAllVariancesEqual (covariancePtr : option (list double))
    (squareMatrixFlag : bool) (statisticsCode : Z) (numberFeatures : Z)
    : option (option (list double) * bool) :=
  match covariancePtr with
  | None => Some (None, false)
  | Some cov =>
      if (numberFeatures <=? 1) || (statisticsCode =? kMeanStdDevOnly)
      then Some (Some cov, false)
      else
        compareVariance ← cov !! 0%nat;
        variancesEqualFlag ←
          ResetForAllVariancesEqual_compare (Z.to_nat numberFeatures) 0
            compareVariance cov squareMatrixFlag 0
            (to_UInt32 (numberFeatures - 1)) true;
        if (variancesEqualFlag : bool) then
          cov1 ← ResetForAllVariancesEqual_zero (Z.to_nat numberFeatures) 0
                   cov squareMatrixFlag 0 (to_UInt32 (numberFeatures - 1));
          if squareMatrixFlag then
            cov2 ← CopyLowerToUpperSquareMatrix
                     (Z.to_nat (to_UInt16 numberFeatures)) cov1;
            Some (Some cov2, true)
          else Some (Some cov1, true)
        else Some (Some cov, false)
  end.

(** Every entry of the lower-left triangle, the diagonal included, compares
    equal ([==]) to [compareVariance]. *)
Definition lowerTriangleEqual (squareMatrixFlag : bool) (n : nat)
    (compareVariance : double) (cov : list double) (from rows : nat) : bool :=
  forallb (fun i =>
             forallb (fun j =>
                        match cov !! matrixIndex squareMatrixFlag n i j with
                        | Some x => deqb compareVariance x
                        | None => false
                        end)
                     (seq 0 (S i)))
          (seq from rows).

(** Two doubles are the same datum (the same bit pattern, up to the payload
    of a NaN, which [SpecFloat] does not represent). *)
Definition bitIdentical (x y : double) : Prop := x = y.

(** The entry at offset [k] compares equal to [compareVariance]. *)
Definition entryEqual (compareVariance : double) (cov : list double) (k : nat)
    : bool :=
  match cov !! k with Some x => deqb compareVariance x | None => false end.

(** Offset [k] lies in the lower-left triangle, the diagonal excluded, of one
    of the rows [from], ..., [from + rows - 1]. *)
Definition inLowerOffDiagonal (squareMatrixFlag : bool) (n : nat)
    (from rows : nat) (k : nat) : bool :=
  existsb (fun i => (matrixIndex squareMatrixFlag n i 0 <=? k)%nat
                    && (k <? matrixIndex squareMatrixFlag n i 0 + i)%nat)
          (seq from rows).

(** ** Example data *)

(** A project of two channels that keeps means and covariances and replaces
    zero variances with 1.0; no classes. *)
Definition exampleProject : Project.t :=
  Project.mk 0 2 3 0 [] [] [] kMeanCovariance false true dOne true
    kOriginalStats false 0 false false None [] [] [] [] [] [].

(** ** AddToClassChannelStatistics *)

(** Modelled from the spec: the macros [MIN] and [MAX] come from a header
    that is not among the sources; the specification reads them as the
    minimum and the maximum of their two arguments, here with C's [<] and
    [>] on doubles. *)
Definition MIN (a b : double) : double := if dltb a b then a else b.
Definition MAX (a b : double) : double := if dgtb a b then a else b.

(** The body of [if (channel == channelNum)]: what is written to
    [*outChannelStatsPtr] from [*lInChannelStatsPtr]. *)
Definition mergeChannelStatistics (initializeFlag : bool)
    (out inp : ChannelStatistics) : ChannelStatistics :=
  if initializeFlag then
    mkChannelStatistics (mean out) (sum inp) dminus_one (minimum inp)
      (maximum inp)
  else
    mkChannelStatistics (mean out) (dadd (sum out) (sum inp))
      (standardDev out) (MIN (minimum out) (minimum inp))
      (MAX (maximum out) (maximum inp)).

(** The [for (channel...)] loop.  [outPtr] is the offset of
    [outChannelStatsPtr], [lIn] that of [lInChannelStatsPtr]; [channel],
    [channelListIndex] and [channelNum] are UInt32. *)
Fixpoint AddToClassChannelStatistics_loop (count : nat) (channel : Z)
    (channelListPtr : option (list Z))
    (inChannelStatsPtr : list ChannelStatistics) (initializeFlag : bool)
    (channelListIndexLimit : Z)
    (out : list ChannelStatistics) (outPtr : nat)
    (channelListIndex channelNum lIn : Z)
    : option (list ChannelStatistics) :=
  match count with
  | O => Some out
  | S count' =>
      sel ← match channelListPtr with
            | Some l => cn ← at_ l channelListIndex; Some (cn, cn)
            | None => Some (channelNum, lIn)
            end;
      if channel =? sel.1 then
        i ← at_ inChannelStatsPtr sel.2;
        o ← out !! outPtr;
        AddToClassChannelStatistics_loop count' (to_UInt32 (channel + 1))
          channelListPtr inChannelStatsPtr initializeFlag
          channelListIndexLimit
          (<[outPtr := mergeChannelStatistics initializeFlag o i]> out)
          (S outPtr)
          (if channelListIndex <? channelListIndexLimit
           then to_UInt32 (channelListIndex + 1) else channelListIndex)
          (to_UInt32 (sel.1 + 1)) (sel.2 + 1)
      else
        AddToClassChannelStatistics_loop count' (to_UInt32 (channel + 1))
          channelListPtr inChannelStatsPtr initializeFlag
          channelListIndexLimit out outPtr channelListIndex
          (to_UInt32 (sel.1 + 1)) (sel.2 + 1)
  end.

Definition AddToClassChannelStatistics (numberOutputChannels : Z)
    (outChannelStatsPtr : list ChannelStatistics) (numberInputChannels : Z)
    (channelListPtr : option (list Z))
    (inChannelStatsPtr : list ChannelStatistics) (initializeFlag : bool)
    : option (list ChannelStatistics) :=
  AddToClassChannelStatistics_loop (Z.to_nat numberInputChannels) 0
    (if numberOutputChannels =? numberInputChannels then None
     else channelListPtr)
    inChannelStatsPtr initializeFlag (to_UInt32 (numberOutputChannels - 1))
    outChannelStatsPtr 0 0 0 0.

(** The source channel merged into each destination channel, in order: the
    first [numberOutputChannels] entries of the channel list, or every input
    channel when there is no list or the two counts are equal. *)
Definition sourceChannels (numberOutputChannels numberInputChannels : Z)
    (channelListPtr : option (list Z)) : list Z :=
  match (if numberOutputChannels =? numberInputChannels then None
         else channelListPtr) with
  | None => seqZ 0 numberInputChannels
  | Some l => take (Z.to_nat numberOutputChannels) l
  end.

(** A channel list the loop can follow: strictly increasing channel numbers
    below [numberInputChannels]. *)
Definition increasingChannels (numberInputChannels : Z) (l : list Z) : Prop :=
  (forall j c, l !! j = Some c -> 0 <= c < numberInputChannels) /\
  (forall j j' c c', (j < j')%nat -> l !! j = Some c -> l !! j' = Some c' ->
                     c < c').

(** C's [x < 0] for the stale marker of [standardDev]. *)
Definition isStale (s : ChannelStatistics) : bool := dltb (standardDev s) dzero.

Definition exampleStats (s sd mn mx : double) : ChannelStatistics :=
  mkChannelStatistics dzero s sd mn mx.

(** ** Global state and collaborators *)

(** The globals the statistics routines read and write: the project record
    and the cooperative cancel flag. *)
Record Globals : Type := mkGlobals {
  gProjectInfoPtr : Project.t;
  gOperationCanceledFlag : bool
}.

(** Routines of this repository that the statistics routines call and whose
    source files are not part of this development.  Each takes the buffers
    its pointer arguments reach and returns them as it leaves them; the
    properties below hold for every implementation of them.
    [ComputeCovarianceMatrix] and [GetLOOCovariance] are always called with
    the same buffer as input and as output matrix, which is passed once. *)
Class Collaborators : Type := {
  (** channel statistics, sums of squares, number of channels, number of
      pixels, statistics code, square-input flag *)
  ComputeMeanStdDevVector :
    list ChannelStatistics -> list double -> Z -> Z -> Z -> bool ->
    list ChannelStatistics;
  (** channel statistics, number of channels, number of pixels *)
  ComputeMeanVector :
    list ChannelStatistics -> Z -> Z -> list ChannelStatistics;
  (** input channel statistics, output vector, number of features, feature
      list *)
  ReduceMeanVector :
    list ChannelStatistics -> list double -> Z -> option (list Z) ->
    list double;
  (** number of output channels, output matrix, number of input channels,
      channel list, input matrix, square-output flag *)
  ReduceInputMatrix :
    Z -> list double -> Z -> option (list Z) -> list double -> bool ->
    list double;
  (** channel statistics, sums of squares, number of channels, statistics
      code, square-output flag *)
  ZeroStatisticsMemory :
    list ChannelStatistics -> list double -> Z -> Z -> bool ->
    list ChannelStatistics * list double;
  (** number of output channels, output channel statistics, output sums of
      squares, number of input channels, channel list, input channel
      statistics, input sums of squares, square-output flag, input and
      output statistics codes *)
  AddToClassStatistics :
    Z -> list ChannelStatistics -> list double -> Z -> option (list Z) ->
    list ChannelStatistics -> list double -> bool -> Z -> Z ->
    list ChannelStatistics * list double;
  (** number of output channels, matrix, number of input channels, channel
      list, channel statistics, number of pixels, square-output flag *)
  ComputeCovarianceMatrix :
    Z -> list double -> Z -> option (list Z) -> list ChannelStatistics ->
    Z -> bool -> list ChannelStatistics * list double;
  (** mixing parameter code, leave-one-out value, user mixing parameter,
      number of channels, class covariance, common covariance,
      square-output flag *)
  GetLOOCovariance :
    Z -> double -> double -> Z -> list double -> list double -> bool ->
    list double;
  (** matrix, rows, columns, square-output flag *)
  ZeroMatrix : list double -> Z -> Z -> bool -> list double;
  UpdateProjectLOOStats : Globals -> Globals;
  (** class number, continue flag; writes to the output window and may
      notice a cancel request *)
  ListClassInformationMessage : Globals -> Z -> bool -> Globals * bool;
  GetCommonCovarianceWeightsIndex : Project.t -> Z;
  (** class list, number of classes, weights index *)
  GetTotalProbability : Project.t -> option (list Z) -> Z -> Z -> double;
  (** class number, weights index, total probability *)
  GetClassWeightValue : Project.t -> Z -> Z -> double -> double
}.

(** The memory a pointer [&array[offset]] reaches, and the array after that
    memory has been rewritten. *)
Definition from_ {A : Type} (l : list A) (offset : Z) : option (list A) :=
  if (0 <=? offset) && (offset <=? Z.of_nat (length l))
  then Some (drop (Z.to_nat offset) l) else None.

Definition store_ {A : Type} (l : list A) (offset : Z) (tail : list A)
    : list A :=
  take (Z.to_nat offset) l ++ tail.

(** ** FinishClassStatsUpdate and FinishProjectStatsUpdate *)

(** The [while (fieldNumber != -1)] loop; the result is [upToDateFlag],
    which is TRUE when the loop is entered.  [fuel] bounds the number of
    fields visited: the chain of a class is finite. *)
Fixpoint FinishClassStatsUpdate_walk (fuel : nat)
    (fieldIdentPtr : list Field.t) (fieldNumber : Z) : option bool :=
  match fuel with
  | O => None
  | S fuel' =>
      if fieldNumber =? -1 then Some true
      else
        f ← at_ fieldIdentPtr fieldNumber;
        if (Field.fieldType f =? kTrainingType)
           && negb (Field.loadedIntoClassStats f)
        then Some false
        else FinishClassStatsUpdate_walk fuel' fieldIdentPtr (Field.nextField f)
  end.

(** The class-level mean and standard deviation of the class-only storage:
    [GetProjectStatisticsPointers (kClassStatsOnly, classStorage, ...)]
    followed by [ComputeMeanStdDevVector].  The class statistics of storage
    slot [classStorage] start at [classStorage * numberStatisticsChannels] in
    [classChanStatsPtr] and at [classStorage * numberCovarianceEntries] in
    [classSumSquaresStatsPtr], as [GetClassChannelStatistics] and
    [GetClassSumsSquares] address them. *)
Definition computeClassMeanStdDev `{Collaborators} (p : Project.t)
    (classStorage : Z) (numberStatisticsPixels : Z) : option Project.t :=
  let chanOffset := classStorage * Project.numberStatisticsChannels p in
  classChanPtr ← from_ (Project.classChanStatsPtr p) chanOffset;
  classSumSquaresPtr ←
    from_ (Project.classSumSquaresStatsPtr p)
          (classStorage * Project.numberCovarianceEntries p);
  Some (Project.set_classChanStatsPtr
          (store_ (Project.classChanStatsPtr p) chanOffset
             (ComputeMeanStdDevVector classChanPtr classSumSquaresPtr
                (Project.numberStatisticsChannels p)
                (to_UInt32 numberStatisticsPixels)
                (Project.statisticsCode p) kTriangleInputMatrix))
          p).

Definition FinishClassStatsUpdate `{Collaborators} (fuel : nat)
    (p : Project.t) (classNumber : Z) : option (Project.t * bool) :=
  if Project.numberStatisticsClasses p <=? classNumber then Some (p, false)
  else
    classStorage ← at_ (Project.storageClass p) classNumber;
    c ← at_ (Project.classNamesPtr p) classStorage;
    r ← (if (0 <? Class.numberOfTrainFields c) && negb (Class.statsUpToDate c)
         then
           upToDateFlag ← FinishClassStatsUpdate_walk fuel
                            (Project.fieldIdentPtr p) (Class.firstFieldNumber c);
           p1 ← (if Project.keepClassStatsOnlyFlag p
                 then computeClassMeanStdDev p classStorage
                        (Class.numberStatisticsPixels c)
                 else Some p);
           Some (p1, upToDateFlag)
         else Some (p, false));
    classNames ← update_at (Project.classNamesPtr r.1) classStorage
                   (Class.set_statsUpToDate r.2 c);
    Some (Project.set_classNamesPtr classNames r.1, r.2).

(** The [for (classIndex...)] loop of [FinishProjectStatsUpdate]. *)
Fixpoint FinishProjectStatsUpdate_loop `{Collaborators} (fuel : nat)
    (count : nat) (classIndex : Z) (p : Project.t) (statsUpToDateFlag : bool)
    : option (Project.t * bool) :=
  match count with
  | O => Some (p, statsUpToDateFlag)
  | S count' =>
      r ← FinishClassStatsUpdate fuel p classIndex;
      FinishProjectStatsUpdate_loop fuel count' (classIndex + 1) r.1
        (if (r.2 : bool) then statsUpToDateFlag else false)
  end.

Definition FinishProjectStatsUpdate `{Collaborators} (fuel : nat)
    (p : Project.t) : option Project.t :=
  r ← FinishProjectStatsUpdate_loop fuel
         (Z.to_nat (Project.numberStatisticsClasses p)) 0 p true;
  Some (Project.set_statsUpToDate r.2 r.1).

(** The fields of a class in chain order: from [fieldNumber] through
    [nextField] to the end marker [-1]. *)
Inductive FieldChain (fieldIdentPtr : list Field.t)
    : Z -> list Field.t -> Prop :=
| FieldChain_end : FieldChain fieldIdentPtr (-1) []
| FieldChain_next (fieldNumber : Z) (f : Field.t) (rest : list Field.t) :
    fieldNumber <> -1 ->
    at_ fieldIdentPtr fieldNumber = Some f ->
    FieldChain fieldIdentPtr (Field.nextField f) rest ->
    FieldChain fieldIdentPtr fieldNumber (f :: rest).

(** Every training field of the chain has been loaded into the class
    statistics. *)
Definition allTrainingFieldsLoaded (fields : list Field.t) : bool :=
  forallb (fun f => negb (Field.fieldType f =? kTrainingType)
                    || Field.loadedIntoClassStats f) fields.

(** Collaborators that leave every buffer as they find it, never cancel,
    and weigh every class 1.0; used to run the routines on example data. *)
Definition exampleCollaborators : Collaborators := {|
  ComputeMeanStdDevVector := fun chan _ _ _ _ _ => chan;
  ComputeMeanVector := fun chan _ _ => chan;
  ReduceMeanVector := fun _ out _ _ => out;
  ReduceInputMatrix := fun _ out _ _ _ _ => out;
  ZeroStatisticsMemory := fun chan sumsq _ _ _ => (chan, sumsq);
  AddToClassStatistics := fun _ chan sumsq _ _ _ _ _ _ _ => (chan, sumsq);
  ComputeCovarianceMatrix := fun _ cov _ _ chan _ _ => (chan, cov);
  GetLOOCovariance := fun _ _ _ _ cov _ _ => cov;
  ZeroMatrix := fun m _ _ _ => map (fun _ => dzero) m;
  UpdateProjectLOOStats := fun g => g;
  ListClassInformationMessage := fun g _ continueFlag => (g, continueFlag);
  GetCommonCovarianceWeightsIndex := fun _ => 0;
  GetTotalProbability := fun _ _ _ _ => dOne;
  GetClassWeightValue := fun _ _ _ _ => dOne
|}.

Definition exampleField (fieldType : Z) (loaded : bool) (next : Z) : Field.t :=
  Field.mk fieldType 1 0 10 true loaded next.

Definition exampleClass (upToDate : bool) (covarianceStatsToUse : Z)
    (modifiedStatsFlag : bool) : Class.t :=
  Class.mk 1 10 10 0 upToDate covarianceStatsToUse 0 dminus_one dzero
    modifiedStatsFlag false.

(** One class in storage slot 0 whose only field, a training field, has been
    loaded into the class statistics; per-field storage. *)
Definition loadedClassProject (classUpToDate : bool) : Project.t :=
  Project.mk 1 2 3 0 [0] [exampleClass classUpToDate kOriginalStats false]
    [exampleField kTrainingType true (-1)] kMeanCovariance false true dOne
    false kOriginalStats false 0 false false None [] [] [] [] [] [].

(** ** SetClassCovarianceStatsToUse and SetProjectCovarianceStatsToUse

    The estimator codes are small non-negative integers, for which the
    conversions between the UInt16 parameter, the SInt16 local and the class
    and project fields are the identity; the calls that only repaint the
    project window ([MHiliteControl], [InvalPopUpCovarianceToUse],
    [gUpdateProjectMenuItemsFlag]) are left out. *)

(** The [for (classIndex...)] loop of [SetClassCovarianceStatsToUse]: TRUE
    when the loop leaves through its [break], that is when some class setting
    differs from [covarianceStatsToUse]. *)
Fixpoint SetClassCovarianceStatsToUse_differs (count : nat) (classIndex : Z)
    (p : Project.t) (covarianceStatsToUse : Z) : option bool :=
  match count with
  | O => Some false
  | S count' =>
      classStorage ← at_ (Project.storageClass p) classIndex;
      c ← at_ (Project.classNamesPtr p) classStorage;
      if negb (covarianceStatsToUse =? Class.covarianceStatsToUse c)
      then Some true
      else SetClassCovarianceStatsToUse_differs count' (classIndex + 1) p
             covarianceStatsToUse
  end.

Definition SetClassCovarianceStatsToUse (p : Project.t)
    (covarianceStatsToUse : Z) : option Project.t :=
  if (covarianceStatsToUse <=? 0) || (kEnhancedStats <? covarianceStatsToUse)
  then Some p
  else
    classStorage ← at_ (Project.storageClass p) (Project.currentClass p);
    c ← at_ (Project.classNamesPtr p) classStorage;
    classNames ← update_at (Project.classNamesPtr p) classStorage
                   (Class.set_covarianceStatsToUse covarianceStatsToUse c);
    let p1 := Project.set_covarianceStatsToUse covarianceStatsToUse
                (Project.set_classNamesPtr classNames p) in
    differs ← SetClassCovarianceStatsToUse_differs
                (Z.to_nat (Project.numberStatisticsClasses p1)) 0 p1
                covarianceStatsToUse;
    let p2 := if (differs : bool)
              then Project.set_covarianceStatsToUse kMixedStats p1 else p1 in
    classStorage2 ← at_ (Project.storageClass p2) (Project.currentClass p2);
    c2 ← at_ (Project.classNamesPtr p2) classStorage2;
    if (covarianceStatsToUse =? kLeaveOneOutStats)
       && (Class.mixingParameterCode c2 =? kComputedOptimum)
       && dltb (Class.looCovarianceValue c2) dzero
    then
      classNames2 ← update_at (Project.classNamesPtr p2) classStorage2
                      (Class.set_statsUpToDate false c2);
      Some (Project.set_classNamesPtr classNames2
              (Project.set_statsUpToDate false p2))
    else Some p2.

(** What one pass of the loop of [SetProjectCovarianceStatsToUse] writes to
    the record of the class it visits. *)
Definition SetProjectCovarianceStatsToUse_class (covarianceStatsToUse : Z)
    (c : Class.t) : Class.t :=
  let c1 := if Class.covarianceStatsToUse c =? kMixedStats
            then Class.set_covarianceStatsToUse kOriginalStats c else c in
  let savedCovarianceStatsToUse := Class.covarianceStatsToUse c1 in
  let c2 := if negb (covarianceStatsToUse =? kMixedStats)
            then Class.set_covarianceStatsToUse covarianceStatsToUse c1
            else c1 in
  if Class.covarianceStatsToUse c2 =? kEnhancedStats then
    if negb (Class.modifiedStatsFlag c2) then
      let c3 := Class.set_covarianceStatsToUse savedCovarianceStatsToUse c2 in
      if savedCovarianceStatsToUse =? kEnhancedStats
      then Class.set_covarianceStatsToUse kOriginalStats c3 else c3
    else c2
  else if (Class.covarianceStatsToUse c2 =? kLeaveOneOutStats)
          && (Class.mixingParameterCode c2 =? kComputedOptimum)
          && dltb (Class.looCovarianceValue c2) dzero
  then Class.set_statsUpToDate false c2
  else c2.

(** What the same pass writes to the project record, [c] being the class
    record as the pass found it. *)
Definition SetProjectCovarianceStatsToUse_project (covarianceStatsToUse : Z)
    (c : Class.t) (p : Project.t) : Project.t :=
  let c1 := if Class.covarianceStatsToUse c =? kMixedStats
            then Class.set_covarianceStatsToUse kOriginalStats c else c in
  let c2 := if negb (covarianceStatsToUse =? kMixedStats)
            then Class.set_covarianceStatsToUse covarianceStatsToUse c1
            else c1 in
  if Class.covarianceStatsToUse c2 =? kEnhancedStats then
    if negb (Class.modifiedStatsFlag c2) && (0 <? Class.numberTrainPixels c2)
    then Project.set_covarianceStatsToUse kMixedStats p else p
  else if (Class.covarianceStatsToUse c2 =? kLeaveOneOutStats)
          && (Class.mixingParameterCode c2 =? kComputedOptimum)
          && dltb (Class.looCovarianceValue c2) dzero
  then Project.set_numberCommonCovarianceClasses 0
         (Project.set_statsUpToDate false p)
  else p.

(** The update of the local [projectCovarianceStatsToUse] at the end of a
    pass. *)
Definition SetProjectCovarianceStatsToUse_summary (classIndex : Z)
    (projectCovarianceStatsToUse classSetting : Z) : Z :=
  if classIndex =? 0 then classSetting
  else if negb (projectCovarianceStatsToUse =? kMixedStats) then
    if negb (projectCovarianceStatsToUse =? classSetting) then kMixedStats
    else projectCovarianceStatsToUse
  else projectCovarianceStatsToUse.

Fixpoint SetProjectCovarianceStatsToUse_loop (count : nat) (classIndex : Z)
    (covarianceStatsToUse : Z) (p : Project.t)
    (projectCovarianceStatsToUse : Z) (enhancedStatsExistFlag : bool)
    : option (Project.t * Z * bool) :=
  match count with
  | O => Some (p, projectCovarianceStatsToUse, enhancedStatsExistFlag)
  | S count' =>
      classStorage ← at_ (Project.storageClass p) classIndex;
      c ← at_ (Project.classNamesPtr p) classStorage;
      let c' := SetProjectCovarianceStatsToUse_class covarianceStatsToUse c in
      classNames ← update_at (Project.classNamesPtr p) classStorage c';
      SetProjectCovarianceStatsToUse_loop count' (classIndex + 1)
        covarianceStatsToUse
        (Project.set_classNamesPtr classNames
           (SetProjectCovarianceStatsToUse_project covarianceStatsToUse c p))
        (SetProjectCovarianceStatsToUse_summary classIndex
           projectCovarianceStatsToUse (Class.covarianceStatsToUse c'))
        (if Class.modifiedStatsFlag c then true else enhancedStatsExistFlag)
  end.

Definition SetProjectCovarianceStatsToUse (p : Project.t)
    (covarianceStatsToUse : Z) : option Project.t :=
  r ← SetProjectCovarianceStatsToUse_loop
         (Z.to_nat (Project.numberStatisticsClasses p)) 0 covarianceStatsToUse
         (Project.set_covarianceStatsToUse covarianceStatsToUse p)
         kOriginalStats false;
  let p1 := Project.set_enhancedStatsExistFlag r.2
              (Project.set_covarianceStatsToUse r.1.2 r.1.1) in
  Some (if (covarianceStatsToUse =? kEnhancedStats) && negb r.2
        then Project.set_covarianceStatsToUse kOriginalStats p1 else p1).

(** The estimator selection of class [classIndex], through the storage
    map. *)
Definition classSetting (p : Project.t) (classIndex : Z) : option Z :=
  classStorage ← at_ (Project.storageClass p) classIndex;
  c ← at_ (Project.classNamesPtr p) classStorage;
  Some (Class.covarianceStatsToUse c).

Definition classHasModifiedStats (p : Project.t) (classIndex : Z)
    : option bool :=
  classStorage ← at_ (Project.storageClass p) classIndex;
  c ← at_ (Project.classNamesPtr p) classStorage;
  Some (Class.modifiedStatsFlag c).

(** The project's class tables are in order: every class number below
    [numberStatisticsClasses] has a storage slot, the slots of different
    classes are different, and each holds a class record. *)
Definition wellFormedClasses (p : Project.t) : Prop :=
  0 <= Project.numberStatisticsClasses p /\
  (forall i : Z, 0 <= i < Project.numberStatisticsClasses p ->
     exists (s : Z) (c : Class.t),
       at_ (Project.storageClass p) i = Some s /\
       at_ (Project.classNamesPtr p) s = Some c) /\
  (forall i j s : Z,
     0 <= i < Project.numberStatisticsClasses p ->
     0 <= j < Project.numberStatisticsClasses p ->
     at_ (Project.storageClass p) i = Some s ->
     at_ (Project.storageClass p) j = Some s -> i = j).

(** Two classes, Original and LeaveOneOut, neither with enhanced
    statistics. *)
Definition twoClassProject : Project.t :=
  Project.mk 2 2 3 0 [0; 1]
    [exampleClass true kOriginalStats false;
     exampleClass true kLeaveOneOutStats false]
    [] kMeanCovariance false true dOne true kMixedStats false 0 false false
    None [] [] [] [] [] [].

(** The record of class [classIndex], through the storage map. *)
Definition classRecord (p : Project.t) (classIndex : Z) : option Class.t :=
  classStorage ← at_ (Project.storageClass p) classIndex;
  at_ (Project.classNamesPtr p) classStorage.

(** The selection class [classIndex] of [p0] has once the loop of
    [SetProjectCovarianceStatsToUse] has visited it. *)
Definition settingAfter (p0 : Project.t) (covarianceStatsToUse : Z)
    (classIndex : Z) : option Z :=
  (fun c => Class.covarianceStatsToUse
              (SetProjectCovarianceStatsToUse_class covarianceStatsToUse c))
  <$> classRecord p0 classIndex.

(** State of the loop of [SetProjectCovarianceStatsToUse] before it visits
    class [k], the project having been [p0] on entry. *)
Definition SetProjectInvariant (p0 : Project.t) (covarianceStatsToUse : Z)
    (k : Z) (p : Project.t) (projectCovarianceStatsToUse : Z)
    (enhancedStatsExistFlag : bool) : Prop :=
  Project.storageClass p = Project.storageClass p0 /\
  Project.numberStatisticsClasses p = Project.numberStatisticsClasses p0 /\
  (forall i : Z, 0 <= i < Project.numberStatisticsClasses p0 ->
     classRecord p i =
     (if i <? k then SetProjectCovarianceStatsToUse_class covarianceStatsToUse
      else id) <$> classRecord p0 i) /\
  (0 < k -> projectCovarianceStatsToUse <> kMixedStats ->
   forall i : Z, 0 <= i < k ->
     settingAfter p0 covarianceStatsToUse i = Some projectCovarianceStatsToUse) /\
  (0 < k -> projectCovarianceStatsToUse = kMixedStats ->
   exists i j : Z, 0 <= i < k /\ 0 <= j < k /\
     settingAfter p0 covarianceStatsToUse i
     <> settingAfter p0 covarianceStatsToUse j) /\
  (enhancedStatsExistFlag = true <->
   exists i : Z, 0 <= i < k /\ classHasModifiedStats p0 i = Some true).

(** ** ReduceChanStatsVector *)

(** [channel] and [channelIndex] are UInt16; [outPtr] is the offset of
    [outputChanStatsPtr]. *)
Fixpoint ReduceChanStatsVector_loop (count : nat) (channel : Z)
    (inputChanStatsPtr out : list ChannelStatistics) (outPtr : nat)
    (channelIndex : Z) (featureListPtr : option (list Z))
    : option (list ChannelStatistics) :=
  match count with
  | O => Some out
  | S count' =>
      ci ← match featureListPtr with
           | Some l => at_ l channel
           | None => Some channelIndex
           end;
      x ← at_ inputChanStatsPtr ci;
      if (outPtr <? length out)%nat then
        ReduceChanStatsVector_loop count' (to_UInt16 (channel + 1))
          inputChanStatsPtr (<[outPtr := x]> out) (S outPtr)
          (to_UInt16 (ci + 1)) featureListPtr
      else None
  end.

Definition ReduceChanStatsVector (inputChanStatsPtr out : list ChannelStatistics)
    (numOutFeatures : Z) (featureListPtr : option (list Z))
    : option (list ChannelStatistics) :=
  ReduceChanStatsVector_loop (Z.to_nat numOutFeatures) 0 inputChanStatsPtr out
    0 0 featureListPtr.

(** ** CombineFieldChannelStatistics and CombineFieldStatistics *)

(** The [while (fieldNumber != -1)] loop of [CombineFieldChannelStatistics];
    the field statistics of statistics set [trainingStatsNumber] start at
    [trainingStatsNumber * numberInputChannels] in [fieldChanStatsPtr]. *)
Fixpoint CombineFieldChannelStatistics_walk (fuel : nat) (p : Project.t)
    (numberOutputChannels : Z) (channelListPtr : option (list Z))
    (out : list ChannelStatistics) (fieldNumber : Z) (initializeFlag : bool)
    : option (list ChannelStatistics) :=
  match fuel with
  | O => None
  | S fuel' =>
      if fieldNumber =? -1 then Some out
      else
        f ← at_ (Project.fieldIdentPtr p) fieldNumber;
        if (Field.fieldType f =? kTrainingType) && Field.statsUpToDate f then
          fieldChanPtr ←
            from_ (Project.fieldChanStatsPtr p)
                  (Field.trainingStatsNumber f
                   * Project.numberStatisticsChannels p);
          out1 ← AddToClassChannelStatistics numberOutputChannels out
                   (Project.numberStatisticsChannels p) channelListPtr
                   fieldChanPtr initializeFlag;
          CombineFieldChannelStatistics_walk fuel' p numberOutputChannels
            channelListPtr out1 (Field.nextField f) false
        else
          CombineFieldChannelStatistics_walk fuel' p numberOutputChannels
            channelListPtr out (Field.nextField f) initializeFlag
  end.

Definition CombineFieldChannelStatistics (fuel : nat) (p : Project.t)
    (numberOutputChannels : Z) (channelListPtr : option (list Z))
    (classChannelStatsPtr : option (list ChannelStatistics)) (classNumber : Z)
    : option (option (list ChannelStatistics)) :=
  match classChannelStatsPtr with
  | None => Some None
  | Some out =>
      if numberOutputChannels <=? 0 then Some (Some out)
      else
        classStorage ← at_ (Project.storageClass p) classNumber;
        c ← at_ (Project.classNamesPtr p) classStorage;
        out' ← CombineFieldChannelStatistics_walk fuel p numberOutputChannels
                 channelListPtr out (Class.firstFieldNumber c) true;
        Some (Some out')
  end.

Fixpoint CombineFieldStatistics_walk `{Collaborators} (fuel : nat)
    (p : Project.t) (numberOutputChannels : Z)
    (outputChannelListPtr : option (list Z))
    (outChan : list ChannelStatistics) (outSumSquares : list double)
    (fieldNumber : Z) (squareOutputMatrixFlag : bool)
    (outputStatisticsCode : Z)
    : option (list ChannelStatistics * list double) :=
  match fuel with
  | O => None
  | S fuel' =>
      if fieldNumber =? -1 then Some (outChan, outSumSquares)
      else
        f ← at_ (Project.fieldIdentPtr p) fieldNumber;
        if (Field.fieldType f =? kTrainingType) && Field.statsUpToDate f then
          fieldChanPtr ←
            from_ (Project.fieldChanStatsPtr p)
                  (Field.trainingStatsNumber f
                   * Project.numberStatisticsChannels p);
          fieldSumSquaresPtr ←
            from_ (Project.fieldSumSquaresStatsPtr p)
                  (Field.trainingStatsNumber f
                   * Project.numberCovarianceEntries p);
          let r := AddToClassStatistics numberOutputChannels outChan
                     outSumSquares (Project.numberStatisticsChannels p)
                     outputChannelListPtr fieldChanPtr fieldSumSquaresPtr
                     squareOutputMatrixFlag (Project.statisticsCode p)
                     outputStatisticsCode in
          CombineFieldStatistics_walk fuel' p numberOutputChannels
            outputChannelListPtr r.1 r.2 (Field.nextField f)
            squareOutputMatrixFlag outputStatisticsCode
        else
          CombineFieldStatistics_walk fuel' p numberOutputChannels
            outputChannelListPtr outChan outSumSquares (Field.nextField f)
            squareOutputMatrixFlag outputStatisticsCode
  end.

(** Called by [GetClassSumsSquares] only, with both buffers present and a
    positive channel count, which are the entry checks of the routine. *)
Definition CombineFieldStatistics `{Collaborators} (fuel : nat) (p : Project.t)
    (numberOutputChannels : Z) (outputChannelListPtr : option (list Z))
    (outChan : list ChannelStatistics) (outSumSquares : list double)
    (classNumber : Z) (squareOutputMatrixFlag : bool)
    (outputStatisticsCode : Z)
    : option (list ChannelStatistics * list double) :=
  if numberOutputChannels <=? 0 then Some (outChan, outSumSquares)
  else
    classStorage ← at_ (Project.storageClass p) classNumber;
    c ← at_ (Project.classNamesPtr p) classStorage;
    CombineFieldStatistics_walk fuel p numberOutputChannels
      outputChannelListPtr outChan outSumSquares (Class.firstFieldNumber c)
      squareOutputMatrixFlag outputStatisticsCode.

(** ** GetClassChannelStatistics and GetClassMeanVector *)

(** The result is the caller's buffer as the call leaves it and the Boolean
    the routine returns.  The enhanced statistics of storage slot
    [classStorage] start at [classStorage * numberStatisticsChannels] in
    [modifiedClassChanStatsPtr]. *)
Definition GetClassChannelStatistics `{Collaborators} (fuel : nat)
    (p : Project.t) (numberOutputChannels : Z)
    (classChannelStatsPtr : option (list ChannelStatistics))
    (channelListPtr : option (list Z)) (classNumber : Z)
    : option (option (list ChannelStatistics) * bool) :=
  match classChannelStatsPtr with
  | None => Some (None, false)
  | Some out =>
      if numberOutputChannels <=? 0 then Some (Some out, false)
      else
        classStorage ← at_ (Project.storageClass p) classNumber;
        c ← at_ (Project.classNamesPtr p) classStorage;
        if Class.numberOfTrainFields c <=? 0 then Some (Some out, false)
        else if (Class.covarianceStatsToUse c =? kEnhancedStats)
                && Class.modifiedStatsFlag c
        then
          inputChannelStatsPtr ←
            from_ (Project.modifiedClassChanStatsPtr p)
                  (classStorage * Project.numberStatisticsChannels p);
          out' ← ReduceChanStatsVector inputChannelStatsPtr out
                   numberOutputChannels channelListPtr;
          Some (Some out', true)
        else
          out1 ← (if Project.keepClassStatsOnlyFlag p then
                    classChanPtr ←
                      from_ (Project.classChanStatsPtr p)
                            (classStorage * Project.numberStatisticsChannels p);
                    AddToClassChannelStatistics numberOutputChannels out
                      (Project.numberStatisticsChannels p) channelListPtr
                      classChanPtr true
                  else
                    o ← CombineFieldChannelStatistics fuel p
                          numberOutputChannels channelListPtr (Some out)
                          classNumber;
                    o);
          Some (Some (ComputeMeanVector out1 numberOutputChannels
                        (Class.numberStatisticsPixels c)),
                true)
  end.

(** [GetClassMeanVector] returns nothing: the result is the two caller
    buffers as the call leaves them. *)
Definition GetClassMeanVector `{Collaborators} (fuel : nat) (p : Project.t)
    (numberOutputChannels : Z)
    (classChannelStatsPtr : option (list ChannelStatistics))
    (outputClassMeanPtr : list double) (channelListPtr : option (list Z))
    (classNumber : Z)
    : option (option (list ChannelStatistics) * list double) :=
  r ← GetClassChannelStatistics fuel p numberOutputChannels
         classChannelStatsPtr channelListPtr classNumber;
  if (r.2 : bool) then
    stats ← r.1;
    Some (Some stats,
          ReduceMeanVector stats outputClassMeanPtr numberOutputChannels None)
  else Some (r.1, outputClassMeanPtr).

(** ** GetClassSumsSquares *)

(** The result is the two caller buffers as the call leaves them and the
    Boolean the routine returns. *)
Definition GetClassSumsSquares `{Collaborators} (fuel : nat) (p : Project.t)
    (numberOutputChannels : Z)
    (classChannelStatsPtr : option (list ChannelStatistics))
    (classSumSquaresPtr : option (list double))
    (outputChannelListPtr : option (list Z)) (classNumber : Z)
    (squareOutputMatrixFlag : bool) (outputStatisticsCode : Z)
    : option (option (list ChannelStatistics) * option (list double) * bool) :=
  match classChannelStatsPtr, classSumSquaresPtr with
  | Some chan, Some sumSquares =>
      if numberOutputChannels <=? 0
      then Some (Some chan, Some sumSquares, false)
      else
        classStorage ← at_ (Project.storageClass p) classNumber;
        c ← at_ (Project.classNamesPtr p) classStorage;
        if 0 <? Class.numberOfTrainFields c then
          let z := ZeroStatisticsMemory chan sumSquares numberOutputChannels
                     outputStatisticsCode squareOutputMatrixFlag in
          if Project.keepClassStatsOnlyFlag p then
            if 0 <? Class.numberStatisticsPixels c then
              classChanPtr ←
                from_ (Project.classChanStatsPtr p)
                      (classStorage * Project.numberStatisticsChannels p);
              classSumSquaresStatsPtr ←
                from_ (Project.classSumSquaresStatsPtr p)
                      (classStorage * Project.numberCovarianceEntries p);
              let r := AddToClassStatistics numberOutputChannels z.1 z.2
                         (Project.numberStatisticsChannels p)
                         outputChannelListPtr classChanPtr
                         classSumSquaresStatsPtr squareOutputMatrixFlag
                         (Project.statisticsCode p) outputStatisticsCode in
              Some (Some r.1, Some r.2, true)
            else Some (Some z.1, Some z.2, false)
          else
            r ← CombineFieldStatistics fuel p numberOutputChannels
                   outputChannelListPtr z.1 z.2 classNumber
                   squareOutputMatrixFlag outputStatisticsCode;
            Some (Some r.1, Some r.2, true)
        else Some (Some chan, Some sumSquares, false)
  | _, _ => Some (classChannelStatsPtr, classSumSquaresPtr, false)
  end.

(** ** ComputeVarianceVector *)

(** [*variancePtr = ...; variancePtr++] for [count] channels from [k];
    with [squares] the square of the channel's standard deviation, without
    it zero. *)
Fixpoint ComputeVarianceVector_fill (count : nat)
    (channelStatsPtr : list ChannelStatistics) (variancePtr : list double)
    (k : nat) (squares : bool) : option (list double) :=
  match count with
  | O => Some variancePtr
  | S count' =>
      v ← (if squares then
             s ← channelStatsPtr !! k;
             Some (dmul (standardDev s) (standardDev s))
           else Some dzero);
      if (k <? length variancePtr)%nat then
        ComputeVarianceVector_fill count' channelStatsPtr
          (<[k := v]> variancePtr) (S k) squares
      else None
  end.

(** Its only caller passes one buffer as [sumSquaresPtr] and as
    [variancePtr]; [buffer] is that buffer. *)
Definition ComputeVarianceVector `{Collaborators}
    (channelStatsPtr : list ChannelStatistics) (buffer : list double)
    (numberChannels numberPixels inputStatCode : Z)
    : option (list ChannelStatistics * list double) :=
  if (0 <? numberChannels) && (0 <? numberPixels) then
    first ← channelStatsPtr !! 0%nat;
    let chan := if dltb (standardDev first) dzero
                then ComputeMeanStdDevVector channelStatsPtr buffer
                       numberChannels numberPixels inputStatCode
                       kTriangleInputMatrix
                else channelStatsPtr in
    buffer' ← ComputeVarianceVector_fill (Z.to_nat numberChannels) chan buffer
                0 (1 <? numberPixels);
    Some (chan, buffer')
  else Some (channelStatsPtr, buffer).

(** ** GetClassCovarianceMatrix *)

(** The leave-one-out step of [GetClassCovarianceMatrix].  The common
    covariance lives in the memory of [commonCovarianceStatsHandle]: the
    covariance of all channels first and, [numberCovarianceEntries] further,
    its reduction to the channels in use.  [classStorage] locates the class
    record, which is read again after [UpdateProjectLOOStats]. *)
Definition GetClassCovarianceMatrix_leaveOneOut `{Collaborators} (g : Globals)
    (classStorage : Z) (numberOutputChannels : Z)
    (classCovariancePtr : list double) (channelListPtr : option (list Z))
    (squareOutputMatrixFlag : bool) : option (Globals * list double) :=
  let g1 :=
    if Project.useCommonCovarianceInLOOCFlag (gProjectInfoPtr g)
       && (Project.numberCommonCovarianceClasses (gProjectInfoPtr g) =? 0)
    then UpdateProjectLOOStats g else g in
  let p1 := gProjectInfoPtr g1 in
  let inputCommonCovariancePtr := Project.commonCovarianceStatsHandle p1 in
  g2 ← (if Project.useCommonCovarianceInLOOCFlag p1
           && negb (Project.localCommonCovarianceLoadedFlag p1)
        then
          input ← inputCommonCovariancePtr;
          commonCovariancePtr ← from_ input (Project.numberCovarianceEntries p1);
          Some (mkGlobals
                  (Project.set_commonCovariance true
                     (Some (store_ input (Project.numberCovarianceEntries p1)
                              (ReduceInputMatrix numberOutputChannels
                                 commonCovariancePtr
                                 (Project.numberStatisticsChannels p1)
                                 channelListPtr input kTriangleOutputMatrix)))
                     p1)
                  (gOperationCanceledFlag g1))
        else Some g1);
  let p2 := gProjectInfoPtr g2 in
  match Project.commonCovarianceStatsHandle p2 with
  | Some input =>
      if negb (Project.useCommonCovarianceInLOOCFlag p2)
         || (0 <? Project.numberCommonCovarianceClasses p2)
      then
        c ← at_ (Project.classNamesPtr p2) classStorage;
        commonCovariancePtr ← from_ input (Project.numberCovarianceEntries p2);
        Some (g2,
              GetLOOCovariance (Class.mixingParameterCode c)
                (Class.looCovarianceValue c) (Class.userMixingParameter c)
                numberOutputChannels classCovariancePtr commonCovariancePtr
                squareOutputMatrixFlag)
      else Some (g2, classCovariancePtr)
  | None => Some (g2, classCovariancePtr)
  end.

(** The part of [GetClassCovarianceMatrix] before the zero-variance pass:
    globals, the two caller buffers and [continueFlag]. *)
Definition GetClassCovarianceMatrix_estimate `{Collaborators} (fuel : nat)
    (g : Globals) (numberOutputChannels : Z)
    (chan : list ChannelStatistics) (cov : list double)
    (channelListPtr : option (list Z)) (statClassNumber : Z)
    (squareOutputMatrixFlag : bool) (outputStatisticsCode : Z)
    (covarianceStatsToUse : Z)
    : option (Globals * list ChannelStatistics * list double * bool) :=
  let p := gProjectInfoPtr g in
  classStorage ← at_ (Project.storageClass p) statClassNumber;
  c ← at_ (Project.classNamesPtr p) classStorage;
  if (covarianceStatsToUse =? kEnhancedStats) && Class.modifiedStatsFlag c
  then
    inputCovariancePtr ←
      from_ (Project.modifiedClassCovStatsPtr p)
            (classStorage * Project.numberCovarianceEntries p);
    cs ← GetClassChannelStatistics fuel p numberOutputChannels (Some chan)
            channelListPtr statClassNumber;
    chan1 ← cs.1;
    let cov1 := ReduceInputMatrix numberOutputChannels cov
                  (Project.numberStatisticsChannels p) channelListPtr
                  inputCovariancePtr squareOutputMatrixFlag in
    cov2 ← (if squareOutputMatrixFlag
            then CopyLowerToUpperSquareMatrix (Z.to_nat numberOutputChannels)
                   cov1
            else Some cov1);
    Some (g, chan1, cov2, cs.2)
  else
    ss ← GetClassSumsSquares fuel p numberOutputChannels (Some chan)
            (Some cov) channelListPtr statClassNumber squareOutputMatrixFlag
            outputStatisticsCode;
    chan1 ← ss.1.1;
    cov1 ← ss.1.2;
    if (ss.2 : bool) then
      if outputStatisticsCode =? kMeanCovariance then
        let cc := ComputeCovarianceMatrix numberOutputChannels cov1
                    numberOutputChannels None chan1
                    (Class.numberStatisticsPixels c) squareOutputMatrixFlag in
        if covarianceStatsToUse =? kLeaveOneOutStats then
          r ← GetClassCovarianceMatrix_leaveOneOut g classStorage
                 numberOutputChannels cc.2 channelListPtr
                 squareOutputMatrixFlag;
          Some (r.1, cc.1, r.2, true)
        else Some (g, cc.1, cc.2, true)
      else
        r ← ComputeVarianceVector chan1 cov1 numberOutputChannels
               (Class.numberStatisticsPixels c) kMeanStdDevOnly;
        Some (g, r.1, r.2, true)
    else Some (g, chan1, cov1, false).

(** [GetClassCovarianceMatrix] returns nothing: the result is the globals
    and the two caller buffers as the call leaves them. *)
Definition GetClassCovarianceMatrix `{Collaborators} (fuel : nat) (g : Globals)
    (numberOutputChannels : Z)
    (classChannelStatsPtr : option (list ChannelStatistics))
    (classCovariancePtr : option (list double))
    (channelListPtr : option (list Z)) (statClassNumber : Z)
    (squareOutputMatrixFlag : bool) (outputStatisticsCode : Z)
    (covarianceStatsToUse : Z)
    : option (Globals * option (list ChannelStatistics)
              * option (list double)) :=
  match classChannelStatsPtr, classCovariancePtr with
  | Some chan, Some cov =>
      if numberOutputChannels <=? 0 then Some (g, Some chan, Some cov)
      else if Project.statisticsCode (gProjectInfoPtr g) <? outputStatisticsCode
      then Some (g, Some chan, Some cov)
      else
        e ← GetClassCovarianceMatrix_estimate fuel g numberOutputChannels chan
               cov channelListPtr statClassNumber squareOutputMatrixFlag
               outputStatisticsCode covarianceStatsToUse;
        let g1 := e.1.1.1 in
        if (e.2 : bool) && (outputStatisticsCode =? kMeanCovariance)
           && Project.setZeroVarianceFlag (gProjectInfoPtr g1)
        then
          rz ← ResetZeroVariances (gProjectInfoPtr g1) (Some e.1.2)
                  squareOutputMatrixFlag outputStatisticsCode
                  numberOutputChannels;
          if (rz.2 : bool) then
            Some ((ListClassInformationMessage g1 statClassNumber e.2).1,
                  Some e.1.1.2, rz.1)
          else Some (g1, Some e.1.1.2, rz.1)
        else Some (g1, Some e.1.1.2, Some e.1.2)
  | _, _ => Some (g, classChannelStatsPtr, classCovariancePtr)
  end.

(** ** GetCommonCovariance *)

(** C's conversion [(float)] of a double, and of the float back to a double
    where it is used: rounding to binary32 and the exact embedding of the
    result in binary64. *)
Definition to_float (x : double) : double :=
  match x with
  | S754_finite s m e =>
      match binary_round 24 128 s m e with
      | S754_finite s' m' e' => binary_round prec emax s' m' e'
      | y => y
      end
  | _ => x
  end.

(** The inner loop: [*covariancePtr += weightValue * *tempMatrixPtr] over
    [count] entries from offset [index]. *)
Fixpoint GetCommonCovariance_accumulate (count : nat) (index : nat)
    (weightValue : double) (covariancePtr tempMatrixPtr : list double)
    : option (list double) :=
  match count with
  | O => Some covariancePtr
  | S count' =>
      x ← covariancePtr !! index;
      t ← tempMatrixPtr !! index;
      GetCommonCovariance_accumulate count' (S index) weightValue
        (<[index := dadd x (dmul weightValue t)]> covariancePtr) tempMatrixPtr
  end.

(** State of the loop over the classes. *)
Record CommonCovarianceState : Type := mkCommonCovarianceState {
  globals : Globals;
  covariancePtr : list double;
  tempMatrixPtr : list double;
  classChannelStatsPtr : option (list ChannelStatistics);
  numberCommonCovarianceClasses : Z;
  covarianceStatsToUse : Z;
  continueFlag : bool
}.

Fixpoint GetCommonCovariance_loop `{Collaborators} (fuel : nat) (count : nat)
    (classIndex : Z) (classPtr statFeaturePtr : option (list Z))
    (numberFeatureChannels : Z) (squareOutputMatrixFlag : bool)
    (outputStatisticsCode inputCovarianceStatsToUse : Z)
    (weightsIndex : Z) (totalProbability : double) (numberIndices : Z)
    (st : CommonCovarianceState) : option CommonCovarianceState :=
  match count with
  | O => Some st
  | S count' =>
      statClassNumber ←
        match classPtr with
        | Some l => x ← at_ l classIndex; Some (to_UInt32 (x - 1))
        | None => Some classIndex
        end;
      let weightValue :=
        GetClassWeightValue (gProjectInfoPtr (globals st))
          (to_UInt16 statClassNumber) weightsIndex totalProbability in
      if dgtb weightValue dzero then
        toUse ←
          (if inputCovarianceStatsToUse =? kMixedStats then
             classStorage ←
               at_ (Project.storageClass (gProjectInfoPtr (globals st)))
                   statClassNumber;
             c ← at_ (Project.classNamesPtr (gProjectInfoPtr (globals st)))
                     classStorage;
             Some (Class.covarianceStatsToUse c)
           else Some (covarianceStatsToUse st));
        r ← GetClassCovarianceMatrix fuel (globals st) numberFeatureChannels
               (classChannelStatsPtr st) (Some (tempMatrixPtr st))
               statFeaturePtr (to_UInt16 statClassNumber)
               squareOutputMatrixFlag outputStatisticsCode toUse;
        temp ← r.2;
        covariance ← GetCommonCovariance_accumulate (Z.to_nat numberIndices) 0
                       weightValue (covariancePtr st) temp;
        let st1 := mkCommonCovarianceState r.1.1 covariance temp r.1.2
                     (to_UInt32 (numberCommonCovarianceClasses st + 1))
                     toUse (continueFlag st) in
        if gOperationCanceledFlag r.1.1 then
          Some (mkCommonCovarianceState r.1.1 covariance temp r.1.2
                  (to_UInt32 (numberCommonCovarianceClasses st + 1))
                  toUse false)
        else
          GetCommonCovariance_loop fuel count' (to_UInt32 (classIndex + 1))
            classPtr statFeaturePtr numberFeatureChannels
            squareOutputMatrixFlag outputStatisticsCode
            inputCovarianceStatsToUse weightsIndex totalProbability
            numberIndices st1
      else
        GetCommonCovariance_loop fuel count' (to_UInt32 (classIndex + 1))
          classPtr statFeaturePtr numberFeatureChannels squareOutputMatrixFlag
          outputStatisticsCode inputCovarianceStatsToUse weightsIndex
          totalProbability numberIndices st
  end.

(** The result is the final loop state, whose [continueFlag] is the Boolean
    the routine returns and whose globals hold the project record with the
    cached class count as the routine leaves it.  The local
    [covarianceStatsToUse] is not initialised when the input selection is
    Mixed; it is then assigned before each use, and starts here as 0. *)
Definition GetCommonCovariance `{Collaborators} (fuel : nat) (g : Globals)
    (covariance temp : list double)
    (classChannelStats : option (list ChannelStatistics))
    (classPtr statFeaturePtr : option (list Z)) (numberClasses : Z)
    (numberFeatureChannels : Z) (squareOutputMatrixFlag : bool)
    (outputStatisticsCode inputCovarianceStatsToUse : Z)
    (projectCommonCovarianceFlag : bool) : option CommonCovarianceState :=
  let weightsIndex := GetCommonCovarianceWeightsIndex (gProjectInfoPtr g) in
  let totalProbability :=
    to_float (GetTotalProbability (gProjectInfoPtr g) classPtr numberClasses
                weightsIndex) in
  let covariance0 := ZeroMatrix covariance numberFeatureChannels
                       numberFeatureChannels squareOutputMatrixFlag in
  let numberIndices :=
    if squareOutputMatrixFlag
    then to_UInt32 (numberFeatureChannels * numberFeatureChannels)
    else to_UInt32 ((numberFeatureChannels + 1) * numberFeatureChannels) / 2 in
  st ← GetCommonCovariance_loop fuel (Z.to_nat numberClasses) 0 classPtr
          statFeaturePtr numberFeatureChannels squareOutputMatrixFlag
          outputStatisticsCode inputCovarianceStatsToUse weightsIndex
          totalProbability numberIndices
          (mkCommonCovarianceState g covariance0 temp classChannelStats 0
             (if inputCovarianceStatsToUse =? kMixedStats then 0
              else inputCovarianceStatsToUse)
             true);
  if continueFlag st && projectCommonCovarianceFlag then
    Some (mkCommonCovarianceState
            (mkGlobals
               (Project.set_numberCommonCovarianceClasses
                  (to_UInt16 (numberCommonCovarianceClasses st))
                  (gProjectInfoPtr (globals st)))
               (gOperationCanceledFlag (globals st)))
            (covariancePtr st) (tempMatrixPtr st) (classChannelStatsPtr st)
            (numberCommonCovarianceClasses st) (covarianceStatsToUse st)
            (continueFlag st))
  else Some st.

(** *** The pooled covariance as the specification words it *)

(** One term [w_k * Cov_k] added to the running sum, entry by entry over the
    first [numberIndices] entries. *)
Definition addWeighted (numberIndices : nat) (sum : list double)
    (term : double * list double) : list double :=
  imap (fun i x =>
          if (i <? numberIndices)%nat
          then match term.2 !! i with
               | Some t => dadd x (dmul term.1 t)
               | None => x
               end
          else x) sum.

(** [C = sum over k of w_k * Cov_k], the terms taken in order. *)
Definition weightedSum (numberIndices : nat) (zero : list double)
    (terms : list (double * list double)) : list double :=
  foldl (addWeighted numberIndices) zero terms.

(** The channel statistics record [ReduceChanStatsVector] copies into output
    channel [j]: that of the [j]-th channel of the feature list, or of
    channel [j] itself when there is no list. *)
Definition selectedChannel (inputChanStatsPtr : list ChannelStatistics)
    (featureListPtr : option (list Z)) (j : nat) : option ChannelStatistics :=
  match featureListPtr with
  | Some l => ch ← l !! j; at_ inputChanStatsPtr ch
  | None => inputChanStatsPtr !! j
  end.



(** The double nearest to an integer. *)
Definition dofZ (z : Z) : double := binary_normalize prec emax z 0 false.

Definition ddiv : double -> double -> double := SFdiv prec emax.

(** Modelled from the spec: [ComputeMeanVector] and [ReduceMeanVector] are
    defined in a source file that is not part of this development.  The
    specification gives the mean of a channel as its sum divided by the
    number of pixels; [ReduceMeanVector] copies the means of the channels in
    use into the output vector, as [ReduceStdDevVector] of this file does
    for the standard deviations (without a feature list: channel by
    channel).  The other collaborators are those of
    [exampleCollaborators]. *)
Definition meanCollaborators : Collaborators := {|
  ComputeMeanStdDevVector := fun chan _ _ _ _ _ => chan;
  ComputeMeanVector := fun chan numberChannels numberPixels =>
    imap (fun i s =>
            if (i <? Z.to_nat numberChannels)%nat
            then mkChannelStatistics (ddiv (sum s) (dofZ numberPixels))
                   (sum s) (standardDev s) (minimum s) (maximum s)
            else s) chan;
  ReduceMeanVector := fun chan out numOutFeatures _ =>
    imap (fun i x =>
            if (i <? Z.to_nat numOutFeatures)%nat
            then match chan !! i with Some s => mean s | None => x end
            else x) out;
  ReduceInputMatrix := fun _ out _ _ _ _ => out;
  ZeroStatisticsMemory := fun chan sumsq _ _ _ => (chan, sumsq);
  AddToClassStatistics := fun _ chan sumsq _ _ _ _ _ _ _ => (chan, sumsq);
  ComputeCovarianceMatrix := fun _ cov _ _ chan _ _ => (chan, cov);
  GetLOOCovariance := fun _ _ _ _ cov _ _ => cov;
  ZeroMatrix := fun m _ _ _ => map (fun _ => dzero) m;
  UpdateProjectLOOStats := fun g => g;
  ListClassInformationMessage := fun g _ continueFlag => (g, continueFlag);
  GetCommonCovarianceWeightsIndex := fun _ => 0;
  GetTotalProbability := fun _ _ _ _ => dOne;
  GetClassWeightValue := fun _ _ _ _ => dOne
|}.

(** One class in storage slot 0 with [numberOfTrainFields] training fields
    and 10 pixels, class-only storage, two channels with sums 10 and 20. *)
Definition meanProject (numberOfTrainFields : Z) : Project.t :=
  Project.mk 1 2 3 0 [0]
    [Class.mk numberOfTrainFields 10 10 (-1) true kOriginalStats 0 dminus_one
       dzero false false]
    [] kMeanCovariance true false dOne true kOriginalStats false 0 false
    false None
    [mkChannelStatistics dOne (dofZ 10) dminus_one dzero (dofZ 5);
     mkChannelStatistics dtwo (dofZ 20) dminus_one dOne (dofZ 7)]
    [dzero; dzero; dzero] [] [] [] [].

(** The caller's buffers as an earlier call for this class left them. *)
Definition meanCallerStats : list ChannelStatistics :=
  [mkChannelStatistics dOne (dofZ 10) dminus_one dzero (dofZ 5);
   mkChannelStatistics dtwo (dofZ 20) dminus_one dOne (dofZ 7)].

Definition meanCallerVector : list double := [dOne; dtwo].

(** The terms of the sum, in the order of the class list: for every class
    whose weight is strictly positive its weight and its covariance matrix,
    as [GetClassCovarianceMatrix] leaves it in the temporary matrix; a class
    of another weight contributes no term.  The class covariances are
    obtained one after the other, each call starting from the globals and
    the buffers the previous one left; the list ends early, [cancelled], at
    the class after which the cancel flag is found set. *)
Record PooledTerms : Type := mkPooledTerms {
  terms : list (double * list double);
  finalGlobals : Globals;
  finalTemp : list double;
  finalStats : option (list ChannelStatistics);
  finalToUse : Z;
  cancelled : bool
}.

Fixpoint classCovarianceTerms `{Collaborators} (fuel : nat) (count : nat)
    (classIndex : Z) (classPtr statFeaturePtr : option (list Z))
    (numberFeatureChannels : Z) (squareOutputMatrixFlag : bool)
    (outputStatisticsCode inputCovarianceStatsToUse : Z)
    (weightsIndex : Z) (totalProbability : double)
    (g : Globals) (temp : list double)
    (stats : option (list ChannelStatistics)) (toUse : Z)
    : option PooledTerms :=
  match count with
  | O => Some (mkPooledTerms [] g temp stats toUse false)
  | S count' =>
      statClassNumber ←
        match classPtr with
        | Some l => x ← at_ l classIndex; Some (to_UInt32 (x - 1))
        | None => Some classIndex
        end;
      let weightValue :=
        GetClassWeightValue (gProjectInfoPtr g) (to_UInt16 statClassNumber)
          weightsIndex totalProbability in
      if dgtb weightValue dzero then
        toUse' ←
          (if inputCovarianceStatsToUse =? kMixedStats then
             classStorage ←
               at_ (Project.storageClass (gProjectInfoPtr g)) statClassNumber;
             c ← at_ (Project.classNamesPtr (gProjectInfoPtr g)) classStorage;
             Some (Class.covarianceStatsToUse c)
           else Some toUse);
        r ← GetClassCovarianceMatrix fuel g numberFeatureChannels stats
               (Some temp) statFeaturePtr (to_UInt16 statClassNumber)
               squareOutputMatrixFlag outputStatisticsCode toUse';
        temp' ← r.2;
        if gOperationCanceledFlag r.1.1 then
          Some (mkPooledTerms [(weightValue, temp')] r.1.1 temp' r.1.2 toUse'
                  true)
        else
          rest ← classCovarianceTerms fuel count' (to_UInt32 (classIndex + 1))
                   classPtr statFeaturePtr numberFeatureChannels
                   squareOutputMatrixFlag outputStatisticsCode
                   inputCovarianceStatsToUse weightsIndex totalProbability
                   r.1.1 temp' r.1.2 toUse';
          Some (mkPooledTerms ((weightValue, temp') :: terms rest)
                  (finalGlobals rest) (finalTemp rest) (finalStats rest)
                  (finalToUse rest) (cancelled rest))
      else
        classCovarianceTerms fuel count' (to_UInt32 (classIndex + 1))
          classPtr statFeaturePtr numberFeatureChannels squareOutputMatrixFlag
          outputStatisticsCode inputCovarianceStatsToUse weightsIndex
          totalProbability g temp stats toUse
  end.

(** The terms for a whole call of [GetCommonCovariance]. *)
Definition pooledTerms `{Collaborators} (fuel : nat) (g : Globals)
    (temp : list double) (classChannelStats : option (list ChannelStatistics))
    (classPtr statFeaturePtr : option (list Z)) (numberClasses : Z)
    (numberFeatureChannels : Z) (squareOutputMatrixFlag : bool)
    (outputStatisticsCode inputCovarianceStatsToUse : Z)
    : option PooledTerms :=
  classCovarianceTerms fuel (Z.to_nat numberClasses) 0 classPtr statFeaturePtr
    numberFeatureChannels squareOutputMatrixFlag outputStatisticsCode
    inputCovarianceStatsToUse
    (GetCommonCovarianceWeightsIndex (gProjectInfoPtr g))
    (to_float (GetTotalProbability (gProjectInfoPtr g) classPtr numberClasses
                 (GetCommonCovarianceWeightsIndex (gProjectInfoPtr g))))
    g temp classChannelStats
    (if inputCovarianceStatsToUse =? kMixedStats then 0
     else inputCovarianceStatsToUse).


(** Modelled from the spec: the routines behind the class weights and the
    matrix reduction are defined in source files that are not part of this
    development.  The specification gives the weight of a class as its
    a-priori weight divided by the total over the classes; here the four
    classes have the a-priori weights 1, 1, 0 and 2 and the total is 4.
    [ReduceInputMatrix] without a channel list copies the triangular input
    matrix into the output matrix, [ZeroMatrix] clears the matrix, and
    [ListClassInformationMessage], which lists the class whose variances were
    reset, notices a cancel request.  The other collaborators are those of
    [meanCollaborators]. *)
Definition pooledCollaborators : Collaborators := {|
  ComputeMeanStdDevVector := fun chan _ _ _ _ _ => chan;
  ComputeMeanVector := @ComputeMeanVector meanCollaborators;
  ReduceMeanVector := @ReduceMeanVector meanCollaborators;
  ReduceInputMatrix := fun _ out _ _ input _ =>
    imap (fun i x => default x (input !! i)) out;
  ZeroStatisticsMemory := fun chan sumsq _ _ _ => (chan, sumsq);
  AddToClassStatistics := fun _ chan sumsq _ _ _ _ _ _ _ => (chan, sumsq);
  ComputeCovarianceMatrix := fun _ cov _ _ chan _ _ => (chan, cov);
  GetLOOCovariance := fun _ _ _ _ cov _ _ => cov;
  ZeroMatrix := fun m _ _ _ => map (fun _ => dzero) m;
  UpdateProjectLOOStats := fun g => g;
  ListClassInformationMessage := fun g _ continueFlag =>
    (mkGlobals (gProjectInfoPtr g) true, continueFlag);
  GetCommonCovarianceWeightsIndex := fun _ => 0;
  GetTotalProbability := fun _ _ _ _ => dofZ 4;
  GetClassWeightValue := fun _ statClassNumber _ totalProbability =>
    ddiv (default dzero ([dOne; dOne; dzero; dtwo] !! Z.to_nat statClassNumber))
      totalProbability
|}.

(** Four classes in storage slots 0 to 3, two channels, enhanced statistics
    selected and stored for every class; the enhanced covariance of the
    second class has a zero variance.  [setZeroVarianceFlag] turns the
    zero-variance pass on and [numberCommonCovarianceClasses] is the cached
    class count. *)
Definition pooledProject (setZeroVarianceFlag : bool)
    (numberCommonCovarianceClasses : Z) : Project.t :=
  Project.mk 4 2 3 0 [0; 1; 2; 3]
    [exampleClass true kEnhancedStats true;
     exampleClass true kEnhancedStats true;
     exampleClass true kEnhancedStats true;
     exampleClass true kEnhancedStats true]
    [] kMeanCovariance true setZeroVarianceFlag dOne true kEnhancedStats true
    numberCommonCovarianceClasses false false None [] [] [] []
    [exampleStats dOne dOne dzero dOne; exampleStats dtwo dOne dzero dtwo;
     exampleStats dOne dOne dzero dOne; exampleStats dtwo dOne dzero dtwo;
     exampleStats dOne dOne dzero dOne; exampleStats dtwo dOne dzero dtwo;
     exampleStats dOne dOne dzero dOne; exampleStats dtwo dOne dzero dtwo]
    [dtwo; dOne; dtwo;
     dzero; dzero; dOne;
     dOne; dOne; dOne;
     dofZ 4; dtwo; dofZ 6].

(** The caller's buffers: the covariance matrix, the temporary matrix and
    the channel statistics. *)
Definition pooledCovariance : list double := [dOne; dOne; dOne].
Definition pooledTemp : list double := [dzero; dzero; dzero].
Definition pooledStats : list ChannelStatistics :=
  [exampleStats dzero dzero dzero dzero; exampleStats dzero dzero dzero dzero].

(** The weights [GetClassWeightValue] gives the classes of the list, in the
    order of the list, all read from the project record [p]. *)
Fixpoint classWeights `{Collaborators} (count : nat) (classIndex : Z)
    (classPtr : option (list Z)) (weightsIndex : Z)
    (totalProbability : double) (p : Project.t) : option (list double) :=
  match count with
  | O => Some []
  | S count' =>
      statClassNumber ←
        match classPtr with
        | Some l => x ← at_ l classIndex; Some (to_UInt32 (x - 1))
        | None => Some classIndex
        end;
      rest ← classWeights count' (to_UInt32 (classIndex + 1)) classPtr
                weightsIndex totalProbability p;
      Some (GetClassWeightValue p (to_UInt16 statClassNumber) weightsIndex
              totalProbability :: rest)
  end.


(** ** What FinishProjectStatsUpdate decides *)

(** Class [classIndex] of [p] is ready to be marked up to date: it has
    training fields, is not marked yet, and every training field of its
    chain has been loaded into the class statistics. *)
Definition classReady (p : Project.t) (classIndex : Z) : Prop :=
  exists (c : Class.t) (fields : list Field.t),
    classRecord p classIndex = Some c /\
    0 < Class.numberOfTrainFields c /\
    Class.statsUpToDate c = false /\
    FieldChain (Project.fieldIdentPtr p) (Class.firstFieldNumber c) fields /\
    allTrainingFieldsLoaded fields = true.

(** The field chain of every class that will be walked ends within [fuel]
    fields. *)
Definition chainsWithin (fuel : nat) (p : Project.t) : Prop :=
  forall (i : Z) (c : Class.t),
    0 <= i < Project.numberStatisticsClasses p ->
    classRecord p i = Some c ->
    0 < Class.numberOfTrainFields c ->
    Class.statsUpToDate c = false ->
    exists fields : list Field.t,
      FieldChain (Project.fieldIdentPtr p) (Class.firstFieldNumber c) fields /\
      (length fields < fuel)%nat.

(** State of the loop of [FinishProjectStatsUpdate] before it visits class
    [k], the project having been [p0] on entry. *)
Definition FinishProjectInvariant (p0 : Project.t) (k : Z) (p : Project.t)
    (statsUpToDateFlag : bool) : Prop :=
  Project.storageClass p = Project.storageClass p0 /\
  Project.numberStatisticsClasses p = Project.numberStatisticsClasses p0 /\
  Project.fieldIdentPtr p = Project.fieldIdentPtr p0 /\
  Project.keepClassStatsOnlyFlag p = Project.keepClassStatsOnlyFlag p0 /\
  (forall i : Z, 0 <= i < Project.numberStatisticsClasses p0 ->
     exists c : Class.t,
       classRecord p0 i = Some c /\
       if i <? k
       then exists b : bool,
              classRecord p i = Some (Class.set_statsUpToDate b c) /\
              (b = true <-> classReady p0 i)
       else classRecord p i = Some c) /\
  (statsUpToDateFlag = true <-> forall i : Z, 0 <= i < k -> classReady p0 i).

(** ** What CombineFieldChannelStatistics combines *)

(** A field whose statistics enter the class statistics: a training field
    whose statistics are up to date. *)
Definition contributes (f : Field.t) : bool :=
  (Field.fieldType f =? kTrainingType) && Field.statsUpToDate f.

(** The statistics of channel [j] of the contributing fields among [fields],
    in the order of [fields]. *)
Definition fieldRecords (p : Project.t) (fields : list Field.t) (j : nat)
    : list ChannelStatistics :=
  omap (fun f => at_ (Project.fieldChanStatsPtr p)
                     (Field.trainingStatsNumber f
                      * Project.numberStatisticsChannels p + Z.of_nat j))
       (List.filter contributes fields).

(** The destination record after the source records [records] have been
    merged into it one after the other, the first one with [initializeFlag]
    and the others accumulating. *)
Fixpoint combineRecords (initializeFlag : bool) (o : ChannelStatistics)
    (records : list ChannelStatistics) : ChannelStatistics :=
  match records with
  | [] => o
  | i :: rest =>
      combineRecords false (mergeChannelStatistics initializeFlag o i) rest
  end.

(** The statistics set of every contributing field lies inside
    [fieldChanStatsPtr]. *)
Definition fieldStatisticsStored (p : Project.t) (fields : list Field.t)
    : Prop :=
  Forall (fun f => contributes f = true ->
                   0 <= Field.trainingStatsNumber f /\
                   (Field.trainingStatsNumber f + 1)
                   * Project.numberStatisticsChannels p
                   <= Z.of_nat (length (Project.fieldChanStatsPtr p)))
         fields.

(** One class with two training fields whose statistics are up to date and a
    test field between them; per-field storage, two channels. *)
Definition threeFieldProject : Project.t :=
  Project.mk 1 2 3 0 [0]
    [Class.mk 2 20 20 0 false kOriginalStats 0 dminus_one dzero false false]
    [Field.mk kTrainingType 1 0 10 true true 1;
     Field.mk kTestingType 1 (-1) 10 false false 2;
     Field.mk kTrainingType 1 1 10 true true (-1)]
    kMeanCovariance false false dOne true kOriginalStats false 0 false false
    None [] []
    [exampleStats dOne dOne dzero dOne; exampleStats dtwo dOne dOne dtwo;
     exampleStats dtwo dOne dOne dtwo; exampleStats dOne dOne dzero dtwo]
    [] [] [].

(** * Further routines of the statistics file *)

(** C's [sqrt] and [fabs] on doubles, and [DBL_MAX]. *)
Definition dsqrt : double -> double := SFsqrt prec emax.
Definition dabs : double -> double := SFabs.
Definition DBL_MAX : double := SFmax_float prec emax.

(** ** GetStdDevVectorFromCovariance *)

(** The [for (index...)] loop; [ptr] is the offset of [covariancePtr] in the
    input matrix, [outPtr] that of [outputStdDevPtr], [indexSkip] is a
    UInt32. *)
Fixpoint GetStdDevVectorFromCovariance_loop (count : nat)
    (covariancePtr : list double) (ptr : nat) (indexSkip : Z)
    (squareInputMatrixFlag : bool) (inputStatisticsCode : Z)
    (out : list double) (outPtr : nat) : option (list double) :=
  match count with
  | O => Some out
  | S count' =>
      x ← covariancePtr !! ptr;
      if (outPtr <? length out)%nat then
        let out1 := <[outPtr := dsqrt (dabs x)]> out in
        if inputStatisticsCode =? kMeanCovariance then
          if squareInputMatrixFlag then
            GetStdDevVectorFromCovariance_loop count' covariancePtr
              (ptr + Z.to_nat indexSkip) indexSkip squareInputMatrixFlag
              inputStatisticsCode out1 (S outPtr)
          else
            GetStdDevVectorFromCovariance_loop count' covariancePtr
              (ptr + Z.to_nat indexSkip) (to_UInt32 (indexSkip + 1))
              squareInputMatrixFlag inputStatisticsCode out1 (S outPtr)
        else
          GetStdDevVectorFromCovariance_loop count' covariancePtr (S ptr)
            indexSkip squareInputMatrixFlag inputStatisticsCode out1
            (S outPtr)
      else None
  end.

(** The result is the output vector as the call leaves it; [None] for the
    vector is the NULL pointer, for which nothing is done. *)
Definition GetStdDevVectorFromCovariance (covariancePtr : list double)
    (numberFeatures : Z) (squareInputMatrixFlag : bool)
    (inputStatisticsCode : Z) (outputStdDevPtr : option (list double))
    : option (option (list double)) :=
  match outputStdDevPtr with
  | None => Some None
  | Some out =>
      let indexSkip :=
        if squareInputMatrixFlag then to_UInt32 (numberFeatures + 1) else 2 in
      out' ← GetStdDevVectorFromCovariance_loop (Z.to_nat numberFeatures)
                covariancePtr 0 indexSkip squareInputMatrixFlag
                inputStatisticsCode out 0;
      Some (Some out')
  end.

(** Offset of the k-th variance as [GetStdDevVectorFromCovariance] walks to
    it: the diagonal of the packed matrix for mean-and-covariance
    statistics, the k-th entry otherwise. *)
Definition stdDevSourceIndex (squareInputMatrixFlag : bool)
    (inputStatisticsCode : Z) (n k : nat) : nat :=
  if inputStatisticsCode =? kMeanCovariance
  then matrixIndex squareInputMatrixFlag n k k else k.

(** ** InitializeChannelMaximums and InitializeChannelMinimums *)

Definition set_maximum (v : double) (s : ChannelStatistics)
    : ChannelStatistics :=
  mkChannelStatistics (mean s) (sum s) (standardDev s) (minimum s) v.

Definition set_minimum (v : double) (s : ChannelStatistics)
    : ChannelStatistics :=
  mkChannelStatistics (mean s) (sum s) (standardDev s) v (maximum s).

(** [channelStatsPtr->maximum = -DBL_MAX; channelStatsPtr++] for [count]
    records from offset [ptr]. *)
Fixpoint InitializeChannelMaximums_loop (count : nat)
    (chan : list ChannelStatistics) (ptr : nat)
    : option (list ChannelStatistics) :=
  match count with
  | O => Some chan
  | S count' =>
      s ← chan !! ptr;
      InitializeChannelMaximums_loop count'
        (<[ptr := set_maximum (SFopp DBL_MAX) s]> chan) (S ptr)
  end.

Definition InitializeChannelMaximums
    (channelStatsPtr : option (list ChannelStatistics)) (numberChannels : Z)
    : option (option (list ChannelStatistics)) :=
  match channelStatsPtr with
  | Some chan =>
      if 0 <? numberChannels then
        chan' ← InitializeChannelMaximums_loop (Z.to_nat numberChannels)
                   chan 0;
        Some (Some chan')
      else Some (Some chan)
  | None => Some None
  end.

Fixpoint InitializeChannelMinimums_loop (count : nat)
    (chan : list ChannelStatistics) (ptr : nat)
    : option (list ChannelStatistics) :=
  match count with
  | O => Some chan
  | S count' =>
      s ← chan !! ptr;
      InitializeChannelMinimums_loop count'
        (<[ptr := set_minimum DBL_MAX s]> chan) (S ptr)
  end.

Definition InitializeChannelMinimums
    (channelStatsPtr : option (list ChannelStatistics)) (numberChannels : Z)
    : option (option (list ChannelStatistics)) :=
  match channelStatsPtr with
  | Some chan =>
      if 0 <? numberChannels then
        chan' ← InitializeChannelMinimums_loop (Z.to_nat numberChannels)
                   chan 0;
        Some (Some chan')
      else Some (Some chan)
  | None => Some None
  end.

(** A value a C double can hold, in the sense of [SpecFloat]. *)
Definition isDouble (x : double) : Prop := valid_binary prec emax x = true.

(** ** GetNumberOfPixelsLoadedInClass and DetermineIfSpecifiedStatisticsExist *)

(** C's [a >= b] on doubles. *)
Definition dgeb (a b : double) : bool := SFleb b a.

(** The values a SInt64 holds; arithmetic that leaves them is undefined. *)
Definition inSInt64 (z : Z) : bool :=
  (-9223372036854775808 <=? z) && (z <=? 9223372036854775807).

(** The [while (fieldNumber != -1)] loop; [acc] is
    [numberOfPixelsLoadedInClass]. *)
Fixpoint GetNumberOfPixelsLoadedInClass_walk (fuel : nat)
    (fieldIdentPtr : list Field.t) (fieldNumber : Z) (acc : Z) : option Z :=
  match fuel with
  | O => None
  | S fuel' =>
      if fieldNumber =? -1 then Some acc
      else
        f ← at_ fieldIdentPtr fieldNumber;
        acc' ← (if (Field.fieldType f =? kTrainingType)
                   && Field.loadedIntoClassStats f
                then
                  if inSInt64 (acc + Field.numberPixelsUsedForStats f)
                  then Some (acc + Field.numberPixelsUsedForStats f)
                  else None
                else Some acc);
        GetNumberOfPixelsLoadedInClass_walk fuel' fieldIdentPtr
          (Field.nextField f) acc'
  end.

Definition GetNumberOfPixelsLoadedInClass (fuel : nat) (classNamesPtr : Class.t)
    (fieldIdentPtr : list Field.t) : option Z :=
  GetNumberOfPixelsLoadedInClass_walk fuel fieldIdentPtr
    (Class.firstFieldNumber classNamesPtr) 0.

(** The result is [existFlag] and what the call leaves in
    [*computeCommonCovarianceFlagPtr]. *)
Definition DetermineIfSpecifiedStatisticsExist (fuel : nat) (p : Project.t)
    (classNamesPtr : Class.t) (covarianceStatsToUse : Z)
    : option (bool * bool) :=
  numberOfPixelsLoadedInClass ←
    GetNumberOfPixelsLoadedInClass fuel classNamesPtr (Project.fieldIdentPtr p);
  if 0 <? numberOfPixelsLoadedInClass then
    if covarianceStatsToUse =? kEnhancedStats then Some (true, false)
    else if covarianceStatsToUse =? kLeaveOneOutStats then
      if Class.mixingParameterCode classNamesPtr =? kComputedOptimum then
        if dgeb (Class.looCovarianceValue classNamesPtr) dzero then
          Some (true,
                dgtb (Class.looCovarianceValue classNamesPtr) dOne
                && (Project.numberCommonCovarianceClasses p =? 0))
        else Some (false, false)
      else Some (true, false)
    else Some (true, false)
  else Some (false, false).

(** The pixels of the training fields of [fields] that have been loaded into
    the class statistics. *)
Definition loadedTrainingPixels (fields : list Field.t) : Z :=
  foldl (fun acc f =>
           if (Field.fieldType f =? kTrainingType)
              && Field.loadedIntoClassStats f
           then acc + Field.numberPixelsUsedForStats f else acc)
        0 fields.

(** ** The checks of the mask statistics

    Modelled from the spec: the header that gives [kMaskType] its value is
    not among the sources; the specification lists mask among the point
    types of a field.  The code is a parameter of the routines that test
    it.  The update codes are those the header comment of
    [UpdateStatsControl] documents: 2 for the project, 3 for the active
    class, 4 for the active field. *)
Definition kUpdateProject : Z := 2.
Definition kUpdateClass : Z := 3.
Definition kUpdateField : Z := 4.

Section MaskStatistics.

Variable kMaskType : Z.

(** The [while (fieldNumber != -1)] loop of [CheckIfClassMaskStatsUpToDate];
    [Some false] is the [return (FALSE)] inside it. *)
Fixpoint CheckIfClassMaskStatsUpToDate_walk (fuel : nat)
    (fieldIdentPtr : list Field.t) (fieldNumber : Z) : option bool :=
  match fuel with
  | O => None
  | S fuel' =>
      if fieldNumber =? -1 then Some true
      else
        f ← at_ fieldIdentPtr fieldNumber;
        if (Field.fieldType f =? kTrainingType)
           && (Field.pointType f =? kMaskType)
           && negb (Field.statsUpToDate f)
        then Some false
        else CheckIfClassMaskStatsUpToDate_walk fuel' fieldIdentPtr
               (Field.nextField f)
  end.

Definition CheckIfClassMaskStatsUpToDate (fuel : nat) (p : Project.t)
    (classNumber : Z) : option bool :=
  classStorage ← at_ (Project.storageClass p) classNumber;
  c ← at_ (Project.classNamesPtr p) classStorage;
  if 0 <? Class.numberOfTrainFields c
  then CheckIfClassMaskStatsUpToDate_walk fuel (Project.fieldIdentPtr p)
         (Class.firstFieldNumber c)
  else Some true.

(** The [for (classIndex...)] loop of [CheckIfProjectMaskStatsUpToDate]. *)
Fixpoint CheckIfProjectMaskStatsUpToDate_loop (fuel : nat) (count : nat)
    (classIndex : Z) (p : Project.t) : option bool :=
  match count with
  | O => Some true
  | S count' =>
      upToDate ← CheckIfClassMaskStatsUpToDate fuel p classIndex;
      if (upToDate : bool)
      then CheckIfProjectMaskStatsUpToDate_loop fuel count'
             (to_UInt32 (classIndex + 1)) p
      else Some false
  end.

Definition CheckIfProjectMaskStatsUpToDate (fuel : nat) (p : Project.t)
    : option bool :=
  CheckIfProjectMaskStatsUpToDate_loop fuel
    (Z.to_nat (Project.numberStatisticsClasses p)) 0 p.

(** [numberStorageFields] is the project's count of field records. *)
Definition CheckIfMaskStatsUpToDate (fuel : nat) (p : Project.t)
    (numberStorageFields : Z) (statsUpdateCode classNumber fieldNumber : Z)
    : option bool :=
  if statsUpdateCode =? kUpdateProject
  then CheckIfProjectMaskStatsUpToDate fuel p
  else if statsUpdateCode =? kUpdateClass
  then CheckIfClassMaskStatsUpToDate fuel p classNumber
  else if statsUpdateCode =? kUpdateField then
    if fieldNumber <? to_UInt32 numberStorageFields then
      f ← at_ (Project.fieldIdentPtr p) fieldNumber;
      Some (negb ((Field.pointType f =? kMaskType)
                  && negb (Field.loadedIntoClassStats f)))
    else Some true
  else Some true.

(** Every training field of mask type among [fields] has statistics that
    are up to date. *)
Definition maskFieldsUpToDate (fields : list Field.t) : bool :=
  forallb (fun f => negb ((Field.fieldType f =? kTrainingType)
                          && (Field.pointType f =? kMaskType))
                    || Field.statsUpToDate f) fields.

End MaskStatistics.

(** The field chain of every class with training fields ends within [fuel]
    fields. *)
Definition trainingChainsWithin (fuel : nat) (p : Project.t) : Prop :=
  forall (i : Z) (c : Class.t),
    0 <= i < Project.numberStatisticsClasses p ->
    classRecord p i = Some c ->
    0 < Class.numberOfTrainFields c ->
    exists fields : list Field.t,
      FieldChain (Project.fieldIdentPtr p) (Class.firstFieldNumber c) fields /\
      (length fields < fuel)%nat.

(** The mask statistics of class [classIndex] are in order: the class has no
    training field, or every training field of mask type in its chain has
    statistics that are up to date. *)
Definition classMaskStatsUpToDate (kMaskType : Z) (p : Project.t)
    (classIndex : Z) : Prop :=
  exists c : Class.t,
    classRecord p classIndex = Some c /\
    (Class.numberOfTrainFields c <= 0 \/
     exists fields : list Field.t,
       FieldChain (Project.fieldIdentPtr p) (Class.firstFieldNumber c) fields /\
       maskFieldsUpToDate kMaskType fields = true).

(** ** ReduceStdDevVector and GetClassStdDevVector *)

Definition to_SInt16 (z : Z) : Z := (z + 32768) mod 65536 - 32768.

(** The [for (channel...)] loop; [channel] and [channelIndex] are UInt32,
    the entries of the feature list SInt16; [outPtr] is the offset of
    [outputStdDevPtr]. *)
Fixpoint ReduceStdDevVector_loop (count : nat) (channel : Z)
    (inputChannelStatsPtr : list ChannelStatistics) (out : list double)
    (outPtr : nat) (channelIndex : Z) (featureListPtr : option (list Z))
    : option (list double) :=
  match count with
  | O => Some out
  | S count' =>
      ci ← match featureListPtr with
           | Some l => x ← at_ l channel; Some (to_UInt32 x)
           | None => Some channelIndex
           end;
      s ← at_ inputChannelStatsPtr ci;
      if (outPtr <? length out)%nat then
        ReduceStdDevVector_loop count' (to_UInt32 (channel + 1))
          inputChannelStatsPtr (<[outPtr := standardDev s]> out) (S outPtr)
          (to_UInt32 (ci + 1)) featureListPtr
      else None
  end.

(** The result is the output vector as the call leaves it. *)
Definition ReduceStdDevVector
    (inputChannelStatsPtr : option (list ChannelStatistics))
    (outputStdDevPtr : option (list double)) (numOutFeatures : Z)
    (featureListPtr : option (list Z)) : option (option (list double)) :=
  match inputChannelStatsPtr, outputStdDevPtr with
  | Some input, Some out =>
      out' ← ReduceStdDevVector_loop (Z.to_nat (to_UInt32 numOutFeatures)) 0
                input out 0 0 featureListPtr;
      Some (Some out')
  | _, _ => Some outputStdDevPtr
  end.

(** [GetClassStdDevVector] returns nothing: the result is the two caller
    buffers as the call leaves them.  The UInt16 channel count is passed on
    as a SInt16. *)
Definition GetClassStdDevVector `{Collaborators} (fuel : nat) (p : Project.t)
    (numberOutputChannels : Z)
    (classChannelStatsPtr : option (list ChannelStatistics))
    (outputClassStdDevPtr : option (list double))
    (channelListPtr : option (list Z)) (classNumber : Z)
    : option (option (list ChannelStatistics) * option (list double)) :=
  r ← GetClassChannelStatistics fuel p numberOutputChannels
         classChannelStatsPtr channelListPtr classNumber;
  if (r.2 : bool) then
    out' ← ReduceStdDevVector r.1 outputClassStdDevPtr
              (to_SInt16 numberOutputChannels) None;
    Some (r.1, out')
  else Some (r.1, outputClassStdDevPtr).

(** ** SetClassListMessageFlag *)

Definition Class_set_listMessageFlag (b : bool) (c : Class.t) : Class.t :=
  Class.mk (Class.numberOfTrainFields c) (Class.numberTrainPixels c)
    (Class.numberStatisticsPixels c) (Class.firstFieldNumber c)
    (Class.statsUpToDate c) (Class.covarianceStatsToUse c)
    (Class.mixingParameterCode c) (Class.looCovarianceValue c)
    (Class.userMixingParameter c) (Class.modifiedStatsFlag c) b.

(** The [for (classIndex...)] loop; [classIndex] is a UInt32. *)
Fixpoint SetClassListMessageFlag_loop (count : nat) (classIndex : Z)
    (p : Project.t) (listMessageFlag : bool) : option Project.t :=
  match count with
  | O => Some p
  | S count' =>
      classStorage ← at_ (Project.storageClass p) classIndex;
      c ← at_ (Project.classNamesPtr p) classStorage;
      classNames ← update_at (Project.classNamesPtr p) classStorage
                     (Class_set_listMessageFlag listMessageFlag c);
      SetClassListMessageFlag_loop count' (to_UInt32 (classIndex + 1))
        (Project.set_classNamesPtr classNames p) listMessageFlag
  end.

Definition SetClassListMessageFlag (p : Project.t) (listMessageFlag : bool)
    : option Project.t :=
  SetClassListMessageFlag_loop (Z.to_nat (Project.numberStatisticsClasses p))
    0 p listMessageFlag.

(** Storage slot [s] belongs to one of the classes [0], ..., [k - 1]. *)
Definition slotInUse (p : Project.t) (k : nat) (s : Z) : bool :=
  existsb (fun i => bool_decide (at_ (Project.storageClass p) (Z.of_nat i)
                                 = Some s))
          (seq 0 k).

(** ** ComputeCorrelationFromCovMatrix *)

Definition to_SInt32 (z : Z) : Z := (z + 2147483648) mod 4294967296 - 2147483648.

(** The inner [for (covChan...)] loop of a row whose standard deviation is
    above 0.  [correlationPtr] and [lStdDevVectorPtr2] are the offsets of
    the two pointers in their buffers; [covChan] is a UInt32.  The standard
    deviation is read through [lStdDevVectorPtr2] before the channel list
    moves that pointer. *)
Fixpoint ComputeCorrelationFromCovMatrix_row (count : nat) (covChan : Z)
    (channelStdDev1 : double) (stdDevVectorPtr : list double)
    (channelListPtr : option (list Z)) (correlation : list double)
    (correlationPtr : Z) (lStdDevVectorPtr2 : Z) : option (list double * Z) :=
  match count with
  | O => Some (correlation, correlationPtr)
  | S count' =>
      channelStdDev2 ← at_ stdDevVectorPtr lStdDevVectorPtr2;
      if dgtb channelStdDev2 dzero then
        ptr2 ← match channelListPtr with
               | Some l => at_ l covChan
               | None => Some lStdDevVectorPtr2
               end;
        x ← at_ correlation correlationPtr;
        correlation1 ← update_at correlation correlationPtr
                         (ddiv x (dmul channelStdDev1 channelStdDev2));
        ComputeCorrelationFromCovMatrix_row count' (to_UInt32 (covChan + 1))
          channelStdDev1 stdDevVectorPtr channelListPtr correlation1
          (correlationPtr + 1) (ptr2 + 1)
      else
        correlation1 ← update_at correlation correlationPtr dzero;
        ComputeCorrelationFromCovMatrix_row count' (to_UInt32 (covChan + 1))
          channelStdDev1 stdDevVectorPtr channelListPtr correlation1
          (correlationPtr + 1) (lStdDevVectorPtr2 + 1)
  end.

(** The inner loop of a row whose standard deviation is not above 0. *)
Fixpoint ComputeCorrelationFromCovMatrix_zeroRow (count : nat)
    (correlation : list double) (correlationPtr : Z)
    : option (list double * Z) :=
  match count with
  | O => Some (correlation, correlationPtr)
  | S count' =>
      correlation1 ← update_at correlation correlationPtr dzero;
      ComputeCorrelationFromCovMatrix_zeroRow count' correlation1
        (correlationPtr + 1)
  end.

(** The [for (channel...)] loop; [channel] is a UInt32,
    [lowerLeftIndexSkip] an SInt32. *)
Fixpoint ComputeCorrelationFromCovMatrix_loop (count : nat) (channel : Z)
    (stdDevVectorPtr : list double) (channelListPtr : option (list Z))
    (squareOutputMatrixFlag : bool) (correlation : list double)
    (correlationPtr : Z) (lStdDevVectorPtr1 : Z) (lowerLeftIndexSkip : Z)
    : option (list double) :=
  match count with
  | O => Some correlation
  | S count' =>
      ptr1 ← match channelListPtr with
             | Some l => at_ l channel
             | None => Some lStdDevVectorPtr1
             end;
      channelStdDev1 ← at_ stdDevVectorPtr ptr1;
      r ← (if dgtb channelStdDev1 dzero then
             ComputeCorrelationFromCovMatrix_row (Z.to_nat (channel + 1)) 0
               channelStdDev1 stdDevVectorPtr channelListPtr correlation
               correlationPtr 0
           else
             ComputeCorrelationFromCovMatrix_zeroRow (Z.to_nat (channel + 1))
               correlation correlationPtr);
      if squareOutputMatrixFlag then
        ComputeCorrelationFromCovMatrix_loop count' (to_UInt32 (channel + 1))
          stdDevVectorPtr channelListPtr squareOutputMatrixFlag r.1
          (r.2 + lowerLeftIndexSkip) (ptr1 + 1)
          (to_SInt32 (lowerLeftIndexSkip - 1))
      else
        ComputeCorrelationFromCovMatrix_loop count' (to_UInt32 (channel + 1))
          stdDevVectorPtr channelListPtr squareOutputMatrixFlag r.1
          r.2 (ptr1 + 1) lowerLeftIndexSkip
  end.

(** The result is the correlation buffer as the call leaves it.  The two
    channel counts are UInt16 values. *)
Definition ComputeCorrelationFromCovMatrix (numberOutputChannels : Z)
    (correlationPtr : option (list double)) (numberInputChannels : Z)
    (channelListPtr : option (list Z)) (stdDevVectorPtr : option (list double))
    (squareOutputMatrixFlag : bool) : option (option (list double)) :=
  if (numberOutputChannels =? 0) || (numberInputChannels =? 0)
  then Some correlationPtr
  else
    match stdDevVectorPtr, correlationPtr with
    | Some stdDev, Some correlation =>
        let channelListPtr :=
          if numberOutputChannels =? numberInputChannels then None
          else channelListPtr in
        correlation1 ←
          ComputeCorrelationFromCovMatrix_loop (Z.to_nat numberOutputChannels)
            0 stdDev channelListPtr squareOutputMatrixFlag correlation 0 0
            (numberOutputChannels - 1);
        if squareOutputMatrixFlag then
          correlation2 ← CopyLowerToUpperSquareMatrix
                           (Z.to_nat numberOutputChannels) correlation1;
          Some (Some correlation2)
        else Some (Some correlation1)
    | _, _ => Some correlationPtr
    end.

(** The correlation of two channels from their covariance [x] and their
    standard deviations: 0 unless both standard deviations are above 0. *)
Definition correlationEntry (channelStdDev1 channelStdDev2 x : double)
    : double :=
  if dgtb channelStdDev1 dzero && dgtb channelStdDev2 dzero
  then ddiv x (dmul channelStdDev1 channelStdDev2) else dzero.

(** ** CheckMatrix *)

(** The globals together with [gListOnlyOneMessagePerClassFlag], which the
    message routines own. *)
Record MessageGlobals : Type := mkMessageGlobals {
  baseGlobals : Globals;
  gListOnlyOneMessagePerClassFlag : bool
}.

(** [gProjectInfoPtr->classNamesPtr[classStorage].listMessageFlag = b]. *)
Definition setListMessageFlag (b : bool) (classStorage : Z)
    (m : MessageGlobals) : option MessageGlobals :=
  let p := gProjectInfoPtr (baseGlobals m) in
  c ← at_ (Project.classNamesPtr p) classStorage;
  classNames ← update_at (Project.classNamesPtr p) classStorage
                 (Class_set_listMessageFlag b c);
  Some (mkMessageGlobals
          (mkGlobals (Project.set_classNamesPtr classNames p)
             (gOperationCanceledFlag (baseGlobals m)))
          (gListOnlyOneMessagePerClassFlag m)).

Section CheckMatrix.

(** [ListClassInformationMessage] with the index of the string it lists:
    string index, globals, class number, continue flag.  Its source file is
    not part of this development; the results file stream
    ([GetResultsFileStreamPtr]) and the output code it is handed besides
    are its own business. *)
Variable listClassInformationMessage :
  Z -> MessageGlobals -> Z -> bool -> MessageGlobals * bool.

(** The result is the globals and the matrix as the call leaves them, and
    the returned [continueFlag]. *)
Definition CheckMatrix (m : MessageGlobals)
    (covariancePtr : option (list double)) (squareOutputMatrixFlag : bool)
    (statisticsCode numberFeatures statClassNumber : Z)
    (zeroVarianceStringIndex allCovariancesEqualIndex : Z)
    (useListOneMessagePerClassFlag : bool)
    : option (MessageGlobals * option (list double) * bool) :=
  classStorage ← at_ (Project.storageClass (gProjectInfoPtr (baseGlobals m)))
                   statClassNumber;
  m1 ← (if useListOneMessagePerClassFlag
           && negb (gListOnlyOneMessagePerClassFlag m)
        then setListMessageFlag true classStorage m else Some m);
  r1 ← (if Project.setZeroVarianceFlag (gProjectInfoPtr (baseGlobals m1)) then
          rz ← ResetZeroVariances (gProjectInfoPtr (baseGlobals m1)) covariancePtr
                  squareOutputMatrixFlag statisticsCode numberFeatures;
          if (rz.2 : bool) then
            let lm := listClassInformationMessage zeroVarianceStringIndex m1
                        statClassNumber true in
            Some (lm.1, rz.1, lm.2, true)
          else Some (m1, rz.1, true, false)
        else Some (m1, covariancePtr, true, false));
  let '(m2, covariance2, continueFlag2, messageListedFlag2) := r1 in
  r2 ← (if (continueFlag2 : bool) then
          ra ← ResetForAllVariancesEqual covariance2 squareOutputMatrixFlag
                  statisticsCode numberFeatures;
          if (ra.2 : bool) then
            let lm := listClassInformationMessage allCovariancesEqualIndex m2
                        statClassNumber continueFlag2 in
            Some (lm.1, ra.1, lm.2, true)
          else Some (m2, ra.1, continueFlag2, messageListedFlag2)
        else Some (m2, covariance2, continueFlag2, messageListedFlag2));
  let '(m3, covariance3, continueFlag3, messageListedFlag3) := r2 in
  m4 ← (if useListOneMessagePerClassFlag
           && gListOnlyOneMessagePerClassFlag m3 && messageListedFlag3
        then setListMessageFlag false classStorage m3 else Some m3);
  Some (m4, covariance3, continueFlag3).

End CheckMatrix.

(** A message routine that leaves the globals alone and returns the
    continue flag it was given. *)
Definition quietMessage (stringIndex : Z) (m : MessageGlobals)
    (classNumber : Z) (continueFlag : bool) : MessageGlobals * bool :=
  (m, continueFlag).

(** ** GetProjectChannelMinMaxes *)

(** The loop that sets the channel minimums to [DBL_MAX] and the channel
    maximums to [-DBL_MAX]; [index] is a UInt32.  The two vectors are
    different buffers. *)
Fixpoint GetProjectChannelMinMaxes_init (count : nat) (index : Z)
    (channelMin channelMax : list double)
    : option (list double * list double) :=
  match count with
  | O => Some (channelMin, channelMax)
  | S count' =>
      channelMin1 ← update_at channelMin index DBL_MAX;
      channelMax1 ← update_at channelMax index (SFopp DBL_MAX);
      GetProjectChannelMinMaxes_init count' (to_UInt32 (index + 1))
        channelMin1 channelMax1
  end.

(** The loop that merges the statistics of one class into the two
    vectors. *)
Fixpoint GetProjectChannelMinMaxes_merge (count : nat) (index : Z)
    (classChannelStatsPtr : option (list ChannelStatistics))
    (channelMin channelMax : list double)
    : option (list double * list double) :=
  match count with
  | O => Some (channelMin, channelMax)
  | S count' =>
      chan ← classChannelStatsPtr;
      s ← at_ chan index;
      mn ← at_ channelMin index;
      channelMin1 ← update_at channelMin index (MIN mn (minimum s));
      mx ← at_ channelMax index;
      channelMax1 ← update_at channelMax index (MAX mx (maximum s));
      GetProjectChannelMinMaxes_merge count' (to_UInt32 (index + 1))
        classChannelStatsPtr channelMin1 channelMax1
  end.

(** The [for (classIndex...)] loop; the result of
    [GetClassChannelStatistics] is not looked at. *)
Fixpoint GetProjectChannelMinMaxes_classes `{Collaborators} (fuel : nat)
    (count : nat) (classIndex : Z) (p : Project.t) (numberOutputChannels : Z)
    (classChannelStatsPtr : option (list ChannelStatistics))
    (channelListPtr : option (list Z)) (channelMin channelMax : list double)
    (returnFlag : bool)
    : option (option (list ChannelStatistics) * list double * list double
              * bool) :=
  match count with
  | O => Some (classChannelStatsPtr, channelMin, channelMax, returnFlag)
  | S count' =>
      classStorage ← at_ (Project.storageClass p) classIndex;
      c ← at_ (Project.classNamesPtr p) classStorage;
      if Class.statsUpToDate c then
        r ← GetClassChannelStatistics fuel p numberOutputChannels
               classChannelStatsPtr channelListPtr (to_UInt16 classIndex);
        mm ← GetProjectChannelMinMaxes_merge (Z.to_nat numberOutputChannels)
                0 r.1 channelMin channelMax;
        GetProjectChannelMinMaxes_classes fuel count'
          (to_UInt32 (classIndex + 1)) p numberOutputChannels r.1
          channelListPtr mm.1 mm.2 true
      else
        GetProjectChannelMinMaxes_classes fuel count'
          (to_UInt32 (classIndex + 1)) p numberOutputChannels
          classChannelStatsPtr channelListPtr channelMin channelMax returnFlag
  end.

(** The loop over the two vectors that gives the overall minimum and
    maximum. *)
Fixpoint GetProjectChannelMinMaxes_overall (count : nat) (index : Z)
    (channelMin channelMax : list double) (overallMin overallMax : double)
    : option (double * double) :=
  match count with
  | O => Some (overallMin, overallMax)
  | S count' =>
      mn ← at_ channelMin index;
      mx ← at_ channelMax index;
      GetProjectChannelMinMaxes_overall count' (to_UInt32 (index + 1))
        channelMin channelMax (MIN overallMin mn) (MAX overallMax mx)
  end.

(** The result is the class statistics buffer, the two vectors and the two
    overall values as the call leaves them, and the returned flag. *)
Definition GetProjectChannelMinMaxes `{Collaborators} (fuel : nat)
    (p : Project.t) (numberOutputChannels : Z)
    (classChannelStatsPtr : option (list ChannelStatistics))
    (channelListPtr : option (list Z)) (channelMin channelMax : list double)
    (overallMin overallMax : double)
    : option (option (list ChannelStatistics) * list double * list double
              * double * double * bool) :=
  if 0 <? Project.numberStatisticsClasses p then
    mm ← GetProjectChannelMinMaxes_init (Z.to_nat numberOutputChannels) 0
            channelMin channelMax;
    r ← GetProjectChannelMinMaxes_classes fuel
           (Z.to_nat (Project.numberStatisticsClasses p)) 0 p
           numberOutputChannels classChannelStatsPtr channelListPtr mm.1 mm.2
           false;
    if (r.2 : bool) then
      o ← GetProjectChannelMinMaxes_overall (Z.to_nat numberOutputChannels) 0
             r.1.1.2 r.1.2 DBL_MAX (SFopp DBL_MAX);
      Some (r.1.1.1, r.1.1.2, r.1.2, o.1, o.2, true)
    else Some (r.1.1.1, r.1.1.2, r.1.2, DBL_MAX, SFopp DBL_MAX, false)
  else Some (classChannelStatsPtr, channelMin, channelMax, overallMin,
             overallMax, false).

(** Some class of the project is marked up to date. *)
Definition someClassUpToDate (p : Project.t) (k : Z) : Prop :=
  exists (i : Z) (c : Class.t),
    0 <= i < k /\ classRecord p i = Some c /\ Class.statsUpToDate c = true.

(** ** FinishFieldMaskStatsUpdate and FinishClassMaskStatsUpdate *)

(** The project record with the fields these routines use beside those of
    [Project.t]: the count of field records, the [numberPixels] of each
    field record (entry i belongs to [fieldIdentPtr[i]]), [changedFlag] and
    [statsLoaded]. *)
Record MaskProject : Type := mkMaskProject {
  maskProject : Project.t;
  numberStorageFields : Z;
  fieldNumberPixels : list Z;
  changedFlag : bool;
  statsLoaded : bool
}.

Definition Field_set_statsUpToDate (b : bool) (f : Field.t) : Field.t :=
  Field.mk (Field.fieldType f) (Field.pointType f)
    (Field.trainingStatsNumber f) (Field.numberPixelsUsedForStats f) b
    (Field.loadedIntoClassStats f) (Field.nextField f).

Definition Field_set_loadedIntoClassStats (b : bool) (f : Field.t) : Field.t :=
  Field.mk (Field.fieldType f) (Field.pointType f)
    (Field.trainingStatsNumber f) (Field.numberPixelsUsedForStats f)
    (Field.statsUpToDate f) b (Field.nextField f).

Definition Class_set_numberStatisticsPixels (v : Z) (c : Class.t) : Class.t :=
  Class.mk (Class.numberOfTrainFields c) (Class.numberTrainPixels c) v
    (Class.firstFieldNumber c) (Class.statsUpToDate c)
    (Class.covarianceStatsToUse c) (Class.mixingParameterCode c)
    (Class.looCovarianceValue c) (Class.userMixingParameter c)
    (Class.modifiedStatsFlag c) (Class.listMessageFlag c).

Definition Project_set_fieldIdentPtr (v : list Field.t) (p : Project.t)
    : Project.t :=
  Project.mk (Project.numberStatisticsClasses p)
    (Project.numberStatisticsChannels p) (Project.numberCovarianceEntries p)
    (Project.currentClass p) (Project.storageClass p)
    (Project.classNamesPtr p) v (Project.statisticsCode p)
    (Project.keepClassStatsOnlyFlag p) (Project.setZeroVarianceFlag p)
    (Project.zeroVarianceFactor p) (Project.statsUpToDate p)
    (Project.covarianceStatsToUse p) (Project.enhancedStatsExistFlag p)
    (Project.numberCommonCovarianceClasses p)
    (Project.useCommonCovarianceInLOOCFlag p)
    (Project.localCommonCovarianceLoadedFlag p)
    (Project.commonCovarianceStatsHandle p) (Project.classChanStatsPtr p)
    (Project.classSumSquaresStatsPtr p) (Project.fieldChanStatsPtr p)
    (Project.fieldSumSquaresStatsPtr p) (Project.modifiedClassChanStatsPtr p)
    (Project.modifiedClassCovStatsPtr p).

Definition Project_set_fieldChanStatsPtr (v : list ChannelStatistics)
    (p : Project.t) : Project.t :=
  Project.mk (Project.numberStatisticsClasses p)
    (Project.numberStatisticsChannels p) (Project.numberCovarianceEntries p)
    (Project.currentClass p) (Project.storageClass p)
    (Project.classNamesPtr p) (Project.fieldIdentPtr p)
    (Project.statisticsCode p) (Project.keepClassStatsOnlyFlag p)
    (Project.setZeroVarianceFlag p) (Project.zeroVarianceFactor p)
    (Project.statsUpToDate p) (Project.covarianceStatsToUse p)
    (Project.enhancedStatsExistFlag p)
    (Project.numberCommonCovarianceClasses p)
    (Project.useCommonCovarianceInLOOCFlag p)
    (Project.localCommonCovarianceLoadedFlag p)
    (Project.commonCovarianceStatsHandle p) (Project.classChanStatsPtr p)
    (Project.classSumSquaresStatsPtr p) v
    (Project.fieldSumSquaresStatsPtr p) (Project.modifiedClassChanStatsPtr p)
    (Project.modifiedClassCovStatsPtr p).

Definition MaskProject_set_project (p : Project.t) (m : MaskProject)
    : MaskProject :=
  mkMaskProject p (numberStorageFields m) (fieldNumberPixels m)
    (changedFlag m) (statsLoaded m).

Section MaskStatisticsUpdate.

Context `{Collaborators}.
Variable kMaskType : Z.

(** [fieldNumber] is a UInt32.  The statistics of statistics set
    [trainingStatsNumber] are addressed as [CombineFieldStatistics]
    addresses them. *)
Definition FinishFieldMaskStatsUpdate (m : MaskProject) (fieldNumber : Z)
    : option MaskProject :=
  let p := maskProject m in
  if to_UInt32 (numberStorageFields m) <=? fieldNumber then Some m
  else
    f ← at_ (Project.fieldIdentPtr p) fieldNumber;
    if negb (Field.fieldType f =? kTrainingType)
       || negb (Field.pointType f =? kMaskType)
    then Some m
    else if Field.statsUpToDate f then Some m
    else
      m1 ← (if negb (Project.keepClassStatsOnlyFlag p) then
              let chanOffset :=
                Field.trainingStatsNumber f
                * Project.numberStatisticsChannels p in
              fieldChanPtr ← from_ (Project.fieldChanStatsPtr p) chanOffset;
              fieldSumSquaresPtr ←
                from_ (Project.fieldSumSquaresStatsPtr p)
                      (Field.trainingStatsNumber f
                       * Project.numberCovarianceEntries p);
              numberPixels ← at_ (fieldNumberPixels m) fieldNumber;
              fields ← update_at (Project.fieldIdentPtr p) fieldNumber
                         (Field_set_statsUpToDate true f);
              Some (mkMaskProject
                      (Project_set_fieldIdentPtr fields
                         (Project_set_fieldChanStatsPtr
                            (store_ (Project.fieldChanStatsPtr p) chanOffset
                               (ComputeMeanStdDevVector fieldChanPtr
                                  fieldSumSquaresPtr
                                  (Project.numberStatisticsChannels p)
                                  numberPixels (Project.statisticsCode p)
                                  kTriangleInputMatrix))
                            p))
                      (numberStorageFields m) (fieldNumberPixels m) true
                      (statsLoaded m))
            else Some m);
      Some (mkMaskProject (maskProject m1) (numberStorageFields m1)
              (fieldNumberPixels m1) (changedFlag m1) true).

(** The [while (fieldNumber != -1)] loop of [FinishClassMaskStatsUpdate];
    [fieldNumber] is an SInt16, [numberStatisticsPixels] an SInt64.  The
    field record is read after [FinishFieldMaskStatsUpdate] has run. *)
Fixpoint FinishClassMaskStatsUpdate_walk (fuel : nat) (m : MaskProject)
    (classStorage : Z) (fieldNumber : Z) : option MaskProject :=
  match fuel with
  | O => None
  | S fuel' =>
      if fieldNumber =? -1 then Some m
      else
        m1 ← FinishFieldMaskStatsUpdate m (to_UInt32 fieldNumber);
        let p1 := maskProject m1 in
        f ← at_ (Project.fieldIdentPtr p1) fieldNumber;
        m2 ← (if (Field.pointType f =? kMaskType)
                 && (Field.fieldType f =? kTrainingType)
                 && negb (Field.loadedIntoClassStats f)
              then
                c ← at_ (Project.classNamesPtr p1) classStorage;
                let pixels := Class.numberStatisticsPixels c
                              + Field.numberPixelsUsedForStats f in
                if inSInt64 pixels then
                  classNames ← update_at (Project.classNamesPtr p1)
                                 classStorage
                                 (Class_set_numberStatisticsPixels pixels c);
                  fields ← update_at (Project.fieldIdentPtr p1) fieldNumber
                             (Field_set_loadedIntoClassStats true f);
                  Some (MaskProject_set_project
                          (Project_set_fieldIdentPtr fields
                             (Project.set_classNamesPtr classNames p1))
                          m1)
                else None
              else Some m1);
        FinishClassMaskStatsUpdate_walk fuel' m2 classStorage
          (Field.nextField f)
  end.

Definition FinishClassMaskStatsUpdate (fuel : nat) (m : MaskProject)
    (classNumber : Z) : option MaskProject :=
  let p := maskProject m in
  if Project.numberStatisticsClasses p <=? classNumber then Some m
  else
    classStorage ← at_ (Project.storageClass p) classNumber;
    c ← at_ (Project.classNamesPtr p) classStorage;
    if (0 <? Class.numberOfTrainFields c) && negb (Class.statsUpToDate c)
    then FinishClassMaskStatsUpdate_walk fuel m classStorage
           (Class.firstFieldNumber c)
    else Some m.

(** A mask training field. *)
Definition isMaskTrainingField (f : Field.t) : bool :=
  (Field.fieldType f =? kTrainingType) && (Field.pointType f =? kMaskType).

(** The field record as [FinishClassMaskStatsUpdate] leaves it: a mask
    training field is loaded into the class statistics and, with per-field
    storage, its statistics are up to date. *)
Definition finishedField (keepClassStatsOnlyFlag : bool) (f : Field.t)
    : Field.t :=
  if isMaskTrainingField f then
    Field_set_loadedIntoClassStats true
      (if keepClassStatsOnlyFlag then f else Field_set_statsUpToDate true f)
  else f.

(** The pixels of the mask training fields of [fields] that are not yet
    loaded into the class statistics. *)
Definition pendingMaskPixels (fields : list Field.t) : Z :=
  foldr (fun f acc =>
           if isMaskTrainingField f && negb (Field.loadedIntoClassStats f)
           then Field.numberPixelsUsedForStats f + acc else acc)
        0 fields.

(** The statistics memory of a mask training field that is not up to date
    lies within the field statistics of the project. *)
Definition fieldStatisticsWithin (p : Project.t) (f : Field.t) : Prop :=
  isMaskTrainingField f = true -> Field.statsUpToDate f = false ->
  0 <= Field.trainingStatsNumber f * Project.numberStatisticsChannels p
    <= Z.of_nat (length (Project.fieldChanStatsPtr p)) /\
  0 <= Field.trainingStatsNumber f * Project.numberCovarianceEntries p
    <= Z.of_nat (length (Project.fieldSumSquaresStatsPtr p)).

End MaskStatisticsUpdate.

(** The numbers of the fields of a chain that starts at [fieldNumber]. *)
Fixpoint chainNumbers (fieldNumber : Z) (fields : list Field.t) : list Z :=
  match fields with
  | [] => []
  | f :: rest => fieldNumber :: chainNumbers (Field.nextField f) rest
  end.

(** What [FinishFieldMaskStatsUpdate] and [FinishClassMaskStatsUpdate] never
    change: the class count, the storage map, the storage mode, the sizes of
    the tables and of the statistics memory, the sums of squares and the
    pixel counts of the fields. *)
Definition maskFrame (m m' : MaskProject) : Prop :=
  let p := maskProject m in
  let p' := maskProject m' in
  Project.numberStatisticsClasses p' = Project.numberStatisticsClasses p /\
  Project.storageClass p' = Project.storageClass p /\
  Project.keepClassStatsOnlyFlag p' = Project.keepClassStatsOnlyFlag p /\
  Project.numberStatisticsChannels p' = Project.numberStatisticsChannels p /\
  Project.numberCovarianceEntries p' = Project.numberCovarianceEntries p /\
  length (Project.fieldIdentPtr p') = length (Project.fieldIdentPtr p) /\
  length (Project.classNamesPtr p') = length (Project.classNamesPtr p) /\
  length (Project.fieldChanStatsPtr p')
  = length (Project.fieldChanStatsPtr p) /\
  Project.fieldSumSquaresStatsPtr p' = Project.fieldSumSquaresStatsPtr p /\
  numberStorageFields m' = numberStorageFields m /\
  fieldNumberPixels m' = fieldNumberPixels m.

(** One class in storage slot 0, not up to date, whose only field is a mask
    training field (the mask point type taken as 2) of 10 pixels that has
    not been processed; per-field storage, two channels. *)
Definition maskExampleProject : MaskProject :=
  mkMaskProject
    (Project.mk 1 2 3 0 [0] [exampleClass false kOriginalStats false]
       [Field.mk kTrainingType 2 0 10 false false (-1)] kMeanCovariance false
       true dOne false kOriginalStats false 0 false false None [] []
       [exampleStats dOne dOne dzero dOne; exampleStats dtwo dOne dzero dtwo]
       [dOne; dOne; dtwo] [] [])
    1 [10] false false.

(** ** GetEigenStatisticsFeatures *)

(** The fields of the global [gTransformationMatrix] the routine reads; the
    handle of the list of eigenvector channels is [None] when it is NULL. *)
Module TransformationMatrix.
Record t : Type := mk {
  numberChannels : Z;
  eigenFeatureHandle : option (list Z);
  createdByCode : Z
}.
End TransformationMatrix.

(** The [while] loop that moves [index2] to the next project channel equal
    to [feature]; the channel is read before [index2] is compared with the
    channel count.  [index2] grows by one in each round and stops at
    [numberStatisticsChannels], which bounds the rounds by [fuel]. *)
Fixpoint GetEigenStatisticsFeatures_search (fuel : nat) (feature : Z)
    (channelsPtr : list Z) (index2 numberStatisticsChannels : Z) : option Z :=
  match fuel with
  | O => None
  | S fuel' =>
      channel ← at_ channelsPtr index2;
      if negb (feature =? to_UInt16 channel)
         && (index2 <? numberStatisticsChannels)
      then GetEigenStatisticsFeatures_search fuel' feature channelsPtr
             (to_UInt32 (index2 + 1)) numberStatisticsChannels
      else Some index2
  end.

(** The [for (index...)] loop over the features of [featurePtr]; the result
    is the output list and [index2]. *)
Fixpoint GetEigenStatisticsFeatures_loop (count : nat) (index : Z)
    (featurePtr channelsPtr : list Z) (numberStatisticsChannels : Z)
    (statEigenFeaturePtr : list Z) (index2 : Z) : option (list Z * Z) :=
  match count with
  | O => Some (statEigenFeaturePtr, index2)
  | S count' =>
      feature ← at_ featurePtr index;
      index2' ← GetEigenStatisticsFeatures_search
                  (S (Z.to_nat numberStatisticsChannels)) feature channelsPtr
                  index2 numberStatisticsChannels;
      stat ← update_at statEigenFeaturePtr index
               (if index2' <? numberStatisticsChannels
                then to_UInt16 index2'
                else to_UInt16 (numberStatisticsChannels - 1));
      GetEigenStatisticsFeatures_loop count' (to_UInt32 (index + 1))
        featurePtr channelsPtr numberStatisticsChannels stat index2'
  end.

(** [channelsPtr] is the project's list of channels,
    [gProjectInfoPtr->channelsPtr]; [gProjectInfoPtr] is [None] when it is
    NULL.  The result is the output list as the call leaves it and the
    returned flag. *)
Definition GetEigenStatisticsFeatures
    (gTransformationMatrix : TransformationMatrix.t)
    (gProjectInfoPtr : option Project.t) (channelsPtr : list Z)
    (statEigenFeaturePtr outputFeaturePtr : list Z) (numberFeatures : Z)
    : option (list Z * bool) :=
  let numberEigenFeatures :=
    to_UInt32 (TransformationMatrix.numberChannels gTransformationMatrix) in
  match TransformationMatrix.eigenFeatureHandle gTransformationMatrix,
        gProjectInfoPtr with
  | Some eigenFeaturePtr, Some p =>
      if 0 <? numberEigenFeatures then
        let numberStatisticsChannels :=
          to_UInt32 (Project.numberStatisticsChannels p) in
        if TransformationMatrix.createdByCode gTransformationMatrix <? 16 then
          r ← GetEigenStatisticsFeatures_loop (Z.to_nat numberEigenFeatures)
                 0 eigenFeaturePtr channelsPtr numberStatisticsChannels
                 statEigenFeaturePtr 0;
          Some (r.1, r.2 <? numberStatisticsChannels)
        else
          r ← GetEigenStatisticsFeatures_loop
                 (Z.to_nat (to_UInt32 numberFeatures)) 0 outputFeaturePtr
                 channelsPtr numberStatisticsChannels statEigenFeaturePtr 0;
          Some (r.1, true)
      else Some (statEigenFeaturePtr, false)
  | _, _ => Some (statEigenFeaturePtr, false)
  end.

(** The features of [featurePtr] are the project channels at [positions],
    which do not decrease. *)
Definition featuresAt (featurePtr channelsPtr : list Z) (positions : list nat)
    : Prop :=
  (forall (i : nat) (pos : nat),
     positions !! i = Some pos ->
     featurePtr !! i = to_UInt16 <$> channelsPtr !! pos) /\
  (forall (i i' : nat) (a b : nat),
     (i <= i')%nat -> positions !! i = Some a -> positions !! i' = Some b ->
     (a <= b)%nat).

(** ** Question and partition

    The decision-tree helpers of the random-forest classifier.  A sample is
    a row of doubles, the channel values followed by the class number; a
    vector of samples holds pointers to the rows, which are not written. *)

Definition Question (column : Z) (value : double) (data : list double)
    : option bool :=
  x ← at_ data column;
  Some (dgeb x value).

(** The [for (i...)] loop of [partition]; [push_back] appends to the vectors
    the caller passed. *)
Fixpoint partition_loop (count : nat) (i : Z) (sample : list (list double))
    (true_rows false_rows : list (list double)) (column : Z) (value : double)
    : option (list (list double) * list (list double)) :=
  match count with
  | O => Some (true_rows, false_rows)
  | S count' =>
      row ← at_ sample i;
      answer ← Question column value row;
      if (answer : bool) then
        partition_loop count' (i + 1) sample (true_rows ++ [row]) false_rows
          column value
      else
        partition_loop count' (i + 1) sample true_rows (false_rows ++ [row])
          column value
  end.

Definition partition (sample true_rows false_rows : list (list double))
    (column : Z) (value : double)
    : option (list (list double) * list (list double)) :=
  partition_loop (length sample) 0 sample true_rows false_rows column value.

(** The rows for which [Question] answers true. *)
Definition answersTrue (column : Z) (value : double) (row : list double)
    : bool :=
  match Question column value row with
  | Some answer => answer
  | None => false
  end.

(** ** ClearFieldStatisticsMemory and ClearClassStatisticsMemory *)

Definition Project_set_fieldSumSquaresStatsPtr (v : list double)
    (p : Project.t) : Project.t :=
  Project.mk (Project.numberStatisticsClasses p)
    (Project.numberStatisticsChannels p) (Project.numberCovarianceEntries p)
    (Project.currentClass p) (Project.storageClass p)
    (Project.classNamesPtr p) (Project.fieldIdentPtr p)
    (Project.statisticsCode p) (Project.keepClassStatsOnlyFlag p)
    (Project.setZeroVarianceFlag p) (Project.zeroVarianceFactor p)
    (Project.statsUpToDate p) (Project.covarianceStatsToUse p)
    (Project.enhancedStatsExistFlag p)
    (Project.numberCommonCovarianceClasses p)
    (Project.useCommonCovarianceInLOOCFlag p)
    (Project.localCommonCovarianceLoadedFlag p)
    (Project.commonCovarianceStatsHandle p) (Project.classChanStatsPtr p)
    (Project.classSumSquaresStatsPtr p) (Project.fieldChanStatsPtr p) v
    (Project.modifiedClassChanStatsPtr p) (Project.modifiedClassCovStatsPtr p).

Definition Project_set_classSumSquaresStatsPtr (v : list double)
    (p : Project.t) : Project.t :=
  Project.mk (Project.numberStatisticsClasses p)
    (Project.numberStatisticsChannels p) (Project.numberCovarianceEntries p)
    (Project.currentClass p) (Project.storageClass p)
    (Project.classNamesPtr p) (Project.fieldIdentPtr p)
    (Project.statisticsCode p) (Project.keepClassStatsOnlyFlag p)
    (Project.setZeroVarianceFlag p) (Project.zeroVarianceFactor p)
    (Project.statsUpToDate p) (Project.covarianceStatsToUse p)
    (Project.enhancedStatsExistFlag p)
    (Project.numberCommonCovarianceClasses p)
    (Project.useCommonCovarianceInLOOCFlag p)
    (Project.localCommonCovarianceLoadedFlag p)
    (Project.commonCovarianceStatsHandle p) (Project.classChanStatsPtr p) v
    (Project.fieldChanStatsPtr p) (Project.fieldSumSquaresStatsPtr p)
    (Project.modifiedClassChanStatsPtr p) (Project.modifiedClassCovStatsPtr p).

Section ClearStatisticsMemory.

Context `{Collaborators}.

(** Modelled from the spec: the header that gives [kClusterType] its value
    is not among the sources; the specification lists cluster among the
    point types of a field.  The code is a parameter of the routines that
    test it. *)
Variable kClusterType : Z.

(** [fieldNumber] is a UInt32. *)
Definition ClearFieldStatisticsMemory (m : MaskProject) (fieldNumber : Z)
    : option MaskProject :=
  let p := maskProject m in
  if to_UInt32 (numberStorageFields m) <=? fieldNumber then Some m
  else
    f ← at_ (Project.fieldIdentPtr p) fieldNumber;
    if negb (Field.fieldType f =? kTrainingType) then Some m
    else if Field.pointType f =? kClusterType then Some m
    else if negb (Project.keepClassStatsOnlyFlag p)
            && negb (Field.statsUpToDate f)
    then
      let chanOffset :=
        Field.trainingStatsNumber f * Project.numberStatisticsChannels p in
      let sumSquaresOffset :=
        Field.trainingStatsNumber f * Project.numberCovarianceEntries p in
      fieldChanPtr ← from_ (Project.fieldChanStatsPtr p) chanOffset;
      fieldSumSquaresPtr ←
        from_ (Project.fieldSumSquaresStatsPtr p) sumSquaresOffset;
      let r := ZeroStatisticsMemory fieldChanPtr fieldSumSquaresPtr
                 (Project.numberStatisticsChannels p)
                 (Project.statisticsCode p) kTriangleOutputMatrix in
      Some (MaskProject_set_project
              (Project_set_fieldSumSquaresStatsPtr
                 (store_ (Project.fieldSumSquaresStatsPtr p) sumSquaresOffset
                    r.2)
                 (Project_set_fieldChanStatsPtr
                    (store_ (Project.fieldChanStatsPtr p) chanOffset r.1) p))
              m)
    else Some m.

(** The [while (fieldNumber != -1)] loop of [ClearClassStatisticsMemory];
    [fieldNumber] is an SInt16. *)
Fixpoint ClearClassStatisticsMemory_walk (fuel : nat) (m : MaskProject)
    (fieldNumber : Z) : option MaskProject :=
  match fuel with
  | O => None
  | S fuel' =>
      if fieldNumber =? -1 then Some m
      else
        m1 ← ClearFieldStatisticsMemory m (to_UInt32 fieldNumber);
        f ← at_ (Project.fieldIdentPtr (maskProject m1)) fieldNumber;
        ClearClassStatisticsMemory_walk fuel' m1 (Field.nextField f)
  end.

Definition ClearClassStatisticsMemory (fuel : nat) (m : MaskProject)
    (classNumber : Z) : option MaskProject :=
  let p := maskProject m in
  if Project.numberStatisticsClasses p <=? classNumber then Some m
  else
    classStorage ← at_ (Project.storageClass p) classNumber;
    c ← at_ (Project.classNamesPtr p) classStorage;
    if (0 <? Class.numberOfTrainFields c) && negb (Class.statsUpToDate c)
    then
      pixels ← GetNumberOfPixelsLoadedInClass fuel c (Project.fieldIdentPtr p);
      classNames ← update_at (Project.classNamesPtr p) classStorage
                     (Class_set_numberStatisticsPixels pixels c);
      let p1 := Project.set_classNamesPtr classNames p in
      if Project.keepClassStatsOnlyFlag p1 && (pixels =? 0) then
        let chanOffset := classStorage * Project.numberStatisticsChannels p1 in
        let sumSquaresOffset :=
          classStorage * Project.numberCovarianceEntries p1 in
        classChanPtr ← from_ (Project.classChanStatsPtr p1) chanOffset;
        classSumSquaresPtr ←
          from_ (Project.classSumSquaresStatsPtr p1) sumSquaresOffset;
        let r := ZeroStatisticsMemory classChanPtr classSumSquaresPtr
                   (Project.numberStatisticsChannels p1)
                   (Project.statisticsCode p1) kTriangleOutputMatrix in
        Some (MaskProject_set_project
                (Project_set_classSumSquaresStatsPtr
                   (store_ (Project.classSumSquaresStatsPtr p1)
                      sumSquaresOffset r.2)
                   (Project.set_classChanStatsPtr
                      (store_ (Project.classChanStatsPtr p1) chanOffset r.1)
                      p1))
                m)
      else
        ClearClassStatisticsMemory_walk fuel (MaskProject_set_project p1 m)
          (Class.firstFieldNumber c)
    else Some m.

(** A field whose statistics memory [ClearFieldStatisticsMemory] zeroes: a
    training field that is not a cluster field and whose statistics are not
    up to date, in a project with per-field storage. *)
Definition isCleared (keepClassStatsOnlyFlag : bool) (f : Field.t) : bool :=
  (Field.fieldType f =? kTrainingType)
  && negb (Field.pointType f =? kClusterType)
  && negb keepClassStatsOnlyFlag && negb (Field.statsUpToDate f).

End ClearStatisticsMemory.

(** ** What CombineFieldStatistics combines *)

(** The statistics memory of field [f]: its channel statistics and its sums
    of squares, as [CombineFieldStatistics] addresses them. *)
Definition fieldStatisticsOf (p : Project.t) (f : Field.t)
    : option (list ChannelStatistics * list double) :=
  fieldChanPtr ←
    from_ (Project.fieldChanStatsPtr p)
          (Field.trainingStatsNumber f * Project.numberStatisticsChannels p);
  fieldSumSquaresPtr ←
    from_ (Project.fieldSumSquaresStatsPtr p)
          (Field.trainingStatsNumber f * Project.numberCovarianceEntries p);
  Some (fieldChanPtr, fieldSumSquaresPtr).

(** The caller's buffers after the statistics [sources] have been added to
    them one after the other with [AddToClassStatistics]. *)
Definition combineStatistics `{Collaborators} (p : Project.t)
    (numberOutputChannels : Z) (outputChannelListPtr : option (list Z))
    (squareOutputMatrixFlag : bool) (outputStatisticsCode : Z)
    (buffers : list ChannelStatistics * list double)
    (sources : list (list ChannelStatistics * list double))
    : list ChannelStatistics * list double :=
  foldl (fun acc source =>
           AddToClassStatistics numberOutputChannels acc.1 acc.2
             (Project.numberStatisticsChannels p) outputChannelListPtr
             source.1 source.2 squareOutputMatrixFlag
             (Project.statisticsCode p) outputStatisticsCode)
        buffers sources.

(** ** Example data for the accessors without a status *)

(** Modelled from the spec: [ZeroStatisticsMemory] and [ReduceInputMatrix]
    are defined in source files that are not part of this development.  The
    specification has the statistics of a class merged into a freshly zeroed
    accumulator and gives the reduction without a channel list as the
    identity projection; here [ZeroStatisticsMemory] clears both buffers and
    [ReduceInputMatrix] copies the triangular input matrix into the output
    matrix.  The other collaborators are those of [meanCollaborators]. *)
Definition clearingCollaborators : Collaborators := {|
  ComputeMeanStdDevVector := fun chan _ _ _ _ _ => chan;
  ComputeMeanVector := @ComputeMeanVector meanCollaborators;
  ReduceMeanVector := @ReduceMeanVector meanCollaborators;
  ReduceInputMatrix := fun _ out _ _ input _ =>
    imap (fun i x => default x (input !! i)) out;
  ZeroStatisticsMemory := fun chan sumsq _ _ _ =>
    (map (fun _ => mkChannelStatistics dzero dzero dzero dzero dzero) chan,
     map (fun _ => dzero) sumsq);
  AddToClassStatistics := fun _ chan sumsq _ _ _ _ _ _ _ => (chan, sumsq);
  ComputeCovarianceMatrix := fun _ cov _ _ chan _ _ => (chan, cov);
  GetLOOCovariance := fun _ _ _ _ cov _ _ => cov;
  ZeroMatrix := fun m _ _ _ => map (fun _ => dzero) m;
  UpdateProjectLOOStats := fun g => g;
  ListClassInformationMessage := fun g _ continueFlag => (g, continueFlag);
  GetCommonCovarianceWeightsIndex := fun _ => 0;
  GetTotalProbability := fun _ _ _ _ => dOne;
  GetClassWeightValue := fun _ _ _ _ => dOne
|}.

(** One class in storage slot 0 with [numberOfTrainFields] training fields
    and [numberStatisticsPixels] pixels in its statistics, class-only
    storage, two channels; with [modifiedStatsFlag] the class has the
    enhanced covariance (2.0, 1.0, 2.0) stored. *)
Definition silentProject (numberOfTrainFields numberStatisticsPixels : Z)
    (modifiedStatsFlag : bool) : Project.t :=
  Project.mk 1 2 3 0 [0]
    [Class.mk numberOfTrainFields 10 numberStatisticsPixels (-1) true
       kOriginalStats 0 dminus_one dzero modifiedStatsFlag false]
    [] kMeanCovariance true false dOne true kOriginalStats modifiedStatsFlag
    0 false false None
    [mkChannelStatistics dOne (dofZ 10) dminus_one dzero (dofZ 5);
     mkChannelStatistics dtwo (dofZ 20) dminus_one dOne (dofZ 7)]
    [dOne; dzero; dOne] [] []
    [exampleStats dtwo dOne dOne dtwo; exampleStats dOne dOne dzero dOne]
    [dtwo; dOne; dtwo].


(** ** Example data for a cancelled leave-one-out pass *)



(* ===================================================================== *)
(** * Properties *)
(* ===================================================================== *)

(** ** Arithmetic of the packed layout *)

Lemma existsb_ext_in {A : Type} (f g : A -> bool) (l : list A) :
  (forall a, In a l -> f a = g a) -> existsb f l = existsb g l.
Proof.
  induction l as [|a l IH]; intros H; [done|].
  cbn. rewrite (H a), IH; [done| |by left].
  intros b Hb. apply H. by right.
Qed.

Lemma triangle_succ (k : nat) :
  (S k * (S k + 1) / 2 = k * (k + 1) / 2 + S k)%nat.
Proof.
  replace (S k * (S k + 1))%nat with (k * (k + 1) + S k * 2)%nat by lia.
  apply Nat.div_add. lia.
Qed.

Lemma varianceIndex_succ sq code n k :
  varianceIndex sq code n (S k) =
  (varianceIndex sq code n k +
   (if (code =? kMeanStdDevOnly)%Z then 1
    else if sq then n + 1 else k + 2))%nat.
Proof.
  unfold varianceIndex, matrixIndex.
  destruct (code =? kMeanStdDevOnly); [lia|].
  destruct sq; [lia|].
  rewrite triangle_succ. lia.
Qed.

Lemma varianceIndex_lt sq code n k k' :
  (k < k')%nat -> (varianceIndex sq code n k < varianceIndex sq code n k')%nat.
Proof.
  induction 1 as [|k' _ IH].
  - rewrite varianceIndex_succ.
    destruct (code =? kMeanStdDevOnly); [lia|]. destruct sq; lia.
  - rewrite varianceIndex_succ.
    destruct (code =? kMeanStdDevOnly); [lia|]. destruct sq; lia.
Qed.

Lemma varianceIndex_inj sq code n k k' :
  varianceIndex sq code n k = varianceIndex sq code n k' -> k = k'.
Proof.
  intros H. destruct (Nat.lt_trichotomy k k') as [Hlt|[->|Hlt]]; [|done|];
    apply (varianceIndex_lt sq code n) in Hlt; lia.
Qed.

Lemma isVarianceIndex_true sq code n from count j :
  isVarianceIndex sq code n from count j = true <->
  exists k, (from <= k < from + count)%nat /\ j = varianceIndex sq code n k.
Proof.
  unfold isVarianceIndex. rewrite existsb_exists. split.
  - intros (k & Hin & Heq). apply in_seq in Hin. apply Nat.eqb_eq in Heq. eauto.
  - intros (k & Hin & Heq). exists k. split; [by apply in_seq|by apply Nat.eqb_eq].
Qed.

Lemma hasZeroVariance_true sq code n cov from count :
  hasZeroVariance sq code n cov from count = true <->
  exists k x, (from <= k < from + count)%nat /\
              cov !! varianceIndex sq code n k = Some x /\ deqb x dzero = true.
Proof.
  unfold hasZeroVariance. rewrite existsb_exists. split.
  - intros (k & Hin & Heq). apply in_seq in Hin.
    destruct (cov !! _) as [x|] eqn:E; [|done]. eauto 6.
  - intros (k & x & Hin & E & Hz). exists k. split; [by apply in_seq|].
    by rewrite E.
Qed.

(** ** ResetZeroVariances *)

Lemma to_UInt32_small z : 0 <= z < 4294967296 -> to_UInt32 z = z.
Proof. intros. unfold to_UInt32. by apply Z.mod_small. Qed.

Lemma ResetZeroVariances_loop_spec (zf : double) (sq : bool) (code : Z) (n : nat) :
  (Z.of_nat n + 2 < 4294967296) ->
  forall count k cov skip flag,
    (k + count = n)%nat ->
    ((code =? kMeanStdDevOnly) = false ->
     skip = if sq then Z.of_nat n + 1 else Z.of_nat k + 2) ->
    (forall i, (k <= i < n)%nat -> (varianceIndex sq code n i < length cov)%nat) ->
    exists cov',
      ResetZeroVariances_loop count zf sq code cov (varianceIndex sq code n k)
        skip flag
      = Some (cov', orb flag (hasZeroVariance sq code n cov k count)) /\
      length cov' = length cov /\
      forall j, cov' !! j =
                (if isVarianceIndex sq code n k count j
                 then substituteZero zf else id) <$> cov !! j.
Proof.
  intros Hn. induction count as [|count IH]; intros k cov skip flag Hk Hskip Hlen.
  - exists cov. cbn. rewrite orb_false_r. split; [done|split; [done|]].
    intros j. by destruct (cov !! j).
  - cbn [ResetZeroVariances_loop].
    destruct (lookup_lt_is_Some_2 cov (varianceIndex sq code n k)) as [x Hx];
      [apply Hlen; lia|].
    rewrite Hx. cbn [mbind option_bind].
    set (cov1 := if deqb x dzero then <[varianceIndex sq code n k:=zf]> cov else cov).
    assert (Hlen1 : length cov1 = length cov).
    { subst cov1. destruct (deqb x dzero); [apply length_insert|done]. }
    assert (Hother : forall j, j <> varianceIndex sq code n k -> cov1 !! j = cov !! j).
    { intros j Hj. subst cov1. destruct (deqb x dzero); [|done].
      by apply list_lookup_insert_ne. }
    assert (Hself : cov1 !! varianceIndex sq code n k = Some (substituteZero zf x)).
    { subst cov1. unfold substituteZero. destruct (deqb x dzero); [|done].
      apply list_lookup_insert_eq. apply Hlen. lia. }
    assert (Hnext : exists skip',
      (if code =? kMeanStdDevOnly
       then ResetZeroVariances_loop count zf sq code cov1
              (varianceIndex sq code n k + 1) skip
              (if deqb x dzero then true else flag)
       else if sq
            then ResetZeroVariances_loop count zf sq code cov1
                   (varianceIndex sq code n k + Z.to_nat skip) skip
                   (if deqb x dzero then true else flag)
            else ResetZeroVariances_loop count zf sq code cov1
                   (varianceIndex sq code n k + Z.to_nat skip)
                   (to_UInt32 (skip + 1))
                   (if deqb x dzero then true else flag))
      = ResetZeroVariances_loop count zf sq code cov1
          (varianceIndex sq code n (S k)) skip'
          (if deqb x dzero then true else flag) /\
      ((code =? kMeanStdDevOnly) = false ->
       skip' = if sq then Z.of_nat n + 1 else Z.of_nat (S k) + 2)).
    { rewrite varianceIndex_succ.
      destruct (code =? kMeanStdDevOnly) eqn:Hc.
      - exists skip. done.
      - specialize (Hskip eq_refl). destruct sq.
        + exists skip. subst skip. split; [|done]. do 2 f_equal. lia.
        + exists (to_UInt32 (skip + 1)). subst skip. split.
          * do 2 f_equal. lia.
          * intros _. rewrite to_UInt32_small; lia. }
    destruct Hnext as (skip' & -> & Hskip').
    destruct (IH (S k) cov1 skip' (if deqb x dzero then true else flag))
      as (cov' & Hrun & Hlen' & Hcov'); [lia|done| |].
    { intros i Hi. rewrite Hlen1. apply Hlen. lia. }
    exists cov'. split; [|split; [congruence|]].
    + rewrite Hrun. do 2 f_equal.
      assert (hasZeroVariance sq code n cov1 (S k) count
              = hasZeroVariance sq code n cov (S k) count) as ->.
      { unfold hasZeroVariance. apply existsb_ext_in. intros i Hi.
        apply in_seq in Hi. rewrite Hother; [done|].
        intros E. apply varianceIndex_inj in E. lia. }
      unfold hasZeroVariance at 2. cbn [seq existsb]. rewrite Hx.
      fold (hasZeroVariance sq code n cov (S k) count).
      destruct (deqb x dzero), flag; done.
    + intros j. rewrite Hcov'.
      unfold isVarianceIndex at 2. cbn [seq existsb].
      fold (isVarianceIndex sq code n (S k) count j).
      destruct (Nat.eqb_spec j (varianceIndex sq code n k)) as [->|Hne].
      * cbn [orb]. rewrite Hself, Hx.
        destruct (isVarianceIndex sq code n (S k) count _) eqn:E; [|done].
        apply isVarianceIndex_true in E as (i & Hi & E).
        apply varianceIndex_inj in E. lia.
      * cbn [orb]. by rewrite Hother.
Qed.

Lemma substituteZero_idem zf x :
  substituteZero zf (substituteZero zf x) = substituteZero zf x.
Proof.
  unfold substituteZero. destruct (deqb x dzero) eqn:E; [|by rewrite E].
  by destruct (deqb zf dzero).
Qed.

Lemma triangle_mono (i n : nat) :
  (i <= n)%nat -> (i * (i + 1) / 2 <= n * (n + 1) / 2)%nat.
Proof.
  induction 1 as [|m _ IH]; [done|]. rewrite triangle_succ. lia.
Qed.

Lemma matrixIndex_diag_lt sq (n i : nat) :
  (i < n)%nat -> (matrixIndex sq n i i < matrixSize sq n)%nat.
Proof.
  intros Hi. unfold matrixIndex, matrixSize. destruct sq; [nia|].
  pose proof (triangle_mono (S i) n Hi) as H. rewrite triangle_succ in H. lia.
Qed.

(** The whole pass, for any statistics code: the result exists, every
    variance that compares equal to zero is replaced, nothing else moves. *)
Lemma ResetZeroVariances_run (p : Project.t) (cov : list double) (sq : bool)
    (code numberFeatures : Z) :
  0 <= numberFeatures <= 65535 ->
  (forall i, (i < Z.to_nat numberFeatures)%nat ->
             (varianceIndex sq code (Z.to_nat numberFeatures) i < length cov)%nat) ->
  exists cov',
    ResetZeroVariances p (Some cov) sq code numberFeatures
    = Some (Some cov',
            hasZeroVariance sq code (Z.to_nat numberFeatures) cov 0
              (Z.to_nat numberFeatures)) /\
    length cov' = length cov /\
    forall j, cov' !! j =
              (if isVarianceIndex sq code (Z.to_nat numberFeatures) 0
                    (Z.to_nat numberFeatures) j
               then substituteZero (Project.zeroVarianceFactor p) else id)
              <$> cov !! j.
Proof.
  intros Hn Hlen. unfold ResetZeroVariances.
  destruct (Z.eqb_spec numberFeatures 0) as [->|Hne].
  - exists cov. cbn. split; [done|split; [done|]].
    intros j. by destruct (cov !! j).
  - set (n := Z.to_nat numberFeatures) in *.
    destruct (ResetZeroVariances_loop_spec (Project.zeroVarianceFactor p) sq
                code n ltac:(lia) n 0%nat cov
                (if sq then to_UInt32 (numberFeatures + 1) else 2) false)
      as (cov' & Hrun & Hlen' & Hcov'); [lia| |intros; apply Hlen; lia|].
    { intros _. destruct sq; [|done]. rewrite to_UInt32_small; lia. }
    assert (varianceIndex sq code n 0 = 0%nat) as E.
    { unfold varianceIndex, matrixIndex.
      destruct (code =? kMeanStdDevOnly), sq; reflexivity. }
    rewrite E in Hrun. exists cov'. rewrite Hrun. done.
Qed.

(** C5.  On a packed covariance matrix, triangular or square, of
    [numberFeatures] channels, [ResetZeroVariances] returns a result; every
    diagonal entry that compares equal to 0.0 is replaced with the project's
    [zeroVarianceFactor]; every other entry, and the length of the buffer, is
    unchanged; the returned flag is true exactly when some diagonal entry
    was replaced; and a second pass over the result leaves the matrix as the
    first pass left it. *)
Theorem ResetZeroVariances_correct (p : Project.t) (cov : list double)
    (squareMatrixFlag : bool) (numberFeatures : Z) :
  0 <= numberFeatures <= 65535 ->
  (matrixSize squareMatrixFlag (Z.to_nat numberFeatures) <= length cov)%nat ->
  exists (cov' : list double) (flag : bool),
    ResetZeroVariances p (Some cov) squareMatrixFlag kMeanCovariance
      numberFeatures = Some (Some cov', flag) /\
    length cov' = length cov /\
    (forall (i : nat) (x : double),
        (i < Z.to_nat numberFeatures)%nat ->
        cov !! matrixIndex squareMatrixFlag (Z.to_nat numberFeatures) i i = Some x ->
        cov' !! matrixIndex squareMatrixFlag (Z.to_nat numberFeatures) i i
        = Some (if deqb x dzero then Project.zeroVarianceFactor p else x)) /\
    (forall j : nat,
        (forall i : nat, (i < Z.to_nat numberFeatures)%nat ->
           j <> matrixIndex squareMatrixFlag (Z.to_nat numberFeatures) i i) ->
        cov' !! j = cov !! j) /\
    (flag = true <->
     exists (i : nat) (x : double),
       (i < Z.to_nat numberFeatures)%nat /\
       cov !! matrixIndex squareMatrixFlag (Z.to_nat numberFeatures) i i = Some x /\
       deqb x dzero = true) /\
    (exists flag2 : bool,
       ResetZeroVariances p (Some cov') squareMatrixFlag kMeanCovariance
         numberFeatures = Some (Some cov', flag2)).
Proof.
  intros Hn Hsize. set (n := Z.to_nat numberFeatures) in *.
  assert (Hidx : forall i, (i < n)%nat ->
            (varianceIndex squareMatrixFlag kMeanCovariance n i < length cov)%nat).
  { intros i Hi. change (varianceIndex squareMatrixFlag kMeanCovariance n i)
      with (matrixIndex squareMatrixFlag n i i).
    pose proof (matrixIndex_diag_lt squareMatrixFlag n i Hi). lia. }
  destruct (ResetZeroVariances_run p cov squareMatrixFlag kMeanCovariance
              numberFeatures Hn Hidx) as (cov' & Hrun & Hlen & Hcov).
  fold n in Hrun, Hcov.
  exists cov', (hasZeroVariance squareMatrixFlag kMeanCovariance n cov 0 n).
  split; [done|]. split; [done|]. split; [|split; [|split]].
  - intros i x Hi Hx. rewrite Hcov, Hx.
    assert (isVarianceIndex squareMatrixFlag kMeanCovariance n 0 n
              (matrixIndex squareMatrixFlag n i i) = true) as ->; [|done].
    apply isVarianceIndex_true. exists i. split; [lia|done].
  - intros j Hj. rewrite Hcov.
    destruct (isVarianceIndex squareMatrixFlag kMeanCovariance n 0 n j) eqn:E.
    + apply isVarianceIndex_true in E as (i & Hi & ->).
      exfalso. apply (Hj i); [lia|done].
    + by destruct (cov !! j).
  - rewrite hasZeroVariance_true. split.
    + intros (k & x & Hk & Hx & Hz). exists k, x. split; [lia|done].
    + intros (k & x & Hk & Hx & Hz). exists k, x. split; [lia|done].
  - assert (Hidx' : forall i, (i < n)%nat ->
            (varianceIndex squareMatrixFlag kMeanCovariance n i < length cov')%nat).
    { intros i Hi. rewrite Hlen. by apply Hidx. }
    destruct (ResetZeroVariances_run p cov' squareMatrixFlag kMeanCovariance
                numberFeatures Hn Hidx') as (cov'' & Hrun' & Hlen' & Hcov').
    fold n in Hrun', Hcov'. eexists. rewrite Hrun'. do 3 f_equal.
    apply list_eq. intros j. rewrite Hcov', Hcov.
    destruct (isVarianceIndex squareMatrixFlag kMeanCovariance n 0 n j);
      destruct (cov !! j) as [x|]; cbn; [|done..].
    by rewrite substituteZero_idem.
Qed.

Lemma ResetZeroVariances_correct_witness :
  exists (cov' : list double) (flag : bool),
    ResetZeroVariances exampleProject (Some [dzero; dtwo; dtwo]) false
      kMeanCovariance 2 = Some (Some cov', flag) /\
    length cov' = 3%nat.
Proof.
  destruct (ResetZeroVariances_correct exampleProject [dzero; dtwo; dtwo]
              false 2) as (cov' & flag & H1 & H2 & _).
  - lia.
  - vm_compute. lia.
  - exists cov', flag. split; [exact H1|exact H2].
Defined.

(** ** ResetForAllVariancesEqual *)

Lemma matrixIndex_row sq (n i j : nat) :
  matrixIndex sq n i j = (matrixIndex sq n i 0 + j)%nat.
Proof. unfold matrixIndex. destruct sq; by rewrite Nat.add_0_r. Qed.

Lemma matrixIndex_row_succ (sq : bool) (n i : nat) :
  matrixIndex sq n (S i) 0 =
  (matrixIndex sq n i 0 + (if sq then n else S i))%nat.
Proof.
  unfold matrixIndex. destruct sq; [lia|]. rewrite triangle_succ. lia.
Qed.

Lemma matrixIndex_row_mono (sq : bool) (n i i' : nat) :
  (i < i')%nat -> (i' <= n)%nat ->
  (matrixIndex sq n i 0 + (if sq then n else S i) <= matrixIndex sq n i' 0)%nat.
Proof.
  induction 1 as [|m Hm IH]; intros Hn.
  - by rewrite matrixIndex_row_succ.
  - rewrite (matrixIndex_row_succ sq n m).
    etrans; [apply IH; lia|]. destruct sq; lia.
Qed.

Lemma matrixIndex_row_end (sq : bool) (n i : nat) :
  (i < n)%nat ->
  (matrixIndex sq n i 0 + (if sq then n else S i) <= matrixSize sq n)%nat.
Proof.
  intros Hi. destruct (decide (S i = n)) as [<-|Hne].
  - unfold matrixIndex, matrixSize. destruct sq; [lia|].
    rewrite triangle_succ. lia.
  - etrans; [apply (matrixIndex_row_mono sq n i (S i)); lia|].
    pose proof (matrixIndex_diag_lt sq n (S i) ltac:(lia)) as H.
    rewrite matrixIndex_row in H. lia.
Qed.

Lemma forallb_ext_in {A : Type} (f g : A -> bool) (l : list A) :
  (forall a, In a l -> f a = g a) -> forallb f l = forallb g l.
Proof.
  induction l as [|a l IH]; intros H; [done|].
  cbn. rewrite (H a), IH; [done| |by left].
  intros b Hb. apply H. by right.
Qed.

Lemma forallb_seq_shift (f : nat -> bool) (a c : nat) :
  forallb f (seq a c) = forallb (fun j => f (a + j)%nat) (seq 0 c).
Proof.
  revert a f. induction c as [|c IH]; intros a f; [done|].
  cbn [seq forallb]. rewrite Nat.add_0_r. f_equal.
  rewrite (IH (S a)), (IH 1%nat). apply forallb_ext_in. intros j _.
  f_equal. lia.
Qed.

Lemma compareRow_spec (cmp : double) (cov : list double) :
  forall (count ptr : nat) (flag : bool),
    (ptr + count <= length cov)%nat ->
    exists ptr',
      ResetForAllVariancesEqual_compareRow count cmp cov ptr flag
      = Some (ptr', flag && forallb (entryEqual cmp cov) (seq ptr count)) /\
      (ptr <= ptr' <= ptr + count)%nat /\
      (forallb (entryEqual cmp cov) (seq ptr count) = true ->
       ptr' = (ptr + count)%nat).
Proof.
  induction count as [|count IH]; intros ptr flag Hlen.
  - exists ptr. cbn. rewrite andb_true_r. split; [done|]. split; lia.
  - cbn [ResetForAllVariancesEqual_compareRow seq forallb].
    destruct (lookup_lt_is_Some_2 cov ptr) as [x Hx]; [lia|].
    unfold entryEqual at 1 3. rewrite Hx. cbn [mbind option_bind].
    unfold dneb, deqb. destruct (SFeqb cmp x) eqn:E; cbn [negb andb].
    + destruct (IH (S ptr) flag ltac:(lia)) as (ptr' & -> & Hp & Hall).
      exists ptr'. split; [done|]. split; [lia|]. intros H. rewrite Hall; [lia|done].
    + exists ptr. rewrite andb_false_r. split; [done|]. split; [lia|done].
Qed.

Lemma lowerTriangleEqual_succ sq n cmp cov (f1 rows : nat) :
  lowerTriangleEqual sq n cmp cov f1 (S rows)
  = forallb (fun j => match cov !! matrixIndex sq n f1 j with
                      | Some x => deqb cmp x
                      | None => false
                      end) (seq 0 (S f1))
    && lowerTriangleEqual sq n cmp cov (S f1) rows.
Proof. reflexivity. Qed.

Lemma compare_spec (cmp : double) (cov : list double) (sq : bool) (n : nat) :
  (matrixSize sq n <= length cov)%nat ->
  Z.of_nat n < 4294967296 ->
  forall (rows f1 ptr : nat) (skip : Z) (flag : bool),
    (f1 + rows = n)%nat ->
    (ptr <= matrixIndex sq n f1 0)%nat ->
    (flag = true -> ptr = matrixIndex sq n f1 0) ->
    (sq = true -> (0 < rows)%nat -> skip = Z.of_nat n - 1 - Z.of_nat f1) ->
    ResetForAllVariancesEqual_compare rows f1 cmp cov sq ptr skip flag
    = Some (flag && lowerTriangleEqual sq n cmp cov f1 rows).
Proof.
  intros Hsize Hn. induction rows as [|rows IH];
    intros f1 ptr skip flag Hf Hptr Hal Hskip.
  - cbn. by rewrite andb_true_r.
  - cbn [ResetForAllVariancesEqual_compare].
    pose proof (matrixIndex_row_end sq n f1 ltac:(lia)) as Hend.
    destruct (compareRow_spec cmp cov (S f1) ptr flag) as (ptr' & -> & Hp & Hall).
    { destruct sq; lia. }
    cbn [mbind option_bind fst snd].
    assert (Hrow : flag = true ->
              forallb (entryEqual cmp cov) (seq ptr (S f1))
              = forallb (fun j => match cov !! matrixIndex sq n f1 j with
                                  | Some x => deqb cmp x
                                  | None => false
                                  end) (seq 0 (S f1))).
    { intros Hfl. rewrite (Hal Hfl), forallb_seq_shift.
      apply forallb_ext_in. intros j _. unfold entryEqual.
      by rewrite <- matrixIndex_row. }
    assert (Hres : flag && lowerTriangleEqual sq n cmp cov f1 (S rows)
                   = (flag && forallb (entryEqual cmp cov) (seq ptr (S f1)))
                     && lowerTriangleEqual sq n cmp cov (S f1) rows).
    { destruct flag; [|done]. cbn [andb].
      by rewrite lowerTriangleEqual_succ, <- (Hrow eq_refl). }
    rewrite Hres.
    destruct sq.
    + apply IH; [lia| | |].
      * rewrite matrixIndex_row_succ.
        destruct rows; [lia|]. rewrite (Hskip eq_refl); lia.
      * intros Hfl. apply andb_true_iff in Hfl as [Hfl Hrowb].
        rewrite matrixIndex_row_succ, (Hall Hrowb), <- (Hal Hfl).
        rewrite (Hskip eq_refl); lia.
      * intros _ Hrows. rewrite (Hskip eq_refl); [|lia].
        rewrite to_UInt32_small; lia.
    + apply IH; [lia| | |done].
      * rewrite matrixIndex_row_succ. lia.
      * intros Hfl. apply andb_true_iff in Hfl as [Hfl Hrowb].
        rewrite matrixIndex_row_succ, (Hall Hrowb), <- (Hal Hfl). lia.
Qed.

Lemma zeroRow_spec :
  forall (count : nat) (cov : list double) (ptr : nat),
    (ptr + count <= length cov)%nat ->
    exists cov',
      ResetForAllVariancesEqual_zeroRow count cov ptr
      = Some (cov', (ptr + count)%nat) /\
      length cov' = length cov /\
      forall k, cov' !! k =
                (fun x => if (ptr <=? k)%nat && (k <? ptr + count)%nat
                          then dzero else x) <$> cov !! k.
Proof.
  induction count as [|count IH]; intros cov ptr Hlen.
  - exists cov. cbn [ResetForAllVariancesEqual_zeroRow].
    rewrite Nat.add_0_r. split; [done|split; [done|]].
    intros k. destruct (cov !! k); [|done]. cbn [fmap option_fmap option_map].
    destruct (Nat.leb_spec ptr k), (Nat.ltb_spec k ptr); try done; lia.
  - cbn [ResetForAllVariancesEqual_zeroRow].
    destruct (Nat.ltb_spec ptr (length cov)) as [Hp|]; [|lia].
    destruct (IH (<[ptr:=dzero]> cov) (S ptr)) as (cov' & Hrun & Hl & Hcov).
    { rewrite length_insert. lia. }
    exists cov'. rewrite Hrun. split; [do 2 f_equal; lia|].
    rewrite Hl, length_insert. split; [done|].
    intros k. rewrite Hcov. destruct (decide (k = ptr)) as [->|Hne].
    + rewrite list_lookup_insert_eq by done.
      destruct (lookup_lt_is_Some_2 cov ptr Hp) as [x ->].
      cbn [fmap option_fmap option_map].
      destruct (Nat.leb_spec (S ptr) ptr); [lia|]. cbn [andb].
      destruct (Nat.leb_spec ptr ptr); [|lia].
      destruct (Nat.ltb_spec ptr (ptr + S count)); [done|lia].
    + rewrite list_lookup_insert_ne by done.
      destruct (cov !! k); [|done]. cbn [fmap option_fmap option_map]. f_equal.
      destruct (Nat.leb_spec (S ptr) k), (Nat.leb_spec ptr k),
        (Nat.ltb_spec k (S ptr + count)), (Nat.ltb_spec k (ptr + S count));
        try done; lia.
Qed.

Lemma zero_spec (sq : bool) (n : nat) :
  Z.of_nat n < 4294967296 ->
  forall (rows f1 : nat) (cov : list double) (ptr : nat) (skip : Z),
    (f1 + rows = n)%nat ->
    (matrixSize sq n <= length cov)%nat ->
    ptr = matrixIndex sq n f1 0 ->
    (sq = true -> (0 < rows)%nat -> skip = Z.of_nat n - 1 - Z.of_nat f1) ->
    exists cov',
      ResetForAllVariancesEqual_zero rows f1 cov sq ptr skip = Some cov' /\
      length cov' = length cov /\
      forall k, cov' !! k =
                (fun x => if inLowerOffDiagonal sq n f1 rows k
                          then dzero else x) <$> cov !! k.
Proof.
  intros Hn. induction rows as [|rows IH]; intros f1 cov ptr skip Hf Hsize -> Hskip.
  - exists cov. cbn. split; [done|split; [done|]].
    intros k. by destruct (cov !! k).
  - cbn [ResetForAllVariancesEqual_zero].
    pose proof (matrixIndex_row_end sq n f1 ltac:(lia)) as Hend.
    destruct (zeroRow_spec f1 cov (matrixIndex sq n f1 0))
      as (cov1 & -> & Hl1 & Hcov1).
    { destruct sq; lia. }
    cbn [mbind option_bind fst snd].
    assert (Hnext : exists skip',
      (if sq
       then ResetForAllVariancesEqual_zero rows (S f1) cov1 sq
              (S (matrixIndex sq n f1 0 + f1) + Z.to_nat skip)
              (to_UInt32 (skip - 1))
       else ResetForAllVariancesEqual_zero rows (S f1) cov1 sq
              (S (matrixIndex sq n f1 0 + f1)) skip)
      = ResetForAllVariancesEqual_zero rows (S f1) cov1 sq
          (matrixIndex sq n (S f1) 0) skip' /\
      (sq = true -> (0 < rows)%nat -> skip' = Z.of_nat n - 1 - Z.of_nat (S f1))).
    { rewrite matrixIndex_row_succ. destruct sq.
      - exists (to_UInt32 (skip - 1)). rewrite (Hskip eq_refl) by lia. split.
        + f_equal. lia.
        + intros _ Hr. rewrite to_UInt32_small; lia.
      - exists skip. split; [f_equal; lia|done]. }
    destruct Hnext as (skip' & -> & Hskip').
    destruct (IH (S f1) cov1 (matrixIndex sq n (S f1) 0) skip')
      as (cov' & Hrun & Hl & Hcov); [lia|lia|done|done|].
    exists cov'. split; [done|]. split; [lia|].
    intros k. rewrite Hcov, Hcov1.
    unfold inLowerOffDiagonal at 2. cbn [seq existsb].
    fold (inLowerOffDiagonal sq n (S f1) rows k).
    destruct (cov !! k); [|done]. cbn [fmap option_fmap option_map]. f_equal.
    destruct (inLowerOffDiagonal sq n (S f1) rows k);
      [by rewrite orb_true_r|by rewrite orb_false_r].
Qed.

Lemma matrixIndex_inj (sq : bool) (n i j i' j' : nat) :
  (i < n)%nat -> (i' < n)%nat ->
  (j < (if sq then n else S i))%nat -> (j' < (if sq then n else S i'))%nat ->
  matrixIndex sq n i j = matrixIndex sq n i' j' -> i = i' /\ j = j'.
Proof.
  intros Hi Hi' Hj Hj' E.
  rewrite (matrixIndex_row sq n i j), (matrixIndex_row sq n i' j') in E.
  destruct (Nat.lt_trichotomy i i') as [Hlt|[->|Hlt]].
  - pose proof (matrixIndex_row_mono sq n i i' Hlt ltac:(lia)). lia.
  - split; [done|lia].
  - pose proof (matrixIndex_row_mono sq n i' i Hlt ltac:(lia)). lia.
Qed.

Lemma inLowerOffDiagonal_true (sq : bool) (n from rows k : nat) :
  inLowerOffDiagonal sq n from rows k = true <->
  exists i j, (from <= i < from + rows)%nat /\ (j < i)%nat /\
              k = matrixIndex sq n i j.
Proof.
  unfold inLowerOffDiagonal. rewrite existsb_exists. split.
  - intros (i & Hin & Hk). apply in_seq in Hin.
    apply andb_true_iff in Hk as [H1 H2].
    apply Nat.leb_le in H1. apply Nat.ltb_lt in H2.
    exists i, (k - matrixIndex sq n i 0)%nat.
    split; [done|]. split; [lia|].
    rewrite (matrixIndex_row sq n i (k - _)). lia.
  - intros (i & j & Hin & Hj & ->). exists i. split; [by apply in_seq|].
    rewrite (matrixIndex_row sq n i j). apply andb_true_iff. split.
    + apply Nat.leb_le. lia.
    + apply Nat.ltb_lt. lia.
Qed.

Lemma inLowerOffDiagonal_lower (sq : bool) (n i j : nat) :
  (j < i)%nat -> (i < n)%nat ->
  inLowerOffDiagonal sq n 0 n (matrixIndex sq n i j) = true.
Proof.
  intros Hj Hi. apply inLowerOffDiagonal_true. exists i, j.
  split; [lia|done].
Qed.

Lemma inLowerOffDiagonal_other (sq : bool) (n i j : nat) :
  (i <= j)%nat -> (i < n)%nat -> (j < (if sq then n else S i))%nat ->
  inLowerOffDiagonal sq n 0 n (matrixIndex sq n i j) = false.
Proof.
  intros Hij Hi Hj.
  destruct (inLowerOffDiagonal sq n 0 n (matrixIndex sq n i j)) eqn:E; [|done].
  apply inLowerOffDiagonal_true in E as (i' & j' & Hi' & Hj' & E).
  apply matrixIndex_inj in E as [-> ->]; [lia|lia|lia|done|].
  destruct sq; lia.
Qed.

Lemma inLowerOffDiagonal_beyond (sq : bool) (n k : nat) :
  (matrixSize sq n <= k)%nat -> inLowerOffDiagonal sq n 0 n k = false.
Proof.
  intros Hk. destruct (inLowerOffDiagonal sq n 0 n k) eqn:E; [|done].
  apply inLowerOffDiagonal_true in E as (i & j & Hi & Hj & ->).
  pose proof (matrixIndex_row_end sq n i ltac:(lia)).
  rewrite (matrixIndex_row sq n i j) in Hk. destruct sq; lia.
Qed.

Lemma square_div (n i j : nat) : (j < n)%nat -> ((i * n + j) / n = i)%nat.
Proof. intros H. symmetry. apply (Nat.div_unique _ _ _ j); lia. Qed.

Lemma square_mod (n i j : nat) : (j < n)%nat -> ((i * n + j) mod n = j)%nat.
Proof. intros H. symmetry. apply (Nat.mod_unique _ _ i); lia. Qed.

Lemma CopyLowerToUpperSquareMatrix_spec (n : nat) (m : list double) :
  (n * n <= length m)%nat ->
  exists m',
    CopyLowerToUpperSquareMatrix n m = Some m' /\
    length m' = length m /\
    (forall i j, (i < j)%nat -> (j < n)%nat ->
                 m' !! (i * n + j)%nat = m !! (j * n + i)%nat) /\
    (forall i j, (j <= i)%nat -> (j < n)%nat ->
                 m' !! (i * n + j)%nat = m !! (i * n + j)%nat) /\
    (forall k, (n * n <= k)%nat -> m' !! k = m !! k).
Proof.
  intros Hlen. unfold CopyLowerToUpperSquareMatrix.
  destruct (Nat.ltb_spec (length m) (n * n)) as [|_]; [lia|].
  eexists. split; [done|]. split; [apply length_imap|].
  split; [|split].
  - intros i j Hij Hj. rewrite list_lookup_imap.
    rewrite square_div, square_mod by done.
    assert (Hin : (i * n + j < n * n)%nat) by nia.
    destruct (lookup_lt_is_Some_2 m (i * n + j)) as [x ->]; [lia|].
    destruct (lookup_lt_is_Some_2 m (j * n + i)) as [y ->]; [nia|].
    cbn [fmap option_fmap option_map default].
    destruct (Nat.ltb_spec (i * n + j) (n * n)); [|lia].
    destruct (Nat.ltb_spec i j); [done|lia].
  - intros i j Hji Hj. rewrite list_lookup_imap.
    rewrite square_div, square_mod by done.
    destruct (m !! (i * n + j)%nat); [|done].
    cbn [fmap option_fmap option_map].
    destruct (Nat.ltb_spec i j); [lia|]. by rewrite andb_false_r.
  - intros k Hk. rewrite list_lookup_imap.
    destruct (m !! k); [|done]. cbn [fmap option_fmap option_map].
    destruct (Nat.ltb_spec k (n * n)); [lia|done].
Qed.

Lemma lowerTriangleEqual_true (sq : bool) (n : nat) (cmp : double)
    (cov : list double) :
  lowerTriangleEqual sq n cmp cov 0 n = true <->
  forall i j, (j <= i)%nat -> (i < n)%nat ->
    exists x, cov !! matrixIndex sq n i j = Some x /\ deqb cmp x = true.
Proof.
  unfold lowerTriangleEqual. rewrite forallb_forall. split.
  - intros H i j Hj Hi. specialize (H i ltac:(apply in_seq; lia)).
    rewrite forallb_forall in H. specialize (H j ltac:(apply in_seq; lia)).
    destruct (cov !! matrixIndex sq n i j) as [x|]; [eauto|done].
  - intros H i Hi. apply in_seq in Hi. apply forallb_forall. intros j Hj.
    apply in_seq in Hj. destruct (H i j) as (x & -> & Hx); [lia|lia|done].
Qed.

(** C6, as the code has it.  [ResetForAllVariancesEqual] returns false and
    leaves the matrix as it is when [numberFeatures <= 1] or the statistics
    code is mean-only.  Otherwise it returns true exactly when every entry of
    the lower-left triangle, the diagonal included, compares equal (C's
    [==] on doubles) to the first diagonal entry; then every off-diagonal
    entry of the lower-left triangle is 0.0, the diagonal is untouched and,
    for a square matrix, the upper-right triangle is 0.0 as well; when it
    returns false the matrix is unchanged. *)
Theorem ResetForAllVariancesEqual_correct (cov : list double)
    (squareMatrixFlag : bool) (statisticsCode numberFeatures : Z) :
  0 <= numberFeatures <= 65535 ->
  (matrixSize squareMatrixFlag (Z.to_nat numberFeatures) <= length cov)%nat ->
  (numberFeatures <= 1 \/ statisticsCode = kMeanStdDevOnly ->
   ResetForAllVariancesEqual (Some cov) squareMatrixFlag statisticsCode
     numberFeatures = Some (Some cov, false)) /\
  (1 < numberFeatures -> statisticsCode <> kMeanStdDevOnly ->
   exists (first : double) (cov' : list double) (flag : bool),
     cov !! 0%nat = Some first /\
     ResetForAllVariancesEqual (Some cov) squareMatrixFlag statisticsCode
       numberFeatures = Some (Some cov', flag) /\
     length cov' = length cov /\
     (flag = true <->
      forall i j : nat, (j <= i)%nat -> (i < Z.to_nat numberFeatures)%nat ->
        exists x : double,
          cov !! matrixIndex squareMatrixFlag (Z.to_nat numberFeatures) i j
          = Some x /\ deqb first x = true) /\
     (flag = false -> cov' = cov) /\
     (flag = true ->
      (forall i j : nat, (j < i)%nat -> (i < Z.to_nat numberFeatures)%nat ->
         cov' !! matrixIndex squareMatrixFlag (Z.to_nat numberFeatures) i j
         = Some dzero) /\
      (forall i : nat, (i < Z.to_nat numberFeatures)%nat ->
         cov' !! matrixIndex squareMatrixFlag (Z.to_nat numberFeatures) i i
         = cov !! matrixIndex squareMatrixFlag (Z.to_nat numberFeatures) i i) /\
      (squareMatrixFlag = true ->
       forall i j : nat, (i < j)%nat -> (j < Z.to_nat numberFeatures)%nat ->
         cov' !! (i * Z.to_nat numberFeatures + j)%nat = Some dzero) /\
      (forall k : nat,
         (matrixSize squareMatrixFlag (Z.to_nat numberFeatures) <= k)%nat ->
         cov' !! k = cov !! k))).
Proof.
  intros Hn Hsize. set (n := Z.to_nat numberFeatures) in *. split.
  - intros H. unfold ResetForAllVariancesEqual.
    destruct H as [H| ->].
    + destruct (Z.leb_spec numberFeatures 1); [done|lia].
    + by rewrite Z.eqb_refl, orb_true_r.
  - intros Hn1 Hcode. unfold ResetForAllVariancesEqual. fold n.
    destruct (Z.leb_spec numberFeatures 1) as [|_]; [lia|].
    destruct (Z.eqb_spec statisticsCode kMeanStdDevOnly) as [|_]; [done|].
    cbn [orb].
    assert (Hpos : (0 < matrixSize squareMatrixFlag n)%nat).
    { pose proof (matrixIndex_diag_lt squareMatrixFlag n 0 ltac:(lia)). lia. }
    destruct (lookup_lt_is_Some_2 cov 0) as [first Hfirst]; [lia|].
    rewrite Hfirst. cbn [mbind option_bind].
    assert (E0 : matrixIndex squareMatrixFlag n 0 0 = 0%nat).
    { unfold matrixIndex. by destruct squareMatrixFlag. }
    rewrite (compare_spec first cov squareMatrixFlag n Hsize ltac:(lia)
               n 0 0 (to_UInt32 (numberFeatures - 1)) true);
      [|done|lia|by rewrite E0|intros _ _; rewrite to_UInt32_small; lia].
    cbn [andb mbind option_bind].
    destruct (lowerTriangleEqual squareMatrixFlag n first cov 0 n) eqn:Heq.
    + destruct (zero_spec squareMatrixFlag n ltac:(lia) n 0 cov 0
                  (to_UInt32 (numberFeatures - 1)))
        as (cov1 & -> & Hl1 & Hcov1);
        [done|done|by rewrite E0|intros _ _; rewrite to_UInt32_small; lia|].
      cbn [mbind option_bind].
      assert (Hlow1 : forall i j, (j < i)%nat -> (i < n)%nat ->
                cov1 !! matrixIndex squareMatrixFlag n i j = Some dzero).
      { intros i j Hj Hi. rewrite Hcov1, inLowerOffDiagonal_lower by done.
        pose proof (matrixIndex_row_end squareMatrixFlag n i Hi) as He.
        destruct (lookup_lt_is_Some_2 cov (matrixIndex squareMatrixFlag n i j))
          as [x ->]; [|done].
        rewrite (matrixIndex_row squareMatrixFlag n i j).
        destruct squareMatrixFlag; lia. }
      assert (Hoth1 : forall i j, (i <= j)%nat -> (i < n)%nat ->
                (j < (if squareMatrixFlag then n else S i))%nat ->
                cov1 !! matrixIndex squareMatrixFlag n i j
                = cov !! matrixIndex squareMatrixFlag n i j).
      { intros i j Hij Hi Hj. rewrite Hcov1, inLowerOffDiagonal_other by done.
        destruct (cov !! matrixIndex squareMatrixFlag n i j); reflexivity. }
      assert (Hbey1 : forall k, (matrixSize squareMatrixFlag n <= k)%nat ->
                cov1 !! k = cov !! k).
      { intros k Hk. rewrite Hcov1, inLowerOffDiagonal_beyond by done.
        destruct (cov !! k); reflexivity. }
      destruct squareMatrixFlag.
      * assert (Z.to_nat (to_UInt16 numberFeatures) = n) as ->.
        { unfold to_UInt16. rewrite Z.mod_small; [done|lia]. }
        destruct (CopyLowerToUpperSquareMatrix_spec n cov1)
          as (cov2 & -> & Hl2 & Hup & Hlo & Hbey2).
        { unfold matrixSize in Hsize. lia. }
        cbn [mbind option_bind].
        exists first, cov2, true. split; [done|]. split; [done|].
        split; [lia|]. split; [by rewrite <- lowerTriangleEqual_true|].
        split; [done|]. intros _. split; [|split; [|split]].
        -- intros i j Hj Hi. unfold matrixIndex. rewrite Hlo by lia.
           exact (Hlow1 i j Hj Hi).
        -- intros i Hi. unfold matrixIndex. rewrite Hlo by lia.
           exact (Hoth1 i i ltac:(lia) Hi Hi).
        -- intros _ i j Hij Hj. rewrite Hup by done.
           exact (Hlow1 j i Hij Hj).
        -- intros k Hk. unfold matrixSize in Hk. rewrite Hbey2 by done.
           by apply Hbey1.
      * exists first, cov1, true. split; [done|]. split; [done|].
        split; [done|]. split; [by rewrite <- lowerTriangleEqual_true|].
        split; [done|]. intros _. split; [done|]. split; [|split; [done|done]].
        intros i Hi. apply Hoth1; lia.
    + exists first, cov, false. split; [done|]. split; [done|]. split; [done|].
      split; [|split; [done|done]].
      rewrite <- lowerTriangleEqual_true, Heq. done.
Qed.

Lemma ResetForAllVariancesEqual_correct_witness :
  exists (cov' : list double) (flag : bool),
    ResetForAllVariancesEqual (Some [dtwo; dtwo; dtwo]) false kMeanCovariance 2
    = Some (Some cov', flag) /\
    length cov' = 3%nat.
Proof.
  destruct (ResetForAllVariancesEqual_correct [dtwo; dtwo; dtwo] false
              kMeanCovariance 2) as [_ H].
  - lia.
  - vm_compute. lia.
  - destruct H as (first & cov' & flag & _ & Hrun & Hlen & _).
    + lia.
    + discriminate.
    + exists cov', flag. split; [exact Hrun|exact Hlen].
Defined.

(** C6, counterexample to the claim as stated.  On the 2x2 triangular matrix
    with entries +0.0, -0.0, +0.0 the function returns true and rewrites the
    off-diagonal entry, although that entry is not the same bit pattern as
    the first diagonal entry: the test is C's [!=], for which -0.0 and +0.0
    are equal. *)
Lemma ResetForAllVariancesEqual_signed_zero :
  ResetForAllVariancesEqual (Some [dzero; dnegzero; dzero]) false
    kMeanCovariance 2 = Some (Some [dzero; dzero; dzero], true) /\
  ~ (forall i j : nat, (j <= i)%nat -> (i < 2)%nat ->
       exists x : double,
         [dzero; dnegzero; dzero] !! matrixIndex false 2 i j = Some x /\
         bitIdentical dzero x).
Proof.
  split; [reflexivity|].
  intros H. destruct (H 1%nat 0%nat) as (x & Hx & Hb); [lia|lia|].
  vm_compute in Hx. injection Hx as <-. discriminate Hb.
Qed.

(** The 3x3 round trip of the specification: every entry equal to 2.0. *)
Example ResetForAllVariancesEqual_round_trip :
  ResetForAllVariancesEqual (Some [dtwo; dtwo; dtwo; dtwo; dtwo; dtwo]) false
    kMeanCovariance 3
  = Some (Some [dtwo; dzero; dtwo; dzero; dzero; dtwo], true).
Proof. reflexivity. Qed.

Example ResetZeroVariances_example :
  ResetZeroVariances exampleProject (Some [dzero; dtwo; dnegzero]) false
    kMeanCovariance 2
  = Some (Some [dOne; dtwo; dOne], true).
Proof. reflexivity. Qed.

(** ** AddToClassChannelStatistics *)

Lemma at_of_nat {A : Type} (l : list A) (k : nat) : at_ l (Z.of_nat k) = l !! k.
Proof.
  unfold at_. destruct (Z.ltb_spec (Z.of_nat k) 0); [lia|].
  by rewrite Nat2Z.id.
Qed.

Lemma at_Some {A : Type} (l : list A) (i : Z) (x : A) :
  at_ l i = Some x -> 0 <= i /\ l !! Z.to_nat i = Some x.
Proof.
  unfold at_. destruct (Z.ltb_spec i 0); [done|]. intros Hx. split; [lia|done].
Qed.

Lemma AddToClassChannelStatistics_loop_identity
    (inp : list ChannelStatistics) (init : bool) (limit : Z) :
  forall (count k : nat) (out : list ChannelStatistics) (cli : Z),
    (k + count <= length out)%nat ->
    (k + count <= length inp)%nat ->
    Z.of_nat (k + count) <= 65535 ->
    exists out',
      AddToClassChannelStatistics_loop count (Z.of_nat k) None inp init limit
        out k cli (Z.of_nat k) (Z.of_nat k) = Some out' /\
      length out' = length out /\
      (forall j o i, (k <= j < k + count)%nat ->
         out !! j = Some o -> inp !! j = Some i ->
         out' !! j = Some (mergeChannelStatistics init o i)) /\
      (forall j, (j < k \/ k + count <= j)%nat -> out' !! j = out !! j).
Proof.
  induction count as [|count IH]; intros k out cli Hout Hin Hmax.
  - exists out. cbn. split; [done|]. split; [done|]. split; [intros; lia|done].
  - cbn [AddToClassChannelStatistics_loop mbind option_bind fst snd].
    rewrite Z.eqb_refl, at_of_nat.
    destruct (lookup_lt_is_Some_2 inp k) as [i Hi]; [lia|].
    destruct (lookup_lt_is_Some_2 out k) as [o Ho]; [lia|].
    rewrite Hi, Ho. cbn [mbind option_bind].
    replace (to_UInt32 (Z.of_nat k + 1)) with (Z.of_nat (S k))
      by (rewrite to_UInt32_small; lia).
    replace (Z.of_nat k + 1) with (Z.of_nat (S k)) by lia.
    destruct (IH (S k) (<[k:=mergeChannelStatistics init o i]> out)
                (if cli <? limit then to_UInt32 (cli + 1) else cli))
      as (out' & -> & Hlen & Hmerge & Hother);
      [rewrite length_insert; lia|lia|lia|].
    exists out'. split; [done|]. rewrite Hlen, length_insert.
    split; [done|]. split.
    + intros j o' i' Hj Ho' Hi'. destruct (decide (j = k)) as [->|Hne].
      * rewrite Hother by lia. rewrite list_lookup_insert_eq by lia. congruence.
      * apply Hmerge; [lia| |done]. by rewrite list_lookup_insert_ne.
    + intros j Hj. rewrite Hother by lia. apply list_lookup_insert_ne. lia.
Qed.

Lemma AddToClassChannelStatistics_loop_list
    (inp : list ChannelStatistics) (init : bool) (l : list Z) (m nIn : nat) :
  (0 < m)%nat ->
  (m <= length l)%nat ->
  increasingChannels (Z.of_nat nIn) (take m l) ->
  (nIn <= length inp)%nat ->
  Z.of_nat nIn <= 65535 ->
  Z.of_nat m <= 65535 ->
  forall (count c k : nat) (out : list ChannelStatistics) (cn lin : Z),
    (c + count = nIn)%nat ->
    (k <= m)%nat ->
    (m <= length out)%nat ->
    (forall j ch, (j < k)%nat -> l !! j = Some ch -> ch < Z.of_nat c) ->
    ((k < m)%nat -> forall ch, l !! k = Some ch -> Z.of_nat c <= ch) ->
    exists out',
      AddToClassChannelStatistics_loop count (Z.of_nat c) (Some l) inp init
        (Z.of_nat m - 1) out k
        (Z.min (Z.of_nat k) (Z.of_nat m - 1)) cn lin = Some out' /\
      length out' = length out /\
      (forall j o ch i, (k <= j < m)%nat -> out !! j = Some o ->
         l !! j = Some ch -> at_ inp ch = Some i ->
         out' !! j = Some (mergeChannelStatistics init o i)) /\
      (forall j, (j < k \/ m <= j)%nat -> out' !! j = out !! j).
Proof.
  intros Hpos Hml [Hrange0 Hsorted0] Hin HnIn Hm.
  assert (Hrange : forall j ch, (j < m)%nat -> l !! j = Some ch ->
                     0 <= ch < Z.of_nat nIn).
  { intros j ch Hj Hch. apply (Hrange0 j). by rewrite lookup_take_lt. }
  assert (Hsorted : forall j j' ch ch', (j < j')%nat -> (j' < m)%nat ->
                      l !! j = Some ch -> l !! j' = Some ch' -> ch < ch').
  { intros j j' ch ch' Hj Hj' Hch Hch'. apply (Hsorted0 j j'); [done| |].
    - rewrite lookup_take_lt; [done|lia].
    - by rewrite lookup_take_lt. }
  clear Hrange0 Hsorted0.
  induction count as [|count IH]; intros c k out cn lin Hc Hk Hout Hbelow Hnext.
  - assert (k = m) as ->.
    { destruct (decide (k = m)) as [|Hne]; [done|].
      destruct (lookup_lt_is_Some_2 l k) as [ch Hch]; [lia|].
      pose proof (Hrange k ch ltac:(lia) Hch).
      pose proof (Hnext ltac:(lia) _ Hch). lia. }
    exists out. cbn. split; [done|]. split; [done|]. split; [|done].
    intros j o ch i Hj _ Hch _. lia.
  - cbn [AddToClassChannelStatistics_loop].
    set (cli := Z.min (Z.of_nat k) (Z.of_nat m - 1)).
    assert (Hcli : 0 <= cli < Z.of_nat m) by lia.
    destruct (lookup_lt_is_Some_2 l (Z.to_nat cli)) as [ch Hch]; [lia|].
    assert (Hat : at_ l cli = Some ch).
    { unfold at_. destruct (Z.ltb_spec cli 0); [lia|done]. }
    rewrite Hat. cbn [mbind option_bind fst snd].
    replace (to_UInt32 (Z.of_nat c + 1)) with (Z.of_nat (S c))
      by (rewrite to_UInt32_small; lia).
    destruct (Z.eqb_spec (Z.of_nat c) ch) as [Heq|Hne].
    + (* the channel is the next one of the list *)
      assert (Hkl : (k < m)%nat).
      { destruct (decide (k < m)%nat) as [|Hge]; [done|].
        assert (k = m) as -> by lia.
        assert (Z.to_nat cli < m)%nat as Hlt by lia.
        pose proof (Hbelow _ _ Hlt Hch). lia. }
      assert (Z.to_nat cli = k) as Ek by lia. rewrite Ek in Hch.
      destruct (lookup_lt_is_Some_2 inp c) as [i Hi]; [lia|].
      assert (Hati : at_ inp ch = Some i) by (rewrite <- Heq; by rewrite at_of_nat).
      destruct (lookup_lt_is_Some_2 out k) as [o Ho]; [lia|].
      rewrite Hati, Ho. cbn [mbind option_bind].
      assert ((if cli <? Z.of_nat m - 1
               then to_UInt32 (cli + 1) else cli)
              = Z.min (Z.of_nat (S k)) (Z.of_nat m - 1)) as ->.
      { destruct (Z.ltb_spec cli (Z.of_nat m - 1));
          [rewrite to_UInt32_small; lia|lia]. }
      destruct (IH (S c) (S k) (<[k:=mergeChannelStatistics init o i]> out)
                  (to_UInt32 (ch + 1)) (ch + 1))
        as (out' & -> & Hlen & Hmerge & Hother);
        [lia|lia|rewrite length_insert; lia| | |].
      * intros j ch' Hj Hch'. destruct (decide (j = k)) as [->|Hjk].
        -- assert (ch' = ch) by congruence. lia.
        -- pose proof (Hbelow j ch' ltac:(lia) Hch'). lia.
      * intros Hlt ch' Hch'.
        pose proof (Hsorted k (S k) ch ch' ltac:(lia) Hlt Hch Hch'). lia.
      * exists out'. split; [done|]. rewrite Hlen, length_insert.
        split; [done|]. split.
        -- intros j o' ch' i' Hj Ho' Hch' Hi'.
           destruct (decide (j = k)) as [->|Hjk].
           ++ rewrite Hother by lia. rewrite list_lookup_insert_eq by lia.
              congruence.
           ++ apply (Hmerge j o' ch' i'); [lia| |done|done].
              by rewrite list_lookup_insert_ne.
        -- intros j Hj. rewrite Hother by lia. apply list_lookup_insert_ne. lia.
    + (* no match: the pointers move on *)
      destruct (IH (S c) k out (to_UInt32 (ch + 1)) (ch + 1))
        as (out' & Hrun & Hlen & Hmerge & Hother); [lia|done|done| | |].
      * intros j ch' Hj Hch'. pose proof (Hbelow j ch' Hj Hch'). lia.
      * intros Hlt ch' Hch'. pose proof (Hnext Hlt _ Hch') as Hle.
        assert (Z.to_nat cli = k) as Ek by lia.
        rewrite Ek in Hch. assert (ch' = ch) by congruence. lia.
      * exists out'. fold cli in Hrun. rewrite Hrun. done.
Qed.



Lemma increasingChannels_seqZ (n : Z) : increasingChannels n (seqZ 0 n).
Proof.
  split.
  - intros j c Hc. apply lookup_seqZ in Hc. lia.
  - intros j j' c c' Hj Hc Hc'. apply lookup_seqZ in Hc, Hc'. lia.
Qed.

(** C7, as the code has it.  With [src] the source channel of each
    destination channel (the channel list, which must be strictly increasing,
    or the identity when there is no list or the counts are equal), every
    destination record [o] paired with its source record [i] becomes: with
    [initializeFlag], the sum, minimum and maximum of [i] and a standard
    deviation of -1 (stale); without it, [o.sum + i.sum],
    [MIN (o.minimum, i.minimum)], [MAX (o.maximum, i.maximum)] and the
    standard deviation [o] had before, which is therefore stale afterwards
    exactly when it was stale before.  Destination records beyond the mapped
    ones are unchanged. *)
Theorem AddToClassChannelStatistics_merges (numberOutputChannels : Z)
    (out : list ChannelStatistics) (numberInputChannels : Z)
    (channelListPtr : option (list Z)) (inp : list ChannelStatistics)
    (initializeFlag : bool) :
  0 <= numberInputChannels <= 65535 ->
  0 <= numberOutputChannels <= 65535 ->
  (forall l : list Z,
      numberOutputChannels <> numberInputChannels -> channelListPtr = Some l ->
      0 < numberOutputChannels /\ (Z.to_nat numberOutputChannels <= length l)%nat) ->
  increasingChannels numberInputChannels
    (sourceChannels numberOutputChannels numberInputChannels channelListPtr) ->
  (length (sourceChannels numberOutputChannels numberInputChannels
             channelListPtr) <= length out)%nat ->
  (Z.to_nat numberInputChannels <= length inp)%nat ->
  exists out' : list ChannelStatistics,
    AddToClassChannelStatistics numberOutputChannels out numberInputChannels
      channelListPtr inp initializeFlag = Some out' /\
    length out' = length out /\
    (forall (j : nat) (ch : Z) (o i : ChannelStatistics),
        sourceChannels numberOutputChannels numberInputChannels
          channelListPtr !! j = Some ch ->
        out !! j = Some o -> at_ inp ch = Some i ->
        exists r : ChannelStatistics,
          out' !! j = Some r /\
          sum r = (if initializeFlag then sum i else dadd (sum o) (sum i)) /\
          minimum r = (if initializeFlag then minimum i
                       else MIN (minimum o) (minimum i)) /\
          maximum r = (if initializeFlag then maximum i
                       else MAX (maximum o) (maximum i)) /\
          standardDev r = (if initializeFlag then dminus_one
                           else standardDev o) /\
          isStale r = (if initializeFlag then true else isStale o)) /\
    (forall j : nat,
        (length (sourceChannels numberOutputChannels numberInputChannels
                   channelListPtr) <= j)%nat ->
        out' !! j = out !! j).
Proof.
  intros HnIn HnOut Hlist Hinc Hout Hin.
  assert (Hfields : forall o i,
    exists r, Some (mergeChannelStatistics initializeFlag o i) = Some r /\
      sum r = (if initializeFlag then sum i else dadd (sum o) (sum i)) /\
      minimum r = (if initializeFlag then minimum i
                   else MIN (minimum o) (minimum i)) /\
      maximum r = (if initializeFlag then maximum i
                   else MAX (maximum o) (maximum i)) /\
      standardDev r = (if initializeFlag then dminus_one else standardDev o) /\
      isStale r = (if initializeFlag then true else isStale o)).
  { intros o i. eexists. split; [done|]. unfold mergeChannelStatistics.
    destruct initializeFlag; cbn; done. }
  unfold AddToClassChannelStatistics, sourceChannels in *.
  destruct (if numberOutputChannels =? numberInputChannels then None
            else channelListPtr) as [l|] eqn:Hsel.
  - (* the channel list drives the loop *)
    destruct (Z.eqb_spec numberOutputChannels numberInputChannels) as [|Hne];
      [done|].
    destruct (Hlist l Hne Hsel) as [Hpos Hl].
    set (m := Z.to_nat numberOutputChannels) in *.
    rewrite length_take_le in Hout by done.
    destruct (AddToClassChannelStatistics_loop_list inp initializeFlag l m
                (Z.to_nat numberInputChannels) ltac:(lia) Hl
                ltac:(by rewrite Z2Nat.id by lia) Hin ltac:(lia) ltac:(lia)
                (Z.to_nat numberInputChannels) 0 0 out 0 0)
      as (out' & Hrun & Hlen & Hmerge & Hother); [lia|lia|done| | |].
    + intros; lia.
    + intros _ ch Hch.
      destruct Hinc as [Hr _]. apply (Hr 0%nat). rewrite lookup_take_lt; [done|lia].
    + replace (to_UInt32 (numberOutputChannels - 1)) with (Z.of_nat m - 1)
        by (rewrite to_UInt32_small; lia).
      replace (Z.min (Z.of_nat 0) (Z.of_nat m - 1)) with 0 in Hrun by lia.
      exists out'. split; [exact Hrun|]. split; [done|]. split.
      * intros j ch o i Hch Ho Hi.
        apply lookup_take_Some in Hch as [Hch Hj].
        rewrite (Hmerge j o ch i); [apply Hfields|lia|done|done|done].
      * intros j Hj. rewrite length_take_le in Hj by done. apply Hother. lia.
  - (* no list, or equal counts: the identity *)
    rewrite length_seqZ in Hout.
    destruct (AddToClassChannelStatistics_loop_identity inp initializeFlag
                (to_UInt32 (numberOutputChannels - 1))
                (Z.to_nat numberInputChannels) 0 out 0)
      as (out' & Hrun & Hlen & Hmerge & Hother); [lia|lia|lia|].
    exists out'. split; [exact Hrun|]. split; [done|]. split.
    + intros j ch o i Hch Ho Hi. apply lookup_seqZ in Hch as [-> Hj].
      rewrite Z.add_0_l, at_of_nat in Hi.
      rewrite (Hmerge j o i); [apply Hfields|lia|done|done].
    + intros j Hj. rewrite length_seqZ in Hj. apply Hother. lia.
Qed.

Lemma AddToClassChannelStatistics_merges_witness :
  exists out' : list ChannelStatistics,
    AddToClassChannelStatistics 2
      [exampleStats dOne dOne dOne dOne; exampleStats dOne dOne dOne dOne] 3
      (Some [0; 2])
      [exampleStats dtwo dOne dzero dtwo; exampleStats dzero dOne dzero dOne;
       exampleStats dOne dOne dzero dOne]
      false = Some out' /\
    length out' = 2%nat.
Proof.
  destruct (AddToClassChannelStatistics_merges 2
              [exampleStats dOne dOne dOne dOne; exampleStats dOne dOne dOne dOne]
              3 (Some [0; 2])
              [exampleStats dtwo dOne dzero dtwo;
               exampleStats dzero dOne dzero dOne;
               exampleStats dOne dOne dzero dOne]
              false) as (out' & H1 & H2 & _).
  - lia.
  - lia.
  - intros l _ [= <-]. split; [lia|vm_compute; lia].
  - split.
    + intros j c Hc. destruct j as [|[|j]]; vm_compute in Hc;
        try discriminate; injection Hc as <-; lia.
    + intros j j' c c' Hj Hc Hc'.
      destruct j as [|[|j]]; destruct j' as [|[|j']];
        vm_compute in Hc, Hc'; try discriminate; try lia;
        injection Hc as <-; injection Hc' as <-; lia.
  - vm_compute. lia.
  - vm_compute. lia.
  - exists out'. split; [exact H1|exact H2].
Defined.

(** C7, counterexample to the claim as stated.  A destination record whose
    standard deviation is 2.0 is accumulated into ([initializeFlag] false):
    its sum is written (1.0 + 1.0 = 2.0) and its standard deviation is still
    2.0 afterwards, which is not negative. *)
Lemma AddToClassChannelStatistics_accumulate_keeps_standardDev :
  AddToClassChannelStatistics 1 [exampleStats dOne dtwo dOne dOne] 1 None
    [exampleStats dOne dminus_one dzero dtwo] false
  = Some [exampleStats dtwo dtwo dzero dtwo] /\
  isStale (exampleStats dtwo dtwo dzero dtwo) = false.
Proof. split; reflexivity. Qed.

(** With [initializeFlag] the same call copies and marks the record stale. *)
Example AddToClassChannelStatistics_initialize :
  AddToClassChannelStatistics 1 [exampleStats dOne dtwo dOne dOne] 1 None
    [exampleStats dOne dtwo dzero dtwo] true
  = Some [exampleStats dOne dminus_one dzero dtwo].
Proof. reflexivity. Qed.

(** A two-channel subset, channels 0 and 2 of three. *)
Example AddToClassChannelStatistics_subset :
  AddToClassChannelStatistics 2
    [exampleStats dzero dzero dzero dzero; exampleStats dzero dzero dzero dzero]
    3 (Some [0; 2])
    [exampleStats dOne dOne dOne dOne; exampleStats dzero dzero dzero dzero;
     exampleStats dtwo dtwo dtwo dtwo] true
  = Some [exampleStats dOne dminus_one dOne dOne;
          exampleStats dtwo dminus_one dtwo dtwo].
Proof. reflexivity. Qed.

(** ** FinishClassStatsUpdate *)

Lemma FinishClassStatsUpdate_walk_spec (fieldIdentPtr : list Field.t)
    (fieldNumber : Z) (fields : list Field.t) :
  FieldChain fieldIdentPtr fieldNumber fields ->
  forall fuel : nat, (length fields < fuel)%nat ->
    FinishClassStatsUpdate_walk fuel fieldIdentPtr fieldNumber
    = Some (allTrainingFieldsLoaded fields).
Proof.
  induction 1 as [|fieldNumber f rest Hne Hat _ IH]; intros fuel Hfuel.
  - destruct fuel; [cbn in Hfuel; lia|]. reflexivity.
  - destruct fuel; [cbn in Hfuel; lia|].
    cbn [FinishClassStatsUpdate_walk].
    destruct (Z.eqb_spec fieldNumber (-1)); [done|].
    rewrite Hat. cbn [mbind option_bind allTrainingFieldsLoaded forallb].
    destruct (Field.fieldType f =? kTrainingType),
      (Field.loadedIntoClassStats f); cbn [negb andb orb]; try done;
      apply IH; cbn in Hfuel; lia.
Qed.

(** A class that is not yet marked up to date: the call returns whether
    every training field of the class has been loaded, and stores that flag
    on the class record (per-field storage, where no class statistics are
    recomputed). *)
Lemma FinishClassStatsUpdate_stale_class `{Collaborators} (p : Project.t)
    (classNumber classStorage : Z) (c : Class.t) (fields : list Field.t)
    (fuel : nat) :
  classNumber < Project.numberStatisticsClasses p ->
  at_ (Project.storageClass p) classNumber = Some classStorage ->
  at_ (Project.classNamesPtr p) classStorage = Some c ->
  0 < Class.numberOfTrainFields c ->
  Class.statsUpToDate c = false ->
  Project.keepClassStatsOnlyFlag p = false ->
  FieldChain (Project.fieldIdentPtr p) (Class.firstFieldNumber c) fields ->
  (length fields < fuel)%nat ->
  FinishClassStatsUpdate fuel p classNumber
  = Some (Project.set_classNamesPtr
            (<[Z.to_nat classStorage :=
                 Class.set_statsUpToDate (allTrainingFieldsLoaded fields) c]>
               (Project.classNamesPtr p)) p,
          allTrainingFieldsLoaded fields).
Proof.
  intros Hnum Hst Hc Htrain Hstale Hkeep Hchain Hfuel.
  unfold FinishClassStatsUpdate.
  destruct (Z.leb_spec (Project.numberStatisticsClasses p) classNumber); [lia|].
  rewrite Hst. cbn [mbind option_bind]. rewrite Hc. cbn [mbind option_bind].
  destruct (Z.ltb_spec 0 (Class.numberOfTrainFields c)); [|lia].
  rewrite Hstale, Hkeep. cbn [negb andb].
  rewrite (FinishClassStatsUpdate_walk_spec _ _ _ Hchain fuel Hfuel).
  cbn [mbind option_bind fst snd]. unfold update_at.
  apply at_Some in Hc as [Hpos Hc]. apply lookup_lt_Some in Hc.
  destruct (Z.leb_spec 0 classStorage); [|lia].
  destruct (Z.ltb_spec classStorage (Z.of_nat (length (Project.classNamesPtr p))));
    [|lia].
  reflexivity.
Qed.

(** A class that is already marked up to date: whatever its fields are, the
    call returns false and clears the flag on the class record. *)
Lemma FinishClassStatsUpdate_up_to_date_class `{Collaborators} (p : Project.t)
    (classNumber classStorage : Z) (c : Class.t) (fuel : nat) :
  classNumber < Project.numberStatisticsClasses p ->
  at_ (Project.storageClass p) classNumber = Some classStorage ->
  at_ (Project.classNamesPtr p) classStorage = Some c ->
  Class.statsUpToDate c = true ->
  FinishClassStatsUpdate fuel p classNumber
  = Some (Project.set_classNamesPtr
            (<[Z.to_nat classStorage := Class.set_statsUpToDate false c]>
               (Project.classNamesPtr p)) p,
          false).
Proof.
  intros Hnum Hst Hc Hup. unfold FinishClassStatsUpdate.
  destruct (Z.leb_spec (Project.numberStatisticsClasses p) classNumber); [lia|].
  rewrite Hst. cbn [mbind option_bind]. rewrite Hc. cbn [mbind option_bind].
  rewrite Hup, andb_false_r. cbn [mbind option_bind fst snd]. unfold update_at.
  apply at_Some in Hc as [Hpos Hc]. apply lookup_lt_Some in Hc.
  destruct (Z.leb_spec 0 classStorage); [|lia].
  destruct (Z.ltb_spec classStorage (Z.of_nat (length (Project.classNamesPtr p))));
    [|lia].
  reflexivity.
Qed.

(** C1, at a class that is already marked up to date.  The class has one
    training field and it has been loaded into the class statistics.  A
    first call returns true
    and marks the class up to date; a second call on the result returns
    false and clears the mark, although every training field of the class is
    still loaded; and the project-level pass then reports the project as not
    up to date. *)
Theorem FinishClassStatsUpdate_clears_up_to_date_class :
  FieldChain (Project.fieldIdentPtr (loadedClassProject true)) 0
    [exampleField kTrainingType true (-1)] /\
  allTrainingFieldsLoaded [exampleField kTrainingType true (-1)] = true /\
  FinishClassStatsUpdate (H := exampleCollaborators) 2
    (loadedClassProject false) 0
  = Some (loadedClassProject true, true) /\
  FinishClassStatsUpdate (H := exampleCollaborators) 2
    (loadedClassProject true) 0
  = Some (loadedClassProject false, false) /\
  FinishProjectStatsUpdate (H := exampleCollaborators) 2
    (loadedClassProject true)
  = Some (loadedClassProject false).
Proof.
  split; [|repeat split; reflexivity].
  apply FieldChain_next; [done|reflexivity|]. apply FieldChain_end.
Qed.

(** ** SetProjectCovarianceStatsToUse and SetClassCovarianceStatsToUse *)

Lemma classSetting_record (p : Project.t) (i : Z) :
  classSetting p i = Class.covarianceStatsToUse <$> classRecord p i.
Proof.
  unfold classSetting, classRecord.
  destruct (at_ (Project.storageClass p) i) as [s|]; [|done]. cbn.
  by destruct (at_ (Project.classNamesPtr p) s).
Qed.

Lemma classHasModifiedStats_record (p : Project.t) (i : Z) :
  classHasModifiedStats p i = Class.modifiedStatsFlag <$> classRecord p i.
Proof.
  unfold classHasModifiedStats, classRecord.
  destruct (at_ (Project.storageClass p) i) as [s|]; [|done]. cbn.
  by destruct (at_ (Project.classNamesPtr p) s).
Qed.

Lemma SetProjectCovarianceStatsToUse_class_not_mixed (input : Z) (c : Class.t) :
  Class.covarianceStatsToUse (SetProjectCovarianceStatsToUse_class input c)
  <> kMixedStats.
Proof.
  unfold SetProjectCovarianceStatsToUse_class.
  destruct c as [a1 a2 a3 a4 a5 cov a7 a8 a9 modified a11]. cbn.
  destruct (Z.eqb_spec cov kMixedStats) as [Hc|Hc];
    destruct (Z.eqb_spec input kMixedStats) as [Hi|Hi]; cbn;
    repeat (match goal with
            | |- context [Z.eqb ?a ?b] => destruct (Z.eqb_spec a b); cbn
            | |- context [negb ?b] => destruct b; cbn
            | |- context [if ?b then _ else _] => destruct b; cbn
            end); unfold kMixedStats, kOriginalStats, kEnhancedStats in *; lia.
Qed.

Lemma SetProjectCovarianceStatsToUse_class_modified (input : Z) (c : Class.t) :
  Class.modifiedStatsFlag (SetProjectCovarianceStatsToUse_class input c)
  = Class.modifiedStatsFlag c.
Proof.
  unfold SetProjectCovarianceStatsToUse_class.
  destruct c as [a1 a2 a3 a4 a5 cov a7 a8 a9 modified a11]. cbn.
  repeat (match goal with
          | |- context [if ?b then _ else _] => destruct b; cbn
          end); reflexivity.
Qed.

Lemma SetProjectCovarianceStatsToUse_project_tables (input : Z) (c : Class.t)
    (p : Project.t) :
  Project.storageClass (SetProjectCovarianceStatsToUse_project input c p)
  = Project.storageClass p /\
  Project.classNamesPtr (SetProjectCovarianceStatsToUse_project input c p)
  = Project.classNamesPtr p /\
  Project.numberStatisticsClasses
    (SetProjectCovarianceStatsToUse_project input c p)
  = Project.numberStatisticsClasses p.
Proof.
  unfold SetProjectCovarianceStatsToUse_project.
  repeat (match goal with
          | |- context [if ?b then _ else _] => destruct b
          end); done.
Qed.

Lemma update_at_Some {A : Type} (l : list A) (i : Z) (x y : A) :
  at_ l i = Some y -> update_at l i x = Some (<[Z.to_nat i := x]> l).
Proof.
  intros Hy. apply at_Some in Hy as [Hi Hy]. apply lookup_lt_Some in Hy.
  unfold update_at. destruct (Z.leb_spec 0 i); [|lia].
  destruct (Z.ltb_spec i (Z.of_nat (length l))); [done|lia].
Qed.

Lemma at_insert_eq {A : Type} (l : list A) (i : Z) (x y : A) :
  at_ l i = Some y -> at_ (<[Z.to_nat i := x]> l) i = Some x.
Proof.
  intros Hy. apply at_Some in Hy as [Hi Hy]. apply lookup_lt_Some in Hy.
  unfold at_. destruct (Z.ltb_spec i 0); [lia|].
  by apply list_lookup_insert_eq.
Qed.

Lemma at_insert_ne {A : Type} (l : list A) (i j : Z) (x : A) :
  0 <= i -> i <> j -> at_ (<[Z.to_nat i := x]> l) j = at_ l j.
Proof.
  intros Hi Hne. unfold at_. destruct (Z.ltb_spec j 0); [done|].
  apply list_lookup_insert_ne. lia.
Qed.

Lemma SetProjectCovarianceStatsToUse_step (p0 : Project.t) (input : Z)
    (k : Z) (p : Project.t) (acc : Z) (enh : bool) :
  wellFormedClasses p0 ->
  0 <= k < Project.numberStatisticsClasses p0 ->
  SetProjectInvariant p0 input k p acc enh ->
  exists (s : Z) (c : Class.t),
    at_ (Project.storageClass p) k = Some s /\
    at_ (Project.classNamesPtr p) s = Some c /\
    update_at (Project.classNamesPtr p) s
      (SetProjectCovarianceStatsToUse_class input c)
    = Some (<[Z.to_nat s := SetProjectCovarianceStatsToUse_class input c]>
              (Project.classNamesPtr p)) /\
    SetProjectInvariant p0 input (k + 1)
      (Project.set_classNamesPtr
         (<[Z.to_nat s := SetProjectCovarianceStatsToUse_class input c]>
            (Project.classNamesPtr p))
         (SetProjectCovarianceStatsToUse_project input c p))
      (SetProjectCovarianceStatsToUse_summary k acc
         (Class.covarianceStatsToUse
            (SetProjectCovarianceStatsToUse_class input c)))
      (if Class.modifiedStatsFlag c then true else enh).
Proof.
  intros (Hn & Hslots & Hinj) Hk (Hst & Hnum & Hrec & Hsame & Hmixed & Henh).
  destruct (Hslots k Hk) as (s & c & Hs & Hc).
  assert (Hrec0 : classRecord p0 k = Some c).
  { unfold classRecord. rewrite Hs. exact Hc. }
  assert (Hpc : at_ (Project.classNamesPtr p) s = Some c).
  { pose proof (Hrec k Hk) as H. rewrite Hrec0 in H.
    destruct (Z.ltb_spec k k); [lia|]. unfold classRecord in H.
    rewrite Hst, Hs in H. exact H. }
  assert (Hafter : settingAfter p0 input k
                   = Some (Class.covarianceStatsToUse
                             (SetProjectCovarianceStatsToUse_class input c))).
  { unfold settingAfter. by rewrite Hrec0. }
  exists s, c. split; [by rewrite Hst|]. split; [done|].
  split; [by apply (update_at_Some _ _ _ c)|].
  destruct (SetProjectCovarianceStatsToUse_project_tables input c p)
    as (Et1 & Et2 & Et3).
  split; [|split; [|split; [|split; [|split]]]].
  - cbn. by rewrite Et1.
  - cbn. by rewrite Et3.
  - intros i Hi. unfold classRecord at 1. cbn. rewrite Et1, Hst.
    destruct (Hslots i Hi) as (si & ci & Hsi & Hci). rewrite Hsi.
    cbn [mbind option_bind].
    destruct (Z.eq_dec i k) as [->|Hik].
    + assert (si = s) as -> by congruence.
      rewrite (at_insert_eq _ _ _ c Hpc), Hrec0.
      destruct (Z.ltb_spec k (k + 1)); [done|lia].
    + assert (s <> si).
      { intros ->. apply Hik. by apply (Hinj i k si). }
      rewrite at_insert_ne; [|by apply at_Some in Hc as [? _]|done].
      pose proof (Hrec i Hi) as Hri. unfold classRecord at 1 in Hri.
      rewrite Hst, Hsi in Hri. cbn [mbind option_bind] in Hri. rewrite Hri.
      destruct (Z.ltb_spec i k), (Z.ltb_spec i (k + 1)); try done; lia.
  - intros _ Hacc i Hi. unfold SetProjectCovarianceStatsToUse_summary in *.
    destruct (Z.eqb_spec k 0) as [->|Hk0].
    + assert (i = 0) as -> by lia. done.
    + destruct (Z.eqb_spec acc kMixedStats) as [|Hm]; [done|]. cbn [negb] in *.
      destruct (Z.eqb_spec acc
                  (Class.covarianceStatsToUse
                     (SetProjectCovarianceStatsToUse_class input c)))
        as [Heq|Hneq]; cbn [negb] in *; [|done].
      destruct (Z.eq_dec i k) as [->|Hik]; [by rewrite Hafter, <- Heq|].
      apply Hsame; [lia|done|lia].
  - intros _ Hacc. unfold SetProjectCovarianceStatsToUse_summary in *.
    destruct (Z.eqb_spec k 0) as [->|Hk0].
    + by apply SetProjectCovarianceStatsToUse_class_not_mixed in Hacc.
    + destruct (Z.eqb_spec acc kMixedStats) as [Hm|Hm]; cbn [negb] in *.
      * destruct (Hmixed ltac:(lia) Hm) as (i & j & Hi & Hj & Hne).
        exists i, j. split; [lia|]. split; [lia|done].
      * destruct (Z.eqb_spec acc
                    (Class.covarianceStatsToUse
                       (SetProjectCovarianceStatsToUse_class input c)))
          as [Heq|Hneq]; cbn [negb] in *; [done|].
        exists 0, k. split; [lia|]. split; [lia|].
        rewrite (Hsame ltac:(lia) Hm 0 ltac:(lia)), Hafter. congruence.
  - assert (Hmod : classHasModifiedStats p0 k = Some (Class.modifiedStatsFlag c)).
    { by rewrite classHasModifiedStats_record, Hrec0. }
    split.
    + intros H. destruct (Class.modifiedStatsFlag c) eqn:Em.
      * exists k. split; [lia|done].
      * apply Henh in H as (i & Hi & Hm). exists i. split; [lia|done].
    + intros (i & Hi & Hm). destruct (Z.eq_dec i k) as [->|Hik].
      * rewrite Hmod in Hm. injection Hm as ->. done.
      * destruct (Class.modifiedStatsFlag c); [done|].
        apply Henh. exists i. split; [lia|done].
Qed.

Lemma SetProjectCovarianceStatsToUse_loop_spec (p0 : Project.t) (input : Z) :
  wellFormedClasses p0 ->
  forall (count : nat) (k : Z) (p : Project.t) (acc : Z) (enh : bool),
    0 <= k ->
    k + Z.of_nat count = Project.numberStatisticsClasses p0 ->
    SetProjectInvariant p0 input k p acc enh ->
    exists (p' : Project.t) (acc' : Z) (enh' : bool),
      SetProjectCovarianceStatsToUse_loop count k input p acc enh
      = Some (p', acc', enh') /\
      SetProjectInvariant p0 input (Project.numberStatisticsClasses p0)
        p' acc' enh'.
Proof.
  intros Hwf. induction count as [|count IH]; intros k p acc enh Hk Hn Hinv.
  - exists p, acc, enh. split; [done|].
    by replace (Project.numberStatisticsClasses p0) with k by lia.
  - cbn [SetProjectCovarianceStatsToUse_loop].
    destruct (SetProjectCovarianceStatsToUse_step p0 input k p acc enh Hwf
                ltac:(lia) Hinv) as (s & c & Hs & Hc & Hu & Hinv').
    rewrite Hs. cbn [mbind option_bind]. rewrite Hc. cbn [mbind option_bind].
    rewrite Hu. cbn [mbind option_bind]. apply IH; [lia|lia|done].
Qed.

Lemma classSetting_after_write (p q : Project.t) (s : Z) (c c' : Class.t) :
  Project.storageClass q = Project.storageClass p ->
  Project.classNamesPtr q = <[Z.to_nat s := c']> (Project.classNamesPtr p) ->
  at_ (Project.classNamesPtr p) s = Some c ->
  forall i si : Z,
    at_ (Project.storageClass p) i = Some si ->
    classSetting q i = if decide (si = s)
                       then Some (Class.covarianceStatsToUse c')
                       else classSetting p i.
Proof.
  intros Hst Hnames Hc i si Hsi. unfold classSetting.
  rewrite Hst, Hsi, Hnames. cbn [mbind option_bind].
  destruct (decide (si = s)) as [->|Hne].
  - by rewrite (at_insert_eq _ _ _ c Hc).
  - rewrite at_insert_ne; [done| |done]. by apply at_Some in Hc as [? _].
Qed.

Lemma SetClassCovarianceStatsToUse_differs_spec (p : Project.t) (input : Z) :
  (forall i : Z, 0 <= i < Project.numberStatisticsClasses p ->
     exists (s : Z) (c : Class.t),
       at_ (Project.storageClass p) i = Some s /\
       at_ (Project.classNamesPtr p) s = Some c) ->
  forall (count : nat) (k : Z),
    0 <= k ->
    k + Z.of_nat count = Project.numberStatisticsClasses p ->
    exists d : bool,
      SetClassCovarianceStatsToUse_differs count k p input = Some d /\
      (d = true <->
       exists i : Z, k <= i < Project.numberStatisticsClasses p /\
                     classSetting p i <> Some input).
Proof.
  intros Hslots. induction count as [|count IH]; intros k Hk Hn.
  - exists false. split; [done|]. split; [done|]. intros (i & Hi & _). lia.
  - cbn [SetClassCovarianceStatsToUse_differs].
    destruct (Hslots k ltac:(lia)) as (s & c & Hs & Hc).
    rewrite Hs. cbn [mbind option_bind]. rewrite Hc. cbn [mbind option_bind].
    assert (Hset : classSetting p k = Some (Class.covarianceStatsToUse c)).
    { unfold classSetting. rewrite Hs. cbn. by rewrite Hc. }
    destruct (Z.eqb_spec input (Class.covarianceStatsToUse c)) as [Heq|Hne];
      cbn [negb].
    + destruct (IH (k + 1) ltac:(lia) ltac:(lia)) as (d & -> & Hd).
      exists d. split; [done|]. rewrite Hd. split.
      * intros (i & Hi & Hdiff). exists i. split; [lia|done].
      * intros (i & Hi & Hdiff). exists i. split; [|done].
        destruct (Z.eq_dec i k) as [->|]; [|lia].
        rewrite Hset in Hdiff. congruence.
    + exists true. split; [done|]. split; [|done]. intros _.
      exists k. split; [lia|]. rewrite Hset. congruence.
Qed.

Lemma SetClassCovarianceStatsToUse_run (p : Project.t) (input : Z) :
  wellFormedClasses p ->
  0 <= Project.currentClass p < Project.numberStatisticsClasses p ->
  0 < input <= kEnhancedStats ->
  exists (q : Project.t) (s : Z) (c cq : Class.t) (d : bool),
    SetClassCovarianceStatsToUse p input = Some q /\
    at_ (Project.storageClass p) (Project.currentClass p) = Some s /\
    at_ (Project.classNamesPtr p) s = Some c /\
    Class.covarianceStatsToUse cq = input /\
    Project.storageClass q = Project.storageClass p /\
    Project.numberStatisticsClasses q = Project.numberStatisticsClasses p /\
    Project.classNamesPtr q = <[Z.to_nat s := cq]> (Project.classNamesPtr p) /\
    Project.covarianceStatsToUse q = (if d then kMixedStats else input) /\
    (d = true <->
     exists i : Z, 0 <= i < Project.numberStatisticsClasses p /\
                   classSetting q i <> Some input).
Proof.
  intros (Hn & Hslots & Hinj) Hcur Hin. unfold SetClassCovarianceStatsToUse.
  destruct (Z.leb_spec input 0); [lia|].
  destruct (Z.ltb_spec kEnhancedStats input); [lia|]. cbn [orb].
  destruct (Hslots _ Hcur) as (s & c & Hs & Hc).
  rewrite Hs. cbn [mbind option_bind]. rewrite Hc. cbn [mbind option_bind].
  rewrite (update_at_Some _ _ _ c Hc). cbn [mbind option_bind].
  set (c1 := Class.set_covarianceStatsToUse input c).
  set (p1 := Project.set_covarianceStatsToUse input
               (Project.set_classNamesPtr
                  (<[Z.to_nat s:=c1]> (Project.classNamesPtr p)) p)).
  assert (Hc1 : at_ (Project.classNamesPtr p1) s = Some c1)
    by apply (at_insert_eq _ _ _ c Hc).
  assert (Hslots1 : forall i : Z, 0 <= i < Project.numberStatisticsClasses p1 ->
            exists (si : Z) (ci : Class.t),
              at_ (Project.storageClass p1) i = Some si /\
              at_ (Project.classNamesPtr p1) si = Some ci).
  { intros i Hi. destruct (Hslots i Hi) as (si & ci & Hsi & Hci).
    exists si. destruct (Z.eq_dec si s) as [->|Hne].
    - exists c1. done.
    - exists ci. split; [done|]. cbn. rewrite at_insert_ne; [done| |done].
      by apply at_Some in Hc as [? _]. }
  destruct (SetClassCovarianceStatsToUse_differs_spec p1 input Hslots1
              (Z.to_nat (Project.numberStatisticsClasses p1)) 0 ltac:(lia))
    as (d & Hd & Hdiff); [cbn; lia|].
  rewrite Hd. cbn [mbind option_bind].
  set (p2 := if d then Project.set_covarianceStatsToUse kMixedStats p1 else p1).
  assert (Hp2 : Project.storageClass p2 = Project.storageClass p /\
                Project.currentClass p2 = Project.currentClass p /\
                Project.classNamesPtr p2 = Project.classNamesPtr p1 /\
                Project.numberStatisticsClasses p2
                = Project.numberStatisticsClasses p /\
                Project.covarianceStatsToUse p2
                = (if d then kMixedStats else input)).
  { subst p2. by destruct d. }
  destruct Hp2 as (E1 & E2 & E3 & E4 & E5).
  rewrite E1, E2, Hs. cbn [mbind option_bind]. rewrite E3, Hc1.
  cbn [mbind option_bind].
  assert (Hsame : forall q : Project.t,
            Project.storageClass q = Project.storageClass p ->
            forall cq : Class.t,
              Class.covarianceStatsToUse cq = input ->
              Project.classNamesPtr q
              = <[Z.to_nat s := cq]> (Project.classNamesPtr p) ->
              forall i : Z, classSetting q i = classSetting p1 i).
  { intros q Hq cq Hcq Hnames i. unfold classSetting.
    change (Project.storageClass p1) with (Project.storageClass p).
    rewrite Hq. destruct (at_ (Project.storageClass p) i) as [si|] eqn:Hsi;
      [|done]. cbn [mbind option_bind]. rewrite Hnames.
    change (Project.classNamesPtr p1)
      with (<[Z.to_nat s:=c1]> (Project.classNamesPtr p)).
    destruct (Z.eq_dec si s) as [->|Hne].
    - rewrite !(at_insert_eq _ _ _ c Hc). cbn. by rewrite Hcq.
    - assert (0 <= s) by (by apply at_Some in Hc as [? _]).
      by rewrite !at_insert_ne. }
  destruct ((input =? kLeaveOneOutStats)
            && (Class.mixingParameterCode c1 =? kComputedOptimum)
            && dltb (Class.looCovarianceValue c1) dzero).
  - rewrite (update_at_Some _ _ _ c1 Hc1). cbn [mbind option_bind].
    set (q := Project.set_classNamesPtr _ (Project.set_statsUpToDate false p2)).
    assert (Hnames : Project.classNamesPtr q
                     = <[Z.to_nat s:=Class.set_statsUpToDate false c1]>
                         (Project.classNamesPtr p))
      by apply list_insert_insert_eq.
    assert (Hq : Project.storageClass q = Project.storageClass p) by exact E1.
    exists q, s, c, (Class.set_statsUpToDate false c1), d.
    split; [done|]. split; [done|]. split; [done|]. split; [done|].
    split; [done|]. split; [done|].
    split; [exact Hnames|]. split; [done|].
    rewrite Hdiff. split.
    + intros (i & Hi & Hne). exists i. split; [done|].
      by rewrite (Hsame q Hq (Class.set_statsUpToDate false c1) eq_refl Hnames).
    + intros (i & Hi & Hne). exists i. split; [cbn; lia|].
      by rewrite (Hsame q Hq (Class.set_statsUpToDate false c1) eq_refl Hnames)
        in Hne.
  - exists p2, s, c, c1, d.
    split; [done|]. split; [done|]. split; [done|]. split; [done|].
    split; [done|]. split; [done|]. split; [done|]. split; [done|].
    rewrite Hdiff. split.
    + intros (i & Hi & Hne). exists i. split; [done|].
      by rewrite (Hsame p2 E1 c1 eq_refl E3).
    + intros (i & Hi & Hne). exists i. split; [cbn; lia|].
      by rewrite (Hsame p2 E1 c1 eq_refl E3) in Hne.
Qed.

Lemma SetProjectCovarianceStatsToUse_run (p : Project.t) (input : Z) :
  wellFormedClasses p ->
  exists (p' : Project.t) (acc : Z) (enh : bool),
    SetProjectCovarianceStatsToUse p input
    = Some (if (input =? kEnhancedStats) && negb enh
            then Project.set_covarianceStatsToUse kOriginalStats
                   (Project.set_enhancedStatsExistFlag enh
                      (Project.set_covarianceStatsToUse acc p'))
            else Project.set_enhancedStatsExistFlag enh
                   (Project.set_covarianceStatsToUse acc p')) /\
    SetProjectInvariant (Project.set_covarianceStatsToUse input p) input
      (Project.numberStatisticsClasses p) p' acc enh.
Proof.
  intros Hwf. unfold SetProjectCovarianceStatsToUse.
  set (p0 := Project.set_covarianceStatsToUse input p).
  assert (Hwf0 : wellFormedClasses p0) by exact Hwf.
  destruct (SetProjectCovarianceStatsToUse_loop_spec p0 input Hwf0
              (Z.to_nat (Project.numberStatisticsClasses p)) 0 p0
              kOriginalStats false ltac:(lia))
    as (p' & acc & enh & Hrun & Hinv).
  - destruct Hwf as [Hn _]. cbn. lia.
  - split; [done|]. split; [done|]. split.
    + intros i Hi. destruct (Z.ltb_spec i 0); [lia|].
      by destruct (classRecord p0 i).
    + split; [lia|]. split; [lia|]. split; [done|]. intros (i & Hi & _). lia.
  - exists p', acc, enh. rewrite Hrun. done.
Qed.

(** C8, as the code has it.  After [SetProjectCovarianceStatsToUse] no class
    holds Mixed.  The project-level selection is then the common class
    setting when all classes agree and Mixed when they disagree, except when
    Enhanced was requested and no class has enhanced statistics: then the
    project-level selection is Original whatever the classes hold.
    [SetClassCovarianceStatsToUse] leaves the project untouched when given
    Mixed; given Original, LeaveOneOut or Enhanced it stores that on the
    current class and sets the project-level selection to it when all
    classes hold it and to Mixed when some class differs. *)
Theorem CovarianceStatsToUse_mixed_only_at_project_level (p : Project.t)
    (covarianceStatsToUse : Z) :
  wellFormedClasses p ->
  0 <= Project.currentClass p < Project.numberStatisticsClasses p ->
  (exists q : Project.t,
     SetProjectCovarianceStatsToUse p covarianceStatsToUse = Some q /\
     (forall i : Z, 0 <= i < Project.numberStatisticsClasses p ->
        exists v : Z, classSetting q i = Some v /\ v <> kMixedStats) /\
     (covarianceStatsToUse = kEnhancedStats ->
      (forall i : Z, 0 <= i < Project.numberStatisticsClasses p ->
         classHasModifiedStats p i = Some false) ->
      Project.covarianceStatsToUse q = kOriginalStats) /\
     (covarianceStatsToUse <> kEnhancedStats \/
      (exists i : Z, 0 <= i < Project.numberStatisticsClasses p /\
         classHasModifiedStats p i = Some true) ->
      (forall v : Z,
         (forall i : Z, 0 <= i < Project.numberStatisticsClasses p ->
            classSetting q i = Some v) ->
         Project.covarianceStatsToUse q = v) /\
      ((exists i j : Z,
          0 <= i < Project.numberStatisticsClasses p /\
          0 <= j < Project.numberStatisticsClasses p /\
          classSetting q i <> classSetting q j) ->
       Project.covarianceStatsToUse q = kMixedStats))) /\
  SetClassCovarianceStatsToUse p kMixedStats = Some p /\
  (0 < covarianceStatsToUse <= kEnhancedStats ->
   exists q : Project.t,
     SetClassCovarianceStatsToUse p covarianceStatsToUse = Some q /\
     classSetting q (Project.currentClass p) = Some covarianceStatsToUse /\
     ((forall i : Z, 0 <= i < Project.numberStatisticsClasses p ->
         classSetting q i = Some covarianceStatsToUse) ->
      Project.covarianceStatsToUse q = covarianceStatsToUse) /\
     ((exists i : Z, 0 <= i < Project.numberStatisticsClasses p /\
         classSetting q i <> Some covarianceStatsToUse) ->
      Project.covarianceStatsToUse q = kMixedStats)).
Proof.
  intros Hwf Hcur. split; [|split; [reflexivity|]].
  - destruct (SetProjectCovarianceStatsToUse_run p covarianceStatsToUse Hwf)
      as (p' & acc & enh & Hrun & Hst & Hnum & Hrec & Hsame & Hmixed & Henh).
    set (n := Project.numberStatisticsClasses p) in *.
    set (p0 := Project.set_covarianceStatsToUse covarianceStatsToUse p) in *.
    change (Project.numberStatisticsClasses p0) with n in *.
    eexists. split; [exact Hrun|].
    assert (Hset : forall (q : Project.t) (i : Z),
              Project.storageClass q = Project.storageClass p' ->
              Project.classNamesPtr q = Project.classNamesPtr p' ->
              0 <= i < n ->
              classSetting q i = settingAfter p0 covarianceStatsToUse i).
    { intros q i Hq1 Hq2 Hi.
      assert (classSetting q i = classSetting p' i) as ->.
      { unfold classSetting. by rewrite Hq1, Hq2. }
      rewrite classSetting_record, (Hrec i Hi). unfold settingAfter.
      destruct (Z.ltb_spec i n); [|lia]. by destruct (classRecord p0 i). }
    assert (Hval : forall i : Z, 0 <= i < n ->
              exists v : Z, settingAfter p0 covarianceStatsToUse i = Some v /\
                            v <> kMixedStats).
    { intros i Hi. destruct Hwf as (_ & Hslots & _).
      destruct (Hslots i Hi) as (s & c & Hs & Hc).
      assert (classRecord p0 i = Some c) as Hr.
      { unfold classRecord. change (Project.storageClass p0)
          with (Project.storageClass p). rewrite Hs. exact Hc. }
      unfold settingAfter. rewrite Hr. eexists. split; [done|].
      apply SetProjectCovarianceStatsToUse_class_not_mixed. }
    assert (Hn : 0 < n) by lia.
    assert (Hall : forall q : Project.t,
              Project.storageClass q = Project.storageClass p' ->
              Project.classNamesPtr q = Project.classNamesPtr p' ->
              (forall v : Z,
                 (forall i : Z, 0 <= i < n -> classSetting q i = Some v) ->
                 acc = v) /\
              ((exists i j : Z, 0 <= i < n /\ 0 <= j < n /\
                  classSetting q i <> classSetting q j) ->
               acc = kMixedStats)).
    { intros q Hq1 Hq2. split.
      - intros v Hv. destruct (Z.eq_dec acc kMixedStats) as [Hm|Hm].
        + destruct (Hmixed Hn Hm) as (i & j & Hi & Hj & Hne).
          rewrite <- !(Hset q) in Hne by done.
          rewrite !Hv in Hne by done. done.
        + pose proof (Hsame Hn Hm 0 ltac:(lia)) as H0.
          rewrite <- (Hset q) in H0 by (done || lia).
          rewrite Hv in H0 by lia. congruence.
      - intros (i & j & Hi & Hj & Hne).
        destruct (Z.eq_dec acc kMixedStats) as [Hm|Hm]; [done|].
        rewrite !(Hset q) in Hne by done.
        rewrite !(Hsame Hn Hm) in Hne by done. done. }
    split; [|split].
    + intros i Hi. destruct (Hval i Hi) as (v & Hv & Hne).
      exists v. split; [|done]. rewrite <- Hv.
      apply Hset; [|  |done];
        by destruct ((covarianceStatsToUse =? kEnhancedStats) && negb enh).
    + intros -> Hnone. destruct enh.
      * destruct Henh as [Henh _].
        destruct (Henh eq_refl) as (i & Hi & Hm).
        change (classHasModifiedStats p0 i) with (classHasModifiedStats p i) in Hm.
        rewrite (Hnone i Hi) in Hm. done.
      * done.
    + intros Hcase.
      assert (((covarianceStatsToUse =? kEnhancedStats) && negb enh) = false)
        as ->.
      { destruct Hcase as [Hne|Hex].
        - destruct (Z.eqb_spec covarianceStatsToUse kEnhancedStats); done.
        - destruct Henh as [_ Henh]. rewrite Henh; [by rewrite andb_false_r|].
          exact Hex. }
      exact (Hall _ eq_refl eq_refl).
  - intros Hin.
    destruct (SetClassCovarianceStatsToUse_run p covarianceStatsToUse Hwf
                Hcur Hin)
      as (q & s & c & cq & d & Hrun & Hs & Hc & Hcq & Hst & Hnum & Hnames
          & Hcov & Hd).
    exists q. split; [done|]. split; [|split].
    + rewrite (classSetting_after_write p q s c cq Hst Hnames Hc _ s Hs).
      destruct (decide (s = s)); [by rewrite Hcq|done].
    + intros Hall. rewrite Hcov. destruct d; [|done].
      destruct Hd as [Hd _]. destruct (Hd eq_refl) as (i & Hi & Hne).
      by rewrite Hall in Hne.
    + intros Hex. rewrite Hcov. destruct Hd as [_ Hd].
      by rewrite (Hd Hex).
Qed.

Lemma twoClassProject_wellFormed : wellFormedClasses twoClassProject.
Proof.
  split; [cbn; lia|]. split.
  - intros i Hi. cbn in Hi.
    assert (i = 0 \/ i = 1) as [-> | ->] by lia; eexists _, _; split; reflexivity.
  - intros i j s Hi Hj Hsi Hsj. cbn in Hi, Hj.
    assert (i = 0 \/ i = 1) as [-> | ->] by lia;
      assert (j = 0 \/ j = 1) as [-> | ->] by lia;
      vm_compute in Hsi, Hsj; congruence.
Qed.

Lemma CovarianceStatsToUse_mixed_only_at_project_level_witness :
  exists q : Project.t,
    SetProjectCovarianceStatsToUse twoClassProject kLeaveOneOutStats = Some q /\
    forall i : Z, 0 <= i < 2 ->
      exists v : Z, classSetting q i = Some v /\ v <> kMixedStats.
Proof.
  destruct (CovarianceStatsToUse_mixed_only_at_project_level twoClassProject
              kLeaveOneOutStats) as [(q & Hrun & Hnot & _) _].
  - exact twoClassProject_wellFormed.
  - vm_compute. split; [discriminate|reflexivity].
  - exists q. split; [exact Hrun|exact Hnot].
Defined.

(** C8, counterexample to the claim as stated.  Two classes hold Original
    and LeaveOneOut and neither has enhanced statistics.  Requesting Enhanced
    for the project leaves the classes as they are, so they disagree, and
    sets the project-level selection to Original, not to Mixed. *)
Lemma SetProjectCovarianceStatsToUse_enhanced_unavailable :
  exists q : Project.t,
    SetProjectCovarianceStatsToUse twoClassProject kEnhancedStats = Some q /\
    classSetting q 0 = Some kOriginalStats /\
    classSetting q 1 = Some kLeaveOneOutStats /\
    classSetting q 0 <> classSetting q 1 /\
    Project.covarianceStatsToUse q = kOriginalStats /\
    Project.covarianceStatsToUse q <> kMixedStats.
Proof.
  eexists. split; [reflexivity|]. vm_compute.
  repeat split; discriminate.
Qed.

Example SetProjectCovarianceStatsToUse_mixed_request :
  (q ← SetProjectCovarianceStatsToUse twoClassProject kMixedStats;
   Some (Project.covarianceStatsToUse q, classSetting q 0, classSetting q 1))
  = Some (kMixedStats, Some kOriginalStats, Some kLeaveOneOutStats).
Proof. reflexivity. Qed.

Example SetClassCovarianceStatsToUse_current_class :
  (q ← SetClassCovarianceStatsToUse twoClassProject kLeaveOneOutStats;
   Some (Project.covarianceStatsToUse q, classSetting q 0, classSetting q 1))
  = Some (kLeaveOneOutStats, Some kLeaveOneOutStats, Some kLeaveOneOutStats).
Proof. reflexivity. Qed.

(** ** ReduceChanStatsVector *)

Lemma to_UInt16_small z : 0 <= z < 65536 -> to_UInt16 z = z.
Proof. intros. unfold to_UInt16. by apply Z.mod_small. Qed.



(** ** Enhanced statistics: GetClassChannelStatistics, GetClassCovarianceMatrix *)







(** ** Accessors without a status: GetClassMeanVector, GetClassCovarianceMatrix *)

Lemma GetClassChannelStatistics_result `{Collaborators} (fuel : nat)
    (p : Project.t) (numberOutputChannels : Z)
    (chanPtr : option (list ChannelStatistics))
    (channelListPtr : option (list Z)) (classNumber : Z)
    (chan' : option (list ChannelStatistics)) (flag : bool) :
  GetClassChannelStatistics fuel p numberOutputChannels chanPtr
    channelListPtr classNumber = Some (chan', flag) ->
  (flag = false -> chan' = chanPtr) /\ (flag = true -> is_Some chan').
Proof.
  unfold GetClassChannelStatistics. destruct chanPtr as [out|].
  - destruct (numberOutputChannels <=? 0).
    { intros [= <- <-]. done. }
    destruct (at_ (Project.storageClass p) classNumber) as [s|]; [|done].
    cbn [mbind option_bind].
    destruct (at_ (Project.classNamesPtr p) s) as [c|]; [|done].
    cbn [mbind option_bind].
    destruct (Class.numberOfTrainFields c <=? 0).
    { intros [= <- <-]. done. }
    destruct ((Class.covarianceStatsToUse c =? kEnhancedStats)
              && Class.modifiedStatsFlag c).
    + destruct (from_ (Project.modifiedClassChanStatsPtr p) _); [|done].
      cbn [mbind option_bind].
      destruct (ReduceChanStatsVector _ _ _ _); [|done].
      intros [= <- <-]. done.
    + match goal with
      | |- context [mbind _ ?m] => destruct m; [|done]
      end.
      intros [= <- <-]. done.
  - intros [= <- <-]. done.
Qed.

(** C9, as the code has it.  Neither accessor returns a status: the result
    of a call is the caller's buffers.  [GetClassMeanVector] writes the mean
    vector, reduced from the class channel statistics, when
    [GetClassChannelStatistics] reports success, and leaves both buffers as
    they were when it reports failure, which it does for a non-positive
    channel count, a null statistics buffer or a class without training
    fields.  [GetClassCovarianceMatrix] leaves the globals and both buffers
    as they were when its entry checks fail (a non-positive channel count, a
    null buffer, a statistics code above the project's) and, outside the
    enhanced branch, when the class has no training fields.  In its two other
    failing cases it writes to the buffers and still hands back no status:
    asked for the enhanced statistics of a class that has them stored but has
    no training fields, it overwrites the covariance buffer with the stored
    enhanced covariance of the requested channels, mirrored for a square
    matrix, and leaves the channel statistics and the globals alone; for a
    class with training fields whose class-only storage holds no statistics
    pixels, outside the enhanced branch, it hands back both buffers as
    [ZeroStatisticsMemory] left them. *)
Theorem accessors_return_no_status `{Collaborators} (fuel : nat) (g : Globals)
    (numberOutputChannels : Z) (chanPtr : option (list ChannelStatistics))
    (covPtr : option (list double)) (outputClassMeanPtr : list double)
    (channelListPtr : option (list Z)) (classNumber : Z)
    (squareOutputMatrixFlag : bool)
    (outputStatisticsCode covarianceStatsToUse : Z) :
  (* the mean vector follows the Boolean of GetClassChannelStatistics *)
  (forall (chan' : option (list ChannelStatistics)) (flag : bool),
     GetClassChannelStatistics fuel (gProjectInfoPtr g) numberOutputChannels
       chanPtr channelListPtr classNumber = Some (chan', flag) ->
     (flag = true ->
      exists stats : list ChannelStatistics,
        chan' = Some stats /\
        GetClassMeanVector fuel (gProjectInfoPtr g) numberOutputChannels
          chanPtr outputClassMeanPtr channelListPtr classNumber
        = Some (Some stats,
                ReduceMeanVector stats outputClassMeanPtr numberOutputChannels
                  None)) /\
     (flag = false ->
      GetClassMeanVector fuel (gProjectInfoPtr g) numberOutputChannels
        chanPtr outputClassMeanPtr channelListPtr classNumber
      = Some (chanPtr, outputClassMeanPtr))) /\
  (* when GetClassChannelStatistics reports failure *)
  (numberOutputChannels <= 0 \/ chanPtr = None \/
   (exists (classStorage : Z) (c : Class.t),
      at_ (Project.storageClass (gProjectInfoPtr g)) classNumber
      = Some classStorage /\
      at_ (Project.classNamesPtr (gProjectInfoPtr g)) classStorage = Some c /\
      Class.numberOfTrainFields c <= 0) ->
   GetClassChannelStatistics fuel (gProjectInfoPtr g) numberOutputChannels
     chanPtr channelListPtr classNumber = Some (chanPtr, false)) /\
  (* the entry checks of GetClassCovarianceMatrix *)
  (numberOutputChannels <= 0 \/ chanPtr = None \/ covPtr = None \/
   Project.statisticsCode (gProjectInfoPtr g) < outputStatisticsCode ->
   GetClassCovarianceMatrix fuel g numberOutputChannels chanPtr covPtr
     channelListPtr classNumber squareOutputMatrixFlag outputStatisticsCode
     covarianceStatsToUse = Some (g, chanPtr, covPtr)) /\
  (* a class without training fields, original statistics *)
  (forall (classStorage : Z) (c : Class.t),
     at_ (Project.storageClass (gProjectInfoPtr g)) classNumber
     = Some classStorage ->
     at_ (Project.classNamesPtr (gProjectInfoPtr g)) classStorage = Some c ->
     Class.numberOfTrainFields c <= 0 ->
     covarianceStatsToUse <> kEnhancedStats \/ Class.modifiedStatsFlag c = false ->
     GetClassCovarianceMatrix fuel g numberOutputChannels chanPtr covPtr
       channelListPtr classNumber squareOutputMatrixFlag outputStatisticsCode
       covarianceStatsToUse = Some (g, chanPtr, covPtr)) /\
  (* a class without training fields, enhanced statistics asked for and
     stored: the covariance buffer is overwritten *)
  (forall (classStorage : Z) (c : Class.t) (chan : list ChannelStatistics)
          (cov inputCovariancePtr : list double),
     chanPtr = Some chan -> covPtr = Some cov ->
     0 < numberOutputChannels ->
     outputStatisticsCode <= Project.statisticsCode (gProjectInfoPtr g) ->
     at_ (Project.storageClass (gProjectInfoPtr g)) classNumber
     = Some classStorage ->
     at_ (Project.classNamesPtr (gProjectInfoPtr g)) classStorage = Some c ->
     Class.numberOfTrainFields c <= 0 ->
     covarianceStatsToUse = kEnhancedStats ->
     Class.modifiedStatsFlag c = true ->
     from_ (Project.modifiedClassCovStatsPtr (gProjectInfoPtr g))
           (classStorage * Project.numberCovarianceEntries (gProjectInfoPtr g))
     = Some inputCovariancePtr ->
     (squareOutputMatrixFlag = true ->
      (Z.to_nat numberOutputChannels * Z.to_nat numberOutputChannels
       <= length (ReduceInputMatrix numberOutputChannels cov
                    (Project.numberStatisticsChannels (gProjectInfoPtr g))
                    channelListPtr inputCovariancePtr
                    squareOutputMatrixFlag))%nat) ->
     exists cov' : list double,
       (if squareOutputMatrixFlag
        then CopyLowerToUpperSquareMatrix (Z.to_nat numberOutputChannels)
               (ReduceInputMatrix numberOutputChannels cov
                  (Project.numberStatisticsChannels (gProjectInfoPtr g))
                  channelListPtr inputCovariancePtr squareOutputMatrixFlag)
             = Some cov'
        else cov' = ReduceInputMatrix numberOutputChannels cov
                      (Project.numberStatisticsChannels (gProjectInfoPtr g))
                      channelListPtr inputCovariancePtr
                      squareOutputMatrixFlag) /\
       GetClassCovarianceMatrix fuel g numberOutputChannels chanPtr covPtr
         channelListPtr classNumber squareOutputMatrixFlag
         outputStatisticsCode covarianceStatsToUse
       = Some (g, Some chan, Some cov')) /\
  (* class-only storage without statistics pixels: the buffers are cleared *)
  (forall (classStorage : Z) (c : Class.t) (chan : list ChannelStatistics)
          (cov : list double),
     chanPtr = Some chan -> covPtr = Some cov ->
     0 < numberOutputChannels ->
     outputStatisticsCode <= Project.statisticsCode (gProjectInfoPtr g) ->
     at_ (Project.storageClass (gProjectInfoPtr g)) classNumber
     = Some classStorage ->
     at_ (Project.classNamesPtr (gProjectInfoPtr g)) classStorage = Some c ->
     0 < Class.numberOfTrainFields c ->
     Project.keepClassStatsOnlyFlag (gProjectInfoPtr g) = true ->
     Class.numberStatisticsPixels c <= 0 ->
     covarianceStatsToUse <> kEnhancedStats \/ Class.modifiedStatsFlag c = false ->
     GetClassCovarianceMatrix fuel g numberOutputChannels chanPtr covPtr
       channelListPtr classNumber squareOutputMatrixFlag outputStatisticsCode
       covarianceStatsToUse
     = Some (g,
             Some (ZeroStatisticsMemory chan cov numberOutputChannels
                     outputStatisticsCode squareOutputMatrixFlag).1,
             Some (ZeroStatisticsMemory chan cov numberOutputChannels
                     outputStatisticsCode squareOutputMatrixFlag).2)).
Proof.
  set (p := gProjectInfoPtr g). split; [|split; [|split; [|split; [|split]]]].
  - intros chan' flag Hrun.
    destruct (GetClassChannelStatistics_result fuel p numberOutputChannels
                chanPtr channelListPtr classNumber chan' flag Hrun)
      as [Hfalse Htrue].
    unfold GetClassMeanVector. fold p. rewrite Hrun.
    cbn [mbind option_bind fst snd]. split.
    + intros ->. destruct (Htrue eq_refl) as [stats ->]. exists stats. done.
    + intros ->. by rewrite (Hfalse eq_refl).
  - intros Hfail. unfold GetClassChannelStatistics. fold p.
    destruct chanPtr as [out|]; [|done].
    destruct (Z.leb_spec numberOutputChannels 0); [done|].
    destruct Hfail as [Hn|[Hnull|(s & c & Hs & Hc & Htrain)]]; [lia|done|].
    fold p in Hs, Hc. rewrite Hs. cbn [mbind option_bind]. rewrite Hc.
    cbn [mbind option_bind].
    destruct (Z.leb_spec (Class.numberOfTrainFields c) 0); [done|lia].
  - intros Hfail. unfold GetClassCovarianceMatrix. fold p.
    destruct chanPtr as [chan|]; [|done].
    destruct covPtr as [cov|]; [|done].
    destruct (Z.leb_spec numberOutputChannels 0); [done|].
    destruct (Z.ltb_spec (Project.statisticsCode p) outputStatisticsCode);
      [done|].
    destruct Hfail as [?|[?|[?|?]]]; [lia|done|done|lia].
  - intros s c Hs Hc Htrain Hsel. unfold GetClassCovarianceMatrix. fold p.
    destruct chanPtr as [chan|]; [|done].
    destruct covPtr as [cov|]; [|done].
    destruct (Z.leb_spec numberOutputChannels 0) as [|Hpos]; [done|].
    destruct (Z.ltb_spec (Project.statisticsCode p) outputStatisticsCode);
      [done|].
    unfold GetClassCovarianceMatrix_estimate. fold p. fold p in Hs, Hc.
    rewrite Hs. cbn [mbind option_bind]. rewrite Hc. cbn [mbind option_bind].
    assert (((covarianceStatsToUse =? kEnhancedStats)
             && Class.modifiedStatsFlag c) = false) as ->.
    { destruct Hsel as [Hne| ->]; [|by rewrite andb_false_r].
      destruct (Z.eqb_spec covarianceStatsToUse kEnhancedStats); done. }
    unfold GetClassSumsSquares.
    destruct (Z.leb_spec numberOutputChannels 0); [lia|].
    rewrite Hs. cbn [mbind option_bind]. rewrite Hc. cbn [mbind option_bind].
    destruct (Z.ltb_spec 0 (Class.numberOfTrainFields c)); [lia|].
    reflexivity.
  - intros s c chan cov inputCov -> -> Hpos Hcode Hs Hc Htrain -> Hmod Hfrom
      Hsize.
    fold p in Hs, Hc, Hfrom, Hsize, Hcode.
    set (reduced := ReduceInputMatrix numberOutputChannels cov
                      (Project.numberStatisticsChannels p) channelListPtr
                      inputCov squareOutputMatrixFlag) in *.
    assert (Hmirror : exists cov' : list double,
              (if squareOutputMatrixFlag
               then CopyLowerToUpperSquareMatrix
                      (Z.to_nat numberOutputChannels) reduced
               else Some reduced) = Some cov').
    { destruct squareOutputMatrixFlag; [|by eexists].
      destruct (CopyLowerToUpperSquareMatrix_spec
                  (Z.to_nat numberOutputChannels) reduced (Hsize eq_refl))
        as (m' & -> & _). by eexists. }
    destruct Hmirror as (cov' & Hcov').
    exists cov'. split.
    { destruct squareOutputMatrixFlag; [done|congruence]. }
    unfold GetClassCovarianceMatrix. fold p.
    destruct (Z.leb_spec numberOutputChannels 0); [lia|].
    destruct (Z.ltb_spec (Project.statisticsCode p) outputStatisticsCode);
      [lia|].
    unfold GetClassCovarianceMatrix_estimate. fold p.
    rewrite Hs. cbn [mbind option_bind]. rewrite Hc. cbn [mbind option_bind].
    rewrite Hmod, Z.eqb_refl. cbn [andb]. rewrite Hfrom.
    cbn [mbind option_bind].
    unfold GetClassChannelStatistics.
    destruct (Z.leb_spec numberOutputChannels 0); [lia|].
    rewrite Hs. cbn [mbind option_bind]. rewrite Hc. cbn [mbind option_bind].
    destruct (Z.leb_spec (Class.numberOfTrainFields c) 0); [|lia].
    cbn [mbind option_bind fst snd]. fold reduced. rewrite Hcov'.
    reflexivity.
  - intros s c chan cov -> -> Hpos Hcode Hs Hc Htrain Hkeep Hpixels Hsel.
    fold p in Hs, Hc, Hkeep, Hcode.
    unfold GetClassCovarianceMatrix. fold p.
    destruct (Z.leb_spec numberOutputChannels 0); [lia|].
    destruct (Z.ltb_spec (Project.statisticsCode p) outputStatisticsCode);
      [lia|].
    unfold GetClassCovarianceMatrix_estimate. fold p.
    rewrite Hs. cbn [mbind option_bind]. rewrite Hc. cbn [mbind option_bind].
    assert (((covarianceStatsToUse =? kEnhancedStats)
             && Class.modifiedStatsFlag c) = false) as ->.
    { destruct Hsel as [Hne| ->]; [|by rewrite andb_false_r].
      destruct (Z.eqb_spec covarianceStatsToUse kEnhancedStats); done. }
    unfold GetClassSumsSquares.
    destruct (Z.leb_spec numberOutputChannels 0); [lia|].
    rewrite Hs. cbn [mbind option_bind]. rewrite Hc. cbn [mbind option_bind].
    destruct (Z.ltb_spec 0 (Class.numberOfTrainFields c)); [|lia].
    rewrite Hkeep.
    destruct (Z.ltb_spec 0 (Class.numberStatisticsPixels c)); [lia|].
    reflexivity.
Qed.

Lemma accessors_return_no_status_witness :
  GetClassMeanVector (H := meanCollaborators) 1 (meanProject 0) 2
    (Some meanCallerStats) meanCallerVector None 0
  = Some (Some meanCallerStats, meanCallerVector) /\
  GetClassCovarianceMatrix (H := clearingCollaborators) 1
    (mkGlobals (silentProject 0 10 true) false) 2 (Some meanCallerStats)
    (Some [dOne; dzero; dOne]) None 0 false kMeanCovariance kEnhancedStats
  = Some (mkGlobals (silentProject 0 10 true) false, Some meanCallerStats,
          Some [dtwo; dOne; dtwo]) /\
  GetClassCovarianceMatrix (H := clearingCollaborators) 1
    (mkGlobals (silentProject 1 0 false) false) 2 (Some meanCallerStats)
    (Some [dOne; dzero; dOne]) None 0 false kMeanCovariance kOriginalStats
  = Some (mkGlobals (silentProject 1 0 false) false,
          Some [mkChannelStatistics dzero dzero dzero dzero dzero;
                mkChannelStatistics dzero dzero dzero dzero dzero],
          Some [dzero; dzero; dzero]).
Proof.
  split; [|split].
  - destruct (accessors_return_no_status (H := meanCollaborators) 1
                (mkGlobals (meanProject 0) false) 2 (Some meanCallerStats)
                (Some [dzero; dzero; dzero]) meanCallerVector None 0 false
                kMeanCovariance kOriginalStats) as (Hmean & Hfail & _).
    destruct (Hmean (Some meanCallerStats) false) as [_ Hkeep].
    + apply Hfail. right. right. exists 0, (Class.mk 0 10 10 (-1) true
        kOriginalStats 0 dminus_one dzero false false).
      split; [reflexivity|]. split; [reflexivity|]. cbn. lia.
    + exact (Hkeep eq_refl).
  - destruct (accessors_return_no_status (H := clearingCollaborators) 1
                (mkGlobals (silentProject 0 10 true) false) 2
                (Some meanCallerStats) (Some [dOne; dzero; dOne])
                meanCallerVector None 0 false kMeanCovariance kEnhancedStats)
      as (_ & _ & _ & _ & Henhanced & _).
    destruct (Henhanced 0
                (Class.mk 0 10 10 (-1) true kOriginalStats 0 dminus_one dzero
                   true false)
                meanCallerStats [dOne; dzero; dOne] [dtwo; dOne; dtwo])
      as (cov' & Hcov' & Hrun).
    + reflexivity.
    + reflexivity.
    + lia.
    + vm_compute. discriminate.
    + reflexivity.
    + reflexivity.
    + vm_compute. discriminate.
    + reflexivity.
    + reflexivity.
    + reflexivity.
    + discriminate.
    + rewrite Hrun, Hcov'. reflexivity.
  - destruct (accessors_return_no_status (H := clearingCollaborators) 1
                (mkGlobals (silentProject 1 0 false) false) 2
                (Some meanCallerStats) (Some [dOne; dzero; dOne])
                meanCallerVector None 0 false kMeanCovariance kOriginalStats)
      as (_ & _ & _ & _ & _ & Hcleared).
    pose proof (Hcleared 0
                  (Class.mk 1 10 0 (-1) true kOriginalStats 0 dminus_one dzero
                     false false)
                  meanCallerStats [dOne; dzero; dOne]) as Hrun.
    rewrite Hrun.
    + reflexivity.
    + reflexivity.
    + reflexivity.
    + lia.
    + vm_compute. discriminate.
    + reflexivity.
    + reflexivity.
    + vm_compute. reflexivity.
    + reflexivity.
    + vm_compute. discriminate.
    + left. discriminate.
Defined.

(** C9, counterexample to the claim as stated.  The caller's buffers hold
    the statistics and the mean vector (1.0, 2.0) of an earlier call.  For a
    class without training fields [GetClassChannelStatistics] reports
    failure, [GetClassMeanVector] writes nothing and hands back what a
    successful call for a class with those means hands back: the caller
    cannot tell the two apart.  [GetClassCovarianceMatrix] likewise hands
    back the buffers untouched, with no status. *)
Lemma GetClassMeanVector_failure_is_silent :
  GetClassChannelStatistics (H := meanCollaborators) 1 (meanProject 1) 2
    (Some meanCallerStats) None 0 = Some (Some meanCallerStats, true) /\
  GetClassChannelStatistics (H := meanCollaborators) 1 (meanProject 0) 2
    (Some meanCallerStats) None 0 = Some (Some meanCallerStats, false) /\
  GetClassMeanVector (H := meanCollaborators) 1 (meanProject 0) 2
    (Some meanCallerStats) meanCallerVector None 0
  = GetClassMeanVector (H := meanCollaborators) 1 (meanProject 1) 2
      (Some meanCallerStats) meanCallerVector None 0 /\
  GetClassCovarianceMatrix (H := meanCollaborators) 1
    (mkGlobals (meanProject 0) false) 2 (Some meanCallerStats)
    (Some [dOne; dzero; dOne]) None 0 false kMeanCovariance kOriginalStats
  = Some (mkGlobals (meanProject 0) false, Some meanCallerStats,
          Some [dOne; dzero; dOne]).
Proof. repeat split; reflexivity. Qed.

(** A first call into cleared buffers writes the means 10/10 and 20/10. *)
Example GetClassMeanVector_means :
  GetClassMeanVector (H := meanCollaborators) 1 (meanProject 1) 2
    (Some [exampleStats dzero dzero dzero dzero;
           exampleStats dzero dzero dzero dzero]) [dzero; dzero] None 0
  = Some (Some [mkChannelStatistics dOne (dofZ 10) dminus_one dzero (dofZ 5);
                mkChannelStatistics dtwo (dofZ 20) dminus_one dOne (dofZ 7)],
          [dOne; dtwo]).
Proof. reflexivity. Qed.

(** ** GetCommonCovariance *)



Lemma length_addWeighted (n : nat) (sum : list double)
    (term : double * list double) :
  length (addWeighted n sum term) = length sum.
Proof. apply length_imap. Qed.

Lemma length_weightedSum (n : nat) (terms : list (double * list double)) :
  forall zero : list double, length (weightedSum n zero terms) = length zero.
Proof.
  unfold weightedSum. induction terms as [|t terms IH]; intros zero; [done|].
  cbn [foldl]. by rewrite IH, length_addWeighted.
Qed.













(** The three classes of strictly positive weight among the four of the
    example give the three terms of the sum; the class of weight zero gives
    none. *)
Example GetCommonCovariance_skips_class :
  (r ← pooledTerms (H := pooledCollaborators) 1
         (mkGlobals (pooledProject false 7) false) pooledTemp
         (Some pooledStats) None None 4 2 false kMeanCovariance
         kEnhancedStats;
   Some (map fst (terms r)))
  = Some [ddiv dOne (dofZ 4); ddiv dOne (dofZ 4); ddiv dtwo (dofZ 4)] /\
  classWeights (H := pooledCollaborators) 4 0 None 0 (dofZ 4)
    (pooledProject false 7)
  = Some [ddiv dOne (dofZ 4); ddiv dOne (dofZ 4); dzero;
          ddiv dtwo (dofZ 4)].
Proof. split; vm_compute; reflexivity. Qed.




(** The run of the example is cancelled by the message about the second
    class, whose zero variance was reset: two classes have been counted and
    added to the sum, and the cached class count is still 7. *)
Example GetCommonCovariance_cancelled_after_second_class :
  (st ← GetCommonCovariance (H := pooledCollaborators) 1
          (mkGlobals (pooledProject true 7) false) pooledCovariance
          pooledTemp (Some pooledStats) None None 4 2 false kMeanCovariance
          kEnhancedStats true;
   Some (continueFlag st, numberCommonCovarianceClasses st,
         Project.numberCommonCovarianceClasses (gProjectInfoPtr (globals st)),
         gOperationCanceledFlag (globals st)))
  = Some (false, 2, 7, true).
Proof. vm_compute. reflexivity. Qed.

(** A pass that is not cancelled writes the count when
    [projectCommonCovarianceFlag] is set and leaves it otherwise. *)
Example GetCommonCovariance_counts_on_success :
  (st ← GetCommonCovariance (H := pooledCollaborators) 1
          (mkGlobals (pooledProject false 7) false) pooledCovariance
          pooledTemp (Some pooledStats) None None 4 2 false kMeanCovariance
          kEnhancedStats true;
   Some (continueFlag st,
         Project.numberCommonCovarianceClasses (gProjectInfoPtr (globals st))))
  = Some (true, 3) /\
  (st ← GetCommonCovariance (H := pooledCollaborators) 1
          (mkGlobals (pooledProject false 7) false) pooledCovariance
          pooledTemp (Some pooledStats) None None 4 2 false kMeanCovariance
          kEnhancedStats false;
   Some (continueFlag st,
         Project.numberCommonCovarianceClasses (gProjectInfoPtr (globals st))))
  = Some (true, 7).
Proof. split; vm_compute; reflexivity. Qed.

(* ===================================================================== *)
(** * Further properties of the statistics routines *)
(* ===================================================================== *)

(** ** FinishClassStatsUpdate on a class that is not yet up to date *)

Lemma allTrainingFieldsLoaded_Forall (fields : list Field.t) :
  allTrainingFieldsLoaded fields = true <->
  Forall (fun f => Field.fieldType f = kTrainingType ->
                   Field.loadedIntoClassStats f = true) fields.
Proof.
  unfold allTrainingFieldsLoaded. rewrite forallb_forall, Forall_forall.
  split; intros Hall f Hin.
  - intros Htype. specialize (Hall f).
    rewrite <- list_elem_of_In in Hall. specialize (Hall Hin).
    rewrite Htype, Z.eqb_refl in Hall. exact Hall.
  - rewrite <- list_elem_of_In in Hin. specialize (Hall f Hin).
    destruct (Z.eqb_spec (Field.fieldType f) kTrainingType); [|done].
    cbn. auto.
Qed.

(** X1.  For a class with at least one training field that is not marked up
    to date, [FinishClassStatsUpdate] returns TRUE exactly when every
    training field of the class's field chain has been loaded into the class
    statistics, and stores the returned flag in the class's [statsUpToDate];
    the other class records and the field table are untouched.  With
    per-field storage the class statistics memory is left alone; with
    class-only storage the class's channel statistics are replaced by what
    [ComputeMeanStdDevVector] makes of them, whether or not the class turned
    out to be up to date. *)
Theorem FinishClassStatsUpdate_stale `{Collaborators} (p : Project.t)
    (classNumber classStorage : Z) (c : Class.t) (fields : list Field.t)
    (fuel : nat) (classChanPtr : list ChannelStatistics)
    (classSumSquaresPtr : list double) :
  classNumber < Project.numberStatisticsClasses p ->
  at_ (Project.storageClass p) classNumber = Some classStorage ->
  at_ (Project.classNamesPtr p) classStorage = Some c ->
  0 < Class.numberOfTrainFields c ->
  Class.statsUpToDate c = false ->
  FieldChain (Project.fieldIdentPtr p) (Class.firstFieldNumber c) fields ->
  (length fields < fuel)%nat ->
  (Project.keepClassStatsOnlyFlag p = true ->
   from_ (Project.classChanStatsPtr p)
         (classStorage * Project.numberStatisticsChannels p)
   = Some classChanPtr /\
   from_ (Project.classSumSquaresStatsPtr p)
         (classStorage * Project.numberCovarianceEntries p)
   = Some classSumSquaresPtr) ->
  exists (q : Project.t) (upToDateFlag : bool),
    FinishClassStatsUpdate fuel p classNumber = Some (q, upToDateFlag) /\
    (upToDateFlag = true <->
     Forall (fun f => Field.fieldType f = kTrainingType ->
                      Field.loadedIntoClassStats f = true) fields) /\
    Project.classNamesPtr q
    = <[Z.to_nat classStorage := Class.set_statsUpToDate upToDateFlag c]>
        (Project.classNamesPtr p) /\
    Project.fieldIdentPtr q = Project.fieldIdentPtr p /\
    Project.statsUpToDate q = Project.statsUpToDate p /\
    Project.classChanStatsPtr q
    = (if Project.keepClassStatsOnlyFlag p
       then store_ (Project.classChanStatsPtr p)
              (classStorage * Project.numberStatisticsChannels p)
              (ComputeMeanStdDevVector classChanPtr classSumSquaresPtr
                 (Project.numberStatisticsChannels p)
                 (to_UInt32 (Class.numberStatisticsPixels c))
                 (Project.statisticsCode p) kTriangleInputMatrix)
       else Project.classChanStatsPtr p).
Proof.
  intros Hnum Hst Hc Htrain Hstale Hchain Hfuel Hbuffers.
  exists (Project.set_classNamesPtr
            (<[Z.to_nat classStorage :=
                 Class.set_statsUpToDate (allTrainingFieldsLoaded fields) c]>
               (Project.classNamesPtr p))
            (if Project.keepClassStatsOnlyFlag p
             then Project.set_classChanStatsPtr
                    (store_ (Project.classChanStatsPtr p)
                       (classStorage * Project.numberStatisticsChannels p)
                       (ComputeMeanStdDevVector classChanPtr classSumSquaresPtr
                          (Project.numberStatisticsChannels p)
                          (to_UInt32 (Class.numberStatisticsPixels c))
                          (Project.statisticsCode p) kTriangleInputMatrix))
                    p
             else p)),
    (allTrainingFieldsLoaded fields).
  split.
  - unfold FinishClassStatsUpdate.
    destruct (Z.leb_spec (Project.numberStatisticsClasses p) classNumber);
      [lia|].
    rewrite Hst. cbn [mbind option_bind]. rewrite Hc. cbn [mbind option_bind].
    destruct (Z.ltb_spec 0 (Class.numberOfTrainFields c)); [|lia].
    rewrite Hstale. cbn [negb andb].
    rewrite (FinishClassStatsUpdate_walk_spec _ _ _ Hchain fuel Hfuel).
    cbn [mbind option_bind]. unfold computeClassMeanStdDev.
    apply at_Some in Hc as [Hpos Hc]. apply lookup_lt_Some in Hc.
    destruct (Project.keepClassStatsOnlyFlag p);
      [destruct (Hbuffers eq_refl) as [-> ->]|];
      cbn [mbind option_bind fst snd]; unfold update_at; cbn;
      destruct (Z.leb_spec 0 classStorage); try lia;
      destruct (Z.ltb_spec classStorage
                  (Z.of_nat (length (Project.classNamesPtr p)))); try lia;
      reflexivity.
  - split; [apply allTrainingFieldsLoaded_Forall|].
    by destruct (Project.keepClassStatsOnlyFlag p).
Qed.

Lemma FinishClassStatsUpdate_stale_witness :
  exists q : Project.t,
    FinishClassStatsUpdate (H := exampleCollaborators) 2
      (loadedClassProject false) 0 = Some (q, true) /\
    Project.classNamesPtr q = [exampleClass true kOriginalStats false].
Proof.
  destruct (FinishClassStatsUpdate_stale (H := exampleCollaborators)
              (loadedClassProject false) 0 0
              (exampleClass false kOriginalStats false)
              [exampleField kTrainingType true (-1)] 2 [] [])
    as (q & flag & Hrun & Hflag & Hnames & _); try reflexivity.
  - apply FieldChain_next; [done|reflexivity|]. apply FieldChain_end.
  - cbn. lia.
  - discriminate.
  - assert (flag = true) as ->.
    { apply Hflag. repeat constructor. }
    exists q. split; [exact Hrun|]. rewrite Hnames. reflexivity.
Defined.

(** ** FinishProjectStatsUpdate *)

Lemma FieldChain_functional (fieldIdentPtr : list Field.t) (fieldNumber : Z)
    (fields1 fields2 : list Field.t) :
  FieldChain fieldIdentPtr fieldNumber fields1 ->
  FieldChain fieldIdentPtr fieldNumber fields2 -> fields1 = fields2.
Proof.
  intros H1. revert fields2.
  induction H1 as [|fieldNumber f rest Hne Hat _ IH]; intros fields2 H2.
  - by inversion H2.
  - inversion H2 as [|? f' rest' _ Hat' Hrest']; subst; [done|].
    rewrite Hat in Hat'. injection Hat' as <-. f_equal. by apply IH.
Qed.

(** A class the guard of [FinishClassStatsUpdate] skips: no training field,
    or already marked up to date. *)
Lemma FinishClassStatsUpdate_skipped `{Collaborators} (p : Project.t)
    (classNumber classStorage : Z) (c : Class.t) (fuel : nat) :
  classNumber < Project.numberStatisticsClasses p ->
  at_ (Project.storageClass p) classNumber = Some classStorage ->
  at_ (Project.classNamesPtr p) classStorage = Some c ->
  Class.numberOfTrainFields c <= 0 \/ Class.statsUpToDate c = true ->
  FinishClassStatsUpdate fuel p classNumber
  = Some (Project.set_classNamesPtr
            (<[Z.to_nat classStorage := Class.set_statsUpToDate false c]>
               (Project.classNamesPtr p)) p,
          false).
Proof.
  intros Hnum Hst Hc Hskip. unfold FinishClassStatsUpdate.
  destruct (Z.leb_spec (Project.numberStatisticsClasses p) classNumber); [lia|].
  rewrite Hst. cbn [mbind option_bind]. rewrite Hc. cbn [mbind option_bind].
  assert ((0 <? Class.numberOfTrainFields c) && negb (Class.statsUpToDate c)
          = false) as ->.
  { destruct Hskip as [Hskip| ->]; [|by rewrite andb_false_r].
    by destruct (Z.ltb_spec 0 (Class.numberOfTrainFields c)); [lia|]. }
  cbn [mbind option_bind fst snd]. by rewrite (update_at_Some _ _ _ c Hc).
Qed.

Lemma classRecord_after_write (p q : Project.t) (s : Z) (c c' : Class.t) :
  Project.storageClass q = Project.storageClass p ->
  Project.classNamesPtr q = <[Z.to_nat s := c']> (Project.classNamesPtr p) ->
  at_ (Project.classNamesPtr p) s = Some c ->
  forall i si : Z,
    at_ (Project.storageClass p) i = Some si ->
    classRecord q i = if decide (si = s) then Some c' else classRecord p i.
Proof.
  intros Hst Hnames Hc i si Hsi. unfold classRecord.
  rewrite Hst, Hsi, Hnames. cbn [mbind option_bind].
  destruct (decide (si = s)) as [->|Hne].
  - by rewrite (at_insert_eq _ _ _ c Hc).
  - rewrite at_insert_ne; [done| |done]. by apply at_Some in Hc as [? _].
Qed.

Lemma FinishProjectStatsUpdate_step `{Collaborators} (p0 : Project.t)
    (fuel : nat) (k : Z) (p : Project.t) (flag : bool) :
  wellFormedClasses p0 ->
  Project.keepClassStatsOnlyFlag p0 = false ->
  chainsWithin fuel p0 ->
  0 <= k < Project.numberStatisticsClasses p0 ->
  FinishProjectInvariant p0 k p flag ->
  exists (q : Project.t) (b : bool),
    FinishClassStatsUpdate fuel p k = Some (q, b) /\
    FinishProjectInvariant p0 (k + 1) q (if b then flag else false).
Proof.
  intros (Hn0 & Hrecords & Hinj) Hkeep Hchains Hk
    (Hst & Hnum & Hfields & Hkeep' & Hinv & Hflag).
  destruct (Hrecords k Hk) as (s & c & Hs & Hc0).
  destruct (Hinv k Hk) as (c' & Hc' & Hck).
  destruct (Z.ltb_spec k k); [lia|].
  assert (c' = c) as ->.
  { unfold classRecord in Hc'. rewrite Hs in Hc'. cbn in Hc'. congruence. }
  assert (Hc : at_ (Project.classNamesPtr p) s = Some c).
  { unfold classRecord in Hck. rewrite Hst, Hs in Hck. exact Hck. }
  assert (Hs' : at_ (Project.storageClass p) k = Some s) by by rewrite Hst.
  assert (Hready : forall b : bool,
            (b = true <-> classReady p0 k) ->
            FinishClassStatsUpdate fuel p k
            = Some (Project.set_classNamesPtr
                      (<[Z.to_nat s := Class.set_statsUpToDate b c]>
                         (Project.classNamesPtr p)) p, b) ->
            exists (q : Project.t) (b' : bool),
              FinishClassStatsUpdate fuel p k = Some (q, b') /\
              FinishProjectInvariant p0 (k + 1) q (if b' then flag else false)).
  { intros b Hb Hrun. eexists _, b. split; [exact Hrun|].
    repeat split; try done.
    - intros i Hi. destruct (Hinv i Hi) as (ci & Hci & Hcase).
      exists ci. split; [done|].
      destruct (Hrecords i Hi) as (si & ci' & Hsi & _).
      assert (Hsi' : at_ (Project.storageClass p) i = Some si)
        by by rewrite Hst.
      rewrite (classRecord_after_write p
                 (Project.set_classNamesPtr
                    (<[Z.to_nat s := Class.set_statsUpToDate b c]>
                       (Project.classNamesPtr p)) p)
                 s c (Class.set_statsUpToDate b c) eq_refl eq_refl Hc i si
                 Hsi').
      destruct (decide (si = s)) as [->|Hne].
      + assert (i = k) as -> by by eapply Hinj.
        destruct (Z.ltb_spec k (k + 1)); [|lia].
        exists b. split; [congruence|done].
      + assert (i <> k) by (intros ->; congruence).
        destruct (Z.ltb_spec i k), (Z.ltb_spec i (k + 1)); try lia; done.
    - intros Hboth i Hi. destruct b; [|done].
      destruct (decide (i = k)) as [->|]; [by apply Hb|].
      apply Hflag; [done|lia].
    - intros Hall. assert (b = true) as -> by (apply Hb, Hall; lia).
      apply Hflag. intros i Hi. apply Hall. lia. }
  destruct (decide (0 < Class.numberOfTrainFields c
                    /\ Class.statsUpToDate c = false)) as [[Htrain Hstale]|Hskip].
  - destruct (Hchains k c Hk Hc' Htrain Hstale) as (fields & Hchain & Hfuel).
    apply (Hready (allTrainingFieldsLoaded fields)).
    + split.
      * intros Hall. exists c, fields. done.
      * intros (c2 & fields2 & Hc2 & _ & _ & Hchain2 & Hall).
        assert (c2 = c) as -> by congruence.
        by rewrite (FieldChain_functional _ _ _ _ Hchain Hchain2).
    + apply FinishClassStatsUpdate_stale_class; try done; try lia.
      * by rewrite Hkeep'.
      * by rewrite Hfields.
  - apply (Hready false).
    + split; [done|]. intros (c2 & fields2 & Hc2 & Htrain & Hstale & _).
      assert (c2 = c) as -> by congruence. tauto.
    + apply FinishClassStatsUpdate_skipped; try done; try lia.
      destruct (Class.statsUpToDate c); [by right|left].
      destruct (Z.ltb_spec 0 (Class.numberOfTrainFields c)); [tauto|lia].
Qed.

Lemma FinishProjectStatsUpdate_loop_spec `{Collaborators} (p0 : Project.t)
    (fuel : nat) :
  wellFormedClasses p0 ->
  Project.keepClassStatsOnlyFlag p0 = false ->
  chainsWithin fuel p0 ->
  forall (count : nat) (k : Z) (p : Project.t) (flag : bool),
    0 <= k ->
    k + Z.of_nat count = Project.numberStatisticsClasses p0 ->
    FinishProjectInvariant p0 k p flag ->
    exists (q : Project.t) (flag' : bool),
      FinishProjectStatsUpdate_loop fuel count k p flag = Some (q, flag') /\
      FinishProjectInvariant p0 (Project.numberStatisticsClasses p0) q flag'.
Proof.
  intros Hwf Hkeep Hchains.
  induction count as [|count IH]; intros k p flag Hk Hn Hinv.
  - exists p, flag. split; [done|].
    by replace (Project.numberStatisticsClasses p0) with k by lia.
  - cbn [FinishProjectStatsUpdate_loop].
    destruct (FinishProjectStatsUpdate_step p0 fuel k p flag Hwf Hkeep Hchains
                ltac:(lia) Hinv) as (q & b & -> & Hinv').
    cbn [mbind option_bind fst snd]. apply IH; [lia|lia|done].
Qed.

(** X2.  With per-field storage and well-formed class tables,
    [FinishProjectStatsUpdate] marks the project up to date exactly when
    every class has training fields, was not yet marked up to date, and has
    all its training fields loaded into the class statistics; each class
    record is left with that verdict in its [statsUpToDate].  In particular
    one class without training fields, or one class that was already marked
    up to date, makes the project not up to date. *)
Theorem FinishProjectStatsUpdate_verdict `{Collaborators} (p : Project.t)
    (fuel : nat) :
  wellFormedClasses p ->
  Project.keepClassStatsOnlyFlag p = false ->
  chainsWithin fuel p ->
  exists q : Project.t,
    FinishProjectStatsUpdate fuel p = Some q /\
    (Project.statsUpToDate q = true <->
     forall i : Z, 0 <= i < Project.numberStatisticsClasses p ->
       classReady p i) /\
    (forall i : Z, 0 <= i < Project.numberStatisticsClasses p ->
       exists (c : Class.t) (b : bool),
         classRecord p i = Some c /\
         classRecord q i = Some (Class.set_statsUpToDate b c) /\
         (b = true <-> classReady p i)) /\
    ((exists (i : Z) (c : Class.t),
        0 <= i < Project.numberStatisticsClasses p /\
        classRecord p i = Some c /\
        (Class.numberOfTrainFields c <= 0 \/ Class.statsUpToDate c = true)) ->
     Project.statsUpToDate q = false).
Proof.
  intros Hwf Hkeep Hchains.
  destruct (FinishProjectStatsUpdate_loop_spec p fuel Hwf Hkeep Hchains
              (Z.to_nat (Project.numberStatisticsClasses p)) 0 p true)
    as (q & flag & Hrun & Hinv).
  - lia.
  - destruct Hwf as [? _]. lia.
  - repeat split; try done.
    + intros i Hi. destruct Hwf as (_ & Hrecords & _).
      destruct (Hrecords i Hi) as (s & c & Hs & Hc). exists c.
      destruct (Z.ltb_spec i 0); [lia|].
      unfold classRecord. rewrite Hs. by split.
    + intros _ i Hi. lia.
  - destruct Hinv as (_ & _ & _ & _ & Hrecords & Hflag).
    exists (Project.set_statsUpToDate flag q). unfold FinishProjectStatsUpdate.
    rewrite Hrun. cbn [mbind option_bind fst snd]. split; [done|].
    assert (Hverdict :
      Project.statsUpToDate (Project.set_statsUpToDate flag q) = true <->
      forall i : Z, 0 <= i < Project.numberStatisticsClasses p ->
        classReady p i) by exact Hflag.
    split; [exact Hverdict|]. split.
    + intros i Hi. destruct (Hrecords i Hi) as (c & Hc & Hcase).
      destruct (Z.ltb_spec i (Project.numberStatisticsClasses p)); [|lia].
      destruct Hcase as (b & Hq & Hb). by exists c, b.
    + intros (i & c & Hi & Hc & Hskip).
      destruct (Project.statsUpToDate (Project.set_statsUpToDate flag q))
        eqn:Hup; [|done].
      destruct (proj1 Hverdict eq_refl i Hi)
        as (c2 & fields & Hc2 & Htrain & Hstale & _).
      assert (c2 = c) as -> by congruence.
      destruct Hskip; [lia|congruence].
Qed.

Lemma loadedClassProject_wellFormed (upToDate : bool) :
  wellFormedClasses (loadedClassProject upToDate).
Proof.
  split; [cbn; lia|]. split.
  - intros i Hi. cbn in Hi. assert (i = 0) as -> by lia.
    eexists _, _; split; reflexivity.
  - intros i j s Hi Hj _ _. cbn in Hi, Hj. lia.
Qed.

Lemma FinishProjectStatsUpdate_verdict_witness :
  exists q : Project.t,
    FinishProjectStatsUpdate (H := exampleCollaborators) 2
      (loadedClassProject false) = Some q /\
    Project.statsUpToDate q = true.
Proof.
  destruct (FinishProjectStatsUpdate_verdict (H := exampleCollaborators)
              (loadedClassProject false) 2)
    as (q & Hrun & Hverdict & _).
  - apply loadedClassProject_wellFormed.
  - reflexivity.
  - intros i c Hi Hc _ _. cbn in Hi. assert (i = 0) as -> by lia.
    exists [exampleField kTrainingType true (-1)]. split; [|cbn; lia].
    vm_compute in Hc. injection Hc as <-.
    apply FieldChain_next; [done|reflexivity|]. apply FieldChain_end.
  - exists q. split; [exact Hrun|]. apply Hverdict.
    intros i Hi. cbn in Hi. assert (i = 0) as -> by lia.
    exists (exampleClass false kOriginalStats false),
      [exampleField kTrainingType true (-1)].
    split; [reflexivity|]. split; [reflexivity|]. split; [reflexivity|].
    split; [|reflexivity].
    apply FieldChain_next; [done|reflexivity|]. apply FieldChain_end.
Defined.

(** ** CombineFieldChannelStatistics *)

Lemma combineRecords_accumulate (o : ChannelStatistics)
    (records : list ChannelStatistics) :
  sum (combineRecords false o records) = foldl dadd (sum o) (map sum records) /\
  minimum (combineRecords false o records)
  = foldl MIN (minimum o) (map minimum records) /\
  maximum (combineRecords false o records)
  = foldl MAX (maximum o) (map maximum records) /\
  standardDev (combineRecords false o records) = standardDev o /\
  mean (combineRecords false o records) = mean o.
Proof.
  revert o. induction records as [|i rest IH]; intros o; [done|].
  cbn [combineRecords map foldl].
  destruct (IH (mergeChannelStatistics false o i)) as (-> & -> & -> & -> & ->).
  done.
Qed.

Lemma from_lookup {A : Type} (l tail : list A) (offset : Z) (j : nat) :
  from_ l offset = Some tail -> tail !! j = at_ l (offset + Z.of_nat j).
Proof.
  unfold from_.
  destruct (Z.leb_spec 0 offset); [|done].
  destruct (Z.leb_spec offset (Z.of_nat (length l))); [|done].
  intros [= <-]. rewrite lookup_drop. unfold at_.
  destruct (Z.ltb_spec (offset + Z.of_nat j) 0); [lia|].
  f_equal. lia.
Qed.

Lemma from_length {A : Type} (l tail : list A) (offset : Z) :
  from_ l offset = Some tail ->
  0 <= offset /\ Z.of_nat (length tail) = Z.of_nat (length l) - offset.
Proof.
  unfold from_.
  destruct (Z.leb_spec 0 offset); [|done].
  destruct (Z.leb_spec offset (Z.of_nat (length l))); [|done].
  intros [= <-]. rewrite length_drop. lia.
Qed.

Lemma from_Some {A : Type} (l : list A) (offset : Z) :
  0 <= offset <= Z.of_nat (length l) ->
  from_ l offset = Some (drop (Z.to_nat offset) l).
Proof.
  intros Hoffset. unfold from_.
  destruct (Z.leb_spec 0 offset); [|lia].
  destruct (Z.leb_spec offset (Z.of_nat (length l))); [done|lia].
Qed.

Lemma CombineFieldChannelStatistics_walk_spec (p : Project.t)
    (channelListPtr : option (list Z)) (fieldNumber : Z)
    (fields : list Field.t) :
  0 < Project.numberStatisticsChannels p <= 65535 ->
  FieldChain (Project.fieldIdentPtr p) fieldNumber fields ->
  fieldStatisticsStored p fields ->
  forall (fuel : nat) (out : list ChannelStatistics) (initializeFlag : bool),
    (length fields < fuel)%nat ->
    (Z.to_nat (Project.numberStatisticsChannels p) <= length out)%nat ->
    exists out' : list ChannelStatistics,
      CombineFieldChannelStatistics_walk fuel p
        (Project.numberStatisticsChannels p) channelListPtr out fieldNumber
        initializeFlag = Some out' /\
      length out' = length out /\
      (forall (j : nat) (o : ChannelStatistics),
         (j < Z.to_nat (Project.numberStatisticsChannels p))%nat ->
         out !! j = Some o ->
         out' !! j
         = Some (combineRecords initializeFlag o (fieldRecords p fields j)) /\
         length (fieldRecords p fields j)
         = length (List.filter contributes fields)) /\
      (forall j : nat,
         (Z.to_nat (Project.numberStatisticsChannels p) <= j)%nat ->
         out' !! j = out !! j).
Proof.
  intros Hn Hchain.
  induction Hchain as [|fieldNumber f rest Hne Hat _ IH];
    intros Hstored fuel out init Hfuel Hout.
  - destruct fuel; [cbn in Hfuel; lia|]. exists out. cbn. done.
  - destruct fuel; [cbn in Hfuel; lia|].
    apply Forall_cons in Hstored as [Hf Hstored].
    cbn [CombineFieldChannelStatistics_walk].
    destruct (Z.eqb_spec fieldNumber (-1)) as [|_]; [done|].
    rewrite Hat. cbn [mbind option_bind]. fold (contributes f).
    unfold fieldRecords. cbn [List.filter].
    destruct (contributes f) eqn:Hcontributes.
    + destruct (Hf eq_refl) as [Hpos Hend].
      set (nCh := Project.numberStatisticsChannels p) in *.
      rewrite (from_Some (Project.fieldChanStatsPtr p)
                 (Field.trainingStatsNumber f * nCh)) by nia.
      cbn [mbind option_bind]. unfold AddToClassChannelStatistics.
      rewrite Z.eqb_refl.
      destruct (AddToClassChannelStatistics_loop_identity
                  (drop (Z.to_nat (Field.trainingStatsNumber f * nCh))
                     (Project.fieldChanStatsPtr p))
                  init (to_UInt32 (nCh - 1)) (Z.to_nat nCh) 0 out 0)
        as (out1 & Hrun & Hlen1 & Hmerge & Hother1).
      { lia. }
      { rewrite length_drop. nia. }
      { lia. }
      change (Z.of_nat 0) with 0 in Hrun. rewrite Hrun.
      cbn [mbind option_bind].
      destruct (IH Hstored fuel out1 false) as (out' & -> & Hlen & Hrec & Hother);
        [cbn in Hfuel; lia|lia|].
      exists out'. split; [done|]. split; [congruence|]. split.
      * intros j o Hj Ho.
        assert (Hi : is_Some (drop (Z.to_nat (Field.trainingStatsNumber f * nCh))
                                (Project.fieldChanStatsPtr p) !! j)).
        { apply lookup_lt_is_Some_2. rewrite length_drop. nia. }
        destruct Hi as [i Hi].
        assert (Hi' : at_ (Project.fieldChanStatsPtr p)
                          (Field.trainingStatsNumber f * nCh + Z.of_nat j)
                      = Some i).
        { rewrite <- Hi. symmetry. apply from_lookup, from_Some. nia. }
        cbn [omap list_omap]. rewrite Hi'. cbn [combineRecords length].
        destruct (Hrec j (mergeChannelStatistics init o i) Hj)
          as [Hj' Hcount].
        { apply Hmerge; [lia|done|done]. }
        unfold fieldRecords in Hj', Hcount. subst nCh.
        by rewrite Hj', Hcount.
      * intros j Hj. rewrite Hother by done. apply Hother1. lia.
    + destruct (IH Hstored fuel out init) as (out' & -> & Hlen & Hrec & Hother);
        [cbn in Hfuel; lia|lia|].
      exists out'. done.
Qed.

(** X3.  With per-field storage and all project channels requested,
    [CombineFieldChannelStatistics] leaves in each channel record of the
    caller's buffer the statistics of the class's training fields whose
    statistics are up to date, merged in the order of the field chain: the
    sum of their sums, the [MIN] of their minimums, the [MAX] of their
    maximums and the stale marker -1 as standard deviation.  Test fields and
    fields whose statistics are not up to date are passed over, and when no
    field contributes the buffer is returned as the caller gave it. *)
Theorem CombineFieldChannelStatistics_merges_fields (fuel : nat)
    (p : Project.t) (channelListPtr : option (list Z))
    (out : list ChannelStatistics) (classNumber classStorage : Z)
    (c : Class.t) (fields : list Field.t) :
  0 < Project.numberStatisticsChannels p <= 65535 ->
  at_ (Project.storageClass p) classNumber = Some classStorage ->
  at_ (Project.classNamesPtr p) classStorage = Some c ->
  FieldChain (Project.fieldIdentPtr p) (Class.firstFieldNumber c) fields ->
  (length fields < fuel)%nat ->
  fieldStatisticsStored p fields ->
  (Z.to_nat (Project.numberStatisticsChannels p) <= length out)%nat ->
  exists out' : list ChannelStatistics,
    CombineFieldChannelStatistics fuel p (Project.numberStatisticsChannels p)
      channelListPtr (Some out) classNumber = Some (Some out') /\
    length out' = length out /\
    (List.filter contributes fields = [] -> out' = out) /\
    (forall (j : nat) (o : ChannelStatistics),
       (j < Z.to_nat (Project.numberStatisticsChannels p))%nat ->
       out !! j = Some o ->
       out' !! j = Some (combineRecords true o (fieldRecords p fields j)) /\
       length (fieldRecords p fields j)
       = length (List.filter contributes fields) /\
       forall (i : ChannelStatistics) (rest : list ChannelStatistics),
         fieldRecords p fields j = i :: rest ->
         exists r : ChannelStatistics,
           out' !! j = Some r /\
           sum r = foldl dadd (sum i) (map sum rest) /\
           minimum r = foldl MIN (minimum i) (map minimum rest) /\
           maximum r = foldl MAX (maximum i) (map maximum rest) /\
           standardDev r = dminus_one /\
           mean r = mean o) /\
    (forall j : nat,
       (Z.to_nat (Project.numberStatisticsChannels p) <= j)%nat ->
       out' !! j = out !! j).
Proof.
  intros Hn Hs Hc Hchain Hfuel Hstored Hout.
  destruct (CombineFieldChannelStatistics_walk_spec p channelListPtr _ fields
              Hn Hchain Hstored fuel out true Hfuel Hout)
    as (out' & Hrun & Hlen & Hrec & Hother).
  exists out'. split.
  { unfold CombineFieldChannelStatistics.
    destruct (Z.leb_spec (Project.numberStatisticsChannels p) 0); [lia|].
    rewrite Hs. cbn [mbind option_bind]. rewrite Hc. cbn [mbind option_bind].
    by rewrite Hrun. }
  split; [done|]. split; [|split; [|done]].
  - intros Hnone. apply list_eq. intros j.
    destruct (decide (j < Z.to_nat (Project.numberStatisticsChannels p))%nat)
      as [Hj|Hj]; [|apply Hother; lia].
    destruct (out !! j) as [o|] eqn:Ho.
    + destruct (Hrec j o Hj Ho) as [-> _]. unfold fieldRecords.
      by rewrite Hnone.
    + apply lookup_ge_None in Ho. lia.
  - intros j o Hj Ho. destruct (Hrec j o Hj Ho) as [Hj' Hcount].
    split; [done|]. split; [done|]. intros i rest Hrecords.
    eexists. split; [exact Hj'|]. rewrite Hrecords. cbn [combineRecords].
    destruct (combineRecords_accumulate (mergeChannelStatistics true o i) rest)
      as (-> & -> & -> & -> & ->).
    done.
Qed.

Lemma CombineFieldChannelStatistics_merges_fields_witness :
  exists out' : list ChannelStatistics,
    CombineFieldChannelStatistics 4 threeFieldProject 2 None
      (Some [exampleStats dzero dzero dzero dzero;
             exampleStats dzero dzero dzero dzero]) 0 = Some (Some out') /\
    out' = [exampleStats (dadd dOne dtwo) dminus_one dzero dtwo;
            exampleStats (dadd dtwo dOne) dminus_one dzero dtwo].
Proof.
  destruct (CombineFieldChannelStatistics_merges_fields 4 threeFieldProject
              None
              [exampleStats dzero dzero dzero dzero;
               exampleStats dzero dzero dzero dzero] 0 0
              (Class.mk 2 20 20 0 false kOriginalStats 0 dminus_one dzero
                 false false)
              [Field.mk kTrainingType 1 0 10 true true 1;
               Field.mk kTestingType 1 (-1) 10 false false 2;
               Field.mk kTrainingType 1 1 10 true true (-1)])
    as (out' & Hrun & Hlen & _ & Hrec & _).
  - cbn. lia.
  - reflexivity.
  - reflexivity.
  - apply FieldChain_next; [done|reflexivity|].
    apply FieldChain_next; [done|reflexivity|].
    apply FieldChain_next; [done|reflexivity|]. apply FieldChain_end.
  - cbn. lia.
  - repeat (apply Forall_cons; split;
              [intros Hc; vm_compute in Hc; try discriminate Hc; cbn; lia|]).
    constructor.
  - cbn. lia.
  - exists out'. split; [exact Hrun|].
    destruct (Hrec 0%nat (exampleStats dzero dzero dzero dzero))
      as (H0 & _); [cbn; lia|reflexivity|].
    destruct (Hrec 1%nat (exampleStats dzero dzero dzero dzero))
      as (H1 & _); [cbn; lia|reflexivity|].
    destruct out' as [|r0 [|r1 [|? ?]]]; try discriminate Hlen.
    cbn in H0, H1. injection H0 as ->. injection H1 as ->.
    vm_compute. reflexivity.
Defined.

(** ** GetStdDevVectorFromCovariance *)

Lemma stdDevSourceIndex_succ (sq : bool) (code : Z) (n k : nat) :
  stdDevSourceIndex sq code n (S k)
  = (stdDevSourceIndex sq code n k
     + (if (code =? kMeanCovariance)%Z
        then if sq then n + 1 else k + 2
        else 1))%nat.
Proof.
  unfold stdDevSourceIndex, matrixIndex.
  destruct (code =? kMeanCovariance); [|lia].
  destruct sq; [lia|]. rewrite triangle_succ. lia.
Qed.

Lemma GetStdDevVectorFromCovariance_loop_spec (cov : list double) (sq : bool)
    (code : Z) (n : nat) :
  Z.of_nat n + 2 < 4294967296 ->
  forall (count k : nat) (out : list double) (skip : Z),
    (k + count = n)%nat ->
    ((code =? kMeanCovariance) = true ->
     skip = if sq then Z.of_nat n + 1 else Z.of_nat k + 2) ->
    (forall i : nat, (k <= i < n)%nat ->
       (stdDevSourceIndex sq code n i < length cov)%nat) ->
    (n <= length out)%nat ->
    exists out' : list double,
      GetStdDevVectorFromCovariance_loop count cov
        (stdDevSourceIndex sq code n k) skip sq code out k = Some out' /\
      length out' = length out /\
      (forall (i : nat) (x : double),
         (k <= i < n)%nat -> cov !! stdDevSourceIndex sq code n i = Some x ->
         out' !! i = Some (dsqrt (dabs x))) /\
      (forall i : nat, (i < k \/ n <= i)%nat -> out' !! i = out !! i).
Proof.
  intros Hn. induction count as [|count IH]; intros k out skip Hk Hskip Hcov Hout.
  - exists out. cbn. split; [done|]. split; [done|]. split; [intros; lia|done].
  - cbn [GetStdDevVectorFromCovariance_loop].
    destruct (lookup_lt_is_Some_2 cov (stdDevSourceIndex sq code n k))
      as [x Hx]; [apply Hcov; lia|].
    rewrite Hx. cbn [mbind option_bind].
    destruct (Nat.ltb_spec k (length out)); [|lia].
    assert (Hnext : exists skip',
      (if code =? kMeanCovariance
       then if sq
            then GetStdDevVectorFromCovariance_loop count cov
                   (stdDevSourceIndex sq code n k + Z.to_nat skip) skip sq code
                   (<[k := dsqrt (dabs x)]> out) (S k)
            else GetStdDevVectorFromCovariance_loop count cov
                   (stdDevSourceIndex sq code n k + Z.to_nat skip)
                   (to_UInt32 (skip + 1)) sq code
                   (<[k := dsqrt (dabs x)]> out) (S k)
       else GetStdDevVectorFromCovariance_loop count cov
              (S (stdDevSourceIndex sq code n k)) skip sq code
              (<[k := dsqrt (dabs x)]> out) (S k))
      = GetStdDevVectorFromCovariance_loop count cov
          (stdDevSourceIndex sq code n (S k)) skip' sq code
          (<[k := dsqrt (dabs x)]> out) (S k) /\
      ((code =? kMeanCovariance) = true ->
       skip' = if sq then Z.of_nat n + 1 else Z.of_nat (S k) + 2)).
    { rewrite stdDevSourceIndex_succ.
      destruct (code =? kMeanCovariance) eqn:Hcode.
      - specialize (Hskip eq_refl). destruct sq.
        + exists skip. subst skip. split; [|done]. do 2 f_equal. lia.
        + exists (to_UInt32 (skip + 1)). subst skip. split.
          * do 2 f_equal. lia.
          * intros _. rewrite to_UInt32_small; lia.
      - exists skip. split; [|done]. do 2 f_equal. lia. }
    destruct Hnext as (skip' & -> & Hskip').
    destruct (IH (S k) (<[k := dsqrt (dabs x)]> out) skip')
      as (out' & -> & Hlen & Hset & Hother).
    { lia. } { done. } { intros i Hi. apply Hcov. lia. }
    { by rewrite length_insert. }
    exists out'. split; [done|]. rewrite Hlen, length_insert.
    split; [done|]. split.
    + intros i y Hi Hy. destruct (decide (i = k)) as [->|Hne].
      * rewrite Hother by lia. rewrite list_lookup_insert_eq by lia. congruence.
      * apply Hset; [lia|done].
    + intros i Hi. rewrite Hother by lia. apply list_lookup_insert_ne. lia.
Qed.

(** X4.  [GetStdDevVectorFromCovariance] writes into entry k of the output
    vector, for every k below [numberFeatures], the square root of the
    absolute value of the k-th variance of the input: the k-th diagonal entry
    of the packed matrix, square or triangular, for mean-and-covariance
    statistics and the k-th entry of the input otherwise.  The rest of the
    output vector is unchanged, and a NULL output vector is left alone. *)
Theorem GetStdDevVectorFromCovariance_diagonal (cov out : list double)
    (numberFeatures : Z) (squareInputMatrixFlag : bool)
    (inputStatisticsCode : Z) :
  0 <= numberFeatures <= 65535 ->
  (forall i : nat, (i < Z.to_nat numberFeatures)%nat ->
     (stdDevSourceIndex squareInputMatrixFlag inputStatisticsCode
        (Z.to_nat numberFeatures) i < length cov)%nat) ->
  (Z.to_nat numberFeatures <= length out)%nat ->
  GetStdDevVectorFromCovariance cov numberFeatures squareInputMatrixFlag
    inputStatisticsCode None = Some None /\
  exists out' : list double,
    GetStdDevVectorFromCovariance cov numberFeatures squareInputMatrixFlag
      inputStatisticsCode (Some out) = Some (Some out') /\
    length out' = length out /\
    (forall (k : nat) (x : double),
       (k < Z.to_nat numberFeatures)%nat ->
       cov !! stdDevSourceIndex squareInputMatrixFlag inputStatisticsCode
                (Z.to_nat numberFeatures) k = Some x ->
       out' !! k = Some (dsqrt (dabs x))) /\
    (forall k : nat, (Z.to_nat numberFeatures <= k)%nat ->
       out' !! k = out !! k).
Proof.
  intros Hn Hcov Hout. split; [reflexivity|].
  unfold GetStdDevVectorFromCovariance.
  set (n := Z.to_nat numberFeatures) in *.
  destruct (GetStdDevVectorFromCovariance_loop_spec cov squareInputMatrixFlag
              inputStatisticsCode n ltac:(lia) n 0 out
              (if squareInputMatrixFlag then to_UInt32 (numberFeatures + 1)
               else 2))
    as (out' & Hrun & Hlen & Hset & Hother); [lia| |intros; apply Hcov; lia|done|].
  { intros _. destruct squareInputMatrixFlag; [|done].
    rewrite to_UInt32_small; lia. }
  assert (stdDevSourceIndex squareInputMatrixFlag inputStatisticsCode n 0
          = 0%nat) as Hzero.
  { unfold stdDevSourceIndex, matrixIndex.
    destruct (inputStatisticsCode =? kMeanCovariance), squareInputMatrixFlag;
      reflexivity. }
  rewrite Hzero in Hrun. exists out'. rewrite Hrun. split; [done|].
  split; [done|]. split.
  - intros k x Hk Hx. apply Hset; [lia|done].
  - intros k Hk. apply Hother. lia.
Qed.

Lemma GetStdDevVectorFromCovariance_diagonal_witness :
  GetStdDevVectorFromCovariance [dofZ 4; dOne; dofZ 9] 2 false
    kMeanCovariance (Some [dzero; dzero; dOne])
  = Some (Some [dtwo; dofZ 3; dOne]).
Proof.
  destruct (GetStdDevVectorFromCovariance_diagonal [dofZ 4; dOne; dofZ 9]
              [dzero; dzero; dOne] 2 false kMeanCovariance)
    as (_ & out' & Hrun & Hlen & Hset & Hother).
  - lia.
  - intros i Hi. assert (i = 0 \/ i = 1)%nat as [-> | ->] by lia;
      vm_compute; lia.
  - cbn. lia.
  - rewrite Hrun. do 2 f_equal.
    pose proof (Hset 0%nat (dofZ 4) ltac:(cbn; lia) eq_refl) as H0.
    pose proof (Hset 1%nat (dofZ 9) ltac:(cbn; lia) eq_refl) as H1.
    pose proof (Hother 2%nat ltac:(cbn; lia)) as H2.
    destruct out' as [|a [|b [|c [|? ?]]]]; try discriminate Hlen.
    cbn in H0, H1, H2. injection H0 as ->. injection H1 as ->.
    injection H2 as ->. vm_compute. reflexivity.
Defined.

(** ** InitializeChannelMinimums and InitializeChannelMaximums *)

Lemma digits2_pos_bound (m : positive) :
  Z.pos m < 2 ^ Z.pos (digits2_pos m).
Proof.
  induction m as [m IH|m IH|]; cbn [digits2_pos]; [| |done].
  - rewrite Pos2Z.inj_succ, Z.pow_succ_r by lia. lia.
  - rewrite Pos2Z.inj_succ, Z.pow_succ_r by lia. lia.
Qed.

Lemma isDouble_mantissa (s : bool) (m : positive) (e : Z) :
  isDouble (S754_finite s m e) ->
  e <= 971 /\ (e = 971 -> Z.pos m <= 9007199254740991).
Proof.
  unfold isDouble. cbn [valid_binary]. unfold bounded, canonical_mantissa, fexp.
  intros Hvalid. apply andb_true_iff in Hvalid as [Hcanonical Hbound].
  apply Z.eqb_eq in Hcanonical. apply Z.leb_le in Hbound.
  unfold emin, prec, emax in *. split; [lia|]. intros ->.
  pose proof (digits2_pos_bound m) as Hdigits.
  assert (Z.pos (digits2_pos m) = 53) as Hd by lia.
  rewrite Hd in Hdigits. change (2 ^ 53) with 9007199254740992 in Hdigits.
  lia.
Qed.

(** No double other than plus infinity is above [DBL_MAX], and none other
    than minus infinity is below [-DBL_MAX]. *)
Lemma DBL_MAX_greatest (x : double) :
  isDouble x -> dltb DBL_MAX x = true -> x = S754_infinity false.
Proof.
  intros Hx. destruct x as [s|s| |s m e]; try discriminate.
  - destruct s; [discriminate|done].
  - destruct s; [discriminate|].
    destruct (isDouble_mantissa false m e Hx) as [He Hm].
    unfold dltb, SFltb, DBL_MAX, SFmax_float. cbn [SFcompare].
    change (emax - prec) with 971.
    destruct (Z.compare_spec 971 e) as [<-|Hlt|Hgt]; [|lia|discriminate].
    specialize (Hm eq_refl).
    change (Pos.iter xO xH (Z.to_pos prec) - 1)%positive
      with 9007199254740991%positive.
    change (Pos.compare_cont Eq 9007199254740991 m)
      with (9007199254740991 ?= m)%positive.
    destruct (Pos.compare_spec 9007199254740991 m); try discriminate. lia.
Qed.

Lemma DBL_MAX_least (x : double) :
  isDouble x -> dltb x (SFopp DBL_MAX) = true -> x = S754_infinity true.
Proof.
  intros Hx.
  change (SFopp DBL_MAX) with (S754_finite true 9007199254740991 971).
  unfold dltb, SFltb.
  destruct x as [s|s| |s m e]; cbn [SFcompare].
  - intros [=].
  - destruct s; [done|intros [=]].
  - intros [=].
  - destruct s; [|intros [=]].
    destruct (isDouble_mantissa true m e Hx) as [He Hm].
    destruct (Z.compare_spec e 971) as [->|Hlt|Hgt]; [|intros [=]|lia].
    specialize (Hm eq_refl). rewrite Pos.compare_cont_spec.
    destruct (Pos.compare_spec m 9007199254740991) as [Heq| |];
      cbn [CompOpp Pos.switch_Eq]; intros [=].
    lia.
Qed.

Lemma InitializeChannelMinimums_loop_spec :
  forall (count k : nat) (chan : list ChannelStatistics),
    (k + count <= length chan)%nat ->
    exists chan' : list ChannelStatistics,
      InitializeChannelMinimums_loop count chan k = Some chan' /\
      length chan' = length chan /\
      forall j : nat,
        chan' !! j
        = (if (k <=? j)%nat && (j <? k + count)%nat
           then set_minimum DBL_MAX else id) <$> chan !! j.
Proof.
  induction count as [|count IH]; intros k chan Hlen.
  - exists chan. cbn [InitializeChannelMinimums_loop].
    split; [done|]. split; [done|]. intros j.
    replace ((k <=? j)%nat && (j <? k + 0)%nat) with false
      by (destruct (Nat.leb_spec k j), (Nat.ltb_spec j (k + 0));
          first [reflexivity|lia]).
    by destruct (chan !! j).
  - cbn [InitializeChannelMinimums_loop].
    destruct (lookup_lt_is_Some_2 chan k) as [s Hs]; [lia|].
    rewrite Hs. cbn [mbind option_bind].
    destruct (IH (S k) (<[k := set_minimum DBL_MAX s]> chan))
      as (chan' & -> & Hlen' & Hset); [rewrite length_insert; lia|].
    exists chan'. split; [done|]. rewrite Hlen', length_insert.
    split; [done|]. intros j. rewrite Hset.
    destruct (decide (j = k)) as [->|Hne].
    + rewrite list_lookup_insert_eq, Hs by lia.
      destruct (Nat.leb_spec (S k) k), (Nat.leb_spec k k),
        (Nat.ltb_spec k (k + S count)); cbn; try lia; done.
    + rewrite list_lookup_insert_ne by done.
      destruct (Nat.leb_spec (S k) j), (Nat.leb_spec k j),
        (Nat.ltb_spec j (S k + count)), (Nat.ltb_spec j (k + S count));
        cbn; try lia; done.
Qed.

Lemma InitializeChannelMaximums_loop_spec :
  forall (count k : nat) (chan : list ChannelStatistics),
    (k + count <= length chan)%nat ->
    exists chan' : list ChannelStatistics,
      InitializeChannelMaximums_loop count chan k = Some chan' /\
      length chan' = length chan /\
      forall j : nat,
        chan' !! j
        = (if (k <=? j)%nat && (j <? k + count)%nat
           then set_maximum (SFopp DBL_MAX) else id) <$> chan !! j.
Proof.
  induction count as [|count IH]; intros k chan Hlen.
  - exists chan. cbn [InitializeChannelMaximums_loop].
    split; [done|]. split; [done|]. intros j.
    replace ((k <=? j)%nat && (j <? k + 0)%nat) with false
      by (destruct (Nat.leb_spec k j), (Nat.ltb_spec j (k + 0));
          first [reflexivity|lia]).
    by destruct (chan !! j).
  - cbn [InitializeChannelMaximums_loop].
    destruct (lookup_lt_is_Some_2 chan k) as [s Hs]; [lia|].
    rewrite Hs. cbn [mbind option_bind].
    destruct (IH (S k) (<[k := set_maximum (SFopp DBL_MAX) s]> chan))
      as (chan' & -> & Hlen' & Hset); [rewrite length_insert; lia|].
    exists chan'. split; [done|]. rewrite Hlen', length_insert.
    split; [done|]. intros j. rewrite Hset.
    destruct (decide (j = k)) as [->|Hne].
    + rewrite list_lookup_insert_eq, Hs by lia.
      destruct (Nat.leb_spec (S k) k), (Nat.leb_spec k k),
        (Nat.ltb_spec k (k + S count)); cbn; try lia; done.
    + rewrite list_lookup_insert_ne by done.
      destruct (Nat.leb_spec (S k) j), (Nat.leb_spec k j),
        (Nat.ltb_spec j (S k + count)), (Nat.ltb_spec j (k + S count));
        cbn; try lia; done.
Qed.

(** X5.  [InitializeChannelMinimums] and [InitializeChannelMaximums] set the
    minimum of each of the first [numberChannels] records to [DBL_MAX] and
    the maximum to [-DBL_MAX] and touch nothing else.  These sentinels are
    neutral for the accumulating merge of [AddToClassChannelStatistics]:
    merging a source whose minimum is not plus infinity and whose maximum is
    not minus infinity into the initialised records leaves the source's
    minimum and maximum in them. *)
Theorem InitializeChannel_sentinels_neutral (chan inp : list ChannelStatistics)
    (numberChannels : Z) :
  0 < numberChannels <= 32767 ->
  (Z.to_nat numberChannels <= length chan)%nat ->
  (Z.to_nat numberChannels <= length inp)%nat ->
  (forall (k : nat) (i : ChannelStatistics),
     (k < Z.to_nat numberChannels)%nat -> inp !! k = Some i ->
     isDouble (minimum i) /\ minimum i <> S754_infinity false /\
     isDouble (maximum i) /\ maximum i <> S754_infinity true) ->
  exists c1 c2 out' : list ChannelStatistics,
    InitializeChannelMinimums (Some chan) numberChannels = Some (Some c1) /\
    InitializeChannelMaximums (Some c1) numberChannels = Some (Some c2) /\
    length c2 = length chan /\
    (forall (k : nat) (s : ChannelStatistics),
       (k < Z.to_nat numberChannels)%nat -> chan !! k = Some s ->
       c2 !! k = Some (set_maximum (SFopp DBL_MAX) (set_minimum DBL_MAX s))) /\
    (forall k : nat, (Z.to_nat numberChannels <= k)%nat ->
       c2 !! k = chan !! k) /\
    AddToClassChannelStatistics numberChannels c2 numberChannels None inp false
    = Some out' /\
    (forall (k : nat) (s i : ChannelStatistics),
       (k < Z.to_nat numberChannels)%nat ->
       chan !! k = Some s -> inp !! k = Some i ->
       exists r : ChannelStatistics,
         out' !! k = Some r /\
         minimum r = minimum i /\ maximum r = maximum i /\
         sum r = dadd (sum s) (sum i) /\
         standardDev r = standardDev s).
Proof.
  intros Hn Hchan Hinp Hsource.
  set (n := Z.to_nat numberChannels) in *.
  destruct (InitializeChannelMinimums_loop_spec n 0 chan ltac:(lia))
    as (c1 & Hrun1 & Hlen1 & Hset1).
  destruct (InitializeChannelMaximums_loop_spec n 0 c1 ltac:(lia))
    as (c2 & Hrun2 & Hlen2 & Hset2).
  assert (Hc2 : forall (k : nat) (s : ChannelStatistics),
            (k < n)%nat -> chan !! k = Some s ->
            c2 !! k
            = Some (set_maximum (SFopp DBL_MAX) (set_minimum DBL_MAX s))).
  { intros k s Hk Hs. rewrite Hset2, Hset1, Hs.
    destruct (Nat.leb_spec 0 k), (Nat.ltb_spec k (0 + n)); try lia.
    reflexivity. }
  destruct (AddToClassChannelStatistics_loop_identity inp false
              (to_UInt32 (numberChannels - 1)) n 0 c2 0)
    as (out' & Hrun & Hlen & Hmerge & Hother); [lia|lia|lia|].
  exists c1, c2, out'. unfold InitializeChannelMinimums,
    InitializeChannelMaximums, AddToClassChannelStatistics.
  destruct (Z.ltb_spec 0 numberChannels); [|lia].
  fold n. rewrite Hrun1, Hrun2, Z.eqb_refl. cbn [mbind option_bind].
  split; [done|]. split; [done|]. split; [congruence|].
  split; [exact Hc2|]. split.
  { intros k Hk. rewrite Hset2, Hset1.
    destruct (Nat.leb_spec 0 k), (Nat.ltb_spec k (0 + n)); try lia.
    cbn [andb]. by destruct (chan !! k). }
  split; [exact Hrun|].
  intros k s i Hk Hs Hi.
  destruct (Hsource k i Hk Hi) as (Hmin & Hfinite & Hmax & Hfinite').
  eexists. split.
  { apply (Hmerge k (set_maximum (SFopp DBL_MAX) (set_minimum DBL_MAX s)) i);
      [lia|by apply Hc2|done]. }
  unfold mergeChannelStatistics, set_maximum, set_minimum, MIN, MAX.
  cbn [minimum maximum sum standardDev]. split; [|split; [|done]].
  - destruct (dltb DBL_MAX (minimum i)) eqn:Hlt; [|done].
    by apply DBL_MAX_greatest in Hlt.
  - unfold dgtb. fold (dltb (maximum i) (SFopp DBL_MAX)).
    destruct (dltb (maximum i) (SFopp DBL_MAX)) eqn:Hlt; [|done].
    by apply DBL_MAX_least in Hlt.
Qed.

Lemma InitializeChannel_sentinels_neutral_witness :
  exists c1 c2 out' : list ChannelStatistics,
    InitializeChannelMinimums
      (Some [exampleStats dOne dOne dOne dOne]) 1 = Some (Some c1) /\
    InitializeChannelMaximums (Some c1) 1 = Some (Some c2) /\
    AddToClassChannelStatistics 1 c2 1 None
      [exampleStats dtwo dOne dminus_one dtwo] false = Some out' /\
    out' = [exampleStats (dadd dOne dtwo) dOne dminus_one dtwo].
Proof.
  destruct (InitializeChannel_sentinels_neutral
              [exampleStats dOne dOne dOne dOne]
              [exampleStats dtwo dOne dminus_one dtwo] 1)
    as (c1 & c2 & out' & H1 & H2 & _ & _ & _ & Hrun & Hmerge).
  - lia.
  - cbn. lia.
  - cbn. lia.
  - intros k i Hk Hi. assert (k = 0%nat) as -> by (cbn in Hk; lia).
    injection Hi as <-. repeat split; try reflexivity; discriminate.
  - exists c1, c2, out'. split; [exact H1|]. split; [exact H2|].
    split; [exact Hrun|].
    vm_compute in H1. injection H1 as <-.
    vm_compute in H2. injection H2 as <-.
    vm_compute in Hrun. injection Hrun as <-. vm_compute. reflexivity.
Defined.

(** ** GetNumberOfPixelsLoadedInClass and DetermineIfSpecifiedStatisticsExist *)

Lemma loadedTrainingPixels_step (fields : list Field.t) :
  Forall (fun f => 0 <= Field.numberPixelsUsedForStats f) fields ->
  forall acc : Z,
    acc <= foldl (fun acc f =>
                    if (Field.fieldType f =? kTrainingType)
                       && Field.loadedIntoClassStats f
                    then acc + Field.numberPixelsUsedForStats f else acc)
                 acc fields.
Proof.
  induction 1 as [|f rest Hf _ IH]; intros acc; [cbn; lia|].
  cbn [foldl]. etransitivity; [|apply IH].
  destruct ((Field.fieldType f =? kTrainingType)
            && Field.loadedIntoClassStats f); lia.
Qed.

Lemma GetNumberOfPixelsLoadedInClass_walk_spec (fieldIdentPtr : list Field.t)
    (fieldNumber : Z) (fields : list Field.t) :
  FieldChain fieldIdentPtr fieldNumber fields ->
  Forall (fun f => 0 <= Field.numberPixelsUsedForStats f) fields ->
  forall (fuel : nat) (acc : Z),
    (length fields < fuel)%nat ->
    0 <= acc ->
    foldl (fun acc f =>
             if (Field.fieldType f =? kTrainingType)
                && Field.loadedIntoClassStats f
             then acc + Field.numberPixelsUsedForStats f else acc)
          acc fields <= 9223372036854775807 ->
    GetNumberOfPixelsLoadedInClass_walk fuel fieldIdentPtr fieldNumber acc
    = Some (foldl (fun acc f =>
                     if (Field.fieldType f =? kTrainingType)
                        && Field.loadedIntoClassStats f
                     then acc + Field.numberPixelsUsedForStats f else acc)
                  acc fields).
Proof.
  induction 1 as [|fieldNumber f rest Hne Hat _ IH];
    intros Hpixels fuel acc Hfuel Hacc Hmax.
  - destruct fuel; [cbn in Hfuel; lia|]. reflexivity.
  - destruct fuel; [cbn in Hfuel; lia|].
    apply Forall_cons in Hpixels as [Hf Hpixels].
    cbn [GetNumberOfPixelsLoadedInClass_walk foldl length] in *.
    destruct (Z.eqb_spec fieldNumber (-1)); [done|].
    rewrite Hat. cbn [mbind option_bind].
    pose proof (loadedTrainingPixels_step rest Hpixels) as Hmono.
    destruct ((Field.fieldType f =? kTrainingType)
              && Field.loadedIntoClassStats f).
    + specialize (Hmono (acc + Field.numberPixelsUsedForStats f)).
      assert (inSInt64 (acc + Field.numberPixelsUsedForStats f) = true) as ->.
      { unfold inSInt64. apply andb_true_iff. split; apply Z.leb_le; lia. }
      cbn [mbind option_bind]. apply IH; [done|lia|lia|done].
    + cbn [mbind option_bind]. apply IH; [done|lia|lia|done].
Qed.

(** X6.  [GetNumberOfPixelsLoadedInClass] returns the sum of
    [numberPixelsUsedForStats] over the training fields of the class's chain
    that have been loaded into the class statistics, and
    [DetermineIfSpecifiedStatisticsExist] decides from it: no statistics
    exist for a class without loaded training pixels, whatever is asked
    for; with loaded pixels the original and the enhanced statistics always
    exist, and the leave-one-out statistics exist unless the mixing parameter
    is the computed optimum and its value is not yet known (not >= 0).  The
    common covariance is asked for exactly when that value is above 1 and
    no common covariance classes are counted yet. *)
Theorem DetermineIfSpecifiedStatisticsExist_decides (fuel : nat)
    (p : Project.t) (c : Class.t) (covarianceStatsToUse : Z)
    (fields : list Field.t) :
  FieldChain (Project.fieldIdentPtr p) (Class.firstFieldNumber c) fields ->
  (length fields < fuel)%nat ->
  Forall (fun f => 0 <= Field.numberPixelsUsedForStats f) fields ->
  loadedTrainingPixels fields <= 9223372036854775807 ->
  GetNumberOfPixelsLoadedInClass fuel c (Project.fieldIdentPtr p)
  = Some (loadedTrainingPixels fields) /\
  exists existFlag computeCommonCovarianceFlag : bool,
    DetermineIfSpecifiedStatisticsExist fuel p c covarianceStatsToUse
    = Some (existFlag, computeCommonCovarianceFlag) /\
    (existFlag = true <->
     0 < loadedTrainingPixels fields /\
     (covarianceStatsToUse <> kEnhancedStats ->
      covarianceStatsToUse = kLeaveOneOutStats ->
      Class.mixingParameterCode c = kComputedOptimum ->
      dgeb (Class.looCovarianceValue c) dzero = true)) /\
    (computeCommonCovarianceFlag = true <->
     0 < loadedTrainingPixels fields /\
     covarianceStatsToUse = kLeaveOneOutStats /\
     Class.mixingParameterCode c = kComputedOptimum /\
     dgeb (Class.looCovarianceValue c) dzero = true /\
     dgtb (Class.looCovarianceValue c) dOne = true /\
     Project.numberCommonCovarianceClasses p = 0).
Proof.
  intros Hchain Hfuel Hpixels Hmax.
  assert (Hcount : GetNumberOfPixelsLoadedInClass fuel c
                     (Project.fieldIdentPtr p)
                   = Some (loadedTrainingPixels fields)).
  { unfold GetNumberOfPixelsLoadedInClass, loadedTrainingPixels.
    by apply GetNumberOfPixelsLoadedInClass_walk_spec. }
  split; [exact Hcount|].
  unfold DetermineIfSpecifiedStatisticsExist. rewrite Hcount.
  cbn [mbind option_bind].
  destruct (Z.ltb_spec 0 (loadedTrainingPixels fields)) as [Hpos|Hnone].
  - destruct (Z.eqb_spec covarianceStatsToUse kEnhancedStats) as [Henh|Henh].
    { eexists _, _. split; [done|]. split.
      - split; [by intros _|done].
      - split; [done|]. intros (_ & Hloo & _). subst. discriminate. }
    destruct (Z.eqb_spec covarianceStatsToUse kLeaveOneOutStats) as [Hloo|Hloo].
    + destruct (Z.eqb_spec (Class.mixingParameterCode c) kComputedOptimum)
        as [Hopt|Hopt].
      * destruct (dgeb (Class.looCovarianceValue c) dzero) eqn:Hknown.
        -- eexists _, _. split; [done|]. split; [by split|].
           rewrite andb_true_iff, Z.eqb_eq. tauto.
        -- eexists _, _. split; [done|]. split.
           ++ split; [done|]. intros [_ Hexist].
              specialize (Hexist Henh Hloo Hopt). congruence.
           ++ split; [done|]. intros (_ & _ & _ & Hge & _). congruence.
      * eexists _, _. split; [done|]. split.
        -- split; [|done]. intros _. split; [done|]. tauto.
        -- split; [done|]. tauto.
    + eexists _, _. split; [done|]. split.
      * split; [|done]. intros _. split; [done|]. tauto.
      * split; [done|]. tauto.
  - eexists _, _. split; [done|]. split.
    + split; [done|]. intros [Hpos _]. lia.
    + split; [done|]. intros [Hpos _]. lia.
Qed.

Lemma DetermineIfSpecifiedStatisticsExist_decides_witness :
  DetermineIfSpecifiedStatisticsExist 4 threeFieldProject
    (Class.mk 2 20 20 0 false kLeaveOneOutStats kComputedOptimum dminus_one
       dzero false false) kLeaveOneOutStats
  = Some (false, false) /\
  GetNumberOfPixelsLoadedInClass 4
    (Class.mk 2 20 20 0 false kLeaveOneOutStats kComputedOptimum dminus_one
       dzero false false) (Project.fieldIdentPtr threeFieldProject)
  = Some 20.
Proof.
  destruct (DetermineIfSpecifiedStatisticsExist_decides 4 threeFieldProject
              (Class.mk 2 20 20 0 false kLeaveOneOutStats kComputedOptimum
                 dminus_one dzero false false) kLeaveOneOutStats
              [Field.mk kTrainingType 1 0 10 true true 1;
               Field.mk kTestingType 1 (-1) 10 false false 2;
               Field.mk kTrainingType 1 1 10 true true (-1)])
    as (Hcount & existFlag & common & Hrun & Hexist & Hcommon).
  - apply FieldChain_next; [done|reflexivity|].
    apply FieldChain_next; [done|reflexivity|].
    apply FieldChain_next; [done|reflexivity|]. apply FieldChain_end.
  - cbn. lia.
  - repeat constructor; cbn; lia.
  - vm_compute. discriminate.
  - split; [|exact Hcount]. rewrite Hrun.
    destruct existFlag.
    { destruct (proj1 Hexist eq_refl) as [_ Hknown].
      specialize (Hknown ltac:(discriminate) eq_refl eq_refl).
      vm_compute in Hknown. discriminate. }
    destruct common; [|reflexivity].
    destruct (proj1 Hcommon eq_refl) as (_ & _ & _ & Hknown & _).
    vm_compute in Hknown. discriminate.
Defined.

(** ** CheckIfMaskStatsUpToDate *)

Lemma CheckIfClassMaskStatsUpToDate_walk_spec (kMaskType : Z)
    (fieldIdentPtr : list Field.t) (fieldNumber : Z) (fields : list Field.t) :
  FieldChain fieldIdentPtr fieldNumber fields ->
  forall fuel : nat, (length fields < fuel)%nat ->
    CheckIfClassMaskStatsUpToDate_walk kMaskType fuel fieldIdentPtr fieldNumber
    = Some (maskFieldsUpToDate kMaskType fields).
Proof.
  induction 1 as [|fieldNumber f rest Hne Hat _ IH]; intros fuel Hfuel.
  - destruct fuel; [cbn in Hfuel; lia|]. reflexivity.
  - destruct fuel; [cbn in Hfuel; lia|].
    cbn [CheckIfClassMaskStatsUpToDate_walk maskFieldsUpToDate forallb length]
      in *.
    destruct (Z.eqb_spec fieldNumber (-1)); [done|].
    rewrite Hat. cbn [mbind option_bind].
    fold (maskFieldsUpToDate kMaskType rest).
    destruct ((Field.fieldType f =? kTrainingType)
              && (Field.pointType f =? kMaskType)),
      (Field.statsUpToDate f); cbn [negb andb orb]; try done;
      apply IH; lia.
Qed.

Lemma CheckIfClassMaskStatsUpToDate_spec (kMaskType : Z) (fuel : nat)
    (p : Project.t) (classIndex : Z) :
  wellFormedClasses p ->
  trainingChainsWithin fuel p ->
  0 <= classIndex < Project.numberStatisticsClasses p ->
  exists upToDate : bool,
    CheckIfClassMaskStatsUpToDate kMaskType fuel p classIndex = Some upToDate /\
    (upToDate = true <-> classMaskStatsUpToDate kMaskType p classIndex).
Proof.
  intros (_ & Hrecords & _) Hchains Hi.
  destruct (Hrecords classIndex Hi) as (s & c & Hs & Hc).
  assert (Hrecord : classRecord p classIndex = Some c).
  { unfold classRecord. by rewrite Hs. }
  unfold CheckIfClassMaskStatsUpToDate, classMaskStatsUpToDate.
  rewrite Hs. cbn [mbind option_bind]. rewrite Hc. cbn [mbind option_bind].
  destruct (Z.ltb_spec 0 (Class.numberOfTrainFields c)) as [Htrain|Htrain].
  - destruct (Hchains classIndex c Hi Hrecord Htrain)
      as (fields & Hchain & Hfuel).
    rewrite (CheckIfClassMaskStatsUpToDate_walk_spec _ _ _ _ Hchain fuel Hfuel).
    eexists. split; [done|]. split.
    + intros Hall. exists c. split; [done|]. right. by exists fields.
    + intros (c' & Hc' & [Hnone|(fields' & Hchain' & Hall)]).
      * assert (c' = c) as -> by congruence. lia.
      * assert (c' = c) as -> by congruence.
        by rewrite (FieldChain_functional _ _ _ _ Hchain Hchain').
  - exists true. split; [done|]. split; [|done].
    intros _. exists c. split; [done|]. by left.
Qed.

Lemma CheckIfProjectMaskStatsUpToDate_loop_spec (kMaskType : Z) (fuel : nat)
    (p : Project.t) :
  wellFormedClasses p ->
  trainingChainsWithin fuel p ->
  Project.numberStatisticsClasses p < 4294967296 ->
  forall (count : nat) (k : Z),
    0 <= k ->
    k + Z.of_nat count = Project.numberStatisticsClasses p ->
    exists upToDate : bool,
      CheckIfProjectMaskStatsUpToDate_loop kMaskType fuel count k p
      = Some upToDate /\
      (upToDate = true <->
       forall i : Z, k <= i < Project.numberStatisticsClasses p ->
         classMaskStatsUpToDate kMaskType p i).
Proof.
  intros Hwf Hchains Hmax. induction count as [|count IH]; intros k Hk Hn.
  - exists true. split; [done|]. split; [|done]. intros _ i Hi. lia.
  - cbn [CheckIfProjectMaskStatsUpToDate_loop].
    destruct (CheckIfClassMaskStatsUpToDate_spec kMaskType fuel p k Hwf Hchains
                ltac:(lia)) as (b & -> & Hb).
    cbn [mbind option_bind]. destruct b.
    + rewrite to_UInt32_small by lia.
      destruct (IH (k + 1) ltac:(lia) ltac:(lia)) as (b' & -> & Hb').
      exists b'. split; [done|]. rewrite Hb'. split.
      * intros Hall i Hi. destruct (decide (i = k)) as [->|Hne];
          [by apply Hb|apply Hall; lia].
      * intros Hall i Hi. apply Hall. lia.
    + exists false. split; [done|]. split; [done|].
      intros Hall. apply Hb, Hall. lia.
Qed.

(** X7.  [CheckIfMaskStatsUpToDate] answers for the project (code 2) TRUE
    exactly when in every class with training fields every training field of
    mask type has statistics that are up to date; for one class (code 3) the
    same for that class alone, a class without training fields counting as
    up to date; for one field (code 4) FALSE only when the field is of mask
    type and has not been loaded into the class statistics, a field number
    beyond the stored fields counting as up to date; and TRUE for every
    other code. *)
Theorem CheckIfMaskStatsUpToDate_answers (kMaskType : Z) (fuel : nat)
    (p : Project.t) (numberStorageFields : Z)
    (statsUpdateCode classNumber fieldNumber : Z) :
  wellFormedClasses p ->
  trainingChainsWithin fuel p ->
  Project.numberStatisticsClasses p < 4294967296 ->
  0 <= classNumber < Project.numberStatisticsClasses p ->
  0 <= numberStorageFields <= Z.of_nat (length (Project.fieldIdentPtr p)) ->
  numberStorageFields < 4294967296 ->
  0 <= fieldNumber ->
  exists upToDate : bool,
    CheckIfMaskStatsUpToDate kMaskType fuel p numberStorageFields
      statsUpdateCode classNumber fieldNumber = Some upToDate /\
    (statsUpdateCode = kUpdateProject ->
     (upToDate = true <->
      forall i : Z, 0 <= i < Project.numberStatisticsClasses p ->
        classMaskStatsUpToDate kMaskType p i)) /\
    (statsUpdateCode = kUpdateClass ->
     (upToDate = true <-> classMaskStatsUpToDate kMaskType p classNumber)) /\
    (statsUpdateCode = kUpdateField ->
     (upToDate = false <->
      exists f : Field.t,
        fieldNumber < numberStorageFields /\
        at_ (Project.fieldIdentPtr p) fieldNumber = Some f /\
        Field.pointType f = kMaskType /\
        Field.loadedIntoClassStats f = false)) /\
    (statsUpdateCode <> kUpdateProject -> statsUpdateCode <> kUpdateClass ->
     statsUpdateCode <> kUpdateField -> upToDate = true).
Proof.
  intros Hwf Hchains Hmax Hclass Hfields Hstorage Hfield.
  assert (Hwrong : forall (a b : Z) (P : Prop),
            (a =? b) = false -> a = b -> P).
  { intros a b P Hne ->. by rewrite Z.eqb_refl in Hne. }
  unfold CheckIfMaskStatsUpToDate.
  destruct (Z.eqb_spec statsUpdateCode kUpdateProject) as [->|Hproject].
  { destruct (CheckIfProjectMaskStatsUpToDate_loop_spec kMaskType fuel p Hwf
                Hchains Hmax (Z.to_nat (Project.numberStatisticsClasses p)) 0)
      as (b & Hrun & Hb); [lia|lia|].
    exists b. split; [exact Hrun|].
    split; [intros _; exact Hb|].
    split; [by apply Hwrong|]. split; [by apply Hwrong|]. done. }
  destruct (Z.eqb_spec statsUpdateCode kUpdateClass) as [->|Hcls].
  { destruct (CheckIfClassMaskStatsUpToDate_spec kMaskType fuel p classNumber
                Hwf Hchains Hclass) as (b & Hrun & Hb).
    exists b. split; [exact Hrun|].
    split; [by apply Hwrong|]. split; [intros _; exact Hb|].
    split; [by apply Hwrong|]. done. }
  destruct (Z.eqb_spec statsUpdateCode kUpdateField) as [->|Hfld].
  - rewrite to_UInt32_small by lia.
    destruct (Z.ltb_spec fieldNumber numberStorageFields) as [Hin|Hout].
    + destruct (lookup_lt_is_Some_2 (Project.fieldIdentPtr p)
                  (Z.to_nat fieldNumber)) as [f Hf]; [lia|].
      assert (Hat : at_ (Project.fieldIdentPtr p) fieldNumber = Some f).
      { unfold at_. by destruct (Z.ltb_spec fieldNumber 0); [lia|]. }
      rewrite Hat. cbn [mbind option_bind]. eexists. split; [done|].
      split; [by apply Hwrong|]. split; [by apply Hwrong|].
      split; [|done]. intros _. split.
      * rewrite negb_false_iff, andb_true_iff, negb_true_iff, Z.eqb_eq.
        intros [Hmask Hloaded]. by exists f.
      * intros (f' & _ & Hf' & Hmask & Hloaded).
        assert (f' = f) as -> by congruence.
        rewrite negb_false_iff, andb_true_iff, negb_true_iff, Z.eqb_eq. done.
    + exists true. split; [done|].
      split; [by apply Hwrong|]. split; [by apply Hwrong|].
      split; [|done]. intros _. split; [done|].
      intros (f & Hin & _). lia.
  - exists true. split; [done|]. repeat split; done.
Qed.

Lemma CheckIfMaskStatsUpToDate_answers_witness :
  CheckIfMaskStatsUpToDate 1 4 threeFieldProject 3 kUpdateProject 0 0
  = Some true /\
  CheckIfMaskStatsUpToDate 1 4 threeFieldProject 3 kUpdateField 0 1
  = Some false.
Proof.
  assert (Hwf : wellFormedClasses threeFieldProject).
  { split; [cbn; lia|]. split.
    - intros i Hi. cbn in Hi. assert (i = 0) as -> by lia.
      eexists _, _; split; reflexivity.
    - intros i j s Hi Hj _ _. cbn in Hi, Hj. lia. }
  assert (Hchains : trainingChainsWithin 4 threeFieldProject).
  { intros i c Hi Hc _. cbn in Hi. assert (i = 0) as -> by lia.
    vm_compute in Hc. injection Hc as <-.
    exists [Field.mk kTrainingType 1 0 10 true true 1;
            Field.mk kTestingType 1 (-1) 10 false false 2;
            Field.mk kTrainingType 1 1 10 true true (-1)].
    split; [|cbn; lia].
    apply FieldChain_next; [done|reflexivity|].
    apply FieldChain_next; [done|reflexivity|].
    apply FieldChain_next; [done|reflexivity|]. apply FieldChain_end. }
  split.
  - destruct (CheckIfMaskStatsUpToDate_answers 1 4 threeFieldProject 3
                kUpdateProject 0 0 Hwf Hchains)
      as (b & Hrun & Hproject & _); try (cbn; lia).
    rewrite Hrun. f_equal. apply Hproject; [reflexivity|].
    intros i Hi. cbn in Hi. assert (i = 0) as -> by lia.
    eexists. split; [reflexivity|]. right.
    exists [Field.mk kTrainingType 1 0 10 true true 1;
            Field.mk kTestingType 1 (-1) 10 false false 2;
            Field.mk kTrainingType 1 1 10 true true (-1)].
    split; [|reflexivity].
    apply FieldChain_next; [done|reflexivity|].
    apply FieldChain_next; [done|reflexivity|].
    apply FieldChain_next; [done|reflexivity|]. apply FieldChain_end.
  - destruct (CheckIfMaskStatsUpToDate_answers 1 4 threeFieldProject 3
                kUpdateField 0 1 Hwf Hchains)
      as (b & Hrun & _ & _ & Hfield & _); try (cbn; lia).
    rewrite Hrun. f_equal. apply Hfield; [reflexivity|].
    eexists. split; [lia|]. split; [reflexivity|]. split; reflexivity.
Defined.

(** ** ReduceStdDevVector and GetClassStdDevVector *)

Lemma ReduceStdDevVector_loop_spec (input : list ChannelStatistics)
    (featureListPtr : option (list Z)) (n : nat) :
  Z.of_nat n <= 32767 ->
  (forall j, (j < n)%nat -> is_Some (selectedChannel input featureListPtr j)) ->
  (forall (l : list Z) (j : nat) (ch : Z),
     featureListPtr = Some l -> l !! j = Some ch -> 0 <= ch <= 32767) ->
  forall (count k : nat) (out : list double) (channelIndex : Z),
    (k + count = n)%nat ->
    (n <= length out)%nat ->
    (featureListPtr = None -> channelIndex = Z.of_nat k) ->
    exists out' : list double,
      ReduceStdDevVector_loop count (Z.of_nat k) input out k channelIndex
        featureListPtr = Some out' /\
      length out' = length out /\
      (forall j, (k <= j < n)%nat ->
         out' !! j = standardDev <$> selectedChannel input featureListPtr j) /\
      (forall j, (j < k \/ n <= j)%nat -> out' !! j = out !! j).
Proof.
  intros Hn Hsel Hlist. induction count as [|count IH];
    intros k out channelIndex Hk Hout Hci.
  - exists out. cbn. split; [done|]. split; [done|]. split; [intros; lia|done].
  - cbn [ReduceStdDevVector_loop].
    destruct (Hsel k ltac:(lia)) as [x Hx].
    assert (Hread : exists ci,
              match featureListPtr with
              | Some l => y ← at_ l (Z.of_nat k); Some (to_UInt32 y)
              | None => Some channelIndex
              end = Some ci /\ at_ input ci = Some x /\
              (featureListPtr = None -> to_UInt32 (ci + 1) = Z.of_nat (S k))).
    { unfold selectedChannel in Hx. destruct featureListPtr as [l|].
      - destruct (l !! k) as [ch|] eqn:Hch; [|done]. exists ch.
        rewrite at_of_nat, Hch. cbn [mbind option_bind].
        rewrite to_UInt32_small by (specialize (Hlist l k ch eq_refl Hch); lia).
        done.
      - exists channelIndex. rewrite (Hci eq_refl), at_of_nat.
        split; [done|]. split; [done|]. intros _.
        rewrite to_UInt32_small; lia. }
    destruct Hread as (ci & -> & Hat & Hnext). cbn [mbind option_bind].
    rewrite Hat. cbn [mbind option_bind].
    destruct (Nat.ltb_spec k (length out)); [|lia].
    replace (to_UInt32 (Z.of_nat k + 1)) with (Z.of_nat (S k))
      by (rewrite to_UInt32_small; lia).
    destruct (IH (S k) (<[k := standardDev x]> out) (to_UInt32 (ci + 1)))
      as (out' & -> & Hlen & Hcopy & Hother);
      [lia|rewrite length_insert; lia|done|].
    exists out'. split; [done|]. rewrite Hlen, length_insert. split; [done|].
    split.
    + intros j Hj. destruct (decide (j = k)) as [->|Hne].
      * rewrite Hother by lia. rewrite list_lookup_insert_eq by lia.
        by rewrite Hx.
      * apply Hcopy. lia.
    + intros j Hj. rewrite Hother by lia. apply list_lookup_insert_ne. lia.
Qed.

(** X8.  [ReduceStdDevVector] copies into entry j of the output vector, for
    every j below [numOutFeatures], the standard deviation of the channel
    the feature list names at j (of channel j without a list), leaves the
    rest of the vector alone, and does nothing when either pointer is NULL.
    [GetClassStdDevVector] hands over in this way the standard deviations of
    the channel statistics [GetClassChannelStatistics] produced, and leaves
    the output vector as it was when that call reports failure. *)
Theorem ReduceStdDevVector_copies `{Collaborators}
    (input : list ChannelStatistics) (out : list double) (numOutFeatures : Z)
    (featureListPtr : option (list Z)) :
  0 <= numOutFeatures <= 32767 ->
  (Z.to_nat numOutFeatures <= length out)%nat ->
  (forall j, (j < Z.to_nat numOutFeatures)%nat ->
     is_Some (selectedChannel input featureListPtr j)) ->
  (forall (l : list Z) (j : nat) (ch : Z),
     featureListPtr = Some l -> l !! j = Some ch -> 0 <= ch <= 32767) ->
  ReduceStdDevVector None (Some out) numOutFeatures featureListPtr
  = Some (Some out) /\
  ReduceStdDevVector (Some input) None numOutFeatures featureListPtr
  = Some None /\
  (exists out' : list double,
     ReduceStdDevVector (Some input) (Some out) numOutFeatures featureListPtr
     = Some (Some out') /\
     length out' = length out /\
     (forall j, (j < Z.to_nat numOutFeatures)%nat ->
        out' !! j = standardDev <$> selectedChannel input featureListPtr j) /\
     (forall j, (Z.to_nat numOutFeatures <= j)%nat -> out' !! j = out !! j)) /\
  (forall (fuel : nat) (p : Project.t)
          (classChannelStatsPtr chan' : option (list ChannelStatistics))
          (channelListPtr : option (list Z)) (classNumber : Z),
     GetClassChannelStatistics fuel p numOutFeatures classChannelStatsPtr
       channelListPtr classNumber = Some (chan', false) ->
     GetClassStdDevVector fuel p numOutFeatures classChannelStatsPtr
       (Some out) channelListPtr classNumber = Some (chan', Some out)) /\
  (forall (fuel : nat) (p : Project.t)
          (classChannelStatsPtr : option (list ChannelStatistics))
          (channelListPtr : option (list Z)) (classNumber : Z),
     GetClassChannelStatistics fuel p numOutFeatures classChannelStatsPtr
       channelListPtr classNumber = Some (Some input, true) ->
     featureListPtr = None ->
     exists out' : list double,
       GetClassStdDevVector fuel p numOutFeatures classChannelStatsPtr
         (Some out) channelListPtr classNumber
       = Some (Some input, Some out') /\
       length out' = length out /\
       (forall j, (j < Z.to_nat numOutFeatures)%nat ->
          out' !! j = standardDev <$> input !! j) /\
       (forall j, (Z.to_nat numOutFeatures <= j)%nat ->
          out' !! j = out !! j)).
Proof.
  intros Hn Hout Hsel Hlist.
  assert (Hrun : forall list' : option (list Z),
    list' = featureListPtr ->
    exists out' : list double,
      ReduceStdDevVector (Some input) (Some out) numOutFeatures list'
      = Some (Some out') /\
      length out' = length out /\
      (forall j, (j < Z.to_nat numOutFeatures)%nat ->
         out' !! j = standardDev <$> selectedChannel input list' j) /\
      (forall j, (Z.to_nat numOutFeatures <= j)%nat -> out' !! j = out !! j)).
  { intros list' ->. unfold ReduceStdDevVector.
    rewrite to_UInt32_small by lia.
    destruct (ReduceStdDevVector_loop_spec input featureListPtr
                (Z.to_nat numOutFeatures) ltac:(lia) Hsel Hlist
                (Z.to_nat numOutFeatures) 0 out 0)
      as (out' & Hloop & Hlen & Hcopy & Hother); [lia|done|done|].
    change (Z.of_nat 0) with 0 in Hloop. rewrite Hloop.
    exists out'. split; [done|]. split; [done|]. split.
    - intros j Hj. apply Hcopy. lia.
    - intros j Hj. apply Hother. lia. }
  split; [reflexivity|]. split; [reflexivity|].
  split; [by apply Hrun|]. split.
  - intros fuel p chanPtr chan' channelListPtr classNumber Hstats.
    unfold GetClassStdDevVector. by rewrite Hstats.
  - intros fuel p chanPtr channelListPtr classNumber Hstats Hnone.
    destruct (Hrun None (eq_sym Hnone)) as (out' & Hreduce & Hrest).
    exists out'. split; [|exact Hrest].
    unfold GetClassStdDevVector. rewrite Hstats.
    cbn [mbind option_bind fst snd].
    assert (to_SInt16 numOutFeatures = numOutFeatures) as ->.
    { unfold to_SInt16. rewrite Z.mod_small; lia. }
    by rewrite Hreduce.
Qed.

Lemma ReduceStdDevVector_copies_witness :
  ReduceStdDevVector
    (Some [exampleStats dOne dtwo dzero dOne; exampleStats dOne dOne dzero dOne;
           exampleStats dOne dminus_one dzero dOne])
    (Some [dzero; dzero; dzero]) 2 (Some [2; 0])
  = Some (Some [dminus_one; dtwo; dzero]).
Proof.
  destruct (ReduceStdDevVector_copies (H := exampleCollaborators)
              [exampleStats dOne dtwo dzero dOne;
               exampleStats dOne dOne dzero dOne;
               exampleStats dOne dminus_one dzero dOne]
              [dzero; dzero; dzero] 2 (Some [2; 0]))
    as (_ & _ & (out' & Hrun & Hlen & Hcopy & Hother) & _).
  - lia.
  - cbn. lia.
  - intros j Hj. assert (j = 0 \/ j = 1)%nat as [-> | ->] by (cbn in Hj; lia);
      by eexists.
  - intros l j ch [= <-] Hch.
    destruct j as [|[|j]]; cbn in Hch; [injection Hch as <-; lia..|done].
  - rewrite Hrun. do 2 f_equal.
    pose proof (Hcopy 0%nat ltac:(cbn; lia)) as H0.
    pose proof (Hcopy 1%nat ltac:(cbn; lia)) as H1.
    pose proof (Hother 2%nat ltac:(cbn; lia)) as H2.
    destruct out' as [|a [|b [|c [|? ?]]]]; try discriminate Hlen.
    cbn in H0, H1, H2. by injection H0 as ->; injection H1 as ->;
      injection H2 as ->.
Defined.

(** ** SetClassListMessageFlag *)

Lemma slotInUse_true (p : Project.t) (k : nat) (s : Z) :
  slotInUse p k s = true <->
  exists i : nat, (i < k)%nat /\
    at_ (Project.storageClass p) (Z.of_nat i) = Some s.
Proof.
  unfold slotInUse. rewrite existsb_exists. split.
  - intros (i & Hin & Hi). apply in_seq in Hin.
    apply bool_decide_eq_true in Hi. exists i. split; [lia|done].
  - intros (i & Hi & Hs). exists i. split; [apply in_seq; lia|].
    by apply bool_decide_eq_true.
Qed.

Lemma SetClassListMessageFlag_loop_spec (p0 : Project.t) (b : bool) :
  (forall i : Z, 0 <= i < Project.numberStatisticsClasses p0 ->
     exists (s : Z) (c : Class.t),
       at_ (Project.storageClass p0) i = Some s /\
       at_ (Project.classNamesPtr p0) s = Some c) ->
  Project.numberStatisticsClasses p0 < 4294967296 ->
  forall (count k : nat) (names : list Class.t),
    Z.of_nat (k + count) = Project.numberStatisticsClasses p0 ->
    (forall j : nat,
       names !! j
       = (if slotInUse p0 k (Z.of_nat j) then Class_set_listMessageFlag b
          else id) <$> Project.classNamesPtr p0 !! j) ->
    exists names' : list Class.t,
      SetClassListMessageFlag_loop count (Z.of_nat k)
        (Project.set_classNamesPtr names p0) b
      = Some (Project.set_classNamesPtr names' p0) /\
      forall j : nat,
        names' !! j
        = (if slotInUse p0 (k + count) (Z.of_nat j)
           then Class_set_listMessageFlag b else id)
          <$> Project.classNamesPtr p0 !! j.
Proof.
  intros Hrecords Hmax. induction count as [|count IH]; intros k names Hk Hinv.
  - exists names. split; [done|]. by rewrite Nat.add_0_r.
  - cbn [SetClassListMessageFlag_loop].
    destruct (Hrecords (Z.of_nat k) ltac:(lia)) as (s & c & Hs & Hc).
    change (Project.storageClass (Project.set_classNamesPtr names p0))
      with (Project.storageClass p0).
    change (Project.classNamesPtr (Project.set_classNamesPtr names p0))
      with names.
    rewrite Hs. cbn [mbind option_bind].
    apply at_Some in Hc as [Hpos Hc].
    assert (Hc' : at_ names s
                  = Some ((if slotInUse p0 k s then Class_set_listMessageFlag b
                           else id) c)).
    { unfold at_. destruct (Z.ltb_spec s 0); [lia|].
      rewrite Hinv, Hc, Z2Nat.id by lia. done. }
    rewrite Hc'. cbn [mbind option_bind].
    rewrite (update_at_Some _ _ _ _ Hc'). cbn [mbind option_bind].
    replace (to_UInt32 (Z.of_nat k + 1)) with (Z.of_nat (S k))
      by (rewrite to_UInt32_small; lia).
    match goal with
    | |- context [Project.set_classNamesPtr ?l (Project.set_classNamesPtr _ _)] =>
        change (Project.set_classNamesPtr l (Project.set_classNamesPtr names p0))
          with (Project.set_classNamesPtr l p0);
        destruct (IH (S k) l) as (names' & -> & Hnames')
    end.
    { lia. }
    { intros j. destruct (decide (j = Z.to_nat s)) as [->|Hne].
      - rewrite list_lookup_insert_eq
          by (apply at_Some in Hc' as [_ Hlt]; by apply lookup_lt_Some in Hlt).
        rewrite Hc, Z2Nat.id by lia.
        assert (slotInUse p0 (S k) s = true) as ->.
        { apply slotInUse_true. exists k. split; [lia|done]. }
        cbn [fmap option_fmap option_map]. f_equal.
        by destruct (slotInUse p0 k s), c.
      - rewrite list_lookup_insert_ne by done. rewrite Hinv.
        assert (slotInUse p0 (S k) (Z.of_nat j) = slotInUse p0 k (Z.of_nat j))
          as ->; [|done].
        apply eq_true_iff_eq. rewrite !slotInUse_true. split.
        + intros (i & Hi & Hsi). destruct (decide (i = k)) as [->|Hik].
          * rewrite Hs in Hsi. injection Hsi as ->. lia.
          * exists i. split; [lia|done].
        + intros (i & Hi & Hsi). exists i. split; [lia|done]. }
    exists names'. split; [done|]. intros j. rewrite Hnames'.
    by replace (S k + count)%nat with (k + S count)%nat by lia.
Qed.

(** X9.  [SetClassListMessageFlag] stores the given flag in the
    [listMessageFlag] of every class of the project, through the storage
    map, and changes nothing else: the other fields of the class records,
    the records of storage slots no class uses and the rest of the project
    are as before.  Setting the same flag a second time changes nothing. *)
Theorem SetClassListMessageFlag_sets_all (p : Project.t)
    (listMessageFlag : bool) :
  (forall i : Z, 0 <= i < Project.numberStatisticsClasses p ->
     exists (s : Z) (c : Class.t),
       at_ (Project.storageClass p) i = Some s /\
       at_ (Project.classNamesPtr p) s = Some c) ->
  0 <= Project.numberStatisticsClasses p < 4294967296 ->
  exists names' : list Class.t,
    SetClassListMessageFlag p listMessageFlag
    = Some (Project.set_classNamesPtr names' p) /\
    (forall (i : Z) (c : Class.t),
       0 <= i < Project.numberStatisticsClasses p ->
       classRecord p i = Some c ->
       classRecord (Project.set_classNamesPtr names' p) i
       = Some (Class_set_listMessageFlag listMessageFlag c)) /\
    (forall s : Z,
       (forall i : Z, 0 <= i < Project.numberStatisticsClasses p ->
          at_ (Project.storageClass p) i <> Some s) ->
       at_ names' s = at_ (Project.classNamesPtr p) s) /\
    SetClassListMessageFlag (Project.set_classNamesPtr names' p)
      listMessageFlag
    = Some (Project.set_classNamesPtr names' p).
Proof.
  intros Hrecords Hn.
  set (n := Z.to_nat (Project.numberStatisticsClasses p)).
  assert (Hstart : p = Project.set_classNamesPtr (Project.classNamesPtr p) p)
    by by destruct p.
  destruct (SetClassListMessageFlag_loop_spec p listMessageFlag Hrecords
              ltac:(lia) n 0 (Project.classNamesPtr p))
    as (names' & Hrun & Hnames'); [lia| |].
  { intros j. by destruct (Project.classNamesPtr p !! j). }
  rewrite <- Hstart in Hrun. cbn [Nat.add] in Hnames'.
  assert (Hslot : forall s : Z, 0 <= s ->
            at_ names' s
            = (if slotInUse p n s then Class_set_listMessageFlag listMessageFlag
               else id) <$> at_ (Project.classNamesPtr p) s).
  { intros s Hs. unfold at_. destruct (Z.ltb_spec s 0); [lia|].
    rewrite Hnames', Z2Nat.id by lia. done. }
  exists names'. split; [exact Hrun|]. split; [|split].
  - intros i c Hi Hc. unfold classRecord in *.
    change (Project.storageClass (Project.set_classNamesPtr names' p))
      with (Project.storageClass p).
    change (Project.classNamesPtr (Project.set_classNamesPtr names' p))
      with names'.
    destruct (at_ (Project.storageClass p) i) as [s|] eqn:Hs; [|done].
    cbn [mbind option_bind] in *.
    rewrite Hslot, Hc by (by apply at_Some in Hc as [? _]).
    assert (slotInUse p n s = true) as ->; [|done].
    apply slotInUse_true. exists (Z.to_nat i). split; [lia|].
    by rewrite Z2Nat.id by lia.
  - intros s Hunused. unfold at_ at 1 2. destruct (Z.ltb_spec s 0); [done|].
    rewrite Hnames', Z2Nat.id by lia.
    assert (slotInUse p n s = false) as ->.
    { apply not_true_is_false. rewrite slotInUse_true.
      intros (i & Hi & Hsi). apply (Hunused (Z.of_nat i)); [lia|done]. }
    by destruct (Project.classNamesPtr p !! Z.to_nat s).
  - set (q := Project.set_classNamesPtr names' p).
    assert (Hrecords' : forall i : Z,
              0 <= i < Project.numberStatisticsClasses q ->
              exists (s : Z) (c : Class.t),
                at_ (Project.storageClass q) i = Some s /\
                at_ (Project.classNamesPtr q) s = Some c).
    { intros i Hi. destruct (Hrecords i Hi) as (s & c & Hs & Hc).
      exists s. eexists. split; [exact Hs|].
      change (Project.classNamesPtr q) with names'.
      rewrite Hslot, Hc by (by apply at_Some in Hc as [? _]). done. }
    destruct (SetClassListMessageFlag_loop_spec q listMessageFlag Hrecords'
                ltac:(cbn; lia) n 0 names') as (names'' & Hrun' & Hnames'').
    { cbn. lia. }
    { intros j. change (Project.classNamesPtr q) with names'.
      by destruct (names' !! j). }
    unfold SetClassListMessageFlag.
    change (Project.numberStatisticsClasses q)
      with (Project.numberStatisticsClasses p).
    fold n. change 0 with (Z.of_nat 0).
    change (Project.set_classNamesPtr names' q) with q in Hrun'.
    rewrite Hrun'.
    change (Project.set_classNamesPtr names'' q)
      with (Project.set_classNamesPtr names'' p).
    unfold q. do 2 f_equal.
    apply list_eq. intros j. rewrite Hnames''.
    change (Project.classNamesPtr q) with names'.
    change (slotInUse q (0 + n) (Z.of_nat j))
      with (slotInUse p n (Z.of_nat j)).
    rewrite Hnames'.
    destruct (Project.classNamesPtr p !! j) as [c|]; [|done].
    by destruct (slotInUse p n (Z.of_nat j)).
Qed.

Lemma SetClassListMessageFlag_sets_all_witness :
  exists q : Project.t,
    SetClassListMessageFlag twoClassProject true = Some q /\
    (Class.listMessageFlag <$> classRecord q 1) = Some true.
Proof.
  destruct (SetClassListMessageFlag_sets_all twoClassProject true)
    as (names' & Hrun & Hset & _).
  - destruct twoClassProject_wellFormed as (_ & Hrecords & _). exact Hrecords.
  - cbn. lia.
  - eexists. split; [exact Hrun|].
    rewrite (Hset 1 (exampleClass true kLeaveOneOutStats false));
      [reflexivity|cbn; lia|reflexivity].
Defined.

(** ** ComputeCorrelationFromCovMatrix *)

Lemma to_SInt32_small z :
  -2147483648 <= z < 2147483648 -> to_SInt32 z = z.
Proof. intros. unfold to_SInt32. rewrite Z.mod_small; lia. Qed.

Lemma ComputeCorrelationFromCovMatrix_zeroRow_spec :
  forall (count : nat) (cor : list double) (p : nat),
    (p + count <= length cor)%nat ->
    exists cor',
      ComputeCorrelationFromCovMatrix_zeroRow count cor (Z.of_nat p)
      = Some (cor', Z.of_nat (p + count)) /\
      length cor' = length cor /\
      (forall k, (p <= k < p + count)%nat -> cor' !! k = Some dzero) /\
      (forall k, ~ (p <= k < p + count)%nat -> cor' !! k = cor !! k).
Proof.
  induction count as [|count IH]; intros cor p Hlen.
  - exists cor. cbn [ComputeCorrelationFromCovMatrix_zeroRow].
    rewrite Nat.add_0_r. repeat split. intros k Hk. lia.
  - cbn [ComputeCorrelationFromCovMatrix_zeroRow].
    destruct (lookup_lt_is_Some_2 cor p ltac:(lia)) as [x Hx].
    rewrite (update_at_Some cor (Z.of_nat p) dzero x)
      by (by rewrite at_of_nat).
    cbn [mbind option_bind]. rewrite Nat2Z.id.
    replace (Z.of_nat p + 1) with (Z.of_nat (S p)) by lia.
    destruct (IH (<[p:=dzero]> cor) (S p)) as (cor' & -> & Hl & Hin & Hout).
    { rewrite length_insert. lia. }
    exists cor'. split; [do 2 f_equal; lia|].
    rewrite Hl, length_insert. split; [done|]. split.
    + intros k Hk. destruct (decide (k = p)) as [->|Hne].
      * rewrite Hout by lia. apply list_lookup_insert_eq. lia.
      * apply Hin. lia.
    + intros k Hk. rewrite Hout by lia. apply list_lookup_insert_ne. lia.
Qed.

Lemma ComputeCorrelationFromCovMatrix_row_spec (s1 : double)
    (sd : list double) :
  forall (count j0 : nat) (cor : list double) (p : nat),
    (j0 + count <= length sd)%nat ->
    Z.of_nat (j0 + count) <= 65536 ->
    (p + count <= length cor)%nat ->
    exists cor',
      ComputeCorrelationFromCovMatrix_row count (Z.of_nat j0) s1 sd None cor
        (Z.of_nat p) (Z.of_nat j0)
      = Some (cor', Z.of_nat (p + count)) /\
      length cor' = length cor /\
      (forall t, (t < count)%nat ->
         exists x s2, cor !! (p + t)%nat = Some x /\
                      sd !! (j0 + t)%nat = Some s2 /\
                      cor' !! (p + t)%nat
                      = Some (if dgtb s2 dzero then ddiv x (dmul s1 s2)
                              else dzero)) /\
      (forall k, ~ (p <= k < p + count)%nat -> cor' !! k = cor !! k).
Proof.
  induction count as [|count IH]; intros j0 cor p Hsd Hmax Hlen.
  - exists cor. cbn [ComputeCorrelationFromCovMatrix_row].
    rewrite Nat.add_0_r. repeat split. intros t Ht. lia.
  - cbn [ComputeCorrelationFromCovMatrix_row].
    destruct (lookup_lt_is_Some_2 sd j0 ltac:(lia)) as [s2 Hs2].
    destruct (lookup_lt_is_Some_2 cor p ltac:(lia)) as [x Hx].
    rewrite !at_of_nat, Hs2. cbn [mbind option_bind].
    rewrite to_UInt32_small by lia.
    replace (Z.of_nat j0 + 1) with (Z.of_nat (S j0)) by lia.
    replace (Z.of_nat p + 1) with (Z.of_nat (S p)) by lia.
    set (v := if dgtb s2 dzero then ddiv x (dmul s1 s2) else dzero).
    assert (Hstep :
      (if dgtb s2 dzero
       then x0 ← cor !! p;
            correlation1 ← update_at cor (Z.of_nat p)
                             (ddiv x0 (dmul s1 s2));
            ComputeCorrelationFromCovMatrix_row count (Z.of_nat (S j0)) s1 sd
              None correlation1 (Z.of_nat (S p)) (Z.of_nat (S j0))
       else correlation1 ← update_at cor (Z.of_nat p) dzero;
            ComputeCorrelationFromCovMatrix_row count (Z.of_nat (S j0)) s1 sd
              None correlation1 (Z.of_nat (S p)) (Z.of_nat (S j0)))
      = ComputeCorrelationFromCovMatrix_row count (Z.of_nat (S j0)) s1 sd
          None (<[p := v]> cor) (Z.of_nat (S p)) (Z.of_nat (S j0))).
    { subst v. destruct (dgtb s2 dzero).
      - rewrite Hx. cbn [mbind option_bind].
        rewrite (update_at_Some cor (Z.of_nat p) _ x)
          by (by rewrite at_of_nat).
        cbn [mbind option_bind]. by rewrite Nat2Z.id.
      - rewrite (update_at_Some cor (Z.of_nat p) _ x)
          by (by rewrite at_of_nat).
        cbn [mbind option_bind]. by rewrite Nat2Z.id. }
    rewrite Hstep.
    destruct (IH (S j0) (<[p:=v]> cor) (S p))
      as (cor' & -> & Hl & Hin & Hout); [lia|lia| |].
    { rewrite length_insert. lia. }
    exists cor'. split; [do 2 f_equal; lia|].
    rewrite Hl, length_insert. split; [done|]. split.
    + intros t Ht. destruct t as [|t].
      * rewrite !Nat.add_0_r. exists x, s2. split; [done|]. split; [done|].
        rewrite Hout by lia. apply list_lookup_insert_eq. lia.
      * destruct (Hin t ltac:(lia)) as (y & s & Hy & Hs & Hv).
        rewrite list_lookup_insert_ne in Hy by lia.
        exists y, s.
        replace (p + S t)%nat with (S p + t)%nat by lia.
        replace (j0 + S t)%nat with (S j0 + t)%nat by lia. done.
    + intros k Hk. rewrite Hout by lia. apply list_lookup_insert_ne. lia.
Qed.

Lemma ComputeCorrelationFromCovMatrix_loop_spec (sq : bool) (n : nat)
    (sd : list double) :
  Z.of_nat n <= 65535 ->
  (n <= length sd)%nat ->
  forall (rows f1 : nat) (cor : list double) (skip : Z),
    (f1 + rows = n)%nat ->
    (matrixSize sq n <= length cor)%nat ->
    (sq = true -> (0 < rows)%nat -> skip = Z.of_nat n - 1 - Z.of_nat f1) ->
    exists cor',
      ComputeCorrelationFromCovMatrix_loop rows (Z.of_nat f1) sd None sq cor
        (Z.of_nat (matrixIndex sq n f1 0)) (Z.of_nat f1) skip = Some cor' /\
      length cor' = length cor /\
      (forall i j, (f1 <= i < n)%nat -> (j <= i)%nat ->
         exists x si sj,
           cor !! matrixIndex sq n i j = Some x /\
           sd !! i = Some si /\ sd !! j = Some sj /\
           cor' !! matrixIndex sq n i j = Some (correlationEntry si sj x)) /\
      (forall k, (forall i j, (f1 <= i < n)%nat -> (j <= i)%nat ->
                    k <> matrixIndex sq n i j) ->
         cor' !! k = cor !! k).
Proof.
  intros Hn Hsd.
  induction rows as [|rows IH]; intros f1 cor skip Hf Hsize Hskip.
  - exists cor. cbn [ComputeCorrelationFromCovMatrix_loop].
    repeat split. intros i j Hi. lia.
  - cbn [ComputeCorrelationFromCovMatrix_loop].
    pose proof (matrixIndex_row_end sq n f1 ltac:(lia)) as Hend.
    destruct (lookup_lt_is_Some_2 sd f1 ltac:(lia)) as [s1 Hs1].
    cbn [mbind option_bind]. rewrite at_of_nat, Hs1. cbn [mbind option_bind].
    replace (Z.to_nat (Z.of_nat f1 + 1)) with (S f1) by lia.
    set (p := matrixIndex sq n f1 0) in *.
    assert (Hrow : exists cor1,
      (if dgtb s1 dzero
       then ComputeCorrelationFromCovMatrix_row (S f1) 0 s1 sd None cor
              (Z.of_nat p) 0
       else ComputeCorrelationFromCovMatrix_zeroRow (S f1) cor (Z.of_nat p))
      = Some (cor1, Z.of_nat (p + S f1)) /\
      length cor1 = length cor /\
      (forall j, (j <= f1)%nat ->
         exists x sj, cor !! (p + j)%nat = Some x /\ sd !! j = Some sj /\
                      cor1 !! (p + j)%nat = Some (correlationEntry s1 sj x)) /\
      (forall k, ~ (p <= k < p + S f1)%nat -> cor1 !! k = cor !! k)).
    { unfold correlationEntry. destruct (dgtb s1 dzero) eqn:Hs.
      - destruct (ComputeCorrelationFromCovMatrix_row_spec s1 sd (S f1) 0 cor p)
          as (cor1 & Hrun & Hl & Hin & Hout); [lia|lia|destruct sq; lia|].
        exists cor1. split; [exact Hrun|]. split; [done|]. split; [|done].
        intros j Hj. destruct (Hin j ltac:(lia)) as (x & sj & Hx & Hsj & Hv).
        exists x, sj. cbn [andb]. done.
      - destruct (ComputeCorrelationFromCovMatrix_zeroRow_spec (S f1) cor p)
          as (cor1 & Hrun & Hl & Hin & Hout); [destruct sq; lia|].
        exists cor1. split; [exact Hrun|]. split; [done|]. split; [|done].
        intros j Hj.
        destruct (lookup_lt_is_Some_2 cor (p + j) ltac:(destruct sq; lia))
          as [x Hx].
        destruct (lookup_lt_is_Some_2 sd j ltac:(lia)) as [sj Hsj].
        exists x, sj. cbn [andb]. split; [done|]. split; [done|].
        apply Hin. lia. }
    destruct Hrow as (cor1 & -> & Hl1 & Hin1 & Hout1).
    cbn [mbind option_bind fst snd].
    rewrite to_UInt32_small by lia.
    replace (Z.of_nat f1 + 1) with (Z.of_nat (S f1)) by lia.
    assert (Hnext : exists skip',
      (if sq
       then ComputeCorrelationFromCovMatrix_loop rows (Z.of_nat (S f1)) sd
              None sq cor1 (Z.of_nat (p + S f1) + skip) (Z.of_nat (S f1))
              (to_SInt32 (skip - 1))
       else ComputeCorrelationFromCovMatrix_loop rows (Z.of_nat (S f1)) sd
              None sq cor1 (Z.of_nat (p + S f1)) (Z.of_nat (S f1)) skip)
      = ComputeCorrelationFromCovMatrix_loop rows (Z.of_nat (S f1)) sd None
          sq cor1 (Z.of_nat (matrixIndex sq n (S f1) 0)) (Z.of_nat (S f1))
          skip' /\
      (sq = true -> (0 < rows)%nat -> skip' = Z.of_nat n - 1 - Z.of_nat (S f1))).
    { rewrite matrixIndex_row_succ. fold p. destruct sq.
      - exists (to_SInt32 (skip - 1)). rewrite (Hskip eq_refl) by lia. split.
        + f_equal. lia.
        + intros _ Hr. rewrite to_SInt32_small; lia.
      - exists skip. split; [f_equal; lia|done]. }
    destruct Hnext as (skip' & -> & Hskip').
    destruct (IH (S f1) cor1 skip') as (cor' & Hrun & Hl & Hin & Hout);
      [lia|lia|done|].
    exists cor'. split; [done|]. split; [lia|]. split.
    + intros i j Hi Hj. destruct (decide (i = f1)) as [->|Hne].
      * destruct (Hin1 j Hj) as (x & sj & Hx & Hsj & Hv).
        rewrite (matrixIndex_row sq n f1 j). fold p.
        exists x, s1, sj. split; [done|]. split; [done|]. split; [done|].
        rewrite Hout; [done|]. intros i' j' Hi' Hj' E.
        unfold p in E. rewrite <- (matrixIndex_row sq n f1 j) in E.
        apply matrixIndex_inj in E as [-> _]; [lia|lia|lia| |];
          destruct sq; lia.
      * destruct (Hin i j ltac:(lia) Hj) as (x & si & sj & Hx & Hsi & Hsj & Hv).
        exists x, si, sj. split; [|done].
        rewrite Hout1 in Hx; [done|].
        rewrite (matrixIndex_row sq n i j).
        pose proof (matrixIndex_row_mono sq n f1 i ltac:(lia) ltac:(lia)).
        fold p in H. destruct sq; lia.
    + intros k Hk. rewrite Hout.
      * apply Hout1. intros Hr.
        apply (Hk f1 (k - p)%nat); [lia|lia|].
        rewrite (matrixIndex_row sq n f1 (k - p)). fold p. lia.
      * intros i j Hi Hj. apply Hk; [lia|done].
Qed.

(** X10.  [ComputeCorrelationFromCovMatrix] does nothing when a channel
    count is 0 or a pointer is NULL.  Otherwise, when all channels are used
    (no channel list, or equal channel counts), it replaces in place every
    entry (i, j), j <= i, of the packed covariance matrix by the covariance
    divided by the product of the standard deviations of channels i and j
    when both are above 0, and by 0 otherwise; for a square matrix the
    upper-right triangle holds the mirrored values; the buffer beyond the
    matrix is left alone. *)
Theorem ComputeCorrelationFromCovMatrix_entries (cor sd : list double)
    (numberOutputChannels numberInputChannels : Z)
    (channelListPtr : option (list Z)) (squareOutputMatrixFlag : bool) :
  0 <= numberOutputChannels <= 65535 ->
  0 <= numberInputChannels ->
  channelListPtr = None \/ numberOutputChannels = numberInputChannels ->
  (Z.to_nat numberOutputChannels <= length sd)%nat ->
  (matrixSize squareOutputMatrixFlag (Z.to_nat numberOutputChannels)
   <= length cor)%nat ->
  (numberOutputChannels = 0 \/ numberInputChannels = 0 ->
   ComputeCorrelationFromCovMatrix numberOutputChannels (Some cor)
     numberInputChannels channelListPtr (Some sd) squareOutputMatrixFlag
   = Some (Some cor)) /\
  ComputeCorrelationFromCovMatrix numberOutputChannels None
    numberInputChannels channelListPtr (Some sd) squareOutputMatrixFlag
  = Some None /\
  ComputeCorrelationFromCovMatrix numberOutputChannels (Some cor)
    numberInputChannels channelListPtr None squareOutputMatrixFlag
  = Some (Some cor) /\
  (0 < numberOutputChannels -> 0 < numberInputChannels ->
   exists cor' : list double,
     ComputeCorrelationFromCovMatrix numberOutputChannels (Some cor)
       numberInputChannels channelListPtr (Some sd) squareOutputMatrixFlag
     = Some (Some cor') /\
     length cor' = length cor /\
     (forall i j : nat,
        (j <= i)%nat -> (i < Z.to_nat numberOutputChannels)%nat ->
        exists x si sj : double,
          cor !! matrixIndex squareOutputMatrixFlag
                   (Z.to_nat numberOutputChannels) i j = Some x /\
          sd !! i = Some si /\ sd !! j = Some sj /\
          cor' !! matrixIndex squareOutputMatrixFlag
                    (Z.to_nat numberOutputChannels) i j
          = Some (correlationEntry si sj x) /\
          (squareOutputMatrixFlag = true ->
           cor' !! (j * Z.to_nat numberOutputChannels + i)%nat
           = Some (correlationEntry si sj x))) /\
     (forall k : nat,
        (matrixSize squareOutputMatrixFlag (Z.to_nat numberOutputChannels)
         <= k)%nat ->
        cor' !! k = cor !! k)).
Proof.
  intros Hout Hin Hlist Hsd Hsize.
  set (n := Z.to_nat numberOutputChannels) in *.
  split; [|split; [|split]].
  - intros Hzero. unfold ComputeCorrelationFromCovMatrix.
    destruct (Z.eqb_spec numberOutputChannels 0); [done|].
    destruct (Z.eqb_spec numberInputChannels 0); [done|lia].
  - unfold ComputeCorrelationFromCovMatrix.
    by destruct ((numberOutputChannels =? 0) || (numberInputChannels =? 0)).
  - unfold ComputeCorrelationFromCovMatrix.
    by destruct ((numberOutputChannels =? 0) || (numberInputChannels =? 0)).
  - intros HnOut HnIn. unfold ComputeCorrelationFromCovMatrix.
    destruct (Z.eqb_spec numberOutputChannels 0) as [|_]; [lia|].
    destruct (Z.eqb_spec numberInputChannels 0) as [|_]; [lia|].
    cbn [orb].
    assert ((if numberOutputChannels =? numberInputChannels then None
             else channelListPtr) = None) as ->.
    { destruct (Z.eqb_spec numberOutputChannels numberInputChannels);
        [done|]. by destruct Hlist. }
    fold n.
    destruct (ComputeCorrelationFromCovMatrix_loop_spec squareOutputMatrixFlag
                n sd ltac:(lia) Hsd n 0%nat cor (numberOutputChannels - 1))
      as (cor1 & Hrun & Hl1 & Hin1 & Hout1); [lia|done|lia|].
    assert (matrixIndex squareOutputMatrixFlag n 0 0 = 0%nat) as E0
      by (unfold matrixIndex; by destruct squareOutputMatrixFlag).
    rewrite E0 in Hrun. change (Z.of_nat 0) with 0 in Hrun. rewrite Hrun.
    cbn [mbind option_bind].
    assert (Hbeyond : forall k, (matrixSize squareOutputMatrixFlag n <= k)%nat ->
                                cor1 !! k = cor !! k).
    { intros k Hk. apply Hout1. intros i j Hi Hj ->.
      pose proof (matrixIndex_row_end squareOutputMatrixFlag n i ltac:(lia)).
      rewrite (matrixIndex_row squareOutputMatrixFlag n i j) in Hk.
      destruct squareOutputMatrixFlag; lia. }
    destruct squareOutputMatrixFlag.
    + destruct (CopyLowerToUpperSquareMatrix_spec n cor1)
        as (cor2 & -> & Hl2 & Hupper & Hlower & Hrest).
      { rewrite Hl1. exact Hsize. }
      cbn [mbind option_bind]. exists cor2. split; [done|].
      split; [lia|]. split.
      * intros i j Hj Hi.
        destruct (Hin1 i j ltac:(lia) Hj)
          as (x & si & sj & Hx & Hsi & Hsj & Hv).
        exists x, si, sj. split; [done|]. split; [done|]. split; [done|].
        unfold matrixIndex in *.
        split; [by rewrite Hlower by lia|]. intros _.
        destruct (decide (j = i)) as [->|Hne].
        -- by rewrite Hlower by lia.
        -- by rewrite Hupper by lia.
      * intros k Hk. unfold matrixSize in Hk. rewrite Hrest by done.
        by apply Hbeyond.
    + exists cor1. split; [done|]. split; [done|]. split; [|done].
      intros i j Hj Hi.
      destruct (Hin1 i j ltac:(lia) Hj) as (x & si & sj & Hx & Hsi & Hsj & Hv).
      exists x, si, sj. done.
Qed.

Lemma ComputeCorrelationFromCovMatrix_entries_witness :
  exists cor' : list double,
    ComputeCorrelationFromCovMatrix 2
      (Some [dadd dtwo dtwo; dOne; dzero; dOne]) 2 None
      (Some [dtwo; dzero]) true = Some (Some cor') /\
    cor' !! 0%nat = Some dOne /\ cor' !! 1%nat = Some dzero.
Proof.
  destruct (ComputeCorrelationFromCovMatrix_entries
              [dadd dtwo dtwo; dOne; dzero; dOne] [dtwo; dzero] 2 2 None true)
    as (_ & _ & _ & Hrun); [lia|lia|by left|cbn; lia|cbn; lia|].
  destruct (Hrun ltac:(lia) ltac:(lia)) as (cor' & Hcor' & _ & Hentries & _).
  exists cor'. split; [exact Hcor'|]. split.
  - destruct (Hentries 0%nat 0%nat) as (x & si & sj & Hx & Hsi & Hsj & Hv & _);
      [lia|cbn; lia|].
    injection Hx as <-. injection Hsi as <-. injection Hsj as <-.
    change (matrixIndex true (Z.to_nat 2) 0 0) with 0%nat in Hv.
    rewrite Hv. reflexivity.
  - destruct (Hentries 1%nat 0%nat) as (x & si & sj & Hx & Hsi & Hsj & _ & Hv);
      [lia|cbn; lia|].
    injection Hx as <-. injection Hsi as <-. injection Hsj as <-.
    specialize (Hv eq_refl).
    change (0 * Z.to_nat 2 + 1)%nat with 1%nat in Hv.
    rewrite Hv. reflexivity.
Defined.

(** ** CheckMatrix *)

Lemma ResetForAllVariancesEqual_keeps_variances (cov : list double)
    (sq : bool) (code numberFeatures : Z) :
  0 <= numberFeatures <= 65535 ->
  (code <> kMeanStdDevOnly ->
   (matrixSize sq (Z.to_nat numberFeatures) <= length cov)%nat) ->
  exists (cov' : list double) (flag : bool),
    ResetForAllVariancesEqual (Some cov) sq code numberFeatures
    = Some (Some cov', flag) /\
    length cov' = length cov /\
    (flag = false -> cov' = cov) /\
    (forall i, (i < Z.to_nat numberFeatures)%nat ->
       cov' !! varianceIndex sq code (Z.to_nat numberFeatures) i
       = cov !! varianceIndex sq code (Z.to_nat numberFeatures) i).
Proof.
  intros Hn Hsize. set (n := Z.to_nat numberFeatures) in *.
  unfold ResetForAllVariancesEqual. fold n.
  destruct (Z.leb_spec numberFeatures 1) as [|Hn1];
    [by exists cov, false|].
  destruct (Z.eqb_spec code kMeanStdDevOnly) as [|Hcode];
    [by exists cov, false|].
  cbn [orb]. specialize (Hsize Hcode).
  assert (Hpos : (0 < matrixSize sq n)%nat).
  { pose proof (matrixIndex_diag_lt sq n 0 ltac:(lia)). lia. }
  destruct (lookup_lt_is_Some_2 cov 0) as [first Hfirst]; [lia|].
  rewrite Hfirst. cbn [mbind option_bind].
  assert (E0 : matrixIndex sq n 0 0 = 0%nat).
  { unfold matrixIndex. by destruct sq. }
  rewrite (compare_spec first cov sq n Hsize ltac:(lia)
             n 0 0 (to_UInt32 (numberFeatures - 1)) true);
    [|done|lia|by rewrite E0|intros _ _; rewrite to_UInt32_small; lia].
  cbn [andb mbind option_bind].
  destruct (lowerTriangleEqual sq n first cov 0 n); [|by exists cov, false].
  destruct (zero_spec sq n ltac:(lia) n 0 cov 0
              (to_UInt32 (numberFeatures - 1)))
    as (cov1 & -> & Hl1 & Hcov1);
    [done|done|by rewrite E0|intros _ _; rewrite to_UInt32_small; lia|].
  cbn [mbind option_bind].
  assert (Hdiag1 : forall i, (i < n)%nat ->
            cov1 !! matrixIndex sq n i i = cov !! matrixIndex sq n i i).
  { intros i Hi. rewrite Hcov1, inLowerOffDiagonal_other;
      [|lia|done|destruct sq; lia].
    destruct (cov !! matrixIndex sq n i i); reflexivity. }
  assert (Hvar : forall i, varianceIndex sq code n i = matrixIndex sq n i i).
  { intros i. unfold varianceIndex.
    destruct (Z.eqb_spec code kMeanStdDevOnly); done. }
  destruct sq.
  - assert (Z.to_nat (to_UInt16 numberFeatures) = n) as ->.
    { unfold to_UInt16. rewrite Z.mod_small; [done|lia]. }
    destruct (CopyLowerToUpperSquareMatrix_spec n cov1)
      as (cov2 & -> & Hl2 & _ & Hlo & _).
    { unfold matrixSize in Hsize. lia. }
    cbn [mbind option_bind]. exists cov2, true. split; [done|].
    split; [lia|]. split; [done|]. intros i Hi. rewrite Hvar.
    rewrite <- Hdiag1 by done. unfold matrixIndex. apply Hlo; lia.
  - exists cov1, true. split; [done|]. split; [done|]. split; [done|].
    intros i Hi. rewrite Hvar. by apply Hdiag1.
Qed.

Lemma isVarianceIndex_varianceIndex (sq : bool) (code : Z) (n i : nat) :
  (i < n)%nat -> isVarianceIndex sq code n 0 n (varianceIndex sq code n i) = true.
Proof.
  intros Hi. unfold isVarianceIndex. apply existsb_exists. exists i.
  split; [apply in_seq; lia|]. apply Nat.eqb_refl.
Qed.

Lemma setListMessageFlag_Some (b : bool) (s : Z) (m : MessageGlobals) :
  0 <= s < Z.of_nat (length (Project.classNamesPtr
                               (gProjectInfoPtr (baseGlobals m)))) ->
  is_Some (setListMessageFlag b s m).
Proof.
  intros Hs. unfold setListMessageFlag.
  destruct (lookup_lt_is_Some_2
              (Project.classNamesPtr (gProjectInfoPtr (baseGlobals m)))
              (Z.to_nat s) ltac:(lia)) as [c Hc].
  assert (Hat : at_ (Project.classNamesPtr (gProjectInfoPtr (baseGlobals m))) s
                = Some c).
  { unfold at_. destruct (Z.ltb_spec s 0); [lia|done]. }
  rewrite Hat. cbn [mbind option_bind].
  rewrite (update_at_Some _ _ _ _ Hat). done.
Qed.

Lemma setListMessageFlag_project (b : bool) (s : Z) (m m' : MessageGlobals) :
  setListMessageFlag b s m = Some m' ->
  Project.setZeroVarianceFlag (gProjectInfoPtr (baseGlobals m'))
  = Project.setZeroVarianceFlag (gProjectInfoPtr (baseGlobals m)) /\
  Project.zeroVarianceFactor (gProjectInfoPtr (baseGlobals m'))
  = Project.zeroVarianceFactor (gProjectInfoPtr (baseGlobals m)) /\
  length (Project.classNamesPtr (gProjectInfoPtr (baseGlobals m')))
  = length (Project.classNamesPtr (gProjectInfoPtr (baseGlobals m))).
Proof.
  unfold setListMessageFlag. intros Hrun.
  destruct (at_ _ s) as [c|]; [|done]. cbn [mbind option_bind] in Hrun.
  unfold update_at in Hrun.
  destruct (_ && _); [|done]. cbn [mbind option_bind] in Hrun.
  injection Hrun as <-. cbn. by rewrite length_insert.
Qed.

(** X11.  [CheckMatrix] always returns, with a matrix of the same length in
    which the variances are those of the input, the ones equal to 0 replaced
    by the project's zero-variance factor when the project asks for that:
    the all-equal pass that follows never touches a variance.  So with the
    zero-variance setting on and a factor that is not 0, no variance of the
    result is 0.  When the zero-variance message returns FALSE the all-equal
    pass is skipped and FALSE is returned; when no message routine returns
    FALSE the result is TRUE. *)
Theorem CheckMatrix_conditions
    (listClassInformationMessage :
       Z -> MessageGlobals -> Z -> bool -> MessageGlobals * bool)
    (m : MessageGlobals) (cov : list double) (squareOutputMatrixFlag : bool)
    (statisticsCode numberFeatures statClassNumber : Z)
    (zeroVarianceStringIndex allCovariancesEqualIndex : Z)
    (useListOneMessagePerClassFlag : bool) (classStorage : Z) :
  let p := gProjectInfoPtr (baseGlobals m) in
  let n := Z.to_nat numberFeatures in
  let variance := varianceIndex squareOutputMatrixFlag statisticsCode n in
  0 <= numberFeatures <= 65535 ->
  (forall i, (i < n)%nat -> (variance i < length cov)%nat) ->
  (statisticsCode <> kMeanStdDevOnly ->
   (matrixSize squareOutputMatrixFlag n <= length cov)%nat) ->
  at_ (Project.storageClass p) statClassNumber = Some classStorage ->
  0 <= classStorage < Z.of_nat (length (Project.classNamesPtr p)) ->
  (forall (stringIndex : Z) (m0 : MessageGlobals) (continueFlag : bool),
     length (Project.classNamesPtr
               (gProjectInfoPtr
                  (baseGlobals
                     (listClassInformationMessage stringIndex m0
                        statClassNumber continueFlag).1)))
     = length (Project.classNamesPtr (gProjectInfoPtr (baseGlobals m0)))) ->
  exists (m' : MessageGlobals) (cov' : list double) (continueFlag : bool),
    CheckMatrix listClassInformationMessage m (Some cov)
      squareOutputMatrixFlag statisticsCode numberFeatures statClassNumber
      zeroVarianceStringIndex allCovariancesEqualIndex
      useListOneMessagePerClassFlag
    = Some (m', Some cov', continueFlag) /\
    length cov' = length cov /\
    (forall i, (i < n)%nat ->
       cov' !! variance i
       = (if Project.setZeroVarianceFlag p
          then substituteZero (Project.zeroVarianceFactor p) else id)
         <$> cov !! variance i) /\
    (Project.setZeroVarianceFlag p = true ->
     deqb (Project.zeroVarianceFactor p) dzero = false ->
     forall i, (i < n)%nat ->
       exists x, cov' !! variance i = Some x /\ deqb x dzero = false) /\
    (Project.setZeroVarianceFlag p = true ->
     hasZeroVariance squareOutputMatrixFlag statisticsCode n cov 0 n = true ->
     (forall m0 : MessageGlobals,
        (listClassInformationMessage zeroVarianceStringIndex m0
           statClassNumber true).2 = false) ->
     continueFlag = false /\
     forall j, cov' !! j
               = (if isVarianceIndex squareOutputMatrixFlag statisticsCode n
                       0 n j
                  then substituteZero (Project.zeroVarianceFactor p) else id)
                 <$> cov !! j) /\
    ((forall (stringIndex : Z) (m0 : MessageGlobals),
        (listClassInformationMessage stringIndex m0 statClassNumber true).2
        = true) ->
     continueFlag = true).
Proof.
  intros p n variance Hn Hvar Hsize Hstorage Hslot Hmessage.
  set (sq := squareOutputMatrixFlag) in *.
  set (names := fun m0 : MessageGlobals =>
                  Project.classNamesPtr (gProjectInfoPtr (baseGlobals m0))).
  unfold CheckMatrix. fold p. rewrite Hstorage. cbn [mbind option_bind].
  (* the first write of [listMessageFlag] *)
  assert (H1 : exists m1,
    (if useListOneMessagePerClassFlag
        && negb (gListOnlyOneMessagePerClassFlag m)
     then setListMessageFlag true classStorage m else Some m) = Some m1 /\
    Project.setZeroVarianceFlag (gProjectInfoPtr (baseGlobals m1))
    = Project.setZeroVarianceFlag p /\
    Project.zeroVarianceFactor (gProjectInfoPtr (baseGlobals m1))
    = Project.zeroVarianceFactor p /\
    length (names m1) = length (names m)).
  { destruct (_ && _); [|by exists m].
    destruct (setListMessageFlag_Some true classStorage m Hslot) as [m1 Hm1].
    exists m1. split; [done|].
    by apply (setListMessageFlag_project true classStorage). }
  destruct H1 as (m1 & -> & Hflag1 & Hfactor1 & Hnames1).
  cbn [mbind option_bind]. rewrite Hflag1.
  (* the zero-variance pass *)
  assert (H2 : exists m2 cov1 continueFlag2 messageListedFlag2,
    (if Project.setZeroVarianceFlag p then
       rz ← ResetZeroVariances (gProjectInfoPtr (baseGlobals m1)) (Some cov)
               sq statisticsCode numberFeatures;
       if (rz.2 : bool) then
         Some ((listClassInformationMessage zeroVarianceStringIndex m1
                  statClassNumber true).1,
               rz.1,
               (listClassInformationMessage zeroVarianceStringIndex m1
                  statClassNumber true).2,
               true)
       else Some (m1, rz.1, true, false)
     else Some (m1, Some cov, true, false))
    = Some (m2, Some cov1, continueFlag2, messageListedFlag2) /\
    length (names m2) = length (names m) /\
    length cov1 = length cov /\
    (forall j, cov1 !! j
               = (if Project.setZeroVarianceFlag p
                  then (if isVarianceIndex sq statisticsCode n 0 n j
                        then substituteZero (Project.zeroVarianceFactor p)
                        else id)
                  else id) <$> cov !! j) /\
    continueFlag2
    = (if Project.setZeroVarianceFlag p
          && hasZeroVariance sq statisticsCode n cov 0 n
       then (listClassInformationMessage zeroVarianceStringIndex m1
               statClassNumber true).2
       else true)).
  { destruct (Project.setZeroVarianceFlag p).
    - destruct (ResetZeroVariances_run (gProjectInfoPtr (baseGlobals m1)) cov
                  sq statisticsCode numberFeatures Hn Hvar)
        as (cov1 & -> & Hl1 & Hcov1).
      cbn [mbind option_bind fst snd andb]. fold n. rewrite Hfactor1 in Hcov1.
      destruct (hasZeroVariance sq statisticsCode n cov 0 n).
      + eexists _, cov1, _, _. split; [reflexivity|].
        split; [by rewrite <- Hnames1; apply Hmessage|]. done.
      + by exists m1, cov1, true, false.
    - exists m1, cov, true, false. split; [done|]. split; [done|].
      split; [done|]. split; [|done]. intros j. by destruct (cov !! j). }
  destruct H2 as (m2 & cov1 & continueFlag2 & listed2 & -> & Hnames2 & Hl1
                  & Hcov1 & Hcontinue2).
  cbn [mbind option_bind].
  (* the all-equal pass *)
  assert (H3 : exists m3 cov2 continueFlag3 messageListedFlag3,
    (if continueFlag2 then
       ra ← ResetForAllVariancesEqual (Some cov1) sq statisticsCode
               numberFeatures;
       if (ra.2 : bool) then
         Some ((listClassInformationMessage allCovariancesEqualIndex m2
                  statClassNumber continueFlag2).1,
               ra.1,
               (listClassInformationMessage allCovariancesEqualIndex m2
                  statClassNumber continueFlag2).2,
               true)
       else Some (m2, ra.1, continueFlag2, listed2)
     else Some (m2, Some cov1, continueFlag2, listed2))
    = Some (m3, Some cov2, continueFlag3, messageListedFlag3) /\
    length (names m3) = length (names m) /\
    length cov2 = length cov /\
    (forall i, (i < n)%nat -> cov2 !! variance i = cov1 !! variance i) /\
    (continueFlag2 = false -> cov2 = cov1 /\ continueFlag3 = false) /\
    (continueFlag2 = true ->
     continueFlag3 = true \/
     continueFlag3
     = (listClassInformationMessage allCovariancesEqualIndex m2
          statClassNumber true).2)).
  { destruct continueFlag2.
    - destruct (ResetForAllVariancesEqual_keeps_variances cov1 sq
                  statisticsCode numberFeatures Hn)
        as (cov2 & flag & -> & Hl2 & _ & Hkeep).
      { rewrite Hl1. exact Hsize. }
      cbn [mbind option_bind fst snd]. destruct flag.
      + eexists _, cov2, _, _. split; [reflexivity|].
        split; [by rewrite <- Hnames2; apply Hmessage|].
        split; [lia|]. split; [exact Hkeep|]. split; [done|]. by right.
      + eexists m2, cov2, true, _. split; [reflexivity|]. split; [done|].
        split; [lia|]. split; [exact Hkeep|]. split; [done|]. by left.
    - exists m2, cov1, false, listed2. done. }
  clear Hnames2.
  destruct H3 as (m3 & cov2 & continueFlag3 & listed3 & H3 & Hnames3 & Hl2
                  & Hkeep & Hskipped & Hasked).
  cbn beta iota zeta. rewrite H3. cbn [mbind option_bind]. cbn beta iota zeta.
  (* the second write of [listMessageFlag] *)
  assert (H4 : exists m4,
    (if useListOneMessagePerClassFlag
        && gListOnlyOneMessagePerClassFlag m3 && listed3
     then setListMessageFlag false classStorage m3 else Some m3) = Some m4).
  { destruct (_ && _ && _); [|by exists m3].
    apply (setListMessageFlag_Some false classStorage m3).
    fold (names m3). rewrite Hnames3. exact Hslot. }
  destruct H4 as (m4 & ->). cbn [mbind option_bind].
  exists m4, cov2, continueFlag3. split; [done|]. split; [done|].
  assert (Hvariances : forall i, (i < n)%nat ->
            cov2 !! variance i
            = (if Project.setZeroVarianceFlag p
               then substituteZero (Project.zeroVarianceFactor p) else id)
              <$> cov !! variance i).
  { intros i Hi. rewrite Hkeep, Hcov1 by done. unfold variance.
    by rewrite isVarianceIndex_varianceIndex by done. }
  split; [exact Hvariances|]. split; [|split].
  - intros Hset Hfactor i Hi. rewrite Hvariances, Hset by done.
    destruct (lookup_lt_is_Some_2 cov (variance i) (Hvar i Hi)) as [x ->].
    cbn [fmap option_fmap option_map]. eexists. split; [done|].
    unfold substituteZero. by destruct (deqb x dzero) eqn:Hx.
  - intros Hset Hzero Hstop. rewrite Hset, Hzero, Hstop in Hcontinue2.
    cbn [andb] in Hcontinue2.
    destruct (Hskipped Hcontinue2) as [-> ->]. split; [done|].
    intros j. rewrite Hcov1. by rewrite Hset.
  - intros Hgo. assert (continueFlag2 = true) as Hc2.
    { rewrite Hcontinue2. destruct (_ && _); [apply Hgo|done]. }
    destruct (Hasked Hc2) as [->| ->]; [done|apply Hgo].
Qed.

Lemma CheckMatrix_conditions_witness :
  exists (m' : MessageGlobals) (cov' : list double) (continueFlag : bool),
    CheckMatrix quietMessage
      (mkMessageGlobals (mkGlobals twoClassProject false) false)
      (Some [dzero; dOne; dtwo]) false kMeanCovariance 2 0 1 2 true
    = Some (m', Some cov', continueFlag) /\
    cov' !! 0%nat = Some dOne /\ continueFlag = true.
Proof.
  destruct (CheckMatrix_conditions quietMessage
              (mkMessageGlobals (mkGlobals twoClassProject false) false)
              [dzero; dOne; dtwo] false kMeanCovariance 2 0 1 2 true 0)
    as (m' & cov' & continueFlag & Hrun & _ & Hvariances & _ & _ & Hgo).
  - lia.
  - intros i Hi. change (Z.to_nat 2) with 2%nat in Hi.
    destruct i as [|[|i]]; [vm_compute; lia|vm_compute; lia|lia].
  - intros _. vm_compute. lia.
  - reflexivity.
  - vm_compute. split; [discriminate|reflexivity].
  - reflexivity.
  - exists m', cov', continueFlag. split; [exact Hrun|]. split.
    + specialize (Hvariances 0%nat ltac:(vm_compute; lia)).
      change (varianceIndex false kMeanCovariance (Z.to_nat 2) 0) with 0%nat
        in Hvariances.
      rewrite Hvariances. reflexivity.
    + apply Hgo. reflexivity.
Defined.

(** ** ComputeVarianceVector *)

Lemma ComputeVarianceVector_fill_spec (chan : list ChannelStatistics)
    (squares : bool) :
  forall (count k : nat) (buffer : list double),
    (k + count <= length buffer)%nat ->
    (squares = true -> (k + count <= length chan)%nat) ->
    exists buffer' : list double,
      ComputeVarianceVector_fill count chan buffer k squares = Some buffer' /\
      length buffer' = length buffer /\
      (forall j, (k <= j < k + count)%nat ->
         buffer' !! j
         = if squares
           then (fun s => dmul (standardDev s) (standardDev s)) <$> chan !! j
           else Some dzero) /\
      (forall j, ~ (k <= j < k + count)%nat -> buffer' !! j = buffer !! j).
Proof.
  induction count as [|count IH]; intros k buffer Hlen Hchan.
  - exists buffer. cbn [ComputeVarianceVector_fill]. repeat split.
    intros j Hj. lia.
  - cbn [ComputeVarianceVector_fill].
    assert (Hv : exists v,
      (if squares
       then s ← chan !! k; Some (dmul (standardDev s) (standardDev s))
       else Some dzero) = Some v /\
      Some v = if squares
               then (fun s => dmul (standardDev s) (standardDev s))
                    <$> chan !! k
               else Some dzero).
    { destruct squares; [|by exists dzero].
      destruct (lookup_lt_is_Some_2 chan k ltac:(specialize (Hchan eq_refl); lia))
        as [s ->]. by eexists. }
    destruct Hv as (v & -> & Hv). cbn [mbind option_bind].
    destruct (Nat.ltb_spec k (length buffer)) as [Hk|]; [|lia].
    destruct (IH (S k) (<[k:=v]> buffer)) as (buffer' & -> & Hl & Hin & Hout).
    { rewrite length_insert. lia. }
    { intros Hs. specialize (Hchan Hs). lia. }
    exists buffer'. split; [done|]. rewrite Hl, length_insert.
    split; [done|]. split.
    + intros j Hj. destruct (decide (j = k)) as [->|Hne].
      * rewrite Hout by lia. rewrite list_lookup_insert_eq by done. exact Hv.
      * apply Hin. lia.
    + intros j Hj. rewrite Hout by lia. apply list_lookup_insert_ne. lia.
Qed.

(** X12.  [ComputeVarianceVector] leaves everything as it is when the
    channel count or the pixel count is not positive.  Otherwise it first
    has [ComputeMeanStdDevVector] renew the channel statistics when the
    standard deviation of the first channel is negative (the stale marker),
    and then writes into each of the first [numberChannels] entries of the
    buffer the square of the channel's standard deviation, or 0 when there
    is a single pixel; the rest of the buffer is unchanged. *)
Theorem ComputeVarianceVector_fills `{Collaborators}
    (channelStatsPtr : list ChannelStatistics) (buffer : list double)
    (numberChannels numberPixels inputStatCode : Z)
    (first : ChannelStatistics) :
  let chan :=
    if dltb (standardDev first) dzero
    then ComputeMeanStdDevVector channelStatsPtr buffer numberChannels
           numberPixels inputStatCode kTriangleInputMatrix
    else channelStatsPtr in
  channelStatsPtr !! 0%nat = Some first ->
  (Z.to_nat numberChannels <= length buffer)%nat ->
  (Z.to_nat numberChannels <= length chan)%nat ->
  (numberChannels <= 0 \/ numberPixels <= 0 ->
   ComputeVarianceVector channelStatsPtr buffer numberChannels numberPixels
     inputStatCode = Some (channelStatsPtr, buffer)) /\
  (0 < numberChannels -> 0 < numberPixels ->
   exists buffer' : list double,
     ComputeVarianceVector channelStatsPtr buffer numberChannels numberPixels
       inputStatCode = Some (chan, buffer') /\
     length buffer' = length buffer /\
     (forall j, (j < Z.to_nat numberChannels)%nat ->
        buffer' !! j
        = if 1 <? numberPixels
          then (fun s => dmul (standardDev s) (standardDev s)) <$> chan !! j
          else Some dzero) /\
     (forall j, (Z.to_nat numberChannels <= j)%nat ->
        buffer' !! j = buffer !! j)).
Proof.
  intros chan Hfirst Hbuffer Hchan. unfold ComputeVarianceVector. split.
  - intros [Hzero|Hzero].
    + destruct (Z.ltb_spec 0 numberChannels); [lia|done].
    + destruct (Z.ltb_spec 0 numberPixels); [lia|]. by rewrite andb_false_r.
  - intros HnC HnP.
    destruct (Z.ltb_spec 0 numberChannels); [|lia].
    destruct (Z.ltb_spec 0 numberPixels); [|lia]. cbn [andb].
    rewrite Hfirst. cbn [mbind option_bind]. fold chan.
    destruct (ComputeVarianceVector_fill_spec chan (1 <? numberPixels)
                (Z.to_nat numberChannels) 0 buffer)
      as (buffer' & -> & Hl & Hin & Hout); [lia|intros _; lia|].
    exists buffer'. split; [done|]. split; [done|]. split.
    + intros j Hj. apply Hin. lia.
    + intros j Hj. apply Hout. lia.
Qed.

Lemma ComputeVarianceVector_fills_witness :
  exists buffer' : list double,
    @ComputeVarianceVector exampleCollaborators
      [exampleStats dOne dtwo dzero dOne; exampleStats dOne dOne dzero dOne]
      [dzero; dzero; dzero] 2 5 kMeanStdDevOnly
    = Some ([exampleStats dOne dtwo dzero dOne;
             exampleStats dOne dOne dzero dOne], buffer') /\
    buffer' !! 0%nat = Some (dadd dtwo dtwo) /\
    buffer' !! 2%nat = Some dzero.
Proof.
  destruct (@ComputeVarianceVector_fills exampleCollaborators
              [exampleStats dOne dtwo dzero dOne;
               exampleStats dOne dOne dzero dOne]
              [dzero; dzero; dzero] 2 5 kMeanStdDevOnly
              (exampleStats dOne dtwo dzero dOne))
    as [_ Hrun]; [reflexivity|vm_compute; lia|vm_compute; lia|].
  destruct (Hrun ltac:(lia) ltac:(lia)) as (buffer' & Hb & _ & Hin & Hout).
  exists buffer'. split; [exact Hb|]. split.
  - rewrite (Hin 0%nat) by (vm_compute; lia). reflexivity.
  - rewrite (Hout 2%nat) by (vm_compute; lia). reflexivity.
Defined.

(** ** GetProjectChannelMinMaxes *)

Lemma GetProjectChannelMinMaxes_init_spec :
  forall (count k : nat) (channelMin channelMax : list double),
    (k + count <= length channelMin)%nat ->
    (k + count <= length channelMax)%nat ->
    Z.of_nat (k + count) <= 65535 ->
    exists mn mx : list double,
      GetProjectChannelMinMaxes_init count (Z.of_nat k) channelMin channelMax
      = Some (mn, mx) /\
      length mn = length channelMin /\ length mx = length channelMax /\
      (forall j, (k <= j < k + count)%nat ->
         mn !! j = Some DBL_MAX /\ mx !! j = Some (SFopp DBL_MAX : double)) /\
      (forall j, ~ (k <= j < k + count)%nat ->
         mn !! j = channelMin !! j /\ mx !! j = channelMax !! j).
Proof.
  induction count as [|count IH]; intros k channelMin channelMax Hmn Hmx Hk.
  - exists channelMin, channelMax. cbn [GetProjectChannelMinMaxes_init].
    split; [done|]. split; [done|]. split; [done|].
    split; intros j Hj; [lia|done].
  - cbn [GetProjectChannelMinMaxes_init].
    destruct (lookup_lt_is_Some_2 channelMin k ltac:(lia)) as [x Hx].
    destruct (lookup_lt_is_Some_2 channelMax k ltac:(lia)) as [y Hy].
    rewrite (update_at_Some channelMin (Z.of_nat k) _ x)
      by (by rewrite at_of_nat).
    cbn [mbind option_bind].
    rewrite (update_at_Some channelMax (Z.of_nat k) _ y)
      by (by rewrite at_of_nat).
    cbn [mbind option_bind]. rewrite Nat2Z.id, to_UInt32_small by lia.
    replace (Z.of_nat k + 1) with (Z.of_nat (S k)) by lia.
    destruct (IH (S k) (<[k:=DBL_MAX]> channelMin)
                (<[k:=SFopp DBL_MAX]> channelMax))
      as (mn & mx & Hrun & Hlmn & Hlmx & Hin & Hout).
    { rewrite length_insert. lia. }
    { rewrite length_insert. lia. }
    { lia. }
    exists mn, mx. split; [exact Hrun|]. rewrite Hlmn, Hlmx, !length_insert.
    split; [done|]. split; [done|]. split.
    + intros j Hj. destruct (decide (j = k)) as [->|Hne].
      * destruct (Hout k ltac:(lia)) as [E1 E2]. rewrite E1, E2.
        rewrite !list_lookup_insert_eq by lia. done.
      * apply Hin. lia.
    + intros j Hj. destruct (Hout j ltac:(lia)) as [E1 E2]. rewrite E1, E2.
      rewrite !list_lookup_insert_ne by lia. done.
Qed.

Lemma GetProjectChannelMinMaxes_merge_spec (chan : list ChannelStatistics) :
  forall (count k : nat) (channelMin channelMax : list double),
    (k + count <= length chan)%nat ->
    (k + count <= length channelMin)%nat ->
    (k + count <= length channelMax)%nat ->
    Z.of_nat (k + count) <= 65535 ->
    exists mn mx : list double,
      GetProjectChannelMinMaxes_merge count (Z.of_nat k) (Some chan)
        channelMin channelMax = Some (mn, mx) /\
      length mn = length channelMin /\ length mx = length channelMax /\
      (forall j, ~ (k <= j < k + count)%nat ->
         mn !! j = channelMin !! j /\ mx !! j = channelMax !! j).
Proof.
  induction count as [|count IH];
    intros k channelMin channelMax Hchan Hmn Hmx Hk.
  - exists channelMin, channelMax. cbn [GetProjectChannelMinMaxes_merge].
    done.
  - cbn [GetProjectChannelMinMaxes_merge mbind option_bind].
    destruct (lookup_lt_is_Some_2 chan k ltac:(lia)) as [s Hs].
    destruct (lookup_lt_is_Some_2 channelMin k ltac:(lia)) as [x Hx].
    destruct (lookup_lt_is_Some_2 channelMax k ltac:(lia)) as [y Hy].
    rewrite !at_of_nat, Hs, Hx. cbn [mbind option_bind].
    rewrite (update_at_Some channelMin (Z.of_nat k) _ x)
      by (by rewrite at_of_nat).
    cbn [mbind option_bind]. rewrite Hy. cbn [mbind option_bind].
    rewrite (update_at_Some channelMax (Z.of_nat k) _ y)
      by (by rewrite at_of_nat).
    cbn [mbind option_bind]. rewrite Nat2Z.id, to_UInt32_small by lia.
    replace (Z.of_nat k + 1) with (Z.of_nat (S k)) by lia.
    destruct (IH (S k) (<[k:=MIN x (minimum s)]> channelMin)
                (<[k:=MAX y (maximum s)]> channelMax))
      as (mn & mx & Hrun & Hlmn & Hlmx & Hout).
    { lia. }
    { rewrite length_insert. lia. }
    { rewrite length_insert. lia. }
    { lia. }
    exists mn, mx. split; [exact Hrun|]. rewrite Hlmn, Hlmx, !length_insert.
    split; [done|]. split; [done|].
    intros j Hj. destruct (Hout j ltac:(lia)) as [E1 E2]. rewrite E1, E2.
    rewrite !list_lookup_insert_ne by lia. done.
Qed.

Lemma GetProjectChannelMinMaxes_overall_spec
    (channelMin channelMax : list double) :
  forall (count k : nat) (overallMin overallMax : double),
    (k + count <= length channelMin)%nat ->
    (k + count <= length channelMax)%nat ->
    Z.of_nat (k + count) <= 65535 ->
    GetProjectChannelMinMaxes_overall count (Z.of_nat k) channelMin
      channelMax overallMin overallMax
    = Some (foldl MIN overallMin (take count (drop k channelMin)),
            foldl MAX overallMax (take count (drop k channelMax))).
Proof.
  induction count as [|count IH]; intros k overallMin overallMax Hmn Hmx Hk.
  - done.
  - cbn [GetProjectChannelMinMaxes_overall].
    destruct (lookup_lt_is_Some_2 channelMin k ltac:(lia)) as [x Hx].
    destruct (lookup_lt_is_Some_2 channelMax k ltac:(lia)) as [y Hy].
    rewrite !at_of_nat, Hx, Hy. cbn [mbind option_bind].
    rewrite to_UInt32_small by lia.
    replace (Z.of_nat k + 1) with (Z.of_nat (S k)) by lia.
    rewrite IH by lia.
    rewrite (drop_S channelMin x k Hx), (drop_S channelMax y k Hy). done.
Qed.

Lemma someClassUpToDate_succ (p : Project.t) (k : Z) (c : Class.t) :
  0 <= k ->
  classRecord p k = Some c ->
  someClassUpToDate p (k + 1)
  <-> someClassUpToDate p k \/ Class.statsUpToDate c = true.
Proof.
  intros Hk Hc. split.
  - intros (i & c' & Hi & Hc' & Hup).
    destruct (decide (i = k)) as [->|Hne].
    + right. rewrite Hc in Hc'. by injection Hc' as ->.
    + left. exists i, c'. split; [lia|done].
  - intros [(i & c' & Hi & Hc' & Hup)|Hup].
    + exists i, c'. split; [lia|done].
    + exists k, c. split; [lia|done].
Qed.

Lemma GetProjectChannelMinMaxes_classes_spec `{Collaborators} (fuel : nat)
    (p : Project.t) (n : Z) (channelListPtr : option (list Z)) :
  0 <= n <= 65535 ->
  Project.numberStatisticsClasses p <= 65535 ->
  (forall i : Z, 0 <= i < Project.numberStatisticsClasses p ->
     is_Some (classRecord p i)) ->
  (forall (i : Z) (c : Class.t) (chan : list ChannelStatistics),
     0 <= i < Project.numberStatisticsClasses p ->
     classRecord p i = Some c -> Class.statsUpToDate c = true ->
     (Z.to_nat n <= length chan)%nat ->
     exists (chan' : list ChannelStatistics) (flag : bool),
       GetClassChannelStatistics fuel p n (Some chan) channelListPtr i
       = Some (Some chan', flag) /\
       (Z.to_nat n <= length chan')%nat) ->
  forall (count k : nat) (chan : list ChannelStatistics)
         (channelMin channelMax : list double) (returnFlag : bool),
    Z.of_nat (k + count) = Project.numberStatisticsClasses p ->
    (Z.to_nat n <= length chan)%nat ->
    (Z.to_nat n <= length channelMin)%nat ->
    (Z.to_nat n <= length channelMax)%nat ->
    (returnFlag = true <-> someClassUpToDate p (Z.of_nat k)) ->
    exists (chan' : list ChannelStatistics) (mn mx : list double)
           (flag : bool),
      GetProjectChannelMinMaxes_classes fuel count (Z.of_nat k) p n
        (Some chan) channelListPtr channelMin channelMax returnFlag
      = Some (Some chan', mn, mx, flag) /\
      length mn = length channelMin /\ length mx = length channelMax /\
      (flag = true
       <-> someClassUpToDate p (Project.numberStatisticsClasses p)) /\
      (flag = false ->
       chan' = chan /\ mn = channelMin /\ mx = channelMax) /\
      (forall j, (Z.to_nat n <= j)%nat ->
         mn !! j = channelMin !! j /\ mx !! j = channelMax !! j).
Proof.
  intros Hn Hclasses Hrecords Hcall.
  induction count as [|count IH];
    intros k chan channelMin channelMax returnFlag Hk Hchan Hmn Hmx Hflag.
  - exists chan, channelMin, channelMax, returnFlag.
    cbn [GetProjectChannelMinMaxes_classes].
    split; [done|]. split; [done|]. split; [done|].
    rewrite Nat.add_0_r in Hk. rewrite <- Hk. done.
  - cbn [GetProjectChannelMinMaxes_classes].
    destruct (Hrecords (Z.of_nat k) ltac:(lia)) as [c Hc].
    pose proof Hc as Hc'. unfold classRecord in Hc'.
    destruct (at_ (Project.storageClass p) (Z.of_nat k)) as [s|]; [|done].
    cbn [mbind option_bind] in Hc' |- *. rewrite Hc'.
    cbn [mbind option_bind].
    rewrite to_UInt32_small by lia.
    replace (Z.of_nat k + 1) with (Z.of_nat (S k)) by lia.
    pose proof (someClassUpToDate_succ p (Z.of_nat k) c ltac:(lia) Hc)
      as Hsucc.
    replace (Z.of_nat k + 1) with (Z.of_nat (S k)) in Hsucc by lia.
    destruct (Class.statsUpToDate c) eqn:Hup.
    + rewrite to_UInt16_small by lia.
      destruct (Hcall (Z.of_nat k) c chan ltac:(lia) Hc Hup Hchan)
        as (chan1 & flag1 & Hcall1 & Hchan1).
      rewrite Hcall1. cbn [mbind option_bind fst snd].
      destruct (GetProjectChannelMinMaxes_merge_spec chan1 (Z.to_nat n) 0
                  channelMin channelMax)
        as (mn1 & mx1 & Hmerge & Hlmn1 & Hlmx1 & Hout1); [lia|lia|lia|lia|].
      change (Z.of_nat 0) with 0 in Hmerge. rewrite Hmerge.
      cbn [mbind option_bind fst snd].
      destruct (IH (S k) chan1 mn1 mx1 true)
        as (chan' & mn & mx & flag & Hrun & Hlmn & Hlmx & Hfl & _ & Hout);
        [lia|lia|lia|lia| |].
      { rewrite Hsucc. split; [by right|done]. }
      exists chan', mn, mx, flag. split; [exact Hrun|].
      split; [lia|]. split; [lia|]. split; [done|]. split.
      * intros ->. destruct Hfl as [_ Hfl].
        assert (false = true) as Habs; [|done]. apply Hfl.
        exists (Z.of_nat k), c. split; [lia|done].
      * intros j Hj. destruct (Hout j Hj) as [E1 E2]. rewrite E1, E2.
        apply Hout1. lia.
    + destruct (IH (S k) chan channelMin channelMax returnFlag)
        as (chan' & mn & mx & flag & Hrun & Hrest); [lia|lia|lia|lia| |].
      { rewrite Hsucc, Hflag. split; [by left|]. by intros [?|?]. }
      by exists chan', mn, mx, flag.
Qed.

(** X13.  [GetProjectChannelMinMaxes] touches nothing and returns FALSE for
    a project without classes.  With classes it returns TRUE exactly when
    some class is marked up to date, whatever [GetClassChannelStatistics]
    reported for that class.  When it returns FALSE the first
    [numberOutputChannels] entries of the two vectors and the two overall
    values have nevertheless been overwritten, with [DBL_MAX] for the
    minimums and [-DBL_MAX] for the maximums; when it returns TRUE the
    overall minimum and maximum are the MIN and the MAX over those entries
    of the vectors.  The entries beyond are never changed. *)
Theorem GetProjectChannelMinMaxes_result `{Collaborators} (fuel : nat)
    (p : Project.t) (numberOutputChannels : Z)
    (chan : list ChannelStatistics) (channelListPtr : option (list Z))
    (channelMin channelMax : list double) (overallMin overallMax : double) :
  let n := Z.to_nat numberOutputChannels in
  0 <= numberOutputChannels <= 65535 ->
  Project.numberStatisticsClasses p <= 65535 ->
  (forall i : Z, 0 <= i < Project.numberStatisticsClasses p ->
     is_Some (classRecord p i)) ->
  (forall (i : Z) (c : Class.t) (chan0 : list ChannelStatistics),
     0 <= i < Project.numberStatisticsClasses p ->
     classRecord p i = Some c -> Class.statsUpToDate c = true ->
     (n <= length chan0)%nat ->
     exists (chan' : list ChannelStatistics) (flag : bool),
       GetClassChannelStatistics fuel p numberOutputChannels (Some chan0)
         channelListPtr i = Some (Some chan', flag) /\
       (n <= length chan')%nat) ->
  (n <= length chan)%nat ->
  (n <= length channelMin)%nat ->
  (n <= length channelMax)%nat ->
  (Project.numberStatisticsClasses p <= 0 ->
   GetProjectChannelMinMaxes fuel p numberOutputChannels (Some chan)
     channelListPtr channelMin channelMax overallMin overallMax
   = Some (Some chan, channelMin, channelMax, overallMin, overallMax,
           false)) /\
  (0 < Project.numberStatisticsClasses p ->
   exists (chan' : list ChannelStatistics) (mn mx : list double)
          (omin omax : double) (flag : bool),
     GetProjectChannelMinMaxes fuel p numberOutputChannels (Some chan)
       channelListPtr channelMin channelMax overallMin overallMax
     = Some (Some chan', mn, mx, omin, omax, flag) /\
     length mn = length channelMin /\ length mx = length channelMax /\
     (flag = true
      <-> someClassUpToDate p (Project.numberStatisticsClasses p)) /\
     (flag = false ->
      chan' = chan /\ omin = DBL_MAX /\ omax = SFopp DBL_MAX /\
      forall j, (j < n)%nat ->
        mn !! j = Some DBL_MAX /\ mx !! j = Some (SFopp DBL_MAX : double)) /\
     (flag = true ->
      omin = foldl MIN DBL_MAX (take n mn) /\
      omax = foldl MAX (SFopp DBL_MAX) (take n mx)) /\
     (forall j, (n <= j)%nat ->
        mn !! j = channelMin !! j /\ mx !! j = channelMax !! j)).
Proof.
  intros n Hn Hclasses Hrecords Hcall Hchan Hmn Hmx.
  unfold GetProjectChannelMinMaxes. split.
  - intros Hzero.
    destruct (Z.ltb_spec 0 (Project.numberStatisticsClasses p)); [lia|done].
  - intros Hpos.
    destruct (Z.ltb_spec 0 (Project.numberStatisticsClasses p)); [|lia].
    fold n.
    destruct (GetProjectChannelMinMaxes_init_spec n 0 channelMin channelMax)
      as (mn0 & mx0 & Hinit & Hlmn0 & Hlmx0 & Hin0 & Hout0); [lia|lia|lia|].
    change (Z.of_nat 0) with 0 in Hinit. rewrite Hinit.
    cbn [mbind option_bind fst snd].
    destruct (GetProjectChannelMinMaxes_classes_spec fuel p
                numberOutputChannels channelListPtr Hn Hclasses Hrecords Hcall
                (Z.to_nat (Project.numberStatisticsClasses p)) 0 chan mn0 mx0
                false)
      as (chan' & mn & mx & flag & Hrun & Hlmn & Hlmx & Hflag & Hfalse & Hout);
      [lia|done|fold n; lia|fold n; lia| |].
    { split; [done|]. intros (i & c & Hi & _). lia. }
    change (Z.of_nat 0) with 0 in Hrun. rewrite Hrun.
    cbn [mbind option_bind fst snd]. fold n in Hout.
    assert (Hbeyond : forall j, (n <= j)%nat ->
              mn !! j = channelMin !! j /\ mx !! j = channelMax !! j).
    { intros j Hj. destruct (Hout j Hj) as [E1 E2]. rewrite E1, E2.
      apply Hout0. lia. }
    destruct flag.
    + rewrite (GetProjectChannelMinMaxes_overall_spec mn mx n 0)
        by (cbn [Nat.add]; lia).
      cbn [mbind option_bind fst snd]. rewrite !drop_0.
      eexists chan', mn, mx, _, _, true. split; [reflexivity|].
      split; [lia|]. split; [lia|]. split; [done|]. split; [done|].
      split; [done|]. exact Hbeyond.
    + destruct (Hfalse eq_refl) as (-> & -> & ->).
      exists chan, mn0, mx0, DBL_MAX, (SFopp DBL_MAX), false.
      split; [done|]. split; [done|]. split; [done|]. split; [done|].
      split; [|split; [done|exact Hbeyond]].
      intros _. split; [done|]. split; [done|]. split; [done|].
      intros j Hj. apply Hin0. lia.
Qed.

Lemma GetProjectChannelMinMaxes_result_witness :
  exists (chan' : list ChannelStatistics) (mn mx : list double)
         (omin omax : double) (flag : bool),
    @GetProjectChannelMinMaxes pooledCollaborators 1
      (pooledProject false 0) 2 (Some pooledStats) None [dzero; dzero]
      [dzero; dzero] dzero dzero
    = Some (Some chan', mn, mx, omin, omax, flag) /\
    flag = true.
Proof.
  destruct (@GetProjectChannelMinMaxes_result pooledCollaborators 1
              (pooledProject false 0) 2 pooledStats None [dzero; dzero]
              [dzero; dzero] dzero dzero) as [_ Hrun].
  - lia.
  - vm_compute. discriminate.
  - intros i Hi. change (Project.numberStatisticsClasses _) with 4 in Hi.
    assert (i = 0 \/ i = 1 \/ i = 2 \/ i = 3) as [->|[->|[->| ->]]] by lia;
      by eexists.
  - intros i c chan0 Hi _ _ Hlen.
    change (Project.numberStatisticsClasses _) with 4 in Hi.
    destruct chan0 as [|a [|b chan0]]; [cbn in Hlen; lia|cbn in Hlen; lia|].
    assert (i = 0 \/ i = 1 \/ i = 2 \/ i = 3) as [->|[->|[->| ->]]] by lia;
      eexists _, true; (split; [reflexivity|cbn; lia]).
  - vm_compute. lia.
  - vm_compute. lia.
  - vm_compute. lia.
  - destruct (Hrun ltac:(vm_compute; reflexivity))
      as (chan' & mn & mx & omin & omax & flag & Hcall & _ & _ & Hflag & _).
    exists chan', mn, mx, omin, omax, flag. split; [exact Hcall|].
    apply Hflag. exists 0, (exampleClass true kEnhancedStats true).
    split; [vm_compute; split; [discriminate|reflexivity]|].
    split; reflexivity.
Defined.

(** ** FinishFieldMaskStatsUpdate and FinishClassMaskStatsUpdate *)

Lemma FieldChain_member (tbl : list Field.t) (a : Z) (l : list Field.t) :
  FieldChain tbl a l ->
  forall k : Z, k ∈ chainNumbers a l ->
    exists l' : list Field.t,
      FieldChain tbl k l' /\ (0 < length l' <= length l)%nat.
Proof.
  induction 1 as [|a f rest Hne Hat Hrest IH]; intros k Hk.
  - cbn in Hk. by apply elem_of_nil in Hk.
  - cbn [chainNumbers] in Hk. apply elem_of_cons in Hk as [->|Hk].
    + exists (f :: rest). split; [by constructor|]. cbn. lia.
    + destruct (IH k Hk) as (l' & Hl' & Hlen). exists l'.
      split; [done|]. cbn. lia.
Qed.

Lemma FieldChain_fresh (tbl : list Field.t) (a : Z) (f : Field.t)
    (rest : list Field.t) :
  FieldChain tbl a (f :: rest) -> a ∉ chainNumbers (Field.nextField f) rest.
Proof.
  intros Hchain Hin.
  inversion Hchain as [|? ? ? _ _ Hrest]; subst.
  destruct (FieldChain_member _ _ _ Hrest a Hin) as (l' & Hl' & Hlen).
  rewrite (FieldChain_functional _ _ _ _ Hl' Hchain) in Hlen. cbn in Hlen. lia.
Qed.

Lemma FieldChain_agree (tbl tbl' : list Field.t) (a : Z) (l : list Field.t) :
  FieldChain tbl a l ->
  (forall k : Z, k ∈ chainNumbers a l -> at_ tbl' k = at_ tbl k) ->
  FieldChain tbl' a l.
Proof.
  induction 1 as [|a f rest Hne Hat Hrest IH]; intros Hsame.
  - constructor.
  - constructor; [done| |].
    + rewrite Hsame; [done|]. cbn. apply elem_of_cons. by left.
    + apply IH. intros k Hk. apply Hsame. cbn. apply elem_of_cons. by right.
Qed.

Lemma chainNumbers_map (g : Field.t -> Field.t) (a : Z) (l : list Field.t) :
  (forall f, Field.nextField (g f) = Field.nextField f) ->
  chainNumbers a (map g l) = chainNumbers a l.
Proof.
  intros Hg. revert a. induction l as [|f l IH]; intros a; [done|].
  cbn. by rewrite Hg, IH.
Qed.

Lemma Field_set_statsUpToDate_id (f : Field.t) :
  Field.statsUpToDate f = true -> Field_set_statsUpToDate true f = f.
Proof. destruct f. cbn. by intros ->. Qed.

Lemma Field_set_loadedIntoClassStats_id (f : Field.t) :
  Field.loadedIntoClassStats f = true ->
  Field_set_loadedIntoClassStats true f = f.
Proof. destruct f. cbn. by intros ->. Qed.

Lemma maskFrame_refl (m : MaskProject) : maskFrame m m.
Proof. by repeat split. Qed.

Lemma maskFrame_trans (m1 m2 m3 : MaskProject) :
  maskFrame m1 m2 -> maskFrame m2 m3 -> maskFrame m1 m3.
Proof.
  unfold maskFrame.
  intros (?&?&?&?&?&?&?&?&?&?&?) (?&?&?&?&?&?&?&?&?&?&?).
  repeat split; congruence.
Qed.

Lemma FinishFieldMaskStatsUpdate_spec `{Collaborators} (kMaskType : Z)
    (m : MaskProject) (n : Z) (f : Field.t) :
  (forall chan sumSquares a b c d,
     length (ComputeMeanStdDevVector chan sumSquares a b c d) = length chan) ->
  at_ (Project.fieldIdentPtr (maskProject m)) n = Some f ->
  n < numberStorageFields m < 4294967296 ->
  length (fieldNumberPixels m)
  = length (Project.fieldIdentPtr (maskProject m)) ->
  fieldStatisticsWithin kMaskType (maskProject m) f ->
  exists m1 : MaskProject,
    FinishFieldMaskStatsUpdate kMaskType m (to_UInt32 n) = Some m1 /\
    maskFrame m m1 /\
    Project.classNamesPtr (maskProject m1)
    = Project.classNamesPtr (maskProject m) /\
    at_ (Project.fieldIdentPtr (maskProject m1)) n
    = Some (if isMaskTrainingField kMaskType f
               && negb (Project.keepClassStatsOnlyFlag (maskProject m))
            then Field_set_statsUpToDate true f else f) /\
    (forall k : Z, k <> n ->
       at_ (Project.fieldIdentPtr (maskProject m1)) k
       = at_ (Project.fieldIdentPtr (maskProject m)) k).
Proof.
  intros Hlength Hf Hn Hpixels Hwithin.
  pose proof (at_Some _ _ _ Hf) as [Hn0 Hlookup].
  pose proof (lookup_lt_Some _ _ _ Hlookup) as Hnlen.
  unfold FinishFieldMaskStatsUpdate.
  rewrite !to_UInt32_small by lia.
  destruct (Z.leb_spec (numberStorageFields m) n) as [|_]; [lia|].
  rewrite Hf. cbn [mbind option_bind].
  unfold fieldStatisticsWithin in *. unfold isMaskTrainingField in *.
  destruct (Field.fieldType f =? kTrainingType) eqn:Htype;
    [|exists m; cbn [negb orb andb];
      by split; [|split; [apply maskFrame_refl|]]].
  destruct (Field.pointType f =? kMaskType) eqn:Hpoint;
    [|exists m; cbn [negb orb andb];
      by split; [|split; [apply maskFrame_refl|]]].
  cbn [negb orb andb] in *.
  destruct (Field.statsUpToDate f) eqn:Hup.
  { exists m. split; [done|]. split; [apply maskFrame_refl|]. split; [done|].
    split; [|done]. rewrite Hf. f_equal.
    destruct (Project.keepClassStatsOnlyFlag (maskProject m)); [done|].
    cbn [negb]. symmetry. by apply Field_set_statsUpToDate_id. }
  destruct (Project.keepClassStatsOnlyFlag (maskProject m)) eqn:Hkeep.
  { cbn [negb mbind option_bind]. eexists. split; [reflexivity|].
    split; [by repeat split|]. done. }
  cbn [negb]. destruct (Hwithin eq_refl eq_refl) as [Hchan Hsquares].
  unfold from_ at 1 2.
  destruct (Z.leb_spec 0 (Field.trainingStatsNumber f
                          * Project.numberStatisticsChannels (maskProject m)));
    [|lia].
  destruct (Z.leb_spec (Field.trainingStatsNumber f
                        * Project.numberStatisticsChannels (maskProject m))
              (Z.of_nat (length (Project.fieldChanStatsPtr (maskProject m)))));
    [|lia].
  destruct (Z.leb_spec 0 (Field.trainingStatsNumber f
                          * Project.numberCovarianceEntries (maskProject m)));
    [|lia].
  destruct (Z.leb_spec (Field.trainingStatsNumber f
                        * Project.numberCovarianceEntries (maskProject m))
              (Z.of_nat (length (Project.fieldSumSquaresStatsPtr
                                   (maskProject m)))));
    [|lia].
  cbn [andb mbind option_bind].
  destruct (lookup_lt_is_Some_2 (fieldNumberPixels m) (Z.to_nat n)
              ltac:(lia)) as [pixels Hpx].
  assert (Hpx' : at_ (fieldNumberPixels m) n = Some pixels).
  { unfold at_. destruct (Z.ltb_spec n 0); [lia|done]. }
  rewrite Hpx'. cbn [mbind option_bind].
  rewrite (update_at_Some _ _ _ _ Hf). cbn [mbind option_bind].
  eexists. split; [reflexivity|]. cbn [maskProject]. split; [|split; [|split]].
  - unfold maskFrame. cbn. rewrite length_insert.
    repeat split. unfold store_.
    rewrite length_app, length_take, Hlength, length_drop. lia.
  - done.
  - cbn. by apply at_insert_eq with (y := f).
  - intros k Hk. cbn. apply at_insert_ne; [lia|done].
Qed.

Lemma finishedField_nextField (kMaskType : Z) (keep : bool) (f : Field.t) :
  Field.nextField (finishedField kMaskType keep f) = Field.nextField f.
Proof.
  unfold finishedField.
  by destruct (isMaskTrainingField kMaskType f), keep.
Qed.

Lemma finishedField_step (kMaskType : Z) (keep : bool) (f : Field.t) :
  let f1 := if isMaskTrainingField kMaskType f && negb keep
            then Field_set_statsUpToDate true f else f in
  (if isMaskTrainingField kMaskType f && negb (Field.loadedIntoClassStats f)
   then Field_set_loadedIntoClassStats true f1 else f1)
  = finishedField kMaskType keep f.
Proof.
  unfold finishedField.
  destruct (isMaskTrainingField kMaskType f); [|done].
  destruct (Field.loadedIntoClassStats f) eqn:Hloaded; [|by destruct keep].
  destruct keep; cbn [andb negb]; symmetry;
    by apply Field_set_loadedIntoClassStats_id.
Qed.

Lemma pendingMaskPixels_nonneg (kMaskType : Z) (fields : list Field.t) :
  Forall (fun f => 0 <= Field.numberPixelsUsedForStats f) fields ->
  0 <= pendingMaskPixels kMaskType fields.
Proof.
  induction 1 as [|f rest Hf _ IH]; [done|].
  cbn [pendingMaskPixels foldr]. fold (pendingMaskPixels kMaskType rest).
  destruct (_ && _); lia.
Qed.

Lemma Class_set_numberStatisticsPixels_id (c : Class.t) :
  Class_set_numberStatisticsPixels (Class.numberStatisticsPixels c + 0) c = c.
Proof. destruct c. unfold Class_set_numberStatisticsPixels. cbn. f_equal. lia. Qed.

Lemma FinishClassMaskStatsUpdate_walk_spec `{Collaborators} (kMaskType : Z)
    (m0 : MaskProject) (s : Z) :
  (forall chan sumSquares a b c d,
     length (ComputeMeanStdDevVector chan sumSquares a b c d) = length chan) ->
  numberStorageFields m0 < 4294967296 ->
  length (fieldNumberPixels m0)
  = length (Project.fieldIdentPtr (maskProject m0)) ->
  forall (fields : list Field.t) (fuel : nat) (m : MaskProject) (n : Z)
         (c : Class.t),
    maskFrame m0 m ->
    FieldChain (Project.fieldIdentPtr (maskProject m)) n fields ->
    (length fields < fuel)%nat ->
    Forall (fun k => k < numberStorageFields m0) (chainNumbers n fields) ->
    Forall (fieldStatisticsWithin kMaskType (maskProject m0)) fields ->
    Forall (fun f => 0 <= Field.numberPixelsUsedForStats f) fields ->
    at_ (Project.classNamesPtr (maskProject m)) s = Some c ->
    -9223372036854775808 <= Class.numberStatisticsPixels c ->
    Class.numberStatisticsPixels c + pendingMaskPixels kMaskType fields
    <= 9223372036854775807 ->
    exists m' : MaskProject,
      FinishClassMaskStatsUpdate_walk kMaskType fuel m s n = Some m' /\
      maskFrame m0 m' /\
      FieldChain (Project.fieldIdentPtr (maskProject m')) n
        (map (finishedField kMaskType
                (Project.keepClassStatsOnlyFlag (maskProject m0))) fields) /\
      (forall k : Z, k ∉ chainNumbers n fields ->
         at_ (Project.fieldIdentPtr (maskProject m')) k
         = at_ (Project.fieldIdentPtr (maskProject m)) k) /\
      at_ (Project.classNamesPtr (maskProject m')) s
      = Some (Class_set_numberStatisticsPixels
                (Class.numberStatisticsPixels c
                 + pendingMaskPixels kMaskType fields) c) /\
      (forall k : Z, k <> s ->
         at_ (Project.classNamesPtr (maskProject m')) k
         = at_ (Project.classNamesPtr (maskProject m)) k).
Proof.
  intros Hlength Hstorage Hpixels.
  set (keep := Project.keepClassStatsOnlyFlag (maskProject m0)).
  induction fields as [|f rest IH];
    intros fuel m n c Hframe Hchain Hfuel Hnumbers Hwithin Hnonneg Hc Hlow Hhigh.
  - inversion Hchain; subst. destruct fuel; [cbn in Hfuel; lia|].
    exists m. cbn [FinishClassMaskStatsUpdate_walk]. split; [done|].
    split; [done|]. split; [constructor|]. split; [done|]. split; [|done].
    rewrite Hc. cbn [pendingMaskPixels foldr].
    by rewrite Class_set_numberStatisticsPixels_id.
  - inversion Hchain as [|? ? ? Hne Hf Hrest]; subst.
    destruct fuel as [|fuel]; [cbn in Hfuel; lia|].
    cbn [chainNumbers] in Hnumbers.
    apply Forall_cons in Hnumbers as [Hn Hnumbers].
    apply Forall_cons in Hwithin as [Hwf Hwithin].
    apply Forall_cons in Hnonneg as [Hpf Hnonneg].
    pose proof (pendingMaskPixels_nonneg kMaskType rest Hnonneg) as Hrest0.
    pose proof Hframe as (HnC & Hsc & Hkeep & HnCh & HnCov & Hlf & Hln & Hlc
                          & Hsq & Hnsf & Hnp).
    cbn [FinishClassMaskStatsUpdate_walk].
    destruct (Z.eqb_spec n (-1)) as [|_]; [done|].
    destruct (FinishFieldMaskStatsUpdate_spec kMaskType m n f Hlength Hf)
      as (m1 & Hm1 & Hframe1 & Hnames1 & Hf1 & Hother1).
    { lia. }
    { rewrite Hnp, Hlf. exact Hpixels. }
    { unfold fieldStatisticsWithin in *. rewrite HnCh, HnCov, Hlc, Hsq.
      exact Hwf. }
    rewrite Hkeep in Hf1. fold keep in Hf1.
    rewrite Hm1. cbn [mbind option_bind]. rewrite Hf1.
    cbn [mbind option_bind].
    set (f1 := if isMaskTrainingField kMaskType f && negb keep
               then Field_set_statsUpToDate true f else f) in *.
    assert (Hsame : Field.pointType f1 = Field.pointType f /\
                    Field.fieldType f1 = Field.fieldType f /\
                    Field.loadedIntoClassStats f1
                    = Field.loadedIntoClassStats f /\
                    Field.nextField f1 = Field.nextField f /\
                    Field.numberPixelsUsedForStats f1
                    = Field.numberPixelsUsedForStats f).
    { unfold f1.
      destruct (isMaskTrainingField kMaskType f && negb keep); repeat split. }
    destruct Hsame as (-> & -> & -> & -> & Hpx1).
    set (pend := isMaskTrainingField kMaskType f
                 && negb (Field.loadedIntoClassStats f)).
    assert (Hcond : (Field.pointType f =? kMaskType)
                    && (Field.fieldType f =? kTrainingType)
                    && negb (Field.loadedIntoClassStats f) = pend).
    { unfold pend, isMaskTrainingField.
      by destruct (Field.pointType f =? kMaskType),
                  (Field.fieldType f =? kTrainingType). }
    rewrite Hcond.
    assert (Hpending : pendingMaskPixels kMaskType (f :: rest)
                       = (if pend then Field.numberPixelsUsedForStats f else 0)
                         + pendingMaskPixels kMaskType rest).
    { cbn [pendingMaskPixels foldr]. fold (pendingMaskPixels kMaskType rest).
      fold pend. by destruct pend. }
    rewrite Hpending in Hhigh |- *.
    set (c2 := Class_set_numberStatisticsPixels
                 (Class.numberStatisticsPixels c
                  + (if pend then Field.numberPixelsUsedForStats f else 0))
                 c).
    assert (Hstep : exists m2 : MaskProject,
      (if pend then
         c0 ← at_ (Project.classNamesPtr (maskProject m1)) s;
         if inSInt64 (Class.numberStatisticsPixels c0
                      + Field.numberPixelsUsedForStats f1)
         then
           classNames ← update_at (Project.classNamesPtr (maskProject m1)) s
                          (Class_set_numberStatisticsPixels
                             (Class.numberStatisticsPixels c0
                              + Field.numberPixelsUsedForStats f1) c0);
           fields ← update_at (Project.fieldIdentPtr (maskProject m1)) n
                      (Field_set_loadedIntoClassStats true f1);
           Some (MaskProject_set_project
                   (Project_set_fieldIdentPtr fields
                      (Project.set_classNamesPtr classNames (maskProject m1)))
                   m1)
         else None
       else Some m1) = Some m2 /\
      maskFrame m1 m2 /\
      at_ (Project.fieldIdentPtr (maskProject m2)) n
      = Some (finishedField kMaskType keep f) /\
      (forall k, k <> n ->
         at_ (Project.fieldIdentPtr (maskProject m2)) k
         = at_ (Project.fieldIdentPtr (maskProject m1)) k) /\
      at_ (Project.classNamesPtr (maskProject m2)) s = Some c2 /\
      (forall k, k <> s ->
         at_ (Project.classNamesPtr (maskProject m2)) k
         = at_ (Project.classNamesPtr (maskProject m1)) k)).
    { pose proof (finishedField_step kMaskType keep f) as Hfin.
      cbn zeta in Hfin. fold f1 pend in Hfin. subst c2.
      destruct pend.
      - rewrite Hnames1, Hc. cbn [mbind option_bind]. rewrite Hpx1.
        unfold inSInt64.
        destruct (Z.leb_spec (-9223372036854775808)
                    (Class.numberStatisticsPixels c
                     + Field.numberPixelsUsedForStats f)); [|lia].
        destruct (Z.leb_spec (Class.numberStatisticsPixels c
                              + Field.numberPixelsUsedForStats f)
                    9223372036854775807); [|lia].
        cbn [andb].
        rewrite (update_at_Some _ _ _ _ Hc). cbn [mbind option_bind].
        rewrite (update_at_Some _ _ _ _ Hf1). cbn [mbind option_bind].
        eexists. split; [reflexivity|]. split; [|split; [|split; [|split]]].
        + unfold maskFrame. cbn. rewrite !length_insert, Hnames1.
          by repeat split.
        + cbn. rewrite <- Hfin. by apply at_insert_eq with (y := f1).
        + intros k Hk. cbn. apply at_insert_ne; [|done].
          by apply at_Some in Hf1 as [? _].
        + cbn. by apply at_insert_eq with (y := c).
        + intros k Hk. cbn. apply at_insert_ne; [|done].
          by apply at_Some in Hc as [? _].
      - exists m1. split; [done|]. split; [apply maskFrame_refl|].
        split; [by rewrite Hf1, <- Hfin|]. split; [done|]. split; [|done].
        rewrite Hnames1, Hc. by rewrite Class_set_numberStatisticsPixels_id. }
    destruct Hstep as (m2 & -> & Hframe2 & Hf2 & Hother2 & Hc2 & Hnames2).
    cbn [mbind option_bind].
    assert (Hfresh := FieldChain_fresh _ _ _ _ Hchain).
    destruct (IH fuel m2 (Field.nextField f) c2)
      as (m' & Hrun & Hframe' & Hchain' & Hother' & Hc' & Hnames').
    { eapply maskFrame_trans; [exact Hframe|].
      eapply maskFrame_trans; [exact Hframe1|exact Hframe2]. }
    { apply (FieldChain_agree _ _ _ _ Hrest). intros k Hk.
      assert (k <> n) by (intros ->; done).
      rewrite Hother2, Hother1 by done. done. }
    { cbn in Hfuel. lia. }
    { done. }
    { done. }
    { done. }
    { done. }
    { subst c2. cbn. destruct pend; lia. }
    { subst c2. cbn. lia. }
    exists m'. split; [exact Hrun|]. split; [exact Hframe'|].
    split; [|split; [|split]].
    + cbn [map]. constructor; [done| |].
      * rewrite Hother' by done. exact Hf2.
      * by rewrite finishedField_nextField.
    + intros k Hk. cbn [chainNumbers] in Hk.
      apply not_elem_of_cons in Hk as [Hkn Hk].
      rewrite Hother', Hother2, Hother1 by done. done.
    + rewrite Hc'. subst c2. unfold Class_set_numberStatisticsPixels. cbn.
      do 2 f_equal. lia.
    + intros k Hk. rewrite Hnames', Hnames2, Hnames1 by done. done.
Qed.

Lemma maskFieldsUpToDate_finished (kMaskType : Z) (fields : list Field.t) :
  maskFieldsUpToDate kMaskType (map (finishedField kMaskType false) fields)
  = true.
Proof.
  induction fields as [|f rest IH]; [done|].
  cbn [map maskFieldsUpToDate forallb].
  fold (maskFieldsUpToDate kMaskType
          (map (finishedField kMaskType false) rest)).
  rewrite IH, andb_true_r. unfold finishedField.
  destruct (isMaskTrainingField kMaskType f) eqn:Hmask.
  - cbn. apply orb_true_r.
  - unfold isMaskTrainingField in Hmask. by rewrite Hmask.
Qed.

(** X14.  For a class with training fields that is not marked up to date,
    [FinishClassMaskStatsUpdate] walks the field chain of the class and
    leaves every mask training field of it loaded into the class
    statistics and, with per-field storage, with statistics marked up to
    date ([FinishFieldMaskStatsUpdate]); the pixels of the mask training
    fields that were not yet loaded are added to the class's
    [numberStatisticsPixels]; the other fields of the chain, the field
    records outside the chain and the other class records are unchanged.
    With per-field storage [CheckIfClassMaskStatsUpToDate] then answers TRUE
    for the class. *)
Theorem FinishClassMaskStatsUpdate_finishes `{Collaborators} (kMaskType : Z)
    (fuel : nat) (m : MaskProject) (classNumber classStorage : Z)
    (c : Class.t) (fields : list Field.t) :
  let p := maskProject m in
  (forall chan sumSquares a b c d,
     length (ComputeMeanStdDevVector chan sumSquares a b c d) = length chan) ->
  0 <= classNumber < Project.numberStatisticsClasses p ->
  at_ (Project.storageClass p) classNumber = Some classStorage ->
  at_ (Project.classNamesPtr p) classStorage = Some c ->
  0 < Class.numberOfTrainFields c ->
  Class.statsUpToDate c = false ->
  FieldChain (Project.fieldIdentPtr p) (Class.firstFieldNumber c) fields ->
  (length fields < fuel)%nat ->
  Forall (fun k => k < numberStorageFields m)
         (chainNumbers (Class.firstFieldNumber c) fields) ->
  numberStorageFields m < 4294967296 ->
  length (fieldNumberPixels m) = length (Project.fieldIdentPtr p) ->
  Forall (fieldStatisticsWithin kMaskType p) fields ->
  Forall (fun f => 0 <= Field.numberPixelsUsedForStats f) fields ->
  -9223372036854775808 <= Class.numberStatisticsPixels c ->
  Class.numberStatisticsPixels c + pendingMaskPixels kMaskType fields
  <= 9223372036854775807 ->
  exists m' : MaskProject,
    FinishClassMaskStatsUpdate kMaskType fuel m classNumber = Some m' /\
    maskFrame m m' /\
    FieldChain (Project.fieldIdentPtr (maskProject m'))
      (Class.firstFieldNumber c)
      (map (finishedField kMaskType (Project.keepClassStatsOnlyFlag p))
           fields) /\
    (forall k : Z, k ∉ chainNumbers (Class.firstFieldNumber c) fields ->
       at_ (Project.fieldIdentPtr (maskProject m')) k
       = at_ (Project.fieldIdentPtr p) k) /\
    at_ (Project.classNamesPtr (maskProject m')) classStorage
    = Some (Class_set_numberStatisticsPixels
              (Class.numberStatisticsPixels c
               + pendingMaskPixels kMaskType fields) c) /\
    (forall k : Z, k <> classStorage ->
       at_ (Project.classNamesPtr (maskProject m')) k
       = at_ (Project.classNamesPtr p) k) /\
    (Project.keepClassStatsOnlyFlag p = false ->
     CheckIfClassMaskStatsUpToDate kMaskType fuel (maskProject m') classNumber
     = Some true).
Proof.
  intros p Hlength Hclass Hstorage Hc Htrain Hstale Hchain Hfuel Hnumbers
    Hcount Hpixels Hwithin Hnonneg Hlow Hhigh.
  destruct (FinishClassMaskStatsUpdate_walk_spec kMaskType m classStorage
              Hlength Hcount Hpixels fields fuel m (Class.firstFieldNumber c)
              c (maskFrame_refl m) Hchain Hfuel Hnumbers Hwithin Hnonneg Hc
              Hlow Hhigh)
    as (m' & Hrun & Hframe & Hchain' & Hother & Hc' & Hnames).
  exists m'. split; [|split; [done|split; [done|split; [done|split;
    [done|split; [done|]]]]]].
  - unfold FinishClassMaskStatsUpdate. fold p.
    destruct (Z.leb_spec (Project.numberStatisticsClasses p) classNumber);
      [lia|].
    rewrite Hstorage. cbn [mbind option_bind]. rewrite Hc.
    cbn [mbind option_bind]. rewrite Hstale.
    destruct (Z.ltb_spec 0 (Class.numberOfTrainFields c)); [|lia].
    exact Hrun.
  - intros Hkeep. fold p in Hchain'. rewrite Hkeep in Hchain'.
    destruct Hframe as (_ & Hsc & _).
    unfold CheckIfClassMaskStatsUpToDate. rewrite Hsc. fold p.
    rewrite Hstorage. cbn [mbind option_bind]. rewrite Hc'.
    cbn [mbind option_bind].
    change (Class.numberOfTrainFields (Class_set_numberStatisticsPixels _ c))
      with (Class.numberOfTrainFields c).
    change (Class.firstFieldNumber (Class_set_numberStatisticsPixels _ c))
      with (Class.firstFieldNumber c).
    destruct (Z.ltb_spec 0 (Class.numberOfTrainFields c)); [|lia].
    rewrite (CheckIfClassMaskStatsUpToDate_walk_spec _ _ _ _ Hchain' fuel)
      by (by rewrite length_map).
    by rewrite maskFieldsUpToDate_finished.
Qed.

Lemma FinishClassMaskStatsUpdate_finishes_witness :
  exists m' : MaskProject,
    @FinishClassMaskStatsUpdate exampleCollaborators 2 2 maskExampleProject 0
    = Some m' /\
    CheckIfClassMaskStatsUpToDate 2 2 (maskProject m') 0 = Some true /\
    (Class.numberStatisticsPixels
       <$> at_ (Project.classNamesPtr (maskProject m')) 0) = Some 20.
Proof.
  destruct (@FinishClassMaskStatsUpdate_finishes exampleCollaborators 2 2
              maskExampleProject 0 0 (exampleClass false kOriginalStats false)
              [Field.mk kTrainingType 2 0 10 false false (-1)])
    as (m' & Hrun & _ & _ & _ & Hc' & _ & Hcheck).
  - reflexivity.
  - vm_compute. split; [discriminate|reflexivity].
  - reflexivity.
  - reflexivity.
  - reflexivity.
  - reflexivity.
  - apply FieldChain_next; [discriminate|reflexivity|apply FieldChain_end].
  - cbn. lia.
  - repeat constructor.
  - reflexivity.
  - reflexivity.
  - apply Forall_cons. split; [|constructor]. intros _ _. vm_compute.
    repeat split; discriminate.
  - apply Forall_cons. split; [|constructor]. vm_compute. discriminate.
  - vm_compute. discriminate.
  - vm_compute. discriminate.
  - exists m'. split; [exact Hrun|]. split; [by apply Hcheck|].
    rewrite Hc'. reflexivity.
Defined.

(** ** GetEigenStatisticsFeatures *)

Lemma GetEigenStatisticsFeatures_search_spec (channelsPtr : list Z)
    (nsc : nat) (pos : nat) (x : Z) :
  NoDup (to_UInt16 <$> take nsc channelsPtr) ->
  (pos < nsc)%nat -> (nsc <= length channelsPtr)%nat ->
  Z.of_nat nsc < 4294967296 ->
  channelsPtr !! pos = Some x ->
  forall (fuel j : nat),
    (j <= pos)%nat -> (pos - j < fuel)%nat ->
    GetEigenStatisticsFeatures_search fuel (to_UInt16 x) channelsPtr
      (Z.of_nat j) (Z.of_nat nsc)
    = Some (Z.of_nat pos).
Proof.
  intros Hnodup Hpos Hlen Hnsc Hx.
  induction fuel as [|fuel IH]; intros j Hj Hfuel; [lia|].
  cbn [GetEigenStatisticsFeatures_search].
  destruct (lookup_lt_is_Some_2 channelsPtr j ltac:(lia)) as [y Hy].
  rewrite at_of_nat, Hy. cbn [mbind option_bind].
  destruct (Z.eqb_spec (to_UInt16 x) (to_UInt16 y)) as [Heq|Hne].
  - cbn [negb andb]. do 2 f_equal.
    eapply (NoDup_lookup _ j pos (to_UInt16 x) Hnodup).
    + rewrite list_lookup_fmap, lookup_take_lt by lia. by rewrite Hy, Heq.
    + rewrite list_lookup_fmap, lookup_take_lt by lia. by rewrite Hx.
  - cbn [negb]. destruct (Z.ltb_spec (Z.of_nat j) (Z.of_nat nsc)); [|lia].
    cbn [andb]. rewrite to_UInt32_small by lia.
    replace (Z.of_nat j + 1) with (Z.of_nat (S j)) by lia.
    assert (j <> pos) by (intros ->; rewrite Hx in Hy; by injection Hy as ->).
    apply IH; lia.
Qed.

Lemma last_cons_default {A : Type} (l : list A) (a d : A) :
  List.last (a :: l) d = List.last l a.
Proof.
  revert a d. induction l as [|b l IH]; intros a d; [done|].
  change (List.last (a :: b :: l) d) with (List.last (b :: l) d).
  by rewrite !IH.
Qed.

Lemma GetEigenStatisticsFeatures_loop_spec (featurePtr channelsPtr : list Z)
    (nsc : nat) :
  NoDup (to_UInt16 <$> take nsc channelsPtr) ->
  (nsc <= length channelsPtr)%nat ->
  Z.of_nat nsc <= 65536 ->
  forall (positions : list nat) (k j : nat) (stat : list Z),
    (forall i pos, positions !! i = Some pos ->
       featurePtr !! (k + i)%nat = to_UInt16 <$> channelsPtr !! pos) ->
    (forall i i' a b, (i <= i')%nat -> positions !! i = Some a ->
       positions !! i' = Some b -> (a <= b)%nat) ->
    Forall (fun pos => (j <= pos < nsc)%nat) positions ->
    (k + length positions <= length stat)%nat ->
    Z.of_nat (k + length positions) < 4294967296 ->
    exists stat' : list Z,
      GetEigenStatisticsFeatures_loop (length positions) (Z.of_nat k)
        featurePtr channelsPtr (Z.of_nat nsc) stat (Z.of_nat j)
      = Some (stat', Z.of_nat (List.last positions j)) /\
      length stat' = length stat /\
      (forall i pos, positions !! i = Some pos ->
         stat' !! (k + i)%nat = Some (Z.of_nat pos)) /\
      (forall i, ~ (k <= i < k + length positions)%nat ->
         stat' !! i = stat !! i).
Proof.
  intros Hnodup Hlen Hnsc.
  induction positions as [|pos rest IH];
    intros k j stat Hfeatures Hsorted Hrange Hstat Hk.
  - exists stat. cbn [GetEigenStatisticsFeatures_loop length List.last].
    split; [done|]. split; [done|]. split; [|done]. intros i p Hp. done.
  - cbn [GetEigenStatisticsFeatures_loop length].
    apply Forall_cons in Hrange as [Hpos Hrange]. cbn [length] in Hstat, Hk.
    pose proof (Hfeatures 0%nat pos eq_refl) as Hfeature.
    rewrite Nat.add_0_r in Hfeature.
    destruct (lookup_lt_is_Some_2 channelsPtr pos ltac:(lia)) as [x Hx].
    rewrite Hx in Hfeature. cbn [fmap option_fmap option_map] in Hfeature.
    rewrite at_of_nat, Hfeature. cbn [mbind option_bind].
    rewrite (GetEigenStatisticsFeatures_search_spec channelsPtr nsc pos x
               Hnodup ltac:(lia) Hlen ltac:(lia) Hx
               (S (Z.to_nat (Z.of_nat nsc))) j ltac:(lia) ltac:(lia)). cbn [mbind option_bind].
    destruct (Z.ltb_spec (Z.of_nat pos) (Z.of_nat nsc)); [|lia].
    rewrite to_UInt16_small by lia.
    destruct (lookup_lt_is_Some_2 stat k ltac:(lia)) as [old Hold].
    rewrite (update_at_Some stat (Z.of_nat k) _ old)
      by (by rewrite at_of_nat).
    cbn [mbind option_bind]. rewrite Nat2Z.id, to_UInt32_small by lia.
    replace (Z.of_nat k + 1) with (Z.of_nat (S k)) by lia.
    destruct (IH (S k) pos (<[k:=Z.of_nat pos]> stat))
      as (stat' & Hrun & Hl & Hin & Hout).
    { intros i p Hp. replace (S k + i)%nat with (k + S i)%nat by lia.
      by apply Hfeatures. }
    { intros i i' a b Hi Ha Hb. apply (Hsorted (S i) (S i')); [lia|done|done]. }
    { apply Forall_forall. intros b Hb.
      apply list_elem_of_lookup in Hb as [i Hb].
      rewrite Forall_forall in Hrange.
      pose proof (Hrange b ltac:(by eapply list_elem_of_lookup_2)) as Hb'.
      pose proof (Hsorted 0%nat (S i) pos b ltac:(lia) eq_refl Hb). lia. }
    { rewrite length_insert. lia. }
    { lia. }
    exists stat'. split.
    { by rewrite Hrun, last_cons_default. }
    rewrite Hl, length_insert. split; [done|]. split.
    + intros [|i] p Hp.
      * cbn in Hp. injection Hp as <-. rewrite Nat.add_0_r.
        rewrite Hout by lia. apply list_lookup_insert_eq. lia.
      * replace (k + S i)%nat with (S k + i)%nat by lia. by apply Hin.
    + intros i Hi. rewrite Hout by lia. apply list_lookup_insert_ne. lia.
Qed.

Lemma Forall_last {A : Type} (P : A -> Prop) (l : list A) (d : A) :
  Forall P l -> l <> [] -> P (List.last l d).
Proof.
  intros Hall. revert d.
  induction Hall as [|a l Ha Hl IH]; intros d Hne; [done|].
  rewrite last_cons_default. destruct l as [|b l]; [done|]. by apply IH.
Qed.

(** X15.  [GetEigenStatisticsFeatures] writes nothing and returns FALSE
    when there is no list of eigenvector channels, no eigenvector channel or
    no project.  Otherwise, when the channels to look up (the eigenvector
    channels for a transformation created by a code below 16, the output
    features for the others) occur among the distinct project channels at
    positions that do not decrease, it stores for each of them its position
    in the project channel list, leaves the rest of the output list alone
    and returns TRUE. *)
Theorem GetEigenStatisticsFeatures_positions
    (gTransformationMatrix : TransformationMatrix.t) (p : Project.t)
    (channelsPtr statEigenFeaturePtr outputFeaturePtr : list Z)
    (numberFeatures : Z) :
  GetEigenStatisticsFeatures gTransformationMatrix None channelsPtr
    statEigenFeaturePtr outputFeaturePtr numberFeatures
  = Some (statEigenFeaturePtr, false) /\
  (TransformationMatrix.eigenFeatureHandle gTransformationMatrix = None \/
   TransformationMatrix.numberChannels gTransformationMatrix = 0 ->
   GetEigenStatisticsFeatures gTransformationMatrix (Some p) channelsPtr
     statEigenFeaturePtr outputFeaturePtr numberFeatures
   = Some (statEigenFeaturePtr, false)) /\
  (forall (eigenFeaturePtr : list Z) (positions : list nat),
     let nsc := Z.to_nat (Project.numberStatisticsChannels p) in
     let byEigenvectors :=
       TransformationMatrix.createdByCode gTransformationMatrix <? 16 in
     TransformationMatrix.eigenFeatureHandle gTransformationMatrix
     = Some eigenFeaturePtr ->
     0 < TransformationMatrix.numberChannels gTransformationMatrix
       < 4294967296 ->
     0 <= Project.numberStatisticsChannels p <= 65536 ->
     numberFeatures <= 32767 ->
     Z.of_nat (length positions)
     = (if byEigenvectors
        then TransformationMatrix.numberChannels gTransformationMatrix
        else numberFeatures) ->
     (length positions <= length statEigenFeaturePtr)%nat ->
     (nsc <= length channelsPtr)%nat ->
     NoDup (to_UInt16 <$> take nsc channelsPtr) ->
     featuresAt (if byEigenvectors then eigenFeaturePtr else outputFeaturePtr)
       channelsPtr positions ->
     Forall (fun pos => (pos < nsc)%nat) positions ->
     exists stat' : list Z,
       GetEigenStatisticsFeatures gTransformationMatrix (Some p) channelsPtr
         statEigenFeaturePtr outputFeaturePtr numberFeatures
       = Some (stat', true) /\
       length stat' = length statEigenFeaturePtr /\
       (forall i pos, positions !! i = Some pos ->
          stat' !! i = Some (Z.of_nat pos)) /\
       (forall i, (length positions <= i)%nat ->
          stat' !! i = statEigenFeaturePtr !! i)).
Proof.
  split; [|split].
  - unfold GetEigenStatisticsFeatures.
    by destruct (TransformationMatrix.eigenFeatureHandle _).
  - intros [Hnone|Hzero]; unfold GetEigenStatisticsFeatures.
    + by rewrite Hnone.
    + rewrite Hzero.
      by destruct (TransformationMatrix.eigenFeatureHandle _).
  - intros eigenFeaturePtr positions nsc byEigenvectors Hhandle Hchannels
      Hnsc Hshort Hcount Hstat Hlen Hnodup [Hfeatures Hsorted] Hrange.
    unfold GetEigenStatisticsFeatures. rewrite Hhandle.
    rewrite !to_UInt32_small by lia.
    destruct (Z.ltb_spec 0 (TransformationMatrix.numberChannels
                              gTransformationMatrix)); [|lia].
    assert (Hbound : Z.of_nat (length positions) < 4294967296).
    { rewrite Hcount. destruct byEigenvectors; lia. }
    assert (Hloop : forall featurePtr,
              (forall i pos, positions !! i = Some pos ->
                 featurePtr !! i = to_UInt16 <$> channelsPtr !! pos) ->
              exists stat' : list Z,
                GetEigenStatisticsFeatures_loop (length positions) 0
                  featurePtr channelsPtr (Project.numberStatisticsChannels p)
                  statEigenFeaturePtr 0
                = Some (stat', Z.of_nat (List.last positions 0%nat)) /\
                length stat' = length statEigenFeaturePtr /\
                (forall i pos, positions !! i = Some pos ->
                   stat' !! i = Some (Z.of_nat pos)) /\
                (forall i, (length positions <= i)%nat ->
                   stat' !! i = statEigenFeaturePtr !! i)).
    { intros featurePtr Hf.
      destruct (GetEigenStatisticsFeatures_loop_spec featurePtr channelsPtr
                  nsc Hnodup Hlen ltac:(lia) positions 0 0 statEigenFeaturePtr)
        as (stat' & Hrun & Hl & Hin & Hout).
      - intros i pos Hpos. by apply Hf.
      - exact Hsorted.
      - eapply Forall_impl; [exact Hrange|]. cbn. lia.
      - cbn. lia.
      - cbn. lia.
      - exists stat'. unfold nsc in Hrun. rewrite Z2Nat.id in Hrun by lia.
        split; [exact Hrun|]. split; [done|]. split.
        + intros i pos Hpos. by apply (Hin i pos).
        + intros i Hi. apply Hout. cbn. lia. }
    subst byEigenvectors.
    destruct (TransformationMatrix.createdByCode gTransformationMatrix <? 16).
    + rewrite <- Hcount, Nat2Z.id.
      destruct (Hloop eigenFeaturePtr Hfeatures)
        as (stat' & -> & Hl & Hin & Hout).
      cbn [mbind option_bind fst snd]. exists stat'. split; [|done].
      do 2 f_equal. apply Z.ltb_lt.
      assert (Hne : positions <> []) by (intros ->; cbn in Hcount; lia).
      pose proof (Forall_last _ positions 0%nat Hrange Hne) as Hlast.
      unfold nsc in Hlast. lia.
    + rewrite to_UInt32_small by lia.
      rewrite <- Hcount, Nat2Z.id.
      destruct (Hloop outputFeaturePtr Hfeatures)
        as (stat' & -> & Hl & Hin & Hout).
      cbn [mbind option_bind fst snd]. by exists stat'.
Qed.

Lemma GetEigenStatisticsFeatures_positions_witness :
  exists stat' : list Z,
    GetEigenStatisticsFeatures (TransformationMatrix.mk 1 (Some [30]) 1)
      (Some exampleProject) [10; 30] [7; 7] [] 0
    = Some (stat', true) /\
    stat' !! 0%nat = Some 1 /\ stat' !! 1%nat = Some 7.
Proof.
  destruct (GetEigenStatisticsFeatures_positions
              (TransformationMatrix.mk 1 (Some [30]) 1) exampleProject
              [10; 30] [7; 7] [] 0) as (_ & _ & Hrun).
  destruct (Hrun [30] [1%nat]) as (stat' & Hcall & _ & Hin & Hout).
  - reflexivity.
  - cbn. lia.
  - cbn. lia.
  - lia.
  - reflexivity.
  - cbn. lia.
  - cbn. lia.
  - by apply (bool_decide_unpack _).
  - split.
    + intros [|i] pos Hpos; [|done]. injection Hpos as <-. reflexivity.
    + intros [|i] [|i'] a b Hi Ha Hb; try done.
      injection Ha as <-. injection Hb as <-. lia.
  - repeat constructor.
  - exists stat'. split; [exact Hcall|]. split.
    + by apply (Hin 0%nat 1%nat).
    + apply (Hout 1%nat). cbn. lia.
Defined.

(** ** Question and partition *)

Lemma partition_loop_spec (column : Z) (value : double) :
  forall (rest done_ : list (list double))
         (true_rows false_rows : list (list double)),
    Forall (fun row => is_Some (at_ row column)) rest ->
    partition_loop (length rest) (Z.of_nat (length done_)) (done_ ++ rest)
      true_rows false_rows column value
    = Some (true_rows ++ List.filter (answersTrue column value) rest,
            false_rows
            ++ List.filter (fun row => negb (answersTrue column value row))
                 rest).
Proof.
  induction rest as [|row rest IH]; intros done_ true_rows false_rows Hrows.
  - cbn. by rewrite !app_nil_r.
  - apply Forall_cons in Hrows as [[x Hx] Hrows].
    cbn [length partition_loop List.filter].
    assert (Hrow : at_ (done_ ++ row :: rest) (Z.of_nat (length done_))
                   = Some row).
    { rewrite at_of_nat. by apply list_lookup_middle. }
    rewrite Hrow. cbn [mbind option_bind].
    assert (HQ : Question column value row = Some (dgeb x value)).
    { unfold Question. by rewrite Hx. }
    assert (Hanswer : answersTrue column value row = dgeb x value).
    { unfold answersTrue. by rewrite HQ. }
    rewrite HQ, !Hanswer. cbn [mbind option_bind].
    replace (Z.of_nat (length done_) + 1)
      with (Z.of_nat (length (done_ ++ [row])))
      by (rewrite length_app; cbn; lia).
    replace (done_ ++ row :: rest) with ((done_ ++ [row]) ++ rest)
      by (by rewrite <- app_assoc).
    destruct (dgeb x value); cbn [negb]; rewrite IH by done;
      by rewrite <- !app_assoc.
Qed.

(** X16.  [partition] appends every sample, in the order of the sample
    vector, to exactly one of the two vectors it is given: to [true_rows]
    when [Question] answers true (the value of the column is [>=] the
    threshold), to [false_rows] otherwise; what the two vectors held before
    the call stays in front.  With a NaN threshold no sample goes to
    [true_rows]. *)
Theorem partition_splits (sample true_rows false_rows : list (list double))
    (column : Z) (value : double) :
  Forall (fun row => is_Some (at_ row column)) sample ->
  partition sample true_rows false_rows column value
  = Some (true_rows ++ List.filter (answersTrue column value) sample,
          false_rows
          ++ List.filter (fun row => negb (answersTrue column value row))
               sample) /\
  (length (List.filter (answersTrue column value) sample)
   + length (List.filter (fun row => negb (answersTrue column value row))
               sample)
   = length sample)%nat /\
  partition sample true_rows false_rows column S754_nan
  = Some (true_rows, false_rows ++ sample).
Proof.
  intros Hrows. split; [|split].
  - exact (partition_loop_spec column value sample [] true_rows false_rows
             Hrows).
  - clear Hrows. induction sample as [|row sample IH]; [done|].
    cbn [List.filter]. destruct (answersTrue column value row); cbn; lia.
  - unfold partition.
    change (partition_loop (length sample) 0 sample)
      with (partition_loop (length sample)
              (Z.of_nat (length (@nil (list double)))) ([] ++ sample)).
    rewrite (partition_loop_spec column S754_nan sample [] true_rows
               false_rows Hrows).
    assert (Hnone : forall row, answersTrue column S754_nan row = false).
    { intros row. unfold answersTrue, Question.
      destruct (at_ row column) as [x|]; [|done]. by destruct x. }
    do 2 f_equal.
    + rewrite <- (app_nil_r true_rows) at 2. f_equal.
      clear Hrows. induction sample as [|row sample IH]; [done|].
      cbn [List.filter]. by rewrite Hnone.
    + f_equal. clear Hrows. induction sample as [|row sample IH]; [done|].
      cbn [List.filter]. rewrite Hnone. cbn [negb]. by rewrite IH.
Qed.

Lemma partition_splits_witness :
  partition [[dOne; dzero]; [dtwo; dOne]; [dzero; dzero]] [[dtwo; dtwo]] []
    0 dOne
  = Some ([[dtwo; dtwo]; [dOne; dzero]; [dtwo; dOne]], [[dzero; dzero]]).
Proof.
  destruct (partition_splits [[dOne; dzero]; [dtwo; dOne]; [dzero; dzero]]
              [[dtwo; dtwo]] [] 0 dOne) as (Hrun & _).
  - repeat (apply Forall_cons; split; [by eexists|]). constructor.
  - rewrite Hrun. reflexivity.
Defined.

(** ** ClearFieldStatisticsMemory and ClearClassStatisticsMemory *)

Lemma ClearFieldStatisticsMemory_quiet `{Collaborators} (kClusterType : Z)
    (m : MaskProject) (n : Z) (f : Field.t) :
  at_ (Project.fieldIdentPtr (maskProject m)) n = Some f ->
  n <= 32767 ->
  isCleared kClusterType (Project.keepClassStatsOnlyFlag (maskProject m)) f
  = false ->
  ClearFieldStatisticsMemory kClusterType m (to_UInt32 n) = Some m.
Proof.
  intros Hf Hn Hquiet. pose proof (at_Some _ _ _ Hf) as [Hn0 _].
  unfold ClearFieldStatisticsMemory, isCleared in *.
  rewrite (to_UInt32_small n) by lia.
  destruct (to_UInt32 (numberStorageFields m) <=? n); [done|].
  rewrite Hf. cbn [mbind option_bind].
  destruct (Field.fieldType f =? kTrainingType); [|done].
  destruct (Field.pointType f =? kClusterType); [done|].
  cbn [negb andb] in *. by rewrite Hquiet.
Qed.

Lemma ClearClassStatisticsMemory_walk_quiet `{Collaborators}
    (kClusterType : Z) (m : MaskProject) (n : Z) (fields : list Field.t) :
  FieldChain (Project.fieldIdentPtr (maskProject m)) n fields ->
  Forall (fun k => k <= 32767) (chainNumbers n fields) ->
  Forall (fun f => isCleared kClusterType
                     (Project.keepClassStatsOnlyFlag (maskProject m)) f
                   = false) fields ->
  forall fuel : nat, (length fields < fuel)%nat ->
    ClearClassStatisticsMemory_walk kClusterType fuel m n = Some m.
Proof.
  induction 1 as [|n f rest Hne Hf _ IH]; intros Hnumbers Hquiet fuel Hfuel.
  - destruct fuel; [cbn in Hfuel; lia|]. reflexivity.
  - destruct fuel; [cbn in Hfuel; lia|].
    cbn [chainNumbers] in Hnumbers.
    apply Forall_cons in Hnumbers as [Hn Hnumbers].
    apply Forall_cons in Hquiet as [Hq Hquiet].
    cbn [ClearClassStatisticsMemory_walk].
    destruct (Z.eqb_spec n (-1)); [done|].
    rewrite (ClearFieldStatisticsMemory_quiet kClusterType m n f Hf Hn Hq).
    cbn [mbind option_bind]. rewrite Hf. cbn [mbind option_bind].
    apply IH; [done|done|]. cbn in Hfuel. lia.
Qed.

(** X17.  [ClearClassStatisticsMemory] does nothing for a class number
    beyond the classes, for a class without training fields and for a class
    that is marked up to date.  For a stale class with training fields it
    stores the number of pixels loaded into the class statistics
    ([GetNumberOfPixelsLoadedInClass]) in the class record, and that is all
    it does (no statistics memory is zeroed, no other record changes) when
    no field of the class is one that [ClearFieldStatisticsMemory] zeroes
    and, with class-only storage, some pixels are loaded; with class-only
    storage no field is ever zeroed. *)
Theorem ClearClassStatisticsMemory_quiet `{Collaborators} (kClusterType : Z)
    (fuel : nat) (m : MaskProject) (classNumber classStorage : Z)
    (c : Class.t) (fields : list Field.t) :
  let p := maskProject m in
  let keep := Project.keepClassStatsOnlyFlag p in
  (Project.numberStatisticsClasses p <= classNumber ->
   ClearClassStatisticsMemory kClusterType fuel m classNumber = Some m) /\
  (classNumber < Project.numberStatisticsClasses p ->
   at_ (Project.storageClass p) classNumber = Some classStorage ->
   at_ (Project.classNamesPtr p) classStorage = Some c ->
   (Class.numberOfTrainFields c <= 0 \/ Class.statsUpToDate c = true ->
    ClearClassStatisticsMemory kClusterType fuel m classNumber = Some m) /\
   (0 < Class.numberOfTrainFields c ->
    Class.statsUpToDate c = false ->
    FieldChain (Project.fieldIdentPtr p) (Class.firstFieldNumber c) fields ->
    (length fields < fuel)%nat ->
    Forall (fun k => k <= 32767)
           (chainNumbers (Class.firstFieldNumber c) fields) ->
    Forall (fun f => 0 <= Field.numberPixelsUsedForStats f) fields ->
    loadedTrainingPixels fields <= 9223372036854775807 ->
    (keep = true -> loadedTrainingPixels fields <> 0) ->
    Forall (fun f => isCleared kClusterType keep f = false) fields ->
    ClearClassStatisticsMemory kClusterType fuel m classNumber
    = Some (MaskProject_set_project
              (Project.set_classNamesPtr
                 (<[Z.to_nat classStorage :=
                      Class_set_numberStatisticsPixels
                        (loadedTrainingPixels fields) c]>
                    (Project.classNamesPtr p))
                 p)
              m))) /\
  (keep = true -> Forall (fun f => isCleared kClusterType keep f = false)
                    fields).
Proof.
  intros p keep. split; [|split].
  - intros Hbeyond. unfold ClearClassStatisticsMemory. fold p.
    by destruct (Z.leb_spec (Project.numberStatisticsClasses p) classNumber);
      [|lia].
  - intros Hclass Hstorage Hc.
    split.
    + intros Hskip. unfold ClearClassStatisticsMemory. fold p.
      destruct (Z.leb_spec (Project.numberStatisticsClasses p) classNumber);
        [lia|].
      rewrite Hstorage. cbn [mbind option_bind]. rewrite Hc.
      cbn [mbind option_bind]. destruct Hskip as [Hnone| ->].
      * by destruct (Z.ltb_spec 0 (Class.numberOfTrainFields c)); [lia|].
      * by rewrite andb_false_r.
    + intros Htrain Hstale Hchain Hfuel Hnumbers Hnonneg Hmax Hloaded Hquiet.
      unfold ClearClassStatisticsMemory. fold p.
      destruct (Z.leb_spec (Project.numberStatisticsClasses p) classNumber);
        [lia|].
      rewrite Hstorage. cbn [mbind option_bind]. rewrite Hc.
      cbn [mbind option_bind]. rewrite Hstale.
      destruct (Z.ltb_spec 0 (Class.numberOfTrainFields c)); [|lia].
      cbn [negb andb]. unfold GetNumberOfPixelsLoadedInClass.
      rewrite (GetNumberOfPixelsLoadedInClass_walk_spec _ _ _ Hchain Hnonneg
                 fuel 0 Hfuel ltac:(lia) Hmax).
      fold (loadedTrainingPixels fields). cbn [mbind option_bind].
      rewrite (update_at_Some _ _ _ _ Hc). cbn [mbind option_bind].
      change (Project.keepClassStatsOnlyFlag (Project.set_classNamesPtr _ p))
        with keep.
      assert (keep && (loadedTrainingPixels fields =? 0) = false) as ->.
      { destruct keep; [|done]. cbn [andb].
        apply Z.eqb_neq. by apply Hloaded. }
      by apply (ClearClassStatisticsMemory_walk_quiet kClusterType _ _ fields).
  - intros Hkeep. apply Forall_forall. intros f _. unfold isCleared.
    rewrite Hkeep. cbn [negb]. by rewrite andb_false_r.
Qed.

Lemma ClearClassStatisticsMemory_quiet_witness :
  exists m' : MaskProject,
    @ClearClassStatisticsMemory exampleCollaborators 2 2 maskExampleProject 0
    = Some m' /\
    (Class.numberStatisticsPixels
       <$> at_ (Project.classNamesPtr (maskProject m')) 0) = Some 0 /\
    Project.fieldChanStatsPtr (maskProject m')
    = Project.fieldChanStatsPtr (maskProject maskExampleProject).
Proof.
  destruct (@ClearClassStatisticsMemory_quiet exampleCollaborators 2 2
              maskExampleProject 0 0 (exampleClass false kOriginalStats false)
              [Field.mk kTrainingType 2 0 10 false false (-1)])
    as (_ & Hclass & _).
  destruct Hclass as [_ Hrun]; [reflexivity|reflexivity|reflexivity|].
  eexists. split.
  - apply Hrun.
    + reflexivity.
    + reflexivity.
    + apply FieldChain_next; [discriminate|reflexivity|apply FieldChain_end].
    + cbn. lia.
    + apply Forall_cons. split; [vm_compute; discriminate|constructor].
    + apply Forall_cons. split; [vm_compute; discriminate|constructor].
    + vm_compute. discriminate.
    + discriminate.
    + apply Forall_cons. split; [reflexivity|constructor].
  - split; reflexivity.
Defined.

(** ** CombineFieldStatistics and GetClassSumsSquares *)

Lemma CombineFieldStatistics_walk_spec `{Collaborators} (p : Project.t)
    (n : Z) (channelListPtr : option (list Z)) (sq : bool) (code : Z)
    (fieldNumber : Z) (fields : list Field.t) :
  FieldChain (Project.fieldIdentPtr p) fieldNumber fields ->
  forall (fuel : nat) (outChan : list ChannelStatistics)
         (outSumSquares : list double)
         (sources : list (list ChannelStatistics * list double)),
    (length fields < fuel)%nat ->
    mapM (fieldStatisticsOf p) (List.filter contributes fields)
    = Some sources ->
    CombineFieldStatistics_walk fuel p n channelListPtr outChan outSumSquares
      fieldNumber sq code
    = Some (combineStatistics p n channelListPtr sq code
              (outChan, outSumSquares) sources).
Proof.
  induction 1 as [|fieldNumber f rest Hne Hat _ IH];
    intros fuel outChan outSumSquares sources Hfuel Hsources.
  - destruct fuel; [cbn in Hfuel; lia|]. cbn in Hsources.
    injection Hsources as <-. reflexivity.
  - destruct fuel; [cbn in Hfuel; lia|].
    cbn [CombineFieldStatistics_walk].
    destruct (Z.eqb_spec fieldNumber (-1)) as [|_]; [done|].
    rewrite Hat. cbn [mbind option_bind]. fold (contributes f).
    cbn [List.filter] in Hsources.
    destruct (contributes f).
    + cbn [mapM] in Hsources.
      destruct (fieldStatisticsOf p f) as [[fieldChanPtr fieldSumSquaresPtr]|]
        eqn:Hstat; [|done].
      cbn [mbind option_bind] in Hsources.
      destruct (mapM _ (List.filter contributes rest))
        as [sources'|] eqn:Hrest; [|done].
      cbn in Hsources. injection Hsources as <-.
      unfold fieldStatisticsOf in Hstat.
      destruct (from_ (Project.fieldChanStatsPtr p) _) as [a|]; [|done].
      cbn [mbind option_bind] in Hstat |- *.
      destruct (from_ (Project.fieldSumSquaresStatsPtr p) _) as [b|];
        [|done].
      cbn [mbind option_bind] in Hstat |- *. injection Hstat as -> ->.
      rewrite (IH fuel _ _ sources'); [|cbn in Hfuel; lia|done].
      unfold combineStatistics. cbn [foldl fst snd].
      by destruct (AddToClassStatistics _ _ _ _ _ _ _ _ _ _).
    + apply IH; [cbn in Hfuel; lia|done].
Qed.

(** X18.  For a positive channel count and caller buffers that are present,
    [GetClassSumsSquares] returns FALSE and leaves the buffers alone for a
    class without training fields.  For a class with training fields it
    first clears the buffers with [ZeroStatisticsMemory]; with class-only
    storage and no statistics pixels it then returns FALSE, the buffers
    staying cleared; with per-field storage it returns TRUE with the
    statistics of the training fields of the chain that are up to date added
    to the cleared buffers in chain order ([CombineFieldStatistics]), also
    when no field contributes. *)
Theorem GetClassSumsSquares_combines `{Collaborators} (fuel : nat)
    (p : Project.t) (numberOutputChannels : Z)
    (chan : list ChannelStatistics) (sumSquares : list double)
    (outputChannelListPtr : option (list Z)) (classNumber classStorage : Z)
    (c : Class.t) (squareOutputMatrixFlag : bool) (outputStatisticsCode : Z) :
  let cleared := ZeroStatisticsMemory chan sumSquares numberOutputChannels
                   outputStatisticsCode squareOutputMatrixFlag in
  0 < numberOutputChannels ->
  at_ (Project.storageClass p) classNumber = Some classStorage ->
  at_ (Project.classNamesPtr p) classStorage = Some c ->
  (Class.numberOfTrainFields c <= 0 ->
   GetClassSumsSquares fuel p numberOutputChannels (Some chan)
     (Some sumSquares) outputChannelListPtr classNumber squareOutputMatrixFlag
     outputStatisticsCode
   = Some (Some chan, Some sumSquares, false)) /\
  (0 < Class.numberOfTrainFields c ->
   Project.keepClassStatsOnlyFlag p = true ->
   Class.numberStatisticsPixels c <= 0 ->
   GetClassSumsSquares fuel p numberOutputChannels (Some chan)
     (Some sumSquares) outputChannelListPtr classNumber squareOutputMatrixFlag
     outputStatisticsCode
   = Some (Some cleared.1, Some cleared.2, false)) /\
  (forall (fields : list Field.t)
          (sources : list (list ChannelStatistics * list double)),
     0 < Class.numberOfTrainFields c ->
     Project.keepClassStatsOnlyFlag p = false ->
     FieldChain (Project.fieldIdentPtr p) (Class.firstFieldNumber c) fields ->
     (length fields < fuel)%nat ->
     mapM (fieldStatisticsOf p) (List.filter contributes fields)
     = Some sources ->
     let combined := combineStatistics p numberOutputChannels
                       outputChannelListPtr squareOutputMatrixFlag
                       outputStatisticsCode cleared sources in
     GetClassSumsSquares fuel p numberOutputChannels (Some chan)
       (Some sumSquares) outputChannelListPtr classNumber
       squareOutputMatrixFlag outputStatisticsCode
     = Some (Some combined.1, Some combined.2, true)).
Proof.
  intros cleared Hn Hstorage Hc.
  assert (Hstart : GetClassSumsSquares fuel p numberOutputChannels (Some chan)
            (Some sumSquares) outputChannelListPtr classNumber
            squareOutputMatrixFlag outputStatisticsCode
          = if 0 <? Class.numberOfTrainFields c then
              if Project.keepClassStatsOnlyFlag p then
                if 0 <? Class.numberStatisticsPixels c then
                  classChanPtr ←
                    from_ (Project.classChanStatsPtr p)
                          (classStorage * Project.numberStatisticsChannels p);
                  classSumSquaresStatsPtr ←
                    from_ (Project.classSumSquaresStatsPtr p)
                          (classStorage * Project.numberCovarianceEntries p);
                  let r := AddToClassStatistics numberOutputChannels cleared.1
                             cleared.2 (Project.numberStatisticsChannels p)
                             outputChannelListPtr classChanPtr
                             classSumSquaresStatsPtr squareOutputMatrixFlag
                             (Project.statisticsCode p) outputStatisticsCode in
                  Some (Some r.1, Some r.2, true)
                else Some (Some cleared.1, Some cleared.2, false)
              else
                r ← CombineFieldStatistics fuel p numberOutputChannels
                       outputChannelListPtr cleared.1 cleared.2 classNumber
                       squareOutputMatrixFlag outputStatisticsCode;
                Some (Some r.1, Some r.2, true)
            else Some (Some chan, Some sumSquares, false)).
  { unfold GetClassSumsSquares.
    destruct (Z.leb_spec numberOutputChannels 0); [lia|].
    rewrite Hstorage. cbn [mbind option_bind]. rewrite Hc. reflexivity. }
  rewrite Hstart. split; [|split].
  - intros Hnone.
    by destruct (Z.ltb_spec 0 (Class.numberOfTrainFields c)); [lia|].
  - intros Htrain Hkeep Hpixels.
    destruct (Z.ltb_spec 0 (Class.numberOfTrainFields c)); [|lia].
    rewrite Hkeep.
    by destruct (Z.ltb_spec 0 (Class.numberStatisticsPixels c)); [lia|].
  - intros fields sources Htrain Hkeep Hchain Hfuel Hsources combined.
    destruct (Z.ltb_spec 0 (Class.numberOfTrainFields c)); [|lia].
    rewrite Hkeep. unfold CombineFieldStatistics.
    destruct (Z.leb_spec numberOutputChannels 0); [lia|].
    rewrite Hstorage. cbn [mbind option_bind]. rewrite Hc.
    cbn [mbind option_bind].
    rewrite (CombineFieldStatistics_walk_spec p numberOutputChannels
               outputChannelListPtr squareOutputMatrixFlag
               outputStatisticsCode _ fields Hchain fuel cleared.1 cleared.2
               sources Hfuel Hsources).
    cbn [mbind option_bind]. subst combined. by destruct cleared.
Qed.

Lemma GetClassSumsSquares_combines_witness :
  @GetClassSumsSquares exampleCollaborators 4
    (Project_set_fieldSumSquaresStatsPtr
       [dOne; dzero; dOne; dtwo; dzero; dtwo] threeFieldProject)
    2 (Some pooledStats) (Some pooledTemp) None 0 false kMeanCovariance
  = Some (Some pooledStats, Some pooledTemp, true).
Proof.
  destruct (@GetClassSumsSquares_combines exampleCollaborators 4
              (Project_set_fieldSumSquaresStatsPtr
                 [dOne; dzero; dOne; dtwo; dzero; dtwo] threeFieldProject)
              2 pooledStats pooledTemp None 0 0
              (Class.mk 2 20 20 0 false kOriginalStats 0 dminus_one dzero
                 false false)
              false kMeanCovariance) as (_ & _ & Hrun).
  - lia.
  - reflexivity.
  - reflexivity.
  - rewrite (Hrun [Field.mk kTrainingType 1 0 10 true true 1;
                   Field.mk kTestingType 1 (-1) 10 false false 2;
                   Field.mk kTrainingType 1 1 10 true true (-1)]
                  [([exampleStats dOne dOne dzero dOne;
                     exampleStats dtwo dOne dOne dtwo;
                     exampleStats dtwo dOne dOne dtwo;
                     exampleStats dOne dOne dzero dtwo],
                    [dOne; dzero; dOne; dtwo; dzero; dtwo]);
                   ([exampleStats dtwo dOne dOne dtwo;
                     exampleStats dOne dOne dzero dtwo],
                    [dtwo; dzero; dtwo])]).
    + reflexivity.
    + reflexivity.
    + reflexivity.
    + repeat (eapply FieldChain_next; [discriminate|reflexivity|]).
      apply FieldChain_end.
    + cbn. lia.
    + reflexivity.
Defined.
